(** * PlayerRandomizer: skill pool, tree synthesis and class-mod patcher

    A shallow embedding of [PlayerRandomizer/PlayerRandomizer/skill_pool.py],
    [dependency.py], [class_mod_patcher.py] and the [inject_skills] hook of
    [PlayerRandomizer/PlayerRandomizer/__init__.py].

    Conventions of the embedding:
    - Python objects that are mutated in place become explicit state that the
      functions below take and return;
    - a raised Python exception is the [Raise] outcome of [result]; an
      exception aborts the whole call, so no state is attached to it;
    - Python floats are idealised as exact rationals ([Q]);
    - the seeded [random.Random] generator is a tape of uniform draws in
      [0, 1): every call of [random], [choice], [choices] or [randint] takes
      one draw from the front of the tape.  A tape that runs dry is the
      outcome [Exhausted]. *)

From Stdlib Require Import QArith Qround Lqa Ascii String.
From stdpp Require Import base list strings gmap sorting pretty.

Open Scope Z_scope.

(** ** Python run-time model *)

Inductive exn : Set :=
| KeyError
| ValueError
| IndexError
| ZeroDivisionError
| AttributeError.

Inductive result (A : Type) : Type :=
| Ok (a : A)
| Raise (e : exn)
| Exhausted.

Arguments Ok {A} a.
Arguments Raise {A} e.
Arguments Exhausted {A}.

#[global] Instance result_ret : MRet result := @Ok.

#[global] Instance result_bind : MBind result :=
  λ A B f m,
    match m with
    | Ok a => f a
    | Raise e => Raise e
    | Exhausted => Exhausted
    end.

#[global] Instance result_fmap : FMap result :=
  λ A B f m,
    match m with
    | Ok a => Ok (f a)
    | Raise e => Raise e
    | Exhausted => Exhausted
    end.

Module Py.

(** [l.index(x)]: position of the first occurrence; [None] stands for the
    [ValueError] that the callers catch. *)
Fixpoint index (x : string) (l : list string) : option nat :=
  match l with
  | [] => None
  | y :: l' => if decide (y = x) then Some 0%nat else S <$> index x l'
  end.

(** [l[i]] for an index that is known to be non-negative. *)
Definition getitem {A} (l : list A) (i : nat) : result A :=
  match l !! i with
  | Some x => Ok x
  | None => Raise IndexError
  end.

(** [l[i] = x] for an index that is known to be non-negative. *)
Definition setitem {A} (l : list A) (i : nat) (x : A) : result (list A) :=
  if decide (i < length l)%nat then Ok (<[i:=x]> l) else Raise IndexError.

(** [l[i]] for a signed index: negative indices count from the end. *)
Definition getitem_z {A} (l : list A) (i : Z) : result A :=
  if decide (0 <= i) then getitem l (Z.to_nat i)
  else if decide (- Z.of_nat (length l) <= i)
       then getitem l (Z.to_nat (Z.of_nat (length l) + i))
       else Raise IndexError.

(** [for x in xs: acc = f(acc, x)] with exceptions. *)
Fixpoint foldM {A B} (f : A → B → result A) (a : A) (xs : list B) : result A :=
  match xs with
  | [] => Ok a
  | x :: xs' => a' ← f a x; foldM f a' xs'
  end.

(** [int(x)]: truncation towards zero. *)
Definition int (x : Q) : Z :=
  if Qle_bool 0 x then Qfloor x else Qceiling x.

(** [a <= b] on strings: the order of [list.sort()]. *)
Definition str_le (a b : string) : Prop := String.leb a b = true.

#[global] Instance str_le_dec : RelDecision str_le.
Proof. intros a b. unfold str_le. apply _. Defined.

(** Insertion-ordered dictionaries with string keys, for the places where
    the iteration order of a [dict] is observable. *)
Abbreviation dict V := (list (string * V)) (only parsing).

Fixpoint dict_get {V} (d : dict V) (k : string) : option V :=
  match d with
  | [] => None
  | (k', v) :: d' => if decide (k' = k) then Some v else dict_get d' k
  end.

(** [d[k] = v]: an existing key keeps its position. *)
Fixpoint dict_set {V} (d : dict V) (k : string) (v : V) : dict V :=
  match d with
  | [] => [(k, v)]
  | (k', v') :: d' =>
      if decide (k' = k) then (k, v) :: d' else (k', v') :: dict_set d' k v
  end.

Definition dict_remove {V} (d : dict V) (k : string) : dict V :=
  filter (λ kv, kv.1 ≠ k) d.

(** [del d[k]] *)
Definition dict_del {V} (d : dict V) (k : string) : result (dict V) :=
  match dict_get d k with
  | Some _ => Ok (dict_remove d k)
  | None => Raise KeyError
  end.

Definition dict_keys {V} (d : dict V) : list string := d.*1.

Definition dict_values {V} (d : dict V) : list V := d.*2.

End Py.

(** ** dependency.py *)

Module Dependency.

Record t : Type := mk {
  name : string;
  providers : list string;
  extra_skills : list string;
  dependers : list string;
  wanters : list string;
}.

#[global] Instance eq_dec : EqDecision t.
Proof. solve_decision. Defined.

End Dependency.

(** ** skills.py: the part of [Skill] the randomizer reads *)

Module Skill.

Record t : Type := mk {
  full_name : string;
  skill_name : string;
  max_grade : Z;
  (** path name of the [InventoryAttributeDefinition] behind the
      [attribute_def] property *)
  attribute_def : string;
}.

#[global] Instance eq_dec : EqDecision t.
Proof. solve_decision. Defined.

Definition is_upgradable (s : t) : bool := 1 <? max_grade s.

End Skill.

(** ** character_hint.py: the dependencies of [HINT_MAP] *)

Module CharacterHint.

(** [HINT_MAP], one entry per character, with the [dependencies] of its
    [CharacterHint] in the order of the [add_dependency] calls.  A
    dependency is written [Dependency.mk name providers extra_skills
    dependers wanters]; a builder that is not called leaves the empty
    list.  The suppressed skills and the patches of a hint are not part of
    this model. *)
Definition HINT_MAP : Py.dict (list Dependency.t) :=
  [("Axton",
     [Dependency.mk "Scorpio"
        ["GD_Soldier_Skills.Scorpio.Skill_Scorpio"]
        []
        ["GD_Soldier_Skills.Guerrilla.DoubleUp";
         "GD_Soldier_Skills.Guerrilla.LaserSight";
         "GD_Soldier_Skills.Guerrilla.ScorchedEarth";
         "GD_Soldier_Skills.Guerrilla.Sentry";
         "GD_Soldier_Skills.Guerrilla.TacticalWithdrawal";
         "GD_Soldier_Skills.Gunpowder.Battlefront";
         "GD_Soldier_Skills.Gunpowder.LongBowTurret";
         "GD_Soldier_Skills.Gunpowder.Nuke";
         "GD_Soldier_Skills.Survival.Gemini";
         "GD_Soldier_Skills.Survival.Mag-Lock";
         "GD_Soldier_Skills.Survival.PhalanxShield"]
        []]);
   ("Gaige",
     [Dependency.mk "DeathTrap"
        ["GD_Tulip_Mechromancer_Skills.Action.Skill_DeathTrap"]
        []
        ["GD_Tulip_Mechromancer_Skills.BestFriendsForever.BuckUp";
         "GD_Tulip_Mechromancer_Skills.BestFriendsForever.ExplosiveClap";
         "GD_Tulip_Mechromancer_Skills.BestFriendsForever.SharingIsCaring";
         "GD_Tulip_Mechromancer_Skills.EmbraceChaos.AnnoyedAndroid";
         "GD_Tulip_Mechromancer_Skills.EmbraceChaos.RobotRampage";
         "GD_Tulip_Mechromancer_Skills.LittleBigTrouble.LightningStrike";
         "GD_Tulip_Mechromancer_Skills.LittleBigTrouble.MakeItSparkle";
         "GD_Tulip_Mechromancer_Skills.LittleBigTrouble.OneTwoBoom";
         "GD_Tulip_Mechromancer_Skills.LittleBigTrouble.TheStare"]
        ["GD_Tulip_Mechromancer_Skills.BestFriendsForever.20PercentCooler";
         "GD_Tulip_Mechromancer_Skills.BestFriendsForever.MadeOfSternerStuff";
         "GD_Tulip_Mechromancer_Skills.BestFriendsForever.PotentAsAPony";
         "GD_Tulip_Mechromancer_Skills.BestFriendsForever.UpshotRobot";
         "GD_Tulip_Mechromancer_Skills.LittleBigTrouble.StrengthOfFiveGorillas"];
      Dependency.mk "Anarchy"
        ["GD_Tulip_Mechromancer_Skills.EmbraceChaos.Anarchy"]
        []
        ["GD_Tulip_Mechromancer_Skills.EmbraceChaos.PreshrunkCyberpunk";
         "GD_Tulip_Mechromancer_Skills.EmbraceChaos.Discord";
         "GD_Tulip_Mechromancer_Skills.EmbraceChaos.TypecastIconoclast";
         "GD_Tulip_Mechromancer_Skills.EmbraceChaos.RationalAnarchist";
         "GD_Tulip_Mechromancer_Skills.EmbraceChaos.WithClaws";
         "GD_Tulip_Mechromancer_Skills.EmbraceChaos.BloodSoakedShields";
         "GD_Tulip_Mechromancer_Skills.EmbraceChaos.DeathFromAbove"]
        []]);
   ("Krieg",
     [Dependency.mk "BuzzAxe"
        ["GD_Lilac_SkillsBase.ActionSkill.Skill_Psycho"]
        []
        ["GD_Lilac_Skills_Bloodlust.Skills.BloodTrance";
         "GD_Lilac_Skills_Bloodlust.Skills.BuzzAxeBombadier";
         "GD_Lilac_Skills_Bloodlust.Skills.TasteOfBlood";
         "GD_Lilac_Skills_Mania.Skills.ReleaseTheBeast"]
        ["GD_Lilac_Skills_Mania.Skills.FuelTheRampage";
         "GD_Lilac_Skills_Mania.Skills.LightTheFuse"];
      Dependency.mk "Bloodlust"
        ["GD_Lilac_Skills_Bloodlust.Skills.BloodfilledGuns";
         "GD_Lilac_Skills_Bloodlust.Skills.BloodyTwitch"]
        ["GD_Lilac_Skills_Bloodlust.Skills._Bloodlust"]
        ["GD_Lilac_Skills_Bloodlust.Skills.BloodOverdrive";
         "GD_Lilac_Skills_Bloodlust.Skills.BloodyRevival";
         "GD_Lilac_Skills_Bloodlust.Skills.BloodBath";
         "GD_Lilac_Skills_Bloodlust.Skills.BloodEuphoria";
         "GD_Lilac_Skills_Bloodlust.Skills.FuelTheBlood";
         "GD_Lilac_Skills_Bloodlust.Skills.BoilingBlood";
         "GD_Lilac_Skills_Bloodlust.Skills.NervousBlood";
         "GD_Lilac_Skills_Bloodlust.Skills.Bloodsplosion"]
        [];
      Dependency.mk "Hellborn"
        ["GD_Lilac_Skills_Hellborn.Skills.BurnBabyBurn";
         "GD_Lilac_Skills_Hellborn.Skills.DelusionalDamage";
         "GD_Lilac_Skills_Hellborn.Skills.ElementalElation";
         "GD_Lilac_Skills_Hellborn.Skills.ElementalEmpathy";
         "GD_Lilac_Skills_Hellborn.Skills.FireFiend";
         "GD_Lilac_Skills_Hellborn.Skills.FlameFlare";
         "GD_Lilac_Skills_Hellborn.Skills.FuelTheFire";
         "GD_Lilac_Skills_Hellborn.Skills.HellfireHalitosis";
         "GD_Lilac_Skills_Hellborn.Skills.NumbedNerves";
         "GD_Lilac_Skills_Hellborn.Skills.PainIsPower";
         "GD_Lilac_Skills_Hellborn.Skills.RavingRetribution"]
        ["GD_Lilac_Skills_Hellborn.Skills.FireStatusDetector";
         "GD_Lilac_Skills_Hellborn.Skills.AppliedStatusEffectListener"]
        []
        []]);
   ("Maya",
     [Dependency.mk "Phaselock"
        ["GD_Siren_Skills.Phaselock.Skill_Phaselock"]
        []
        ["GD_Siren_Skills.Cataclysm.Helios";
         "GD_Siren_Skills.Cataclysm.Ruin";
         "GD_Siren_Skills.Harmony.Elated";
         "GD_Siren_Skills.Harmony.Res";
         "GD_Siren_Skills.Harmony.Wreck";
         "GD_Siren_Skills.Motion.Quicken";
         "GD_Siren_Skills.Motion.SubSequence";
         "GD_Siren_Skills.Motion.Suspension";
         "GD_Siren_Skills.Motion.ThoughtLock"]
        ["GD_Siren_Skills.Cataclysm.ChainReaction";
         "GD_Siren_Skills.Harmony.SweetRelease";
         "GD_Siren_Skills.Motion.Converge"]]);
   ("Salvador",
     [Dependency.mk "Gunzerk"
        ["GD_Mercenary_Skills.ActionSkill.Skill_Gunzerking"]
        []
        ["GD_Mercenary_Skills.Gun_Lust.DivergentLikness";
         "GD_Mercenary_Skills.Gun_Lust.DownNotOut";
         "GD_Mercenary_Skills.Rampage.YippeeKiYay"]
        ["GD_Mercenary_Skills.Brawn.AintGotTimeToBleed";
         "GD_Mercenary_Skills.Brawn.BusThatCantSlowDown";
         "GD_Mercenary_Skills.Brawn.ComeAtMeBro";
         "GD_Mercenary_Skills.Gun_Lust.KeepItPipingHot";
         "GD_Mercenary_Skills.Rampage.DoubleYourFun";
         "GD_Mercenary_Skills.Rampage.GetSome";
         "GD_Mercenary_Skills.Rampage.ImReadyAlready";
         "GD_Mercenary_Skills.Rampage.KeepFiring";
         "GD_Mercenary_Skills.Rampage.LastLonger";
         "GD_Mercenary_Skills.Rampage.SteadyAsSheGoes"]]);
   ("Zero",
     [Dependency.mk "Deception"
        ["GD_Assassin_Skills.ActionSkill.Skill_Deception"]
        []
        ["GD_Assassin_Skills.Bloodshed.Execute";
         "GD_Assassin_Skills.Bloodshed.ManyMustFall";
         "GD_Assassin_Skills.Cunning.DeathBlossom";
         "GD_Assassin_Skills.Cunning.Unforseen"]
        ["GD_Assassin_Skills.Cunning.Innervate"]]);
   ("Athena",
     [Dependency.mk "Aspis"
        ["GD_Gladiator_Skills.ActionSkill.Skill_Gladiator"]
        []
        ["GD_Gladiator_Skills.Phalanx.Clear";
         "GD_Gladiator_Skills.Phalanx.Ephodos";
         "GD_Gladiator_Skills.Phalanx.HoldTheLine";
         "GD_Gladiator_Skills.Phalanx.Invictus";
         "GD_Gladiator_Skills.Phalanx.PrepareForGlory";
         "GD_Gladiator_Skills.Phalanx.PrismaticAegis";
         "GD_Gladiator_Skills.Phalanx.ReturningFire";
         "GD_Gladiator_Skills.Phalanx.Stalwart";
         "GD_Gladiator_Skills.Phalanx.UnitedFront";
         "GD_Gladiator_Skills.Phalanx.User";
         "GD_Gladiator_Skills.Phalanx.Vanguard";
         "GD_Gladiator_Skills.CeraunicStorm.Superconductor";
         "GD_Gladiator_Skills.CeraunicStorm.ZeusRage"]
        [];
      Dependency.mk "Bleeding"
        ["GD_Gladiator_Skills.Xiphos.Rend"]
        []
        ["GD_Gladiator_Skills.Xiphos.Bloodlust";
         "GD_Gladiator_Skills.Xiphos.Tear";
         "GD_Gladiator_Skills.Xiphos.FuryOfTheArena"]
        [];
      Dependency.mk "Storm Weaving"
        ["GD_Gladiator_Skills.CeraunicStorm.StormWeaving"]
        []
        ["GD_Gladiator_Skills.CeraunicStorm.ElementalBarrage"]
        [];
      Dependency.mk "Maelstrom"
        ["GD_Gladiator_Skills.CeraunicStorm.Maelstrom";
         "GD_Gladiator_Skills.CeraunicStorm.Overload";
         "GD_Gladiator_Skills.CeraunicStorm.HadesShackles"]
        []
        ["GD_Gladiator_Skills.CeraunicStorm.Conduit";
         "GD_Gladiator_Skills.CeraunicStorm.Smite";
         "GD_Gladiator_Skills.CeraunicStorm.Unrelenting"]
        []]);
   ("Aurelia",
     [Dependency.mk "Frost Shard"
        ["Crocus_Baroness_ActionSkill.ActionSkill.Skill_ColdAsIce"]
        []
        ["Crocus_Baroness_ColdMoney.Skills.ColdAdvance";
         "Crocus_Baroness_ColdMoney.Skills.FragmentRain";
         "Crocus_Baroness_ColdMoney.Skills.Frostbite";
         "Crocus_Baroness_ColdMoney.Skills.PolarVortex";
         "Crocus_Baroness_ColdMoney.Skills.ShortSummer";
         "Crocus_Baroness_ColdMoney.Skills.Whiteout"]
        [];
      Dependency.mk "Contract"
        ["Crocus_Baroness_Servant.Skills.ContractualObligations"]
        []
        ["Crocus_Baroness_Servant.Skills.AllGloryToTheMaster";
         "Crocus_Baroness_Servant.Skills.Duchess";
         "Crocus_Baroness_Servant.Skills.ExcellentShotMadam";
         "Crocus_Baroness_Servant.Skills.KeepYourChinUp";
         "Crocus_Baroness_Servant.Skills.ProtectYourAssets";
         "Crocus_Baroness_Servant.Skills.SaveTheQueen";
         "Crocus_Baroness_Servant.Skills.Valet";
         "Crocus_Baroness_Servant.Skills.YouFirst"]
        []]);
   ("Claptrap",
     [Dependency.mk "VaultHunter.EXE"
        ["GD_Prototype_Skills_GBX.ActionSkill.Skill_VaultHunterEXE"]
        []
        ["GD_Prototype_Skills.ILoveYouGuys.ThroughThickAndThin"]
        []]);
   ("Jack",
     [Dependency.mk "Expendable Assets"
        ["Quince_Doppel_Skills.ActionSkill.Skill_SummonDigiJack"]
        []
        ["Quince_Doppel_GreaterGood.Skills.Accountability";
         "Quince_Doppel_GreaterGood.Skills.Collaborate";
         "Quince_Doppel_GreaterGood.Skills.Commitment";
         "Quince_Doppel_GreaterGood.Skills.Delegation";
         "Quince_Doppel_GreaterGood.Skills.Diversify";
         "Quince_Doppel_GreaterGood.Skills.Leadership";
         "Quince_Doppel_GreaterGood.Skills.Optimism";
         "Quince_Doppel_GreaterGood.Skills.Potential";
         "Quince_Doppel_GreaterGood.Skills.Teamwork";
         "Quince_Doppel_Hero.Skills.BestFootForward";
         "Quince_Doppel_Hero.Skills.Bolster";
         "Quince_Doppel_Hero.Skills.LeanOnMe";
         "Quince_Doppel_Hero.Skills.OnMyMark";
         "Quince_Doppel_Hero.Skills.PromotetheRanks";
         "Quince_Doppel_Hero.Skills.TakeTheirFreedom";
         "Quince_Doppel_Hero.Skills.YouHaveMyShield"]
        []]);
   ("Nisha",
     [Dependency.mk "Showdown"
        ["GD_Lawbringer_Skills.ActionSkill.Skill_Showdown"]
        []
        ["GD_Lawbringer_Skills.FanTheHammer.BottledCourage";
         "GD_Lawbringer_Skills.FanTheHammer.Gunslinger";
         "GD_Lawbringer_Skills.FanTheHammer.HighNoon";
         "GD_Lawbringer_Skills.FanTheHammer.Ruthless";
         "GD_Lawbringer_Skills.Riflewoman.TheUnforgiven";
         "GD_Lawbringer_Skills.Order.Jurisdiction";
         "GD_Lawbringer_Skills.Order.TheThirdDegree"]
        [];
      Dependency.mk "Order"
        ["GD_Lawbringer_Skills.Order.Order"]
        []
        ["GD_Lawbringer_Skills.Order.RoughRider";
         "GD_Lawbringer_Skills.Order.Wanted";
         "GD_Lawbringer_Skills.Order.Discipline";
         "GD_Lawbringer_Skills.Order.BloodOfTheGuilty";
         "GD_Lawbringer_Skills.Order.RarinToGo";
         "GD_Lawbringer_Skills.Order.ThunderCrackdown"]
        []]);
   ("Wilhelm",
     [Dependency.mk "Drones"
        ["GD_Enforcer_Skills.ActionSkill.Skill_AirPower"]
        []
        ["GD_Enforcer_Skills.CyberCommando.EmergencyResponse";
         "GD_Enforcer_Skills.CyberCommando.ManandMachine";
         "GD_Enforcer_Skills.Dreadnought.AuxillaryTanks";
         "GD_Enforcer_Skills.Dreadnought.Energize";
         "GD_Enforcer_Skills.Dreadnought.Fortify";
         "GD_Enforcer_Skills.Dreadnought.Heatsinks";
         "GD_Enforcer_Skills.Dreadnought.Overcharge";
         "GD_Enforcer_Skills.Dreadnought.RapidReinforcement";
         "GD_Enforcer_Skills.Dreadnought.ZeroHour";
         "GD_Enforcer_Skills.HunterKiller.Afterburner";
         "GD_Enforcer_Skills.HunterKiller.Escalation";
         "GD_Enforcer_Skills.HunterKiller.FireSupport";
         "GD_Enforcer_Skills.HunterKiller.KillSwitch";
         "GD_Enforcer_Skills.HunterKiller.LaserGuided";
         "GD_Enforcer_Skills.HunterKiller.OmegaStrike";
         "GD_Enforcer_Skills.HunterKiller.RollingThunder";
         "GD_Enforcer_Skills.HunterKiller.Scramble";
         "GD_Enforcer_Skills.HunterKiller.Suppression";
         "GD_Enforcer_Skills.HunterKiller.VenomBolts"]
        []])].

(** [Character.update_all]: a character named in [HINT_MAP] takes the
    dependencies of its hint; a custom character keeps the empty list. *)
Definition dependencies (character_name : string) : list Dependency.t :=
  default [] (Py.dict_get HINT_MAP character_name).

End CharacterHint.

(** ** characters.py: the part of [Character] the randomizer reads *)

Module Character.

Record t : Type := mk {
  (** base class name, as [class_from_obj_name] computes it *)
  name : option string;
  character_name : string;
  action_skill : option Skill.t;
  pure_skills : list Skill.t;
  misdocumented_skills : list Skill.t;
  suppressed_skills : list Skill.t;
  dependencies : list Dependency.t;
}.

End Character.

(** ** The game engine objects that the randomizer reads and writes *)

Module Engine.

(** One element of [SkillTreeBranchDefinition.Tiers]. *)
Record tier : Type := mk_tier {
  Skills : list (option string);
  PointsToUnlockNextTier : Z;
}.

(** A child of [skill_tree.Root] together with its [Layout] object. *)
Record branch_def : Type := mk_branch_def {
  path_name : string;
  Tiers : list tier;
  layout_path_name : string;
  layout_Tiers : list (list bool);
}.

Record attribute_slot : Type := mk_slot {
  SlotName : string;
  AttributeToModify : option string;
}.

(** How a class mod names its player class: a [ClassModDefinition] through
    [RequiredPlayerClass] (which may be [None]), a
    [CrossDLCClassModDefinition] through
    [RequiredPlayerClassPathName.PathComponentNames[5]]. *)
Inductive required_class : Type :=
| PlayerClass (class_name : option string)
| CrossDLC (component_5 : string).

Record class_mod : Type := mk_class_mod {
  com_path_name : string;
  Required : required_class;
  AttributeSlotEffects : list attribute_slot;
}.

Record t : Type := mk {
  (** [skill_tree.Root._path_name()] *)
  root_path_name : string;
  (** [skill_tree.Root.Tiers[0].Skills], by skill path name *)
  root_tier0_skills : list string;
  (** [skill_tree.Root.Children] *)
  children : list branch_def;
  class_mods : list class_mod;
}.

Definition with_root_tier0_skills (e : t) (s : list string) : t :=
  mk (root_path_name e) s (children e) (class_mods e).

Definition with_children (e : t) (c : list branch_def) : t :=
  mk (root_path_name e) (root_tier0_skills e) c (class_mods e).

Definition with_class_mods (e : t) (c : list class_mod) : t :=
  mk (root_path_name e) (root_tier0_skills e) (children e) c.

(** Console command [set SkillTreeBranchDefinition'<name>' Tiers (...)]:
    the object of that path name gets the given tiers. *)
Definition set_branch_tiers (name : string) (ts : list tier) (e : t) : t :=
  with_children e
    (map (λ b, if decide (path_name b = name)
               then mk_branch_def (path_name b) ts
                      (layout_path_name b) (layout_Tiers b)
               else b) (children e)).

(** Console command
    [set SkillTreeBranchLayoutDefinition'<name>' Tiers (...)]. *)
Definition set_layout_tiers (name : string) (ls : list (list bool)) (e : t) : t :=
  with_children e
    (map (λ b, if decide (layout_path_name b = name)
               then mk_branch_def (path_name b) (Tiers b)
                      (layout_path_name b) ls
               else b) (children e)).

End Engine.

(** ** unrealsdk.logging *)

Inductive log_entry : Type :=
| Log (msg : string)
| Warning (msg : string)
| Error (msg : string).

(** ** skill_pool.py: [Branch] *)

Module Branch.

Record t : Type := mk {
  skills : list (list string);
  points_to_unlock : list Z;
  layout : list (list bool);
  full_name : string;
  layout_name : string;
  (** the attributes below exist once [prepare] has run *)
  idx : Z;
  slots_left : Z;
  expected_skills : Z;
  skill_count : Z;
  skill_weights : list Q;
  total_weight : Q;
}.

Definition from_branch (branch : Engine.branch_def) : t :=
  {| full_name := Engine.path_name branch;
     layout_name := Engine.layout_path_name branch;
     skills := map (λ tier, omap id (Engine.Skills tier)) (Engine.Tiers branch);
     points_to_unlock := map Engine.PointsToUnlockNextTier (Engine.Tiers branch);
     layout := Engine.layout_Tiers branch;
     idx := 0; slots_left := 0; expected_skills := 0; skill_count := 0;
     skill_weights := []; total_weight := 0 |}.

(** The slices [tier[:]] and [other.points_to_unlock[:]] copy; with
    immutable lists the copy is the list itself. *)
Definition from_other (other : t) : t :=
  {| full_name := full_name other;
     layout_name := layout_name other;
     skills := skills other;
     points_to_unlock := points_to_unlock other;
     layout := layout other;
     idx := 0; slots_left := 0; expected_skills := 0; skill_count := 0;
     skill_weights := []; total_weight := 0 |}.

Definition sum_weights (ws : list Q) : Q := foldr Qplus 0%Q ws.

Definition prepare (self : t) (idx' : Z) (expected_skills' : Z)
    (skill_weights' : list Q) : t :=
  {| full_name := full_name self;
     layout_name := layout_name self;
     skills := skills self;
     points_to_unlock := points_to_unlock self;
     layout := layout self;
     idx := idx';
     slots_left := 18;
     expected_skills := expected_skills';
     skill_count := 0;
     skill_weights := skill_weights';
     total_weight := sum_weights skill_weights' |}.

Definition with_weights (self : t) (ws : list Q) (total : Q) : t :=
  {| full_name := full_name self;
     layout_name := layout_name self;
     skills := skills self;
     points_to_unlock := points_to_unlock self;
     layout := layout self;
     idx := idx self;
     slots_left := slots_left self;
     expected_skills := expected_skills self;
     skill_count := skill_count self;
     skill_weights := ws;
     total_weight := total |}.

Definition with_tiers (self : t) (skills' : list (list string))
    (points' : list Z) (layout' : list (list bool)) (skill_count' : Z)
    (slots_left' : Z) : t :=
  {| full_name := full_name self;
     layout_name := layout_name self;
     skills := skills';
     points_to_unlock := points';
     layout := layout';
     idx := idx self;
     slots_left := slots_left';
     expected_skills := expected_skills self;
     skill_count := skill_count';
     skill_weights := skill_weights self;
     total_weight := total_weight self |}.

(** The tiers that [patch] writes:
    [zip(self.skills, self.points_to_unlock)]. *)
Definition patched_tiers (self : t) : list Engine.tier :=
  zip_with (λ tier_skills unlock, Engine.mk_tier (map Some tier_skills) unlock)
    (skills self) (points_to_unlock self).

Definition patch (self : t) (e : Engine.t) : Engine.t :=
  Engine.set_layout_tiers (layout_name self) (layout self)
    (Engine.set_branch_tiers (full_name self) (patched_tiers self) e).

End Branch.

Definition PRIORITY_WEIGHT : Z := 1000.
Definition ACTION_WEIGHT : Z := 3.
Definition THEME_WEIGHT : Z := 5.

(** ** The seeded generator [random.Random]

    The generator is a tape of rationals; each call takes the first one and
    reads it modulo 1, which is a draw in [0, 1). *)

Module Random.

Abbreviation tape := (list Q) (only parsing).

Definition frac (r : Q) : Q := r - inject_Z (Qfloor r).

(** [rng.random()] *)
Definition random (rng : tape) : result (Q * tape) :=
  match rng with
  | [] => Exhausted
  | r :: rng' => Ok (frac r, rng')
  end.

(** [rng.choice(seq)] *)
Definition choice {A} (rng : tape) (seq : list A) : result (A * tape) :=
  match seq with
  | [] => Raise IndexError
  | _ :: _ =>
      '(r, rng') ← random rng;
      x ← Py.getitem seq (Z.to_nat (Qfloor (r * inject_Z (Z.of_nat (length seq)))));
      Ok (x, rng')
  end.

(** [rng.randint(a, b)] *)
Definition randint (rng : tape) (a b : Z) : result (Z * tape) :=
  if decide (b < a) then Raise ValueError
  else '(r, rng') ← random rng;
       Ok (a + Qfloor (r * inject_Z (b - a + 1)), rng').

(** [itertools.accumulate(weights)] *)
Fixpoint accumulate (acc : Q) (ws : list Q) : list Q :=
  match ws with
  | [] => []
  | w :: ws' => (acc + w)%Q :: accumulate (acc + w)%Q ws'
  end.

(** [bisect.bisect_right(a, x, lo, hi)]; the loop runs at most [hi - lo]
    times, which is the [fuel] given by [choices]. *)
Fixpoint bisect (fuel : nat) (a : list Q) (x : Q) (lo hi : nat) : nat :=
  match fuel with
  | O => lo
  | S fuel' =>
      if decide (lo < hi)%nat then
        let mid := ((lo + hi) / 2)%nat in
        if Qle_bool (default 0%Q (a !! mid)) x
        then bisect fuel' a x (S mid) hi
        else bisect fuel' a x lo mid
      else lo
  end.

(** [rng.choices(population, weights)[0]] *)
Definition choices {A} (rng : tape) (population : list A) (weights : list Q)
    : result (A * tape) :=
  let n := length population in
  let cum_weights := accumulate 0 weights in
  if decide (length cum_weights ≠ n) then Raise ValueError
  else match last cum_weights with
       | None => Raise IndexError
       | Some total =>
           if Qle_bool total 0 then Raise ValueError
           else '(r, rng') ← random rng;
                x ← Py.getitem population
                      (bisect (n - 1) cum_weights (r * total) 0 (n - 1));
                Ok (x, rng')
       end.

End Random.

(** ** characters.py: [class_from_obj_name] *)

Fixpoint split_on (sep : Ascii.ascii) (s : string) : list string :=
  match s with
  | EmptyString => [EmptyString]
  | String c s' =>
      if decide (c = sep) then EmptyString :: split_on sep s'
      else match split_on sep s' with
           | [] => [String c EmptyString]
           | h :: t => String c h :: t
           end
  end.

Definition class_from_obj_name (name : string) : option string :=
  match split_on "_"%char name with
  | _ :: char :: _ =>
      if String.prefix "Lilac" char then Some "Psycho"%string
      else if String.prefix "Tulip" char then Some "Mechromancer"%string
      else if String.prefix "Doppel" char then Some "Doppelganger"%string
      else Some char
  | _ => None
  end.

(** ** skill_pool.py: [SkillPool] *)

Module SkillPool.

Record t : Type := mk {
  rng : Random.tape;
  (** provider name to [Dependency]; [get_next_skill] iterates over its
      values, so the insertion order is kept *)
  dependencies : Py.dict Dependency.t;
  skills : gmap string Skill.t;
  (** [None] until [randomize_tree] assigns it, which comes before any use *)
  skill_order : list string;
  extra_skills : list string;
  class_mod_skills : list Skill.t;
  current_char_class : option string;
  original_branches : option (list Branch.t);
  (** assigned by [randomize_tree] before any use *)
  new_branches : list Branch.t;
}.

Definition init (rng : Random.tape) : t :=
  mk rng [] ∅ [] [] [] None None [].

Definition with_rng (self : t) (r : Random.tape) : t :=
  mk r (dependencies self) (skills self) (skill_order self) (extra_skills self)
    (class_mod_skills self) (current_char_class self) (original_branches self)
    (new_branches self).

Definition with_dependencies (self : t) (d : Py.dict Dependency.t) : t :=
  mk (rng self) d (skills self) (skill_order self) (extra_skills self)
    (class_mod_skills self) (current_char_class self) (original_branches self)
    (new_branches self).

Definition with_skills (self : t) (s : gmap string Skill.t) : t :=
  mk (rng self) (dependencies self) s (skill_order self) (extra_skills self)
    (class_mod_skills self) (current_char_class self) (original_branches self)
    (new_branches self).

Definition with_skill_order (self : t) (o : list string) : t :=
  mk (rng self) (dependencies self) (skills self) o (extra_skills self)
    (class_mod_skills self) (current_char_class self) (original_branches self)
    (new_branches self).

Definition with_extra_skills (self : t) (x : list string) : t :=
  mk (rng self) (dependencies self) (skills self) (skill_order self) x
    (class_mod_skills self) (current_char_class self) (original_branches self)
    (new_branches self).

Definition with_class_mod_skills (self : t) (c : list Skill.t) : t :=
  mk (rng self) (dependencies self) (skills self) (skill_order self)
    (extra_skills self) c (current_char_class self) (original_branches self)
    (new_branches self).

Definition with_current_char_class (self : t) (c : option string) : t :=
  mk (rng self) (dependencies self) (skills self) (skill_order self)
    (extra_skills self) (class_mod_skills self) c (original_branches self)
    (new_branches self).

Definition with_original_branches (self : t) (b : option (list Branch.t)) : t :=
  mk (rng self) (dependencies self) (skills self) (skill_order self)
    (extra_skills self) (class_mod_skills self) (current_char_class self) b
    (new_branches self).

Definition with_new_branches (self : t) (b : list Branch.t) : t :=
  mk (rng self) (dependencies self) (skills self) (skill_order self)
    (extra_skills self) (class_mod_skills self) (current_char_class self)
    (original_branches self) b.

Definition add_skills (self : t) (skill_list : list Skill.t) : t :=
  with_skills self
    (foldl (λ m skill, <[Skill.full_name skill := skill]> m) (skills self)
       skill_list).

Definition add_dependency (self : t) (dep : Dependency.t) : t :=
  with_dependencies self
    (foldl (λ d skill_name, Py.dict_set d skill_name dep) (dependencies self)
       (Dependency.providers dep)).

(** *** [mark_used] *)

(** [themed = dep.providers + dep.dependers], extended by [dep.wanters]
    when [hidden_skills == "None"]. *)
Definition themed (dep : Dependency.t) (hidden_skills : string) : list string :=
  if decide (hidden_skills = "None")
  then (Dependency.providers dep ++ Dependency.dependers dep)
         ++ Dependency.wanters dep
  else Dependency.providers dep ++ Dependency.dependers dep.

(** The weight a themed skill gets in branch [idx]. *)
Definition themed_weight (branch_idx : Z) (idx : nat) (w : Q) : Q :=
  if decide (branch_idx < 0) then (w * inject_Z ACTION_WEIGHT)%Q
  else if decide (Z.of_nat idx = branch_idx) then (w * inject_Z THEME_WEIGHT)%Q
  else 0%Q.

(** Body of [for themed_skill in themed], for the branch at position [idx]. *)
Definition theme_skill (skill_order : list string) (branch_idx : Z) (idx : nat)
    (branch : Branch.t) (themed_skill : string) : result Branch.t :=
  match Py.index themed_skill skill_order with
  | Some skill_idx =>
      w ← Py.getitem (Branch.skill_weights branch) skill_idx;
      let total := (Branch.total_weight branch - w)%Q in
      let w' := themed_weight branch_idx idx w in
      ws ← Py.setitem (Branch.skill_weights branch) skill_idx w';
      Ok (Branch.with_weights branch ws (total + w')%Q)
  | None => Ok branch
  end.

(** [for idx in range(len(self.new_branches))], from position [idx] on. *)
Fixpoint theme_branches (skill_order : list string) (branch_idx : Z)
    (themed : list string) (idx : nat) (branches : list Branch.t)
    : result (list Branch.t) :=
  match branches with
  | [] => Ok []
  | branch :: rest =>
      branch' ← Py.foldM (theme_skill skill_order branch_idx idx) branch themed;
      rest' ← theme_branches skill_order branch_idx themed (S idx) rest;
      Ok (branch' :: rest')
  end.

(** The block guarded by [if skill.full_name in self.dependencies]. *)
Definition consume_dependency (self : t) (skill : Skill.t)
    (hidden_skills : string) (branch_idx : Z) : result t :=
  match Py.dict_get (dependencies self) (Skill.full_name skill) with
  | Some dep =>
      branches ← theme_branches (skill_order self) branch_idx
                   (themed dep hidden_skills) 0 (new_branches self);
      let extra := extra_skills self ++ Dependency.extra_skills dep in
      deps ← Py.foldM Py.dict_del (dependencies self) (Dependency.providers dep);
      Ok (with_dependencies
            (with_extra_skills (with_new_branches self branches) extra) deps)
  | None => Ok self
  end.

(** [for branch in self.new_branches: branch.skill_weights[skill_idx] = 0] *)
Fixpoint zero_weights (skill_idx : nat) (branches : list Branch.t)
    : result (list Branch.t) :=
  match branches with
  | [] => Ok []
  | branch :: rest =>
      ws ← Py.setitem (Branch.skill_weights branch) skill_idx 0%Q;
      rest' ← zero_weights skill_idx rest;
      Ok (Branch.with_weights branch ws (Branch.total_weight branch) :: rest')
  end.

(** The [try] block that keeps the skill from being picked twice. *)
Definition retire (self : t) (skill : Skill.t) : result t :=
  match Py.index (Skill.full_name skill) (skill_order self) with
  | Some skill_idx =>
      branches ← zero_weights skill_idx (new_branches self);
      let self := with_new_branches self branches in
      Ok (if Skill.is_upgradable skill
          then with_class_mod_skills self (class_mod_skills self ++ [skill])
          else self)
  | None => Ok self
  end.

Definition mark_used (self : t) (skill : Skill.t) (hidden_skills : string)
    (branch_idx : Z) : result (Skill.t * t) :=
  self ← consume_dependency self skill hidden_skills branch_idx;
  self ← retire self skill;
  Ok (skill, self).

(** *** [get_next_skill] *)

(** The test of the [for dep in self.dependencies.values()] loop: the drawn
    skill misses this dependency. *)
Definition blocked_by (hidden_skills skill_name : string) (dep : Dependency.t)
    : bool :=
  (bool_decide (hidden_skills = "None")
     && bool_decide (skill_name ∈ Dependency.wanters dep))
  || bool_decide (skill_name ∈ Dependency.dependers dep).

(** [self.skills[skill_name]] *)
Definition skill_named (self : t) (skill_name : string) : result Skill.t :=
  match skills self !! skill_name with
  | Some skill => Ok skill
  | None => Raise KeyError
  end.

(** The [while True] loop; every round takes at least one draw from the
    tape, so [fuel] rounds suffice when [fuel] exceeds the tape's length. *)
Fixpoint get_next_skill_loop (fuel : nat) (self : t) (hidden_skills : string)
    (branch_idx : Z) : result (Skill.t * t) :=
  match fuel with
  | O => Exhausted
  | S fuel' =>
      branch ← Py.getitem_z (new_branches self) branch_idx;
      '(skill_name, rng') ← Random.choices (rng self) (skill_order self)
                              (Branch.skill_weights branch);
      let self := with_rng self rng' in
      if decide (hidden_skills = "All") then
        skill ← skill_named self skill_name;
        mark_used self skill hidden_skills branch_idx
      else
        match List.find (blocked_by hidden_skills skill_name)
                (Py.dict_values (dependencies self)) with
        | Some dep =>
            '(skill_name, rng') ← Random.choice (rng self)
                                    (Dependency.providers dep);
            let self := with_rng self rng' in
            match skills self !! skill_name with
            | Some skill => mark_used self skill hidden_skills branch_idx
            | None => get_next_skill_loop fuel' self hidden_skills branch_idx
            end
        | None =>
            skill ← skill_named self skill_name;
            mark_used self skill hidden_skills branch_idx
        end
  end.

Definition get_next_skill (self : t) (hidden_skills : string) (branch_idx : Z)
    : result (Skill.t * t) :=
  get_next_skill_loop (S (length (rng self))) self hidden_skills branch_idx.

Definition get_extra_skills (self : t) : list string * t :=
  (extra_skills self, with_extra_skills self []).

(** *** [randomize_branch_tier] *)

(** [a / b] on floats *)
Definition div (a b : Q) : result Q :=
  if Qeq_bool b 0 then Raise ZeroDivisionError else Ok (a / b)%Q.

(** [a > b] on floats *)
Definition gt (a b : Q) : bool := negb (Qle_bool a b).

(** [branch.skill_weights[i] = w] for the branch at position [b] of
    [self.new_branches]. *)
Definition set_weight (self : t) (b i : nat) (w : Q) : result t :=
  branch ← Py.getitem (new_branches self) b;
  ws ← Py.setitem (Branch.skill_weights branch) i w;
  Ok (with_new_branches self
        (<[b := Branch.with_weights branch ws (Branch.total_weight branch)]>
           (new_branches self))).

(** Body of [for other_branch in self.new_branches], for the branch at
    position [j]. *)
Definition cheat_other_branch (b : nat) (tier cheat_tier : Z) (cheat_idx : nat)
    (self : t) (j : nat) : result t :=
  branch ← Py.getitem (new_branches self) b;
  other_branch ← Py.getitem (new_branches self) j;
  w ← Py.getitem (Branch.skill_weights other_branch) cheat_idx;
  if Qeq_bool w 0 then
    if decide (cheat_tier = tier)
    then set_weight self b cheat_idx
           (Branch.total_weight branch * inject_Z PRIORITY_WEIGHT)%Q
    else w' ← div (Branch.total_weight branch) (inject_Z (cheat_tier - tier));
         set_weight self b cheat_idx w'
  else Ok self.

Definition unlisted_message (cheat_name : string) : string :=
  "Desired skill " +:+ cheat_name +:+ " is not in the pool.".

(** Body of [for (cheat_name, cheat_tier) in cheats.items()] for the branch
    at position [b]; the state is the pool and the log. *)
Definition cheat_step (b : nat) (tier : Z) (st : t * list log_entry)
    (cheat : string * Z) : result (t * list log_entry) :=
  let '(self, log) := st in
  let '(cheat_name, cheat_tier) := cheat in
  match Py.index cheat_name (skill_order self) with
  | Some cheat_idx =>
      branch ← Py.getitem (new_branches self) b;
      w ← Py.getitem (Branch.skill_weights branch) cheat_idx;
      if Qeq_bool w 0 then Ok (self, log)
      else if decide (cheat_tier < tier) then
        self ← set_weight self b cheat_idx
                 (Branch.total_weight branch * inject_Z PRIORITY_WEIGHT)%Q;
        Ok (self, log)
      else
        self ← Py.foldM (cheat_other_branch b tier cheat_tier cheat_idx) self
                 (seq 0 (length (new_branches self)));
        branch ← Py.getitem (new_branches self) b;
        if decide (tier = cheat_tier ∧ Branch.idx branch = 2) then
          self ← set_weight self b cheat_idx
                   (Branch.total_weight branch * inject_Z PRIORITY_WEIGHT)%Q;
          Ok (self, log)
        else
          w' ← div (Branch.total_weight branch)
                 (inject_Z (3 * (cheat_tier - tier) + 2 - Branch.idx branch));
          self ← set_weight self b cheat_idx w';
          Ok (self, log)
  | None => Ok (self, log ++ [Error (unlisted_message cheat_name)])
  end.

(** The number of skills of a tier, from the remaining density; the draw
    is taken only between the thresholds that need one. *)
Definition choose_skill_count (expected_density : Q) (rng : Random.tape)
    : result (Z * Random.tape) :=
  if gt expected_density (99 # 100) then Ok (3, rng)
  else if gt expected_density (66 # 100) then
    '(r, rng') ← Random.random rng;
    Ok (if gt (3 * (expected_density - (66 # 100)))%Q r then 3 else 2, rng')
  else if gt expected_density (33 # 100) then
    '(r, rng') ← Random.random rng;
    Ok (if gt (3 * (expected_density - (33 # 100)))%Q r then 2 else 1, rng')
  else if gt expected_density 0 then Ok (1, rng)
  else Ok (0, rng).

Definition tier_layout (skill_count : Z) : list bool :=
  [bool_decide (skill_count > 1);
   bool_decide (Z.land skill_count 1 > 0);
   bool_decide (skill_count > 1)].

(** Loop state of [for idx in range(skill_count)]. *)
Record draws : Type := mk_draws {
  pool : t;
  max_points : Z;
  total_points : Z;
  tier_skills : list string;
}.

Fixpoint draw_skills (n : nat) (hidden_skills : string) (branch_idx : Z)
    (d : draws) : result draws :=
  match n with
  | O => Ok d
  | S n' =>
      '(skill, self) ← get_next_skill (pool d) hidden_skills branch_idx;
      draw_skills n' hidden_skills branch_idx
        (mk_draws self
           (Z.max (max_points d) (Skill.max_grade skill))
           (total_points d + Skill.max_grade skill)
           (tier_skills d ++ [Skill.full_name skill]))
  end.

(** The part of [randomize_branch_tier] that follows the cheat loop, for
    the branch at position [b]: the slot count, the draws and the writes
    to the branch. *)
Definition place_skills (self : t) (b : nat) (tier : nat)
    (randomize_tiers : bool) (hidden_skills : string) : result t :=
  branch ← Py.getitem (new_branches self) b;
  expected_density ←
    div (inject_Z (Branch.expected_skills branch - Branch.skill_count branch))
        (inject_Z (Branch.slots_left branch));
  '(skill_count, rng') ← choose_skill_count expected_density (rng self);
  let self := with_rng self rng' in
  d ← draw_skills (Z.to_nat skill_count) hidden_skills (Branch.idx branch)
        (mk_draws self 0 0 []);
  let self := pool d in
  branch ← Py.getitem (new_branches self) b;
  layout' ← Py.setitem (Branch.layout branch) tier (tier_layout skill_count);
  skills' ← Py.setitem (Branch.skills branch) tier (tier_skills d);
  '(points, rng') ←
    (if randomize_tiers
     then Random.randint (rng self) 1
            (Z.max 1 (Py.int ((66 # 100) * inject_Z (total_points d))))
     else Ok (max_points d, rng self));
  let self := with_rng self rng' in
  points' ← Py.setitem (Branch.points_to_unlock branch) tier points;
  let branch :=
    Branch.with_tiers branch skills' points' layout'
      (Branch.skill_count branch + skill_count)
      (Branch.slots_left branch - 3) in
  if decide (tier = 5%nat) then
    let '(extra, self) := get_extra_skills self in
    tier5 ← Py.getitem (Branch.skills branch) 5;
    let branch :=
      Branch.with_tiers branch (<[5%nat := tier5 ++ extra]> (Branch.skills branch))
        (Branch.points_to_unlock branch) (Branch.layout branch)
        (Branch.skill_count branch) (Branch.slots_left branch) in
    Ok (with_new_branches self (<[b := branch]> (new_branches self)))
  else
    Ok (with_new_branches self (<[b := branch]> (new_branches self))).

Definition randomize_branch_tier (self : t) (log : list log_entry) (b : nat)
    (tier : nat) (randomize_tiers : bool) (hidden_skills : string)
    (cheats : Py.dict Z) : result (t * list log_entry) :=
  '(self, log) ← Py.foldM (cheat_step b (Z.of_nat tier)) (self, log) cheats;
  self ← place_skills self b tier randomize_tiers hidden_skills;
  Ok (self, log).

(** *** [randomize_tree] *)

(** Body of [for char in enabled_sources]; the state is the pool, the log
    and [current_char]. *)
Definition gather (catalog : gmap string Character.t) (hidden_skills : string)
    (st : t * list log_entry * option Character.t) (char : string)
    : t * list log_entry * option Character.t :=
  let '(self, log, current_char) := st in
  match catalog !! char with
  | None =>
      (self, log ++ [Warning ("Ignoring unknown skill source " +:+ char)],
       current_char)
  | Some source_char =>
      let self := add_skills self (Character.pure_skills source_char) in
      let self :=
        if decide (hidden_skills ≠ "none") then
          let self := add_skills self (Character.misdocumented_skills source_char) in
          if decide (hidden_skills = "all")
          then add_skills self (Character.suppressed_skills source_char)
          else self
        else self in
      let self := foldl add_dependency self (Character.dependencies source_char) in
      (self, log,
       if decide (Character.name source_char = current_char_class self)
       then Some source_char else current_char)
  end.

(** [list(self.skills)] followed by [sort()] *)
Definition sorted_names (m : gmap string Skill.t) : list string :=
  merge_sort Py.str_le (map_to_list m).*1.

(** [characters.Character.from_name(self.rng.choice(list(enabled_sources)))] *)
Definition random_char (catalog : gmap string Character.t)
    (enabled_sources : list string) (self : t)
    : result (option Character.t * t) :=
  '(char, rng') ← Random.choice (rng self) enabled_sources;
  Ok (catalog !! char, with_rng self rng').

Definition default_warning : string :=
  "Default is not a currently-enabled class.  Choosing a random action skill instead.".

Definition not_installed_warning (action_skill : string) : string :=
  "Desired class " +:+ action_skill
    +:+ " is not installed.  Choosing a random action skill instead.".

Definition not_enabled_warning (character_name : string) : string :=
  character_name
    +:+ " is not a currently-enabled class.  Choosing a random action skill instead.".

(** The character whose action skill is used. *)
Definition desired_character (catalog : gmap string Character.t)
    (enabled_sources : list string) (action_skill : string)
    (current_char : option Character.t) (self : t) (log : list log_entry)
    : result (option Character.t * t * list log_entry) :=
  if decide (action_skill = "Default") then
    match current_char with
    | None =>
        '(c, self) ← random_char catalog enabled_sources self;
        Ok (c, self, log ++ [Warning default_warning])
    | Some c => Ok (Some c, self, log)
    end
  else if decide (action_skill = "Random") then
    '(c, self) ← random_char catalog enabled_sources self;
    Ok (c, self, log)
  else
    match catalog !! action_skill with
    | None =>
        '(c, self) ← random_char catalog enabled_sources self;
        Ok (c, self, log ++ [Warning (not_installed_warning action_skill)])
    | Some desired_char =>
        if decide (Character.character_name desired_char ∈ enabled_sources)
        then Ok (Some desired_char, self, log)
        else
          '(c, self) ← random_char catalog enabled_sources self;
          Ok (c, self,
              log ++ [Warning (not_enabled_warning
                                 (Character.character_name desired_char))])
    end.

(** The density after the clamp to the size of the pool. *)
Definition effective_density (pool_size : nat) (skill_density : Q) : Q :=
  if gt (54 * skill_density) (inject_Z (Z.of_nat pool_size) * 100)
  then (100 * inject_Z (Z.of_nat pool_size) / 54)%Q
  else skill_density.

(** Loop state of [for branch in skill_tree.Root.Children]. *)
Record budget : Type := mk_budget {
  branch_idx : Z;
  expected_skills : Q;
  originals : list Branch.t;
  news : list Branch.t;
}.

Definition prepare_branch (pool_size : nat) (st : budget)
    (branch : Engine.branch_def) : result budget :=
  let old_branch := Branch.from_branch branch in
  let new_branch := Branch.from_other old_branch in
  share ← div (expected_skills st) (3 - inject_Z (branch_idx st));
  let new_branch :=
    Branch.prepare new_branch (branch_idx st) (Py.int share)
      (replicate pool_size 1%Q) in
  Ok (mk_budget (branch_idx st + 1)
        (expected_skills st - inject_Z (Branch.expected_skills new_branch))
        (originals st ++ [old_branch])
        (news st ++ [new_branch])).

(** [for branch in self.new_branches: self.randomize_branch_tier(...)] for
    one tier. *)
Definition randomize_tier (randomize_tiers : bool) (hidden_skills : string)
    (cheats : Py.dict Z) (st : t * list log_entry) (tier : nat)
    : result (t * list log_entry) :=
  Py.foldM
    (λ '(self, log) b,
       randomize_branch_tier self log b tier randomize_tiers hidden_skills cheats)
    st (seq 0 (length (new_branches st.1))).

Definition randomize_tree (self : t) (log : list log_entry) (skill_tree : Engine.t)
    (catalog : gmap string Character.t) (enabled_sources : list string)
    (hidden_skills action_skill : string) (skill_density : Z)
    (randomize_tiers : bool) (cheats : Py.dict Z)
    : result (t * list log_entry * Engine.t) :=
  let self :=
    with_current_char_class self
      (class_from_obj_name (Engine.root_path_name skill_tree)) in
  let '(self, log, current_char) :=
    foldl (gather catalog hidden_skills) (self, log, None) enabled_sources in
  let self := with_skill_order self (sorted_names (skills self)) in
  '(desired_char, self, log) ←
    desired_character catalog enabled_sources action_skill current_char self log;
  let pool_size := length (skill_order self) in
  let skill_density := effective_density pool_size (inject_Z skill_density) in
  st ← Py.foldM (prepare_branch pool_size)
         (mk_budget 0 (54 * skill_density / 100)%Q [] [])
         (Engine.children skill_tree);
  let self :=
    with_new_branches (with_original_branches self (Some (originals st)))
      (news st) in
  desired_char ← from_option Ok (Raise AttributeError) desired_char;
  action ← from_option Ok (Raise AttributeError)
             (Character.action_skill desired_char);
  '(action, self) ← mark_used self action hidden_skills (-1);
  let skill_tree :=
    Engine.with_root_tier0_skills skill_tree [Skill.full_name action] in
  '(self, log) ← Py.foldM (randomize_tier randomize_tiers hidden_skills cheats)
                   (self, log) (seq 0 6);
  Ok (self, log, foldl (λ e branch, Branch.patch branch e) skill_tree
                   (new_branches self)).

Definition unrandomize_tree (self : t) (skill_tree : Engine.t) : t * Engine.t :=
  match original_branches self with
  | Some branches =>
      (with_original_branches self None,
       foldl (λ e branch, Branch.patch branch e) skill_tree branches)
  | None => (with_original_branches self None, skill_tree)
  end.

Definition get_class_mod_skills (self : t) : list Skill.t :=
  class_mod_skills self.

Definition get_current_char (self : t) : option string :=
  current_char_class self.

End SkillPool.

(** ** class_mod_patcher.py *)

Module ClassModPatcher.

(** Slot index to attribute path name, in insertion order. *)
Abbreviation slot_map := (list (nat * string)) (only parsing).

Fixpoint slot_set (m : slot_map) (k : nat) (v : string) : slot_map :=
  match m with
  | [] => [(k, v)]
  | (k', v') :: m' =>
      if decide (k' = k) then (k, v) :: m' else (k', v') :: slot_set m' k v
  end.

Record t : Type := mk {
  coms : option (Py.dict slot_map);
}.

Definition init : t := mk None.

Definition requires (char_class : option string) (com : Engine.class_mod) : bool :=
  match Engine.Required com with
  | Engine.PlayerClass (Some class_name) =>
      bool_decide (Some class_name = char_class)
  | _ => false
  end.

Definition requires_cross_dlc (char_class : option string)
    (com : Engine.class_mod) : bool :=
  match Engine.Required com with
  | Engine.CrossDLC component_5 => bool_decide (Some component_5 = char_class)
  | _ => false
  end.

(** The positions, among the engine's class mods, of the objects that the
    generator yields. *)
Definition iterate_coms (e : Engine.t) (char_class : option string) : list nat :=
  let indexed := imap (λ i com, (i, com)) (Engine.class_mods e) in
  (filter (λ ic, requires char_class ic.2 = true) indexed).*1
  ++ (filter (λ ic, requires_cross_dlc char_class ic.2 = true) indexed).*1.

Definition null_message (com_name : string) (slot_index : nat) : string :=
  "Null " +:+ com_name +:+ ".AttributeSlotEffects[" +:+ pretty slot_index
    +:+ "].AttributeToModify".

(** Body of [for attribute_slot in com.AttributeSlotEffects]; the state is
    the slot map, [slot_index] and the log. *)
Definition record_slot (com_name : string)
    (st : slot_map * nat * list log_entry) (attribute_slot : Engine.attribute_slot)
    : slot_map * nat * list log_entry :=
  let '(skill_slot_map, slot_index, log) := st in
  if String.prefix "Skill" (Engine.SlotName attribute_slot) then
    match Engine.AttributeToModify attribute_slot with
    | None =>
        (skill_slot_map, slot_index, log ++ [Log (null_message com_name slot_index)])
    | Some attr => (slot_set skill_slot_map slot_index attr, S slot_index, log)
    end
  else (skill_slot_map, S slot_index, log).

Definition record_com (e : Engine.t) (st : Py.dict slot_map * list log_entry)
    (i : nat) : result (Py.dict slot_map * list log_entry) :=
  let '(coms, log) := st in
  com ← Py.getitem (Engine.class_mods e) i;
  let '(skill_slot_map, _, log) :=
    foldl (record_slot (Engine.com_path_name com)) ([], 0%nat, log)
      (Engine.AttributeSlotEffects com) in
  Ok (Py.dict_set coms (Engine.com_path_name com) skill_slot_map, log).

Definition record_coms (self : t) (e : Engine.t) (log : list log_entry)
    (char_class : option string) : result (t * list log_entry) :=
  '(coms, log) ← Py.foldM (record_com e) ([], log) (iterate_coms e char_class);
  Ok (mk (Some coms), log).

(** State of [randomize_coms]: the generator, what is left of
    [cheat_skills], the engine and the log. *)
Record run : Type := mk_run {
  rng : Random.tape;
  cheat_skills : list Skill.t;
  engine : Engine.t;
  log : list log_entry;
}.

Definition skipping_message (n : nat) : string :=
  "Skipping class mod randomization as there are only " +:+ pretty n
    +:+ " upgradable skills available.".

(** The first [while True] loop: the choice of the special class mod. *)
Fixpoint special_com (fuel : nat) (coms : Py.dict slot_map)
    (cheat_count : nat) (rng : Random.tape) : result (string * Random.tape) :=
  match fuel with
  | O => Exhausted
  | S fuel' =>
      '(special_com_name, rng) ← Random.choice rng (Py.dict_keys coms);
      if String.prefix "GD_Aster" special_com_name
      then special_com fuel' coms cheat_count rng
      else
        skill_slot_map ← from_option Ok (Raise KeyError)
                           (Py.dict_get coms special_com_name);
        if decide (3 < cheat_count)%nat then
          if decide (length skill_slot_map < 4)%nat
          then special_com fuel' coms cheat_count rng
          else Ok (special_com_name, rng)
        else if decide (3 < length skill_slot_map)%nat
             then special_com fuel' coms cheat_count rng
             else Ok (special_com_name, rng)
  end.

(** The inner [while True] loop: a skill not yet used in this class mod. *)
Fixpoint unused_skill (fuel : nat) (skills : list Skill.t)
    (used_skills : list string) (rng : Random.tape)
    : result (Skill.t * Random.tape) :=
  match fuel with
  | O => Exhausted
  | S fuel' =>
      '(skill, rng) ← Random.choice rng skills;
      if decide (Skill.full_name skill ∈ used_skills)
      then unused_skill fuel' skills used_skills rng
      else Ok (skill, rng)
  end.

(** [unrealsdk.find_object("ClassModDefinition", com_name)] *)
Definition find_com (e : Engine.t) (com_name : string) : result nat :=
  match list_find (λ com, Engine.com_path_name com = com_name)
          (Engine.class_mods e) with
  | Some (i, _) => Ok i
  | None => Raise ValueError
  end.

(** [com.AttributeSlotEffects[slot_index].AttributeToModify = attr] for the
    class mod at position [i]. *)
Definition set_attribute (e : Engine.t) (i slot_index : nat) (attr : string)
    : result Engine.t :=
  com ← Py.getitem (Engine.class_mods e) i;
  slot ← Py.getitem (Engine.AttributeSlotEffects com) slot_index;
  Ok (Engine.with_class_mods e
        (<[i := Engine.mk_class_mod (Engine.com_path_name com)
                  (Engine.Required com)
                  (<[slot_index := Engine.mk_slot (Engine.SlotName slot) (Some attr)]>
                     (Engine.AttributeSlotEffects com))]>
           (Engine.class_mods e))).

(** Body of [for slot_index in skill_slot_map]; the state is the run and
    [used_skills]. *)
Definition fill_slot (skills : list Skill.t) (is_special : bool) (i : nat)
    (st : run * list string) (slot_index : nat) : result (run * list string) :=
  let '(r, used_skills) := st in
  '(skill, r) ←
    match is_special, cheat_skills r with
    | true, skill :: rest =>
        Ok (skill, mk_run (rng r) rest (engine r) (log r))
    | _, _ =>
        '(skill, rng') ← unused_skill (S (length (rng r))) skills used_skills (rng r);
        Ok (skill, mk_run rng' (cheat_skills r) (engine r) (log r))
    end;
  e ← set_attribute (engine r) i slot_index (Skill.attribute_def skill);
  Ok (mk_run (rng r) (cheat_skills r) e (log r),
      used_skills ++ [Skill.full_name skill]).

(** Body of [for com_name, skill_slot_map in self.coms.items()]. *)
Definition fill_com (skills : list Skill.t) (special_com_name : string)
    (r : run) (entry : string * slot_map) : result run :=
  let '(com_name, skill_slot_map) := entry in
  i ← find_com (engine r) com_name;
  '(r, _) ← Py.foldM
              (fill_slot skills (bool_decide (com_name = special_com_name)) i)
              (r, []) skill_slot_map.*1;
  Ok r.

Definition randomize_coms (self : t) (skills : list Skill.t) (r : run)
    (char_class : option string) : result run :=
  if decide (length skills < 5)%nat then
    Ok (mk_run (rng r) (cheat_skills r) (engine r)
          (log r ++ [Warning (skipping_message (length skills))]))
  else
    coms ← from_option Ok (Raise AttributeError) (coms self);
    '(special_com_name, rng') ←
      special_com (S (length (rng r))) coms (length (cheat_skills r)) (rng r);
    let r :=
      mk_run rng' (cheat_skills r) (engine r)
        (log r ++ [Warning ("Special COM is " +:+ special_com_name)]) in
    Py.foldM (fill_com skills special_com_name) r coms.

(** Body of [for slot_index, attr_name in self.coms[...].items()]. *)
Definition restore_slot (i : nat) (e : Engine.t) (entry : nat * string)
    : result Engine.t :=
  set_attribute e i entry.1 entry.2.

Definition restore_com (coms : Py.dict slot_map) (e : Engine.t) (i : nat)
    : result Engine.t :=
  com ← Py.getitem (Engine.class_mods e) i;
  skill_slot_map ← from_option Ok (Raise KeyError)
                     (Py.dict_get coms (Engine.com_path_name com));
  Py.foldM (restore_slot i) e skill_slot_map.

Definition unrandomize_coms (self : t) (e : Engine.t)
    (char_class : option string) : result (t * Engine.t) :=
  match coms self with
  | None => Ok (self, e)
  | Some coms =>
      e ← Py.foldM (restore_com coms) e (iterate_coms e char_class);
      Ok (self, e)
  end.

End ClassModPatcher.

(** ** __init__.py: the [inject_skills] hook and [reset_game] *)

Module Mod.

(** One active entry of the cheat menu: the skill's display name, the
    "Maximum Tier" slider and the "Include in special COM" switch. *)
Record cheat_entry : Type := mk_cheat {
  cheat_skill : string;
  maximum_tier : Z;
  include_in_com : bool;
}.

Record options : Type := mk_options {
  seed_option : Z;
  (** [skill_sources.children]: identifier and value of each switch *)
  skill_sources : list (string * bool);
  hidden_skills : string;
  action_skill : string;
  skill_density : Z;
  randomize_tiers : bool;
  randomize_coms : bool;
  (** the entries of [__cheat_entries] before [__active_cheat_idx] *)
  cheat_entries : list cheat_entry;
}.

(** The module-level variables of the mod. *)
Record t : Type := mk {
  pool : option SkillPool.t;
  enabled_sources : option (list string);
  com_patcher : ClassModPatcher.t;
  com_patched : bool;
}.

Definition init : t := mk None None ClassModPatcher.init false.

(** Body of [for cheat in __cheat_entries]: the inner loop stops at the
    first skill of [skills.__skills] with the entry's display name. *)
Definition add_cheat (all_skills : Py.dict Skill.t)
    (st : Py.dict Z * list Skill.t) (cheat : cheat_entry)
    : Py.dict Z * list Skill.t :=
  let '(cheats, com_skills) := st in
  match List.find (λ kv, bool_decide (Skill.skill_name kv.2 = cheat_skill cheat))
          all_skills with
  | Some (skill_fullname, skill) =>
      (Py.dict_set cheats skill_fullname (maximum_tier cheat - 1),
       if include_in_com cheat
       then (if decide (skill ∈ com_skills) then com_skills
             else com_skills ++ [skill])
       else com_skills)
  | None => (cheats, com_skills)
  end.

(** [inject_skills]; [generator seed] is the tape of [random.Random(seed)].
    The pool and the class-mod patcher are given the same generator
    object: the patcher goes on from the state the pool has left it in. *)
Definition inject_skills (generator : Z → Random.tape) (self : t)
    (opts : options) (catalog : gmap string Character.t)
    (all_skills : Py.dict Skill.t) (skill_tree : Engine.t)
    (log : list log_entry) : result (t * Engine.t * list log_entry) :=
  let enabled_sources :=
    (filter (λ child, child.2 = true) (skill_sources opts)).*1 in
  let '(cheats, com_skills) :=
    foldl (add_cheat all_skills) ([], []) (cheat_entries opts) in
  let rng := generator (seed_option opts) in
  let pool := SkillPool.init rng in
  '(pool, log, skill_tree) ←
    SkillPool.randomize_tree pool log skill_tree catalog enabled_sources
      (hidden_skills opts) (action_skill opts) (skill_density opts)
      (randomize_tiers opts) cheats;
  let self := mk (Some pool) (Some enabled_sources) (com_patcher self)
                (com_patched self) in
  if randomize_coms opts && negb (com_patched self) then
    '(patcher, log) ←
      ClassModPatcher.record_coms (com_patcher self) skill_tree log
        (SkillPool.get_current_char pool);
    r ← ClassModPatcher.randomize_coms patcher
          (SkillPool.get_class_mod_skills pool)
          (ClassModPatcher.mk_run (SkillPool.rng pool) com_skills skill_tree log)
          (SkillPool.get_current_char pool);
    Ok (mk (Some (SkillPool.with_rng pool (ClassModPatcher.rng r)))
          (Some enabled_sources) patcher true,
        ClassModPatcher.engine r, ClassModPatcher.log r)
  else Ok (self, skill_tree, log).

(** [reset_game], as far as it touches the skill tree and the class mods. *)
Definition reset_game (self : t) (e : Engine.t) : result (t * Engine.t) :=
  if com_patched self then
    pool ← from_option Ok (Raise AttributeError) (pool self);
    '(patcher, e) ←
      ClassModPatcher.unrandomize_coms (com_patcher self) e
        (SkillPool.get_current_char pool);
    Ok (mk (Some pool) (enabled_sources self) patcher false, e)
  else Ok (self, e).

End Mod.

(** ** __init__.py: the cheat menu *)

Module Menu.

(** One [NestedOption] of [__cheat_entries] with its three children: the
    "Skill" spinner, the "Maximum Tier" slider and the "Include in special
    COM" switch. *)
Record entry : Type := mk_entry {
  idx : nat;
  display_name : string;
  description : string;
  is_hidden : bool;
  (** [children[0].value] *)
  skill : string;
  (** [children[1].value] *)
  tier : Z;
  (** [children[2].value] *)
  com : bool;
}.

(** The [default_value] of the three children: the values they are
    created with. *)
Definition default_skill : string := "None".
Definition default_tier : Z := 6.
Definition default_com : bool := false.

(** [__cheat_entries] and [__active_cheat_idx]. *)
Record t : Type := mk {
  cheat_entries : list entry;
  active_cheat_idx : nat;
}.

(** The entry that the module-level loop creates for [option_idx]. *)
Definition new_entry (option_idx : nat) : entry :=
  if decide (option_idx ≠ 0%nat)
  then mk_entry option_idx "TBD" "Force a skill to be granted." true
         "None" 6 false
  else mk_entry option_idx "Add New Cheat" "Force a skill to be granted." false
         "None" 6 false.

(** The menu after [for option_idx in range(0,10)]. *)
Definition init : t := mk (new_entry <$> seq 0 10) 0.

(** [target.display_name = entry.display_name] and the three assignments
    of the children's values. *)
Definition copy_cheat (target source : entry) : entry :=
  mk_entry (idx target) (display_name source) (description target)
    (is_hidden target) (skill source) (tier source) (com source).

(** Loop state of [for read_idx in range(0, __active_cheat_idx)]. *)
Record sweep : Type := mk_sweep {
  entries : list entry;
  write_idx : nat;
  cheat_skills : list string;
}.

Definition cleanup_step (st : sweep) (read_idx : nat) : result sweep :=
  entry ← Py.getitem (entries st) read_idx;
  if decide (skill entry ∈ cheat_skills st) then Ok st
  else
    es ← (if decide (write_idx st < read_idx)%nat then
            target ← Py.getitem (entries st) (write_idx st);
            Py.setitem (entries st) (write_idx st) (copy_cheat target entry)
          else Ok (entries st));
    Ok (mk_sweep es (S (write_idx st)) (cheat_skills st ++ [skill entry])).

(** The new 'Add New' entry. *)
Definition add_new (target : entry) : entry :=
  mk_entry (idx target) "Add New Cheat" "Force a skill to be granted."
    (is_hidden target) default_skill default_tier default_com.

Definition hide (e : entry) : entry :=
  mk_entry (idx e) (display_name e) (description e) true (skill e) (tier e)
    (com e).

(** [for write_idx in range(active + 1, len(entries)): ... is_hidden = True] *)
Definition hide_from (first : nat) (es : list entry) : list entry :=
  take first es ++ (hide <$> drop first es).

Definition cleanup_cheats (self : t) : result t :=
  st ← Py.foldM cleanup_step (mk_sweep (cheat_entries self) 0 ["None"])
         (seq 0 (active_cheat_idx self));
  if decide (write_idx st < active_cheat_idx self)%nat then
    target ← Py.getitem (entries st) (write_idx st);
    es ← Py.setitem (entries st) (write_idx st) (add_new target);
    Ok (mk (hide_from (S (write_idx st)) es) (write_idx st))
  else Ok (mk (entries st) (active_cheat_idx self)).

Definition unhide_add_new (e : entry) : entry :=
  mk_entry (idx e) "Add New Cheat" "Force a skill to be granted." false
    (skill e) (tier e) (com e).

(** [parent.description = f"Force '{value}' to be granted."] and
    [parent.display_name = value] *)
Definition rename (e : entry) (value : string) : entry :=
  mk_entry (idx e) value ("Force '" +:+ value +:+ "' to be granted.")
    (is_hidden e) (skill e) (tier e) (com e).

(** [on_create_cheat(option, value)], where [option.parent] is the entry
    at position [parent]; the new value itself is assigned by the caller,
    after this handler. *)
Definition on_create_cheat (self : t) (parent : nat) (value : string)
    : result t :=
  if decide (value = "None") then Ok self
  else
    p ← Py.getitem (cheat_entries self) parent;
    self ←
      (if decide (active_cheat_idx self = idx p) then
         let active := S (active_cheat_idx self) in
         if decide (active < 10)%nat then
           e ← Py.getitem (cheat_entries self) active;
           es ← Py.setitem (cheat_entries self) active (unhide_add_new e);
           Ok (mk es active)
         else Ok (mk (cheat_entries self) active)
       else Ok self);
    p ← Py.getitem (cheat_entries self) parent;
    es ← Py.setitem (cheat_entries self) parent (rename p value);
    Ok (mk es (active_cheat_idx self)).

End Menu.

(** * Vocabulary of the statements *)

(** [frame br br']: [br'] is [br] up to its weights. *)
Definition frame (br br' : Branch.t) : Prop :=
  br' = Branch.with_weights br (Branch.skill_weights br') (Branch.total_weight br').

(** The gap between a branch's [total_weight] and the sum of its weights. *)
Definition drift (br : Branch.t) : Q :=
  (Branch.total_weight br - Branch.sum_weights (Branch.skill_weights br))%Q.

(** Every branch has a weight for every position of [skill_order]. *)
Definition wide_enough (order : list string) (brs : list Branch.t) : Prop :=
  Forall (λ br, (length order ≤ length (Branch.skill_weights br))%nat) brs.

(** [evolves br br']: [br'] is [br] up to its weights, there are as many
    weights as before, and a weight that was zero is still zero. *)
Definition evolves (br br' : Branch.t) : Prop :=
  frame br br'
  ∧ length (Branch.skill_weights br') = length (Branch.skill_weights br)
  ∧ ∀ i w, Branch.skill_weights br !! i = Some w → (w == 0)%Q →
      ∃ w', Branch.skill_weights br' !! i = Some w' ∧ (w' == 0)%Q.

(** [steady self self']: between two states of one run the branches only
    evolve and the skill set is the same. *)
Definition steady (self self' : SkillPool.t) : Prop :=
  Forall2 evolves (SkillPool.new_branches self) (SkillPool.new_branches self')
  ∧ SkillPool.skill_order self' = SkillPool.skill_order self
  ∧ SkillPool.skills self' = SkillPool.skills self
  ∧ SkillPool.original_branches self' = SkillPool.original_branches self
  ∧ SkillPool.current_char_class self' = SkillPool.current_char_class self.

(** [reweighted b i self self']: the two pools are equal, or differ in the
    weight at position [i] of the branch at position [b] only. *)
Definition reweighted (b i : nat) (self self' : SkillPool.t) : Prop :=
  self' = self
  ∨ ∃ br w', SkillPool.new_branches self !! b = Some br
      ∧ (i < length (Branch.skill_weights br))%nat
      ∧ self' = SkillPool.with_new_branches self
                  (<[b := Branch.with_weights br
                            (<[i := w']> (Branch.skill_weights br))
                            (Branch.total_weight br)]>
                     (SkillPool.new_branches self)).

(** [count_for d rng n]: [n] is the skill count that the thresholds give
    for the density [d]; between the thresholds it depends on the next
    draw [r] of the generator, which is 3 (resp. 2) exactly when [r] falls
    below [3 * (d - 0.66)] (resp. [3 * (d - 0.33)]), a number in (0, 1). *)
Definition count_for (d : Q) (rng : list Q) (n : Z) : Prop :=
  ((99 # 100 < d)%Q → n = 3)
  ∧ ((66 # 100 < d)%Q → (d <= 99 # 100)%Q →
       ∃ r rng', Random.random rng = Ok (r, rng') ∧ (0 <= r < 1)%Q
         ∧ (0 < 3 * (d - (66 # 100)) < 1)%Q
         ∧ ((r < 3 * (d - (66 # 100)))%Q → n = 3)
         ∧ ((3 * (d - (66 # 100)) <= r)%Q → n = 2))
  ∧ ((33 # 100 < d)%Q → (d <= 66 # 100)%Q →
       ∃ r rng', Random.random rng = Ok (r, rng') ∧ (0 <= r < 1)%Q
         ∧ (0 < 3 * (d - (33 # 100)) < 1)%Q
         ∧ ((r < 3 * (d - (33 # 100)))%Q → n = 2)
         ∧ ((3 * (d - (33 # 100)) <= r)%Q → n = 1))
  ∧ ((0 < d)%Q → (d <= 33 # 100)%Q → n = 1)
  ∧ ((d <= 0)%Q → n = 0).

(** What one [Branch.patch] does to one child of the root. *)
Definition patch_child (br : Branch.t) (c : Engine.branch_def) : Engine.branch_def :=
  Engine.mk_branch_def (Engine.path_name c)
    (if decide (Engine.path_name c = Branch.full_name br)
     then Branch.patched_tiers br else Engine.Tiers c)
    (Engine.layout_path_name c)
    (if decide (Engine.layout_path_name c = Branch.layout_name br)
     then Branch.layout br else Engine.layout_Tiers c).

(** A child of the root as its snapshot describes it: the tiers without
    their empty skill entries, the layout as it was. *)
Definition snapshot (c : Engine.branch_def) : Engine.branch_def :=
  Engine.mk_branch_def (Engine.path_name c)
    (Branch.patched_tiers (Branch.from_branch c))
    (Engine.layout_path_name c) (Engine.layout_Tiers c).

(** Slot [k] of the class mod at position [i] modifies attribute [attr]. *)
Definition slot_is (e : Engine.t) (i k : nat) (attr : string) : Prop :=
  ∃ com slot, Engine.class_mods e !! i = Some com
    ∧ Engine.AttributeSlotEffects com !! k = Some slot
    ∧ Engine.AttributeToModify slot = Some attr.

(** The records hold [attr] for slot [k] of the class mod at position [i]. *)
Definition recorded (coms : list (string * list (nat * string))) (e : Engine.t)
    (i k : nat) (attr : string) : Prop :=
  ∃ com slots, Engine.class_mods e !! i = Some com
    ∧ Py.dict_get coms (Engine.com_path_name com) = Some slots
    ∧ (k, attr) ∈ slots.

(** The path names of the class mods, position by position. *)
Definition com_names (e : Engine.t) : list string :=
  Engine.com_path_name <$> Engine.class_mods e.

(** The records never hold two attributes for one slot. *)
Definition keys_ok (coms : list (string * list (nat * string))) : Prop :=
  ∀ name slots, Py.dict_get coms name = Some slots → NoDup slots.*1.

(** ** The invariant of a synthesis *)

(** The registry is closed: a dependency that is registered at all is
    registered under each of its providers, and only under providers. *)
Definition registry_ok (deps : list (string * Dependency.t)) : Prop :=
  ∀ k D, (k, D) ∈ deps →
    k ∈ Dependency.providers D
    ∧ ∀ p, p ∈ Dependency.providers D → Py.dict_get deps p = Some D.

(** The grants: [granted] lists the skills granted so far; what the
    registered dependencies can still grant is new, granted by one
    dependency only, and never a skill of the pool. *)
Definition grants_ok (deps : list (string * Dependency.t))
    (granted order : list string) : Prop :=
  NoDup granted
  ∧ (∀ g, g ∈ granted → g ∉ order)
  ∧ (∀ k D, (k, D) ∈ deps →
       NoDup (Dependency.extra_skills D)
       ∧ ∀ g, g ∈ Dependency.extra_skills D → g ∉ granted ∧ g ∉ order)
  ∧ (∀ k1 D1 k2 D2 g, (k1, D1) ∈ deps → (k2, D2) ∈ deps →
       g ∈ Dependency.extra_skills D1 → g ∈ Dependency.extra_skills D2 →
       D1 = D2).

Definition pool_ok (self : SkillPool.t) : Prop :=
  NoDup (SkillPool.skill_order self)
  ∧ (∀ name skill, SkillPool.skills self !! name = Some skill →
       Skill.full_name skill = name ∧ name ∈ SkillPool.skill_order self)
  ∧ registry_ok (SkillPool.dependencies self).

(** [retired self name]: the skill can no longer be drawn: its weight is
    zero in every branch and no registered dependency has it as a
    provider. *)
Definition retired (self : SkillPool.t) (name : string) : Prop :=
  name ∈ SkillPool.skill_order self
  ∧ (∀ br i, br ∈ SkillPool.new_branches self →
       Py.index name (SkillPool.skill_order self) = Some i →
       ∃ w, Branch.skill_weights br !! i = Some w ∧ (w == 0)%Q)
  ∧ (∀ k D, (k, D) ∈ SkillPool.dependencies self →
       name ∉ Dependency.providers D).

(** [draw_inv self drawn appended]: [drawn] lists the skills drawn so
    far, [appended] the granted skills already appended to a tier 5. *)
Definition draw_inv (self : SkillPool.t) (drawn appended : list string) : Prop :=
  pool_ok self
  ∧ NoDup drawn
  ∧ (∀ name, name ∈ drawn → retired self name)
  ∧ grants_ok (SkillPool.dependencies self)
      (appended ++ SkillPool.extra_skills self) (SkillPool.skill_order self).

(** The names in the tiers written so far, when [filled] tells for every
    branch how many of its tiers have been written. *)
Definition placed (brs : list Branch.t) (filled : list nat) : list string :=
  concat (zip_with (λ br n, concat (take n (Branch.skills br))) brs filled).

Definition tree_inv (self : SkillPool.t) (filled : list nat)
    (drawn appended : list string) : Prop :=
  draw_inv self drawn appended
  ∧ length filled = length (SkillPool.new_branches self)
  ∧ Forall (λ br, (length (Branch.skills br) ≤ 6)%nat) (SkillPool.new_branches self)
  ∧ placed (SkillPool.new_branches self) filled ≡ₚ drawn ++ appended.

(** In the pass over tier [tier], the first [b] of [n] branches have
    [tier + 1] written tiers and the others [tier]. *)
Definition progress (n tier b : nat) : list nat :=
  replicate b (S tier) ++ replicate (n - b) tier.

(** All names of a generated tree: every branch, every tier. *)
Definition tree_names (brs : list Branch.t) : list string :=
  concat (concat (Branch.skills <$> brs)).

(** The dependencies and the skills of a catalog. *)
Definition catalog_dependencies (catalog : gmap string Character.t)
    : list Dependency.t :=
  (map_to_list catalog).*2 ≫= Character.dependencies.

Definition catalog_skill_names (catalog : gmap string Character.t) : list string :=
  Skill.full_name
    <$> ((map_to_list catalog).*2
           ≫= λ c, Character.pure_skills c ++ Character.misdocumented_skills c
                     ++ Character.suppressed_skills c).

(** A catalog is well formed when two different dependencies share no
    provider and no granted skill, no dependency grants a skill twice, and
    no granted skill is a skill of a character. *)
Definition catalog_ok (catalog : gmap string Character.t) : Prop :=
  Forall (λ D1,
    NoDup (Dependency.extra_skills D1)
    ∧ Forall (λ g, g ∉ catalog_skill_names catalog) (Dependency.extra_skills D1)
    ∧ Forall (λ D2,
        D1 = D2
        ∨ (Forall (λ p, p ∉ Dependency.providers D2) (Dependency.providers D1)
           ∧ Forall (λ g, g ∉ Dependency.extra_skills D2)
               (Dependency.extra_skills D1)))
        (catalog_dependencies catalog))
    (catalog_dependencies catalog).

(** The catalog takes its dependencies from [HINT_MAP], as
    [Character.update_all] sets them. *)
Definition hinted (catalog : gmap string Character.t) : Prop :=
  ∀ c, c ∈ (map_to_list catalog).*2 →
    Character.dependencies c
    = CharacterHint.dependencies (Character.character_name c).

(** Every dependency of [HINT_MAP], and every skill one of them grants. *)
Definition hint_dependencies : list Dependency.t :=
  CharacterHint.HINT_MAP ≫= snd.

Definition hint_grants : list string :=
  hint_dependencies ≫= Dependency.extra_skills.

(** What the pass over the enabled characters keeps true of the pool:
    skills are filed under their own names, the registry is closed, and
    everything comes from the catalog. *)
Definition gathered (catalog : gmap string Character.t) (self : SkillPool.t)
    : Prop :=
  (∀ name skill, SkillPool.skills self !! name = Some skill →
     Skill.full_name skill = name ∧ name ∈ catalog_skill_names catalog)
  ∧ registry_ok (SkillPool.dependencies self)
  ∧ (∀ k D, (k, D) ∈ SkillPool.dependencies self →
       D ∈ catalog_dependencies catalog)
  ∧ SkillPool.extra_skills self = [].

(** * A small catalog for concrete runs

    One character, Xavier, of class "X": an action skill A, a Dependency D
    provided by B, required by C, wanted by W and granting G, the
    independent passive skills Z, Z1 .. Z6, a misdocumented skill M and a
    suppressed skill S. *)

Module Example.

Definition skill (name : string) (grade : Z) : Skill.t :=
  Skill.mk name name grade ("attr_" +:+ name).

Definition D : Dependency.t := Dependency.mk "D" ["B"] ["G"] ["C"] ["W"].

Definition A : Skill.t := skill "A" 1.
Definition B : Skill.t := skill "B" 5.

Definition Xavier : Character.t :=
  Character.mk (Some "X") "Xavier" (Some A)
    [B; skill "C" 5; skill "W" 5; skill "Z" 1; skill "Z1" 5; skill "Z2" 5;
     skill "Z3" 3; skill "Z4" 5; skill "Z5" 5; skill "Z6" 5]
    [skill "M" 5] [skill "S" 5] [D].

Definition catalog : gmap string Character.t := {[ "Xavier" := Xavier ]}.

Definition tiers : list Engine.tier :=
  replicate 6 (Engine.mk_tier [Some "Old1"; None; Some "Old2"] 5).

Definition layouts : list (list bool) := replicate 6 [true; false; true].

Definition class_mod (name : string) (slots : list Engine.attribute_slot)
    : Engine.class_mod :=
  Engine.mk_class_mod name (Engine.PlayerClass (Some "X")) slots.

Definition skill_slot (attr : string) : Engine.attribute_slot :=
  Engine.mk_slot "Skill" (Some attr).

Definition skill_tree : Engine.t :=
  Engine.mk "GD_X_Skills.Root" ["OldAction"]
    [Engine.mk_branch_def "Left" tiers "LeftLayout" layouts;
     Engine.mk_branch_def "Middle" tiers "MiddleLayout" layouts;
     Engine.mk_branch_def "Right" tiers "RightLayout" layouts]
    [class_mod "ComA" [Engine.mk_slot "Other" None; skill_slot "a1";
                       skill_slot "a2"; skill_slot "a3"];
     class_mod "ComB" [skill_slot "b1"; skill_slot "b2"]].

Definition tape : list Q :=
  [1 # 2; 1 # 3; 1 # 5; 7 # 10; 9 # 10; 1 # 10; 3 # 10; 2 # 5;
   1 # 2; 1 # 3; 1 # 5; 7 # 10; 9 # 10; 1 # 10; 3 # 10; 2 # 5;
   1 # 2; 1 # 3; 1 # 5; 7 # 10; 9 # 10; 1 # 10; 3 # 10; 2 # 5;
   1 # 2; 1 # 3; 1 # 5; 7 # 10; 9 # 10; 1 # 10; 3 # 10; 2 # 5].

(** A pool as [randomize_tree] sets it up before the first draw: three
    prepared branches over the skills B, C, W and Z, with D registered. *)
Definition branch (idx expected : Z) : Branch.t :=
  Branch.prepare
    (Branch.from_other
       (Branch.from_branch (Engine.mk_branch_def "Left" tiers "LeftLayout" layouts)))
    idx expected [1; 1; 1; 1]%Q.

Definition pool : SkillPool.t :=
  SkillPool.mk tape [("B", D)]
    (list_to_map [("B", B); ("C", skill "C" 5); ("W", skill "W" 5);
                  ("Z", skill "Z" 1)])
    ["B"; "C"; "W"; "Z"] [] [] (Some "X") None
    [branch 0 4; branch 1 4; branch 2 4].

(** The options of the mod: every run below uses the seed 7. *)
Definition options (hidden_skills : string) (skill_density : Z)
    (cheat_entries : list Mod.cheat_entry) : Mod.options :=
  Mod.mk_options 7 [("Xavier", true)] hidden_skills "Default" skill_density
    false true cheat_entries.

Definition generator (seed : Z) : list Q := tape.

(** [skills.__skills] *)
Definition all_skills : list (string * Skill.t) :=
  map (λ s, (Skill.full_name s, s))
    (Character.pure_skills Xavier ++ Character.misdocumented_skills Xavier
       ++ Character.suppressed_skills Xavier).

(** The first branch tier of that pool, randomized. *)
Definition after_tier : SkillPool.t * list log_entry :=
  match SkillPool.randomize_branch_tier pool [] 0 0 false "None" [] with
  | Ok st => st
  | _ => (pool, [])
  end.

(** The hook run with the policy "None" and a density of 30. *)
Definition injected : Mod.t * Engine.t * list log_entry :=
  match Mod.inject_skills generator Mod.init (options "None" 30 []) catalog
          all_skills skill_tree [] with
  | Ok st => st
  | _ => (Mod.init, skill_tree, [])
  end.

(** [reset_game] after that run, the pool it leaves in the mod, and
    [unrandomize_tree] on that pool. *)
Definition reset : Mod.t * Engine.t :=
  match Mod.reset_game injected.1.1 injected.1.2 with
  | Ok st => st
  | _ => (Mod.init, skill_tree)
  end.

Definition reset_pool : SkillPool.t :=
  default (SkillPool.init []) (Mod.pool reset.1).

Definition reverted : SkillPool.t * Engine.t :=
  SkillPool.unrandomize_tree reset_pool reset.2.

(** A whole synthesis with the policy "None" and a density of 30. *)
Definition generated : SkillPool.t * list log_entry * Engine.t :=
  match SkillPool.randomize_tree (SkillPool.init tape) [] skill_tree catalog
          ["Xavier"] "None" "Default" 30 false [] with
  | Ok st => st
  | _ => (SkillPool.init [], [], skill_tree)
  end.

End Example.

(** * Vocabulary of the further properties *)

(** [fades br br']: as many weights as before, and a weight that was zero
    is still zero. *)
Definition fades (br br' : Branch.t) : Prop :=
  length (Branch.skill_weights br') = length (Branch.skill_weights br)
  ∧ ∀ i w, Branch.skill_weights br !! i = Some w → (w == 0)%Q →
      ∃ w', Branch.skill_weights br' !! i = Some w' ∧ (w' == 0)%Q.

(** What tier [t] of the branch at position [b] holds: its skills, its
    occupancy and its unlock cost. *)
Definition tier_at (brs : list Branch.t) (b t : nat)
    : option (list string * list bool * Z) :=
  match brs !! b with
  | Some br =>
      match Branch.skills br !! t, Branch.layout br !! t,
            Branch.points_to_unlock br !! t with
      | Some s, Some l, Some p => Some (s, l, p)
      | _, _, _ => None
      end
  | None => None
  end.

(** The number of skills that the branches are meant to receive. *)
Definition expected_total (brs : list Branch.t) : Z :=
  foldr Z.add 0 (Branch.expected_skills <$> brs).

(** * More concrete inputs *)

Module Sample.

(** Records of the two class mods of the example tree, one slot each. *)
Definition patcher : ClassModPatcher.t :=
  ClassModPatcher.mk
    (Some [("ComA", [(1%nat, "a1")]); ("ComB", [(0%nat, "b1")])]).

(** A run of the class-mod patcher that starts on the example tree with
    the example tape and no cheat skill. *)
Definition run : ClassModPatcher.run :=
  ClassModPatcher.mk_run Example.tape [] Example.skill_tree [].

(** The skill slots of "ComA". *)
Definition slots : list (nat * string) :=
  [(1%nat, "a1"); (2%nat, "a2"); (3%nat, "a3")].

(** A cheat menu with four entries in use: a cheat, a deleted one, a second
    cheat for the skill of the first and a third cheat. *)
Definition menu : Menu.t :=
  Menu.mk
    ([Menu.mk_entry 0 "Kill Skill" "Force 'Kill Skill' to be granted." false
        "Kill Skill" 3 true;
      Menu.mk_entry 1 "Old" "Force 'Old' to be granted." false "None" 6 false;
      Menu.mk_entry 2 "Kill Skill" "Force 'Kill Skill' to be granted." false
        "Kill Skill" 5 false;
      Menu.mk_entry 3 "Other" "Force 'Other' to be granted." false
        "Other" 6 false;
      Menu.mk_entry 4 "Add New Cheat" "Force a skill to be granted." false
        "None" 6 false]
     ++ (Menu.new_entry <$> [5; 6; 7; 8; 9]%nat))
    4.

End Sample.

(** Slot [k] of the class mod at position [i] is a skill slot (its name
    starts with "Skill") that modifies attribute [attr]. *)
Definition skill_slot (e : Engine.t) (i k : nat) (attr : string) : Prop :=
  ∃ com slot, Engine.class_mods e !! i = Some com
    ∧ Engine.AttributeSlotEffects com !! k = Some slot
    ∧ String.prefix "Skill" (Engine.SlotName slot) = true
    ∧ Engine.AttributeToModify slot = Some attr.

(** No skill slot of the class mod at position [i] lacks its attribute. *)
Definition no_null_slot (e : Engine.t) (i : nat) : Prop :=
  ∀ com slot, Engine.class_mods e !! i = Some com →
    slot ∈ Engine.AttributeSlotEffects com →
    String.prefix "Skill" (Engine.SlotName slot) = true →
    is_Some (Engine.AttributeToModify slot).

(** ** The cheat menu *)

(** What [cleanup_cheats] copies from one entry to another. *)
Definition cheat_values (e : Menu.entry) : string * string * Z * bool :=
  (Menu.display_name e, Menu.skill e, Menu.tier e, Menu.com e).

(** The entries of [es] whose skill is neither in [seen] nor the skill of
    an earlier entry of [es], in the order of [es]. *)
Fixpoint first_cheats (seen : list string) (es : list Menu.entry)
    : list Menu.entry :=
  match es with
  | [] => []
  | e :: es' =>
      if decide (Menu.skill e ∈ seen) then first_cheats seen es'
      else e :: first_cheats (seen ++ [Menu.skill e]) es'
  end.

(** The entries in use: those before [__active_cheat_idx]. *)
Definition active_entries (m : Menu.t) : list Menu.entry :=
  take (Menu.active_cheat_idx m) (Menu.cheat_entries m).

(** The menu as the module builds it: ten entries, each at the position
    that its [idx] names, and at most ten of them in use. *)
Definition menu_ok (m : Menu.t) : Prop :=
  length (Menu.cheat_entries m) = 10%nat
  ∧ (Menu.active_cheat_idx m ≤ 10)%nat
  ∧ ∀ j e, Menu.cheat_entries m !! j = Some e → Menu.idx e = j.

(** [e] is the entry [e0] with other cheat values or another name. *)
Definition same_place (e e0 : Menu.entry) : Prop :=
  Menu.idx e = Menu.idx e0 ∧ Menu.description e = Menu.description e0
  ∧ Menu.is_hidden e = Menu.is_hidden e0.

(** The state of the loop of [cleanup_cheats] over the entries [es] when it
    has read [r] of them. *)
Definition swept (es : list Menu.entry) (r : nat) (st : Menu.sweep) : Prop :=
  Forall2 same_place (Menu.entries st) es
  ∧ Menu.write_idx st = length (first_cheats ["None"] (take r es))
  ∧ (∀ s, s ∈ Menu.cheat_skills st ↔ s = "None" ∨ s ∈ Menu.skill <$> take r es)
  ∧ cheat_values <$> take (Menu.write_idx st) (Menu.entries st)
    = cheat_values <$> first_cheats ["None"] (take r es)
  ∧ (∀ j, (Menu.write_idx st ≤ j)%nat → Menu.entries st !! j = es !! j)
  ∧ (Menu.write_idx st = r → Menu.entries st = es).

(** [(name, skill)] is the first entry of the catalogue [skills.__skills]
    whose skill has the display name [s]. *)
Definition first_named (all_skills : Py.dict Skill.t) (s : string)
    (name : string) (skill : Skill.t) : Prop :=
  ∃ i, all_skills !! i = Some (name, skill)
    ∧ Skill.skill_name skill = s
    ∧ ∀ j kv, (j < i)%nat → all_skills !! j = Some kv →
        Skill.skill_name kv.2 ≠ s.
(** * Properties *)

(** ** The run-time model *)

Section py_facts.

Lemma bind_ok {A B} (m : result A) (f : A → result B) (b : B) :
  (m ≫= f) = Ok b → ∃ a, m = Ok a ∧ f a = Ok b.
Proof. destruct m; simpl; intros; [eauto | done | done]. Qed.

Lemma index_None x l : Py.index x l = None ↔ x ∉ l.
Proof.
  induction l as [|y l IH]; simpl.
  - split; [intros _; apply not_elem_of_nil | done].
  - destruct (decide (y = x)) as [->|Hne].
    + split; [done | intros []; left].
    + rewrite fmap_None, IH, not_elem_of_cons. naive_solver.
Qed.

Lemma index_Some x l i : Py.index x l = Some i → l !! i = Some x.
Proof.
  revert i. induction l as [|y l IH]; simpl; intros i; [done|].
  destruct (decide (y = x)) as [->|Hne].
  - by intros [= <-].
  - destruct (Py.index x l) as [j|]; simpl; [|done].
    intros [= <-]. simpl. by apply IH.
Qed.

Lemma index_is_Some x l : x ∈ l → is_Some (Py.index x l).
Proof.
  intros Hin. destruct (Py.index x l) eqn:E; [eauto|].
  by apply index_None in E.
Qed.

Lemma index_lt x l i : Py.index x l = Some i → (i < length l)%nat.
Proof. intros H. apply index_Some in H. by eapply lookup_lt_Some. Qed.

Lemma index_inj x y l i :
  Py.index x l = Some i → Py.index y l = Some i → x = y.
Proof. intros Hx Hy. apply index_Some in Hx, Hy. congruence. Qed.

Lemma getitem_ok {A} (l : list A) i x : Py.getitem l i = Ok x ↔ l !! i = Some x.
Proof. unfold Py.getitem. destruct (l !! i); naive_solver. Qed.

Lemma setitem_ok {A} (l : list A) i x l' :
  Py.setitem l i x = Ok l' ↔ (i < length l)%nat ∧ l' = <[i:=x]> l.
Proof. unfold Py.setitem. case_decide; naive_solver. Qed.

Lemma setitem_lt {A} (l : list A) i x :
  (i < length l)%nat → Py.setitem l i x = Ok (<[i:=x]> l).
Proof. intros. unfold Py.setitem. by rewrite decide_True. Qed.

Lemma dict_get_remove {V} (d : Py.dict V) k k' :
  Py.dict_get (Py.dict_remove d k) k'
  = if decide (k = k') then None else Py.dict_get d k'.
Proof.
  unfold Py.dict_remove. induction d as [|[k0 v] d IH].
  - simpl. by case_decide.
  - rewrite filter_cons. cbn [fst]. destruct (decide (k0 ≠ k)) as [Hne|Heq].
    + cbn [Py.dict_get]. rewrite IH. repeat case_decide; congruence.
    + apply dec_stable in Heq. subst k0. rewrite IH. cbn [Py.dict_get].
      repeat case_decide; congruence.
Qed.

Lemma dict_get_Some_elem {V} (d : Py.dict V) k v :
  Py.dict_get d k = Some v → (k, v) ∈ d.
Proof.
  induction d as [|[k0 v0] d IH]; simpl; [done|].
  case_decide; [intros [= ->]; subst; left | intros; right; auto].
Qed.

Lemma dict_get_None {V} (d : Py.dict V) k :
  Py.dict_get d k = None ↔ k ∉ Py.dict_keys d.
Proof.
  unfold Py.dict_keys. induction d as [|[k0 v0] d IH]; simpl.
  - split; [intros _; apply not_elem_of_nil | done].
  - rewrite not_elem_of_cons. case_decide; naive_solver.
Qed.

Lemma dict_remove_elem {V} (d : Py.dict V) k kv :
  kv ∈ Py.dict_remove d k ↔ kv ∈ d ∧ kv.1 ≠ k.
Proof. unfold Py.dict_remove. rewrite list_elem_of_filter. naive_solver. Qed.

Lemma dict_del_Some {V} (d : Py.dict V) k v :
  Py.dict_get d k = Some v → Py.dict_del d k = Ok (Py.dict_remove d k).
Proof. intros H. unfold Py.dict_del. by rewrite H. Qed.

(** Deleting a list of distinct keys that are all present succeeds and
    removes exactly those keys. *)
Lemma dict_del_all {V} (ks : list string) (d : Py.dict V) :
  NoDup ks → (∀ k, k ∈ ks → is_Some (Py.dict_get d k)) →
  ∃ d', Py.foldM Py.dict_del d ks = Ok d'
        ∧ (∀ k, Py.dict_get d' k = if decide (k ∈ ks) then None else Py.dict_get d k)
        ∧ (∀ kv, kv ∈ d' ↔ kv ∈ d ∧ kv.1 ∉ ks).
Proof.
  revert d. induction ks as [|k ks IH]; intros d Hnd Hin; cbn [Py.foldM].
  - exists d. split; [done|]. split.
    + intros k. case_decide as Hk; [by apply elem_of_nil in Hk | done].
    + intros kv. split; [intros; split; [done | apply not_elem_of_nil] | naive_solver].
  - apply NoDup_cons in Hnd as [Hk Hnd].
    destruct (Hin k) as [v Hv]; [left|].
    rewrite (dict_del_Some _ _ _ Hv). cbn [mbind result_bind].
    destruct (IH (Py.dict_remove d k) Hnd) as (d' & Hd' & Hget & Helem).
    { intros k' Hk'. rewrite dict_get_remove.
      rewrite decide_False by (intros ->; done). apply Hin. by right. }
    exists d'. split; [done|]. split.
    + intros k'. rewrite Hget, dict_get_remove.
      repeat case_decide; set_solver.
    + intros kv. rewrite Helem, dict_remove_elem, not_elem_of_cons. naive_solver.
Qed.

End py_facts.

(** ** [mark_used] *)

Section mark_used_facts.

Import SkillPool.


Lemma frame_refl br : frame br br.
Proof. by destruct br. Qed.

Lemma frame_trans br1 br2 br3 : frame br1 br2 → frame br2 br3 → frame br1 br3.
Proof. unfold frame. intros -> ->. by destruct br1. Qed.

Lemma frame_with_weights br ws total : frame br (Branch.with_weights br ws total).
Proof. by destruct br. Qed.

Lemma sum_weights_insert ws i w w' :
  ws !! i = Some w →
  (Branch.sum_weights (<[i:=w']> ws) == Branch.sum_weights ws - w + w')%Q.
Proof.
  revert i. induction ws as [|x ws IH]; intros [|i] H; simplify_eq/=.
  - ring.
  - rewrite (IH _ H). ring.
Qed.


Lemma theme_skill_hit order bi idx br t i w :
  Py.index t order = Some i → Branch.skill_weights br !! i = Some w →
  theme_skill order bi idx br t
  = Ok (Branch.with_weights br
          (<[i := themed_weight bi idx w]> (Branch.skill_weights br))
          (Branch.total_weight br - w + themed_weight bi idx w)%Q).
Proof.
  intros Hi Hw. unfold theme_skill. rewrite Hi.
  rewrite (proj2 (getitem_ok _ _ _) Hw). cbn [mbind result_bind].
  rewrite setitem_lt by (by eapply lookup_lt_Some). done.
Qed.

Lemma theme_skill_miss order bi idx br t :
  Py.index t order = None → theme_skill order bi idx br t = Ok br.
Proof. intros Hi. unfold theme_skill. by rewrite Hi. Qed.

Lemma theme_fold order bi idx ts : ∀ br,
  NoDup ts → (length order ≤ length (Branch.skill_weights br))%nat →
  ∃ br', Py.foldM (theme_skill order bi idx) br ts = Ok br'
    ∧ frame br br'
    ∧ length (Branch.skill_weights br') = length (Branch.skill_weights br)
    ∧ (∀ t i w, t ∈ ts → Py.index t order = Some i →
         Branch.skill_weights br !! i = Some w →
         Branch.skill_weights br' !! i = Some (themed_weight bi idx w))
    ∧ (∀ i, (∀ t, t ∈ ts → Py.index t order ≠ Some i) →
         Branch.skill_weights br' !! i = Branch.skill_weights br !! i)
    ∧ (drift br' == drift br)%Q.
Proof.
  induction ts as [|t ts IH]; intros br Hnd Hlen; cbn [Py.foldM].
  - exists br. split_and!; [done | apply frame_refl | done | | done | done].
    intros t i w Ht. by apply elem_of_nil in Ht.
  - apply NoDup_cons in Hnd as [Ht Hnd].
    destruct (Py.index t order) as [i|] eqn:Hi.
    + destruct (lookup_lt_is_Some_2 (Branch.skill_weights br) i) as [w Hw].
      { apply index_lt in Hi. lia. }
      rewrite (theme_skill_hit _ _ _ _ _ _ _ Hi Hw). cbn [mbind result_bind].
      set (br1 := Branch.with_weights _ _ _).
      destruct (IH br1 Hnd) as (br' & Hrun & Hfr & Hl & Hhit & Hmiss & Hdrift).
      { subst br1. destruct br. simpl in *. rewrite length_insert. done. }
      assert (Hws1 : Branch.skill_weights br1
                     = <[i := themed_weight bi idx w]> (Branch.skill_weights br))
        by (by destruct br).
      exists br'. split_and!.
      * done.
      * eapply frame_trans; [apply frame_with_weights | exact Hfr].
      * rewrite Hl, Hws1. apply length_insert.
      * intros t' i' w' Ht' Hi' Hw'. apply elem_of_cons in Ht' as [->|Ht'].
        -- assert (i' = i) as -> by congruence. assert (w' = w) as -> by congruence.
           rewrite Hmiss.
           ++ rewrite Hws1. apply list_lookup_insert_eq. by eapply lookup_lt_Some.
           ++ intros t2 Ht2 Hi2. assert (t2 = t) as -> by (by eapply index_inj). done.
        -- apply (Hhit t' i' w' Ht' Hi'). rewrite Hws1.
           rewrite list_lookup_insert_ne; [done|].
           intros <-. assert (t' = t) as -> by (by eapply index_inj). done.
      * intros i' Hno. rewrite Hmiss.
        -- rewrite Hws1. apply list_lookup_insert_ne. intros <-.
           eapply Hno; [left | done].
        -- intros t' Ht'. apply Hno. by right.
      * rewrite Hdrift. unfold drift. subst br1. destruct br. simpl in *.
        rewrite (sum_weights_insert _ _ _ _ Hw). ring.
    + rewrite (theme_skill_miss _ _ _ _ _ Hi). cbn [mbind result_bind].
      destruct (IH br Hnd Hlen) as (br' & Hrun & Hfr & Hl & Hhit & Hmiss & Hdrift).
      exists br'. split_and!; [done..| | |done].
      * intros t' i' w' Ht' Hi' Hw'. apply elem_of_cons in Ht' as [->|Ht'];
          [congruence | eauto].
      * intros i' Hno. apply Hmiss. intros t' Ht'. apply Hno. by right.
Qed.



Lemma theme_branches_spec order bi ts : ∀ brs idx,
  NoDup ts → wide_enough order brs →
  ∃ brs', theme_branches order bi ts idx brs = Ok brs'
    ∧ Forall2 frame brs brs'
    ∧ wide_enough order brs'
    ∧ ∀ b br br', brs !! b = Some br → brs' !! b = Some br' →
        length (Branch.skill_weights br') = length (Branch.skill_weights br)
        ∧ (∀ t i w, t ∈ ts → Py.index t order = Some i →
             Branch.skill_weights br !! i = Some w →
             Branch.skill_weights br' !! i = Some (themed_weight bi (idx + b) w))
        ∧ (∀ i, (∀ t, t ∈ ts → Py.index t order ≠ Some i) →
             Branch.skill_weights br' !! i = Branch.skill_weights br !! i)
        ∧ (drift br' == drift br)%Q.
Proof.
  induction brs as [|br brs IH]; intros idx Hnd Hwide; cbn [theme_branches].
  - exists []. split_and!; [done | constructor | constructor | done].
  - apply Forall_cons in Hwide as [Hbr Hwide].
    destruct (theme_fold order bi idx ts br Hnd Hbr)
      as (br' & -> & Hfr & Hl & Hhit & Hmiss & Hdrift).
    cbn [mbind result_bind].
    destruct (IH (S idx) Hnd Hwide) as (brs' & -> & Hfrs & Hwide' & Hall).
    cbn [mbind result_bind].
    exists (br' :: brs'). split_and!.
    + done.
    + by constructor.
    + constructor; [by rewrite Hl | done].
    + intros [|b] br0 br0' H0 H0'; simplify_eq/=.
      * rewrite Nat.add_0_r. done.
      * replace (idx + S b)%nat with (S idx + b)%nat by lia. by apply Hall.
Qed.

Lemma zero_weights_spec i : ∀ brs,
  Forall (λ br, (i < length (Branch.skill_weights br))%nat) brs →
  zero_weights i brs
  = Ok (map (λ br, Branch.with_weights br (<[i := 0%Q]> (Branch.skill_weights br))
                     (Branch.total_weight br)) brs).
Proof.
  induction brs as [|br brs IH]; intros Hall; cbn [zero_weights map]; [done|].
  apply Forall_cons in Hall as [Hbr Hall].
  rewrite (setitem_lt _ _ _ Hbr). cbn [mbind result_bind].
  rewrite (IH Hall). done.
Qed.


Lemma elem_of_themed dep hidden_skills t :
  t ∈ themed dep hidden_skills
  ↔ t ∈ Dependency.providers dep ∨ t ∈ Dependency.dependers dep
    ∨ (hidden_skills = "None" ∧ t ∈ Dependency.wanters dep).
Proof.
  unfold themed. case_decide; rewrite !elem_of_app; naive_solver.
Qed.

Lemma consume_dependency_miss self skill hidden_skills branch_idx :
  Py.dict_get (dependencies self) (Skill.full_name skill) = None →
  consume_dependency self skill hidden_skills branch_idx = Ok self.
Proof. intros H. unfold consume_dependency. by rewrite H. Qed.

(** What [consume_dependency] leaves alone. *)
Lemma consume_dependency_frame self skill hidden_skills branch_idx self' :
  consume_dependency self skill hidden_skills branch_idx = Ok self' →
  rng self' = rng self ∧ skills self' = skills self
  ∧ skill_order self' = skill_order self
  ∧ class_mod_skills self' = class_mod_skills self
  ∧ current_char_class self' = current_char_class self
  ∧ original_branches self' = original_branches self.
Proof.
  unfold consume_dependency.
  destruct (Py.dict_get _ _) as [dep|]; [|by intros [= <-]].
  intros H. apply bind_ok in H as (brs & _ & H).
  apply bind_ok in H as (deps & _ & H). by simplify_eq/=.
Qed.

Lemma retire_miss self skill :
  Py.index (Skill.full_name skill) (skill_order self) = None →
  retire self skill = Ok self.
Proof. intros H. unfold retire. by rewrite H. Qed.

End mark_used_facts.

(** ** How a run changes the pool *)

Section steady_facts.

Import SkillPool.

Lemma evolves_refl br : evolves br br.
Proof. split_and!; [apply frame_refl | done | eauto]. Qed.

Lemma evolves_trans br1 br2 br3 : evolves br1 br2 → evolves br2 br3 → evolves br1 br3.
Proof.
  intros (Hf1 & Hl1 & Hz1) (Hf2 & Hl2 & Hz2). split_and!.
  - by eapply frame_trans.
  - congruence.
  - intros i w Hw Hw0. destruct (Hz1 i w Hw Hw0) as (w1 & Hw1 & Hw10). eauto.
Qed.

Lemma Forall2_evolves_refl brs : Forall2 evolves brs brs.
Proof. apply Forall2_same_length_lookup. split; [done|]. intros; simplify_eq. apply evolves_refl. Qed.

Lemma Forall2_evolves_trans brs1 brs2 brs3 :
  Forall2 evolves brs1 brs2 → Forall2 evolves brs2 brs3 → Forall2 evolves brs1 brs3.
Proof.
  intros H1. revert brs3. induction H1; intros brs3 H2;
    inversion H2; subst; constructor; eauto using evolves_trans.
Qed.

Lemma steady_refl self : steady self self.
Proof. split_and!; [apply Forall2_evolves_refl | done..]. Qed.

Lemma steady_trans s1 s2 s3 : steady s1 s2 → steady s2 s3 → steady s1 s3.
Proof.
  intros (Hb1 & ? & ? & ? & ?) (Hb2 & ? & ? & ? & ?).
  split_and!; [by eapply Forall2_evolves_trans | congruence..].
Qed.

(** Writing one weight: the branch evolves as soon as a zero is not
    replaced by something else. *)
Lemma evolves_insert br i w' total :
  (∀ w, Branch.skill_weights br !! i = Some w → (w == 0)%Q → (w' == 0)%Q) →
  evolves br
    (Branch.with_weights br (<[i := w']> (Branch.skill_weights br)) total).
Proof.
  intros Hz. split_and!.
  - apply frame_with_weights.
  - destruct br; simpl. apply length_insert.
  - intros j w Hw Hw0. destruct br; simpl in *.
    destruct (decide (i = j)) as [->|Hne].
    + exists w'. split; [|by eapply Hz].
      apply list_lookup_insert_eq. by eapply lookup_lt_Some.
    + exists w. by rewrite list_lookup_insert_ne.
Qed.

Lemma themed_weight_zero bi idx w : (w == 0)%Q → (themed_weight bi idx w == 0)%Q.
Proof.
  intros Hw. unfold themed_weight. repeat case_decide; rewrite ?Hw; ring.
Qed.

Lemma theme_skill_evolves order bi idx br t br' :
  theme_skill order bi idx br t = Ok br' → evolves br br'.
Proof.
  unfold theme_skill. destruct (Py.index t order) as [i|]; [|intros [= <-]; apply evolves_refl].
  intros H. apply bind_ok in H as (w & Hw%getitem_ok & H).
  apply bind_ok in H as (ws & (Hlt & ->)%setitem_ok & [= <-]).
  apply evolves_insert. intros w0 Hw0 Hz. assert (w0 = w) as -> by congruence.
  by apply themed_weight_zero.
Qed.

Lemma theme_fold_evolves order bi idx ts : ∀ br br',
  Py.foldM (theme_skill order bi idx) br ts = Ok br' → evolves br br'.
Proof.
  induction ts as [|t ts IH]; intros br br'; cbn [Py.foldM].
  - intros [= <-]. apply evolves_refl.
  - intros H. apply bind_ok in H as (br1 & H1 & H).
    eapply evolves_trans; [by eapply theme_skill_evolves | by eapply IH].
Qed.

Lemma theme_branches_evolves order bi ts : ∀ brs idx brs',
  theme_branches order bi ts idx brs = Ok brs' → Forall2 evolves brs brs'.
Proof.
  induction brs as [|br brs IH]; intros idx brs'; cbn [theme_branches].
  - intros [= <-]. constructor.
  - intros H. apply bind_ok in H as (br1 & H1 & H).
    apply bind_ok in H as (brs1 & H2 & [= <-]).
    constructor; [by eapply theme_fold_evolves | by eapply IH].
Qed.

Lemma zero_weights_evolves i : ∀ brs brs',
  zero_weights i brs = Ok brs' →
  Forall2 evolves brs brs'
  ∧ Forall (λ br, ∃ w, Branch.skill_weights br !! i = Some w ∧ (w == 0)%Q) brs'.
Proof.
  induction brs as [|br brs IH]; intros brs'; cbn [zero_weights].
  - intros [= <-]. split; constructor.
  - intros H. apply bind_ok in H as (ws & (Hlt & ->)%setitem_ok & H).
    apply bind_ok in H as (brs1 & H2 & [= <-]).
    destruct (IH _ H2) as [Hev Hz]. split; constructor; try done.
    + apply evolves_insert. done.
    + exists 0%Q. split; [|done]. destruct br; simpl in *.
      by apply list_lookup_insert_eq.
Qed.

Lemma consume_dependency_steady self skill hs bi self' :
  consume_dependency self skill hs bi = Ok self' →
  steady self self' ∧ rng self' = rng self
  ∧ class_mod_skills self' = class_mod_skills self.
Proof.
  unfold consume_dependency.
  destruct (Py.dict_get _ _) as [dep|]; [|intros [= <-]; split; [apply steady_refl|done]].
  intros H. apply bind_ok in H as (brs & Hth & H).
  apply bind_ok in H as (deps & _ & [= <-]).
  split; [|done]. split_and!; try done. cbn [new_branches].
  by eapply theme_branches_evolves.
Qed.

Lemma retire_steady self skill self' :
  retire self skill = Ok self' →
  steady self self' ∧ rng self' = rng self
  ∧ dependencies self' = dependencies self
  ∧ extra_skills self' = extra_skills self.
Proof.
  unfold retire.
  destruct (Py.index _ _) as [i|]; [|intros [= <-]; split; [apply steady_refl|done]].
  intros H. apply bind_ok in H as (brs & Hz & [= <-]).
  apply zero_weights_evolves in Hz as [Hev _].
  destruct (Skill.is_upgradable skill); (split; [split_and!|]); done.
Qed.

Lemma mark_used_steady self skill hs bi skill' self' :
  mark_used self skill hs bi = Ok (skill', self') →
  skill' = skill ∧ steady self self' ∧ rng self' = rng self.
Proof.
  unfold mark_used. intros H.
  apply bind_ok in H as (s1 & H1 & H). apply bind_ok in H as (s2 & H2 & [= <- <-]).
  apply consume_dependency_steady in H1 as (? & ? & ?).
  apply retire_steady in H2 as (? & ? & ?).
  split_and!; [done | by eapply steady_trans | congruence].
Qed.


Lemma with_rng_with_rng self r1 r2 : with_rng (with_rng self r1) r2 = with_rng self r2.
Proof. done. Qed.

Lemma steady_with_rng self r : steady self (with_rng self r).
Proof. split_and!; [apply Forall2_evolves_refl | done..]. Qed.

(** *** Cheat weights *)

Lemma reweighted_trans b i s1 s2 s3 :
  reweighted b i s1 s2 → reweighted b i s2 s3 → reweighted b i s1 s3.
Proof.
  intros [->|(br & w1 & Hbr & Hlt & ->)]; [done|].
  intros [->|(br2 & w2 & Hbr2 & Hlt2 & ->)].
  - right. eauto 10.
  - right. exists br, w2. split_and!; [done..|].
    cbn in Hbr2.
    rewrite list_lookup_insert_eq in Hbr2 by (by eapply lookup_lt_Some).
    injection Hbr2 as <-. unfold with_new_branches. cbn.
    rewrite list_insert_insert_eq. do 2 f_equal.
    destruct br; cbn. by rewrite list_insert_insert_eq.
Qed.

Lemma set_weight_reweighted self b i w self' :
  set_weight self b i w = Ok self' → reweighted b i self self'.
Proof.
  unfold set_weight. intros H.
  apply bind_ok in H as (br & Hbr%getitem_ok & H).
  apply bind_ok in H as (ws & (Hlt & ->)%setitem_ok & [= <-]).
  right. eauto 10.
Qed.

Lemma cheat_other_branch_reweighted b tier ct i self j self' :
  cheat_other_branch b tier ct i self j = Ok self' → reweighted b i self self'.
Proof.
  unfold cheat_other_branch. intros H.
  apply bind_ok in H as (br & _ & H). apply bind_ok in H as (obr & _ & H).
  apply bind_ok in H as (w & _ & H).
  destruct (Qeq_bool w 0); [|injection H as <-; by left].
  case_decide.
  - by eapply set_weight_reweighted.
  - apply bind_ok in H as (w' & _ & H). by eapply set_weight_reweighted.
Qed.

Lemma cheat_others_reweighted b tier ct i js : ∀ self self',
  Py.foldM (cheat_other_branch b tier ct i) self js = Ok self' →
  reweighted b i self self'.
Proof.
  induction js as [|j js IH]; intros self self'; cbn [Py.foldM].
  - intros [= <-]. by left.
  - intros H. apply bind_ok in H as (s1 & H1 & H).
    eapply reweighted_trans; [by eapply cheat_other_branch_reweighted | by eapply IH].
Qed.

(** One cheat entry either is reported as unlisted, or changes at most
    the weight of the cheat in this branch, and only if it was not zero. *)
Lemma cheat_step_spec b tier self log cheat_name cheat_tier self' log' :
  cheat_step b tier (self, log) (cheat_name, cheat_tier) = Ok (self', log') →
  (Py.index cheat_name (skill_order self) = None ∧ self' = self
   ∧ log' = log ++ [Error (unlisted_message cheat_name)])
  ∨ (∃ i, Py.index cheat_name (skill_order self) = Some i ∧ log' = log
       ∧ reweighted b i self self'
       ∧ (self' = self
          ∨ ∃ br w, new_branches self !! b = Some br
              ∧ Branch.skill_weights br !! i = Some w ∧ ¬ (w == 0)%Q)).
Proof.
  cbn [cheat_step]. destruct (Py.index cheat_name (skill_order self)) as [i|] eqn:Hi;
    [|intros [= <- <-]; by left].
  intros H. right. exists i. split; [done|].
  apply bind_ok in H as (br & Hbr%getitem_ok & H).
  apply bind_ok in H as (w & Hw%getitem_ok & H).
  destruct (Qeq_bool w 0) eqn:Hw0.
  { injection H as <- <-. split_and!; [done | by left | by left]. }
  apply Qeq_bool_neq in Hw0.
  assert (Hnz : self' = self
     ∨ ∃ br w, new_branches self !! b = Some br
         ∧ Branch.skill_weights br !! i = Some w ∧ ¬ (w == 0)%Q) by (right; eauto).
  case_decide.
  { apply bind_ok in H as (s1 & H1 & [= <- <-]).
    split_and!; [done | by eapply set_weight_reweighted | done]. }
  apply bind_ok in H as (s1 & H1%cheat_others_reweighted & H).
  apply bind_ok in H as (br1 & _ & H).
  case_decide.
  - apply bind_ok in H as (s2 & Hs2%set_weight_reweighted & [= <- <-]).
    split_and!; [done | by eapply reweighted_trans | done].
  - apply bind_ok in H as (w' & _ & H).
    apply bind_ok in H as (s2 & Hs2%set_weight_reweighted & [= <- <-]).
    split_and!; [done | by eapply reweighted_trans | done].
Qed.

Lemma reweighted_steady b i self self' :
  reweighted b i self self' →
  self' = self
  ∨ (∃ br w, new_branches self !! b = Some br
       ∧ Branch.skill_weights br !! i = Some w ∧ ¬ (w == 0)%Q) →
  steady self self' ∧ rng self' = rng self
  ∧ dependencies self' = dependencies self
  ∧ extra_skills self' = extra_skills self
  ∧ class_mod_skills self' = class_mod_skills self.
Proof.
  intros [->|(br & w' & Hbr & Hlt & ->)] Hnz; [split; [apply steady_refl|done]|].
  split; [|done]. split_and!; try done.
  unfold with_new_branches; cbn [new_branches].
  apply Forall2_same_length_lookup. split; [by rewrite length_insert|].
  intros j br1 br2 H1 H2. destruct (decide (b = j)) as [->|Hne].
  - rewrite list_lookup_insert_eq in H2 by (by eapply lookup_lt_Some).
    simplify_eq. apply evolves_insert. intros w Hw Hw0.
    destruct Hnz as [Heq|(br' & w0 & Hbr' & Hw' & Hnz)].
    + apply (f_equal new_branches) in Heq. cbn in Heq.
      apply (f_equal (.!! j)) in Heq.
      rewrite list_lookup_insert_eq in Heq by (by eapply lookup_lt_Some).
      rewrite Hbr in Heq. injection Heq as Heq.
      apply (f_equal Branch.skill_weights) in Heq. destruct br; cbn in *.
      apply (f_equal (.!! i)) in Heq.
      rewrite list_lookup_insert_eq in Heq by done.
      rewrite Hw in Heq. by injection Heq as ->.
    + simplify_eq. done.
  - rewrite list_lookup_insert_ne in H2 by done. simplify_eq. apply evolves_refl.
Qed.

Lemma cheat_step_steady b tier self log cheat self' log' :
  cheat_step b tier (self, log) cheat = Ok (self', log') →
  steady self self' ∧ rng self' = rng self
  ∧ dependencies self' = dependencies self
  ∧ extra_skills self' = extra_skills self
  ∧ class_mod_skills self' = class_mod_skills self.
Proof.
  destruct cheat as [cheat_name cheat_tier]. intros H.
  apply cheat_step_spec in H as [(_ & -> & _)|(i & _ & _ & Hrw & Hnz)].
  - split; [apply steady_refl | done].
  - by eapply reweighted_steady.
Qed.

Lemma cheats_steady b tier cheats : ∀ self log self' log',
  Py.foldM (cheat_step b tier) (self, log) cheats = Ok (self', log') →
  steady self self' ∧ rng self' = rng self
  ∧ dependencies self' = dependencies self
  ∧ extra_skills self' = extra_skills self
  ∧ class_mod_skills self' = class_mod_skills self.
Proof.
  induction cheats as [|cheat cheats IH]; intros self log self' log'; cbn [Py.foldM].
  - intros [= <- <-]. split; [apply steady_refl | done].
  - intros H. apply bind_ok in H as ([s1 l1] & H1 & H).
    apply cheat_step_steady in H1 as (? & ? & ? & ? & ?).
    apply IH in H as (? & ? & ? & ? & ?).
    split_and!; [by eapply steady_trans | congruence..].
Qed.

End steady_facts.

(** ** Claims about [mark_used] *)

(** C1: when the drawn skill is a provider of a registered (unconsumed)
    Dependency whose themed list (providers, dependers, and wanters under
    the "None" policy) names no skill twice, the dependency block of
    [mark_used] succeeds and, in every branch, every themed skill found in
    [skill_order] has its weight multiplied by ACTION_WEIGHT when
    [branch_idx < 0], multiplied by THEME_WEIGHT in the drawing branch, and
    set to 0 in the other branches.  Afterwards no provider of the
    Dependency is a key of the registry, so the block is a no-op for any
    later provider draw, and the grants are appended to [extra_skills]. *)
Theorem consume_dependency_themes (self : SkillPool.t) (skill : Skill.t)
    (hidden_skills : string) (branch_idx : Z) (dep : Dependency.t) :
  Py.dict_get (SkillPool.dependencies self) (Skill.full_name skill) = Some dep →
  NoDup (SkillPool.themed dep hidden_skills) →
  Forall (λ p, is_Some (Py.dict_get (SkillPool.dependencies self) p))
    (Dependency.providers dep) →
  wide_enough (SkillPool.skill_order self) (SkillPool.new_branches self) →
  ∃ self',
    SkillPool.consume_dependency self skill hidden_skills branch_idx = Ok self'
    ∧ (∀ b br, SkillPool.new_branches self !! b = Some br →
         ∃ br', SkillPool.new_branches self' !! b = Some br'
           ∧ ∀ t i w,
               t ∈ Dependency.providers dep ∨ t ∈ Dependency.dependers dep
               ∨ (hidden_skills = "None" ∧ t ∈ Dependency.wanters dep) →
               Py.index t (SkillPool.skill_order self) = Some i →
               Branch.skill_weights br !! i = Some w →
               Branch.skill_weights br' !! i
               = Some (if decide (branch_idx < 0)
                       then (w * inject_Z ACTION_WEIGHT)%Q
                       else if decide (Z.of_nat b = branch_idx)
                            then (w * inject_Z THEME_WEIGHT)%Q
                            else 0%Q))
    ∧ (∀ p, p ∈ Dependency.providers dep →
         Py.dict_get (SkillPool.dependencies self') p = None)
    ∧ SkillPool.extra_skills self'
      = SkillPool.extra_skills self ++ Dependency.extra_skills dep
    ∧ (∀ skill' hidden_skills' branch_idx',
         Skill.full_name skill' ∈ Dependency.providers dep →
         SkillPool.consume_dependency self' skill' hidden_skills' branch_idx'
         = Ok self').
Proof.
  intros Hdep Hnd Hreg Hwide.
  destruct (theme_branches_spec (SkillPool.skill_order self) branch_idx
              (SkillPool.themed dep hidden_skills) (SkillPool.new_branches self)
              0%nat Hnd Hwide) as (brs' & Hrun & Hfr & _ & Hall).
  assert (Hndp : NoDup (Dependency.providers dep)).
  { unfold SkillPool.themed in Hnd. case_decide.
    - apply NoDup_app in Hnd as (Hnd & _ & _).
      by apply NoDup_app in Hnd as (Hnd & _ & _).
    - by apply NoDup_app in Hnd as (Hnd & _ & _). }
  destruct (dict_del_all (Dependency.providers dep) (SkillPool.dependencies self) Hndp)
    as (deps' & Hdel & Hget & _).
  { intros p Hp. by eapply Forall_forall in Hreg. }
  eexists. split_and!.
  - unfold SkillPool.consume_dependency. rewrite Hdep, Hrun.
    cbn [mbind result_bind]. rewrite Hdel. cbn [mbind result_bind]. done.
  - intros b br Hbr. cbn [SkillPool.new_branches].
    destruct (Forall2_lookup_l _ _ _ _ _ Hfr Hbr) as (br' & Hbr' & _).
    exists br'. split; [done|]. intros t i w Ht Hi Hw.
    destruct (Hall b br br' Hbr Hbr') as (_ & Hhit & _).
    rewrite (Hhit t i w); [done | by apply elem_of_themed | done | done].
  - intros p Hp. cbn [SkillPool.dependencies]. rewrite Hget. by rewrite decide_True.
  - done.
  - intros skill' hs' bi' Hp. apply consume_dependency_miss.
    cbn [SkillPool.dependencies]. rewrite Hget. by rewrite decide_True.
Qed.

(** C10: marking a skill whose full name is not in [skill_order] runs only
    the dependency block: [mark_used] is that block followed by returning
    the skill; when the skill is no registered provider either, the pool
    is returned as it was; and whenever the call returns, it returns the
    skill and leaves [class_mod_skills] and [skill_order] as they were. *)
Theorem mark_used_unlisted (self : SkillPool.t) (skill : Skill.t)
    (hidden_skills : string) (branch_idx : Z) :
  Py.index (Skill.full_name skill) (SkillPool.skill_order self) = None →
  SkillPool.mark_used self skill hidden_skills branch_idx
  = (self' ← SkillPool.consume_dependency self skill hidden_skills branch_idx;
     Ok (skill, self'))
  ∧ (Py.dict_get (SkillPool.dependencies self) (Skill.full_name skill) = None →
     SkillPool.mark_used self skill hidden_skills branch_idx = Ok (skill, self))
  ∧ (∀ skill' self',
       SkillPool.mark_used self skill hidden_skills branch_idx = Ok (skill', self') →
       skill' = skill
       ∧ SkillPool.class_mod_skills self' = SkillPool.class_mod_skills self
       ∧ SkillPool.skill_order self' = SkillPool.skill_order self).
Proof.
  intros Hidx.
  assert (Heq : SkillPool.mark_used self skill hidden_skills branch_idx
    = (self' ← SkillPool.consume_dependency self skill hidden_skills branch_idx;
       Ok (skill, self'))).
  { unfold SkillPool.mark_used.
    destruct (SkillPool.consume_dependency self skill hidden_skills branch_idx)
      as [self1| |] eqn:Hc; cbn [mbind result_bind]; [|done..].
    destruct (consume_dependency_frame _ _ _ _ _ Hc) as (_ & _ & Ho & _).
    rewrite retire_miss by (by rewrite Ho). done. }
  split_and!.
  - done.
  - intros Hdep. rewrite Heq, consume_dependency_miss by done. done.
  - intros skill' self' H. rewrite Heq in H.
    apply bind_ok in H as (self1 & Hc & [= <- <-]).
    destruct (consume_dependency_frame _ _ _ _ _ Hc) as (_ & _ & Ho & Hc' & _).
    done.
Qed.

Lemma consume_dependency_themes_witness :
  ∃ self',
    SkillPool.consume_dependency Example.pool Example.B "None" 1 = Ok self'
    ∧ SkillPool.extra_skills self' = ["G"]
    ∧ Py.dict_get (SkillPool.dependencies self') "B" = None
    ∧ ∃ br', SkillPool.new_branches self' !! 1%nat = Some br'
        ∧ Branch.skill_weights br' !! 1%nat = Some (1 * inject_Z THEME_WEIGHT)%Q.
Proof.
  destruct (consume_dependency_themes Example.pool Example.B "None" 1 Example.D)
    as (self' & Hrun & Hw & Hdel & Hextra & _).
  - reflexivity.
  - apply (bool_decide_unpack _). vm_compute. exact I.
  - repeat constructor. eexists. reflexivity.
  - repeat constructor.
  - exists self'. split_and!; [done | done | apply Hdel; left |].
    destruct (Hw 1%nat (Example.branch 1 4) eq_refl) as (br' & Hbr' & Hthemed).
    exists br'. split; [done|].
    apply (Hthemed "C" 1%nat 1%Q); [right; left; left | reflexivity | reflexivity].
Defined.

Lemma mark_used_unlisted_witness :
  Py.index (Skill.full_name Example.A) (SkillPool.skill_order Example.pool) = None
  ∧ SkillPool.mark_used Example.pool Example.A "None" (-1)
    = Ok (Example.A, Example.pool).
Proof.
  split; [reflexivity|].
  apply (mark_used_unlisted Example.pool Example.A "None" (-1)); reflexivity.
Defined.

(** The dependency block updates [total_weight] with every weight it
    changes: the gap between [total_weight] and the sum of the weights is
    the same before and after. *)
Lemma consume_dependency_keeps_drift (self : SkillPool.t) (skill : Skill.t)
    (hidden_skills : string) (branch_idx : Z) (dep : Dependency.t) self' :
  Py.dict_get (SkillPool.dependencies self) (Skill.full_name skill) = Some dep →
  NoDup (SkillPool.themed dep hidden_skills) →
  wide_enough (SkillPool.skill_order self) (SkillPool.new_branches self) →
  SkillPool.consume_dependency self skill hidden_skills branch_idx = Ok self' →
  Forall2 (λ br br', (drift br' == drift br)%Q)
    (SkillPool.new_branches self) (SkillPool.new_branches self').
Proof.
  intros Hdep Hnd Hwide Hrun.
  destruct (theme_branches_spec (SkillPool.skill_order self) branch_idx
              (SkillPool.themed dep hidden_skills) (SkillPool.new_branches self)
              0%nat Hnd Hwide) as (brs' & Hth & Hfr & _ & Hall).
  unfold SkillPool.consume_dependency in Hrun. rewrite Hdep, Hth in Hrun.
  cbn [mbind result_bind] in Hrun.
  apply bind_ok in Hrun as (deps & _ & [= <-]). cbn [SkillPool.new_branches].
  apply Forall2_same_length_lookup. split; [by eapply Forall2_length|].
  intros b br br' Hbr Hbr'. by destruct (Hall b br br' Hbr Hbr') as (_ & _ & _ & ?).
Qed.

(** C4 (the code departs from the claim): the zeroing that keeps a drawn
    skill from being picked twice does not touch [total_weight].  Drawing
    Z from the example pool, where every branch's [total_weight] is the sum
    of its weights, leaves every branch with [total_weight = 4] over
    weights that sum to 3. *)
Theorem mark_used_total_weight_stale :
  ∃ self',
    SkillPool.mark_used Example.pool (Example.skill "Z" 1) "None" 0
    = Ok (Example.skill "Z" 1, self')
    ∧ Forall (λ br, (Branch.total_weight br
                     == Branch.sum_weights (Branch.skill_weights br))%Q)
        (SkillPool.new_branches Example.pool)
    ∧ Forall (λ br, (Branch.total_weight br == 4)%Q
                    ∧ (Branch.sum_weights (Branch.skill_weights br) == 3)%Q
                    ∧ ¬ (Branch.total_weight br
                         == Branch.sum_weights (Branch.skill_weights br))%Q)
        (SkillPool.new_branches self').
Proof.
  eexists. split; [vm_compute; reflexivity|].
  split; repeat constructor; try (intros H; vm_compute in H; discriminate).
Qed.

(** ** Claims about the class-mod patcher *)

(** C9: with fewer than five upgradable skills [randomize_coms] returns at
    once: it takes no draw from the generator (no special class mod is
    chosen), pops no cheat skill, writes no slot of any class mod, and
    only adds the "Skipping class mod randomization" warning to the log. *)
Theorem randomize_coms_skips (self : ClassModPatcher.t) (skills : list Skill.t)
    (r : ClassModPatcher.run) (char_class : option string) :
  (length skills < 5)%nat →
  ∃ r', ClassModPatcher.randomize_coms self skills r char_class = Ok r'
    ∧ ClassModPatcher.rng r' = ClassModPatcher.rng r
    ∧ ClassModPatcher.cheat_skills r' = ClassModPatcher.cheat_skills r
    ∧ ClassModPatcher.engine r' = ClassModPatcher.engine r
    ∧ ClassModPatcher.log r'
      = ClassModPatcher.log r
        ++ [Warning (ClassModPatcher.skipping_message (length skills))].
Proof.
  intros Hlen. unfold ClassModPatcher.randomize_coms.
  rewrite decide_True by done. eexists. split_and!; reflexivity.
Qed.

Lemma randomize_coms_skips_witness :
  (length [Example.A; Example.B] < 5)%nat
  ∧ ∃ r', ClassModPatcher.randomize_coms ClassModPatcher.init
            [Example.A; Example.B]
            (ClassModPatcher.mk_run Example.tape [Example.B] Example.skill_tree [])
            (Some "X") = Ok r'
      ∧ ClassModPatcher.engine r' = Example.skill_tree
      ∧ ClassModPatcher.rng r' = Example.tape.
Proof.
  split; [simpl; lia|].
  destruct (randomize_coms_skips ClassModPatcher.init [Example.A; Example.B]
              (ClassModPatcher.mk_run Example.tape [Example.B] Example.skill_tree [])
              (Some "X")) as (r' & Hrun & Hrng & _ & Heng & _); [simpl; lia|].
  exists r'. split_and!; done.
Defined.

(** ** Drawing the skills of a tier *)

Section tier_facts.

Import SkillPool.

Lemma gt_spec a b : gt a b = true ↔ (b < a)%Q.
Proof.
  unfold gt. rewrite negb_true_iff. split.
  - intros H. apply Qnot_le_lt. intros Hle%Qle_bool_iff. congruence.
  - intros H. destruct (Qle_bool a b) eqn:E; [|done].
    apply Qle_bool_iff in E. lra.
Qed.

Lemma gt_false a b : gt a b = false ↔ (a <= b)%Q.
Proof.
  unfold gt. rewrite negb_false_iff. apply Qle_bool_iff.
Qed.

Lemma frac_range r : (0 <= Random.frac r < 1)%Q.
Proof.
  unfold Random.frac.
  pose proof (Qfloor_le r) as Hlo. pose proof (Qlt_floor r) as Hhi.
  rewrite inject_Z_plus in Hhi. change (inject_Z 1) with 1%Q in Hhi. lra.
Qed.

Lemma random_range rng r rng' :
  Random.random rng = Ok (r, rng') → (0 <= r < 1)%Q ∧ rng' = tail rng.
Proof.
  destruct rng as [|x rng]; [done|]. intros [= <- <-].
  split; [apply frac_range | done].
Qed.

Lemma choose_skill_count_spec d rng n rng' :
  choose_skill_count d rng = Ok (n, rng') → count_for d rng n.
Proof.
  unfold choose_skill_count, count_for.
  destruct (gt d (99 # 100)) eqn:H99.
  { apply gt_spec in H99. intros [= <- <-]. split_and!; intros; try done; lra. }
  apply gt_false in H99.
  destruct (gt d (66 # 100)) eqn:H66.
  { apply gt_spec in H66. intros H.
    apply bind_ok in H as ([r rng1] & Hr & H).
    pose proof (random_range _ _ _ Hr) as [Hrange _].
    split_and!; try (intros; lra).
    intros _ _. exists r, rng1. split_and!; try done; try lra.
    - intros Hlt. apply gt_spec in Hlt. rewrite Hlt in H. by injection H as <- _.
    - intros Hge. apply gt_false in Hge. rewrite Hge in H. by injection H as <- _. }
  apply gt_false in H66.
  destruct (gt d (33 # 100)) eqn:H33.
  { apply gt_spec in H33. intros H.
    apply bind_ok in H as ([r rng1] & Hr & H).
    pose proof (random_range _ _ _ Hr) as [Hrange _].
    split_and!; try (intros; lra).
    intros _ _. exists r, rng1. split_and!; try done; try lra.
    - intros Hlt. apply gt_spec in Hlt. rewrite Hlt in H. by injection H as <- _.
    - intros Hge. apply gt_false in Hge. rewrite Hge in H. by injection H as <- _. }
  apply gt_false in H33.
  destruct (gt d 0) eqn:H0.
  { apply gt_spec in H0. intros [= <- <-]. split_and!; intros; try done; lra. }
  apply gt_false in H0. intros [= <- <-]. split_and!; intros; try done; lra.
Qed.

Lemma choose_skill_count_range d rng n rng' :
  choose_skill_count d rng = Ok (n, rng') → 0 ≤ n ≤ 3.
Proof.
  unfold choose_skill_count. repeat case_match; intros Hrun;
    try (apply bind_ok in Hrun as ([r rng1] & _ & Hrun); case_match);
    injection Hrun as <- _; lia.
Qed.

Lemma frame_fields br br' :
  frame br br' →
  Branch.skills br' = Branch.skills br
  ∧ Branch.points_to_unlock br' = Branch.points_to_unlock br
  ∧ Branch.layout br' = Branch.layout br
  ∧ Branch.idx br' = Branch.idx br
  ∧ Branch.slots_left br' = Branch.slots_left br
  ∧ Branch.expected_skills br' = Branch.expected_skills br
  ∧ Branch.skill_count br' = Branch.skill_count br
  ∧ Branch.full_name br' = Branch.full_name br
  ∧ Branch.layout_name br' = Branch.layout_name br.
Proof. unfold frame. intros ->. by destruct br. Qed.

Lemma get_next_skill_loop_steady hs bi : ∀ fuel self skill self',
  get_next_skill_loop fuel self hs bi = Ok (skill, self') → steady self self'.
Proof.
  induction fuel as [|fuel IH]; intros self skill self'; cbn [get_next_skill_loop]; [done|].
  intros H. apply bind_ok in H as (br & _ & H).
  apply bind_ok in H as ([name rng1] & _ & H).
  case_decide.
  { apply bind_ok in H as (sk & _ & H). apply mark_used_steady in H as (_ & H & _).
    eapply steady_trans; [apply steady_with_rng | exact H]. }
  destruct (List.find _ _) as [dep|].
  - apply bind_ok in H as ([name2 rng2] & _ & H).
    cbn [skills with_rng] in H.
    destruct (skills self !! name2) as [sk|].
    + apply mark_used_steady in H as (_ & H & _).
      eapply steady_trans; [apply (steady_with_rng self rng2) | exact H].
    + apply IH in H. eapply steady_trans; [apply (steady_with_rng self rng2) | exact H].
  - apply bind_ok in H as (sk & _ & H). apply mark_used_steady in H as (_ & H & _).
    eapply steady_trans; [apply steady_with_rng | exact H].
Qed.

Lemma draw_skills_steady hs bi : ∀ n d d',
  draw_skills n hs bi d = Ok d' → steady (pool d) (pool d').
Proof.
  induction n as [|n IH]; intros d d'; cbn [draw_skills].
  - intros [= <-]. apply steady_refl.
  - intros H. apply bind_ok in H as ([sk s1] & H1 & H).
    apply get_next_skill_loop_steady in H1. apply IH in H.
    by eapply steady_trans.
Qed.

Lemma steady_lookup self self' b br :
  steady self self' → new_branches self !! b = Some br →
  ∃ br', new_branches self' !! b = Some br' ∧ evolves br br'.
Proof. intros (Hbrs & _) Hbr. by eapply Forall2_lookup_l. Qed.

End tier_facts.

(** ** Claims about [randomize_branch_tier] *)

(** C6: a call of [randomize_branch_tier] that returns has chosen the
    skill count of the tier from
    [expected_density = (expected_skills - skill_count) / slots_left] of
    the branch by the fixed thresholds ([count_for]: above 0.99 three;
    above 0.66 three when the next draw falls below [3 * (density - 0.66)]
    and two otherwise; above 0.33 two when the draw falls below
    [3 * (density - 0.33)] and one otherwise; above 0 one; else none), has
    added it to the branch's [skill_count], and has written a mirrored
    layout for the tier: the two outer slots are equal and occupied
    exactly when the count exceeds 1, the centre slot is occupied exactly
    when the count is odd. *)
Theorem randomize_branch_tier_density (self : SkillPool.t) (log : list log_entry)
    (b tier : nat) (randomize_tiers : bool) (hidden_skills : string)
    (cheats : list (string * Z)) (self' : SkillPool.t) (log' : list log_entry)
    (br : Branch.t) :
  SkillPool.randomize_branch_tier self log b tier randomize_tiers hidden_skills
    cheats = Ok (self', log') →
  SkillPool.new_branches self !! b = Some br →
  ∃ br' skill_count outer centre,
    SkillPool.new_branches self' !! b = Some br'
    ∧ count_for
        (inject_Z (Branch.expected_skills br - Branch.skill_count br)
         / inject_Z (Branch.slots_left br))%Q
        (SkillPool.rng self) skill_count
    ∧ Branch.skill_count br' = Branch.skill_count br + skill_count
    ∧ Branch.layout br' !! tier = Some [outer; centre; outer]
    ∧ (outer = true ↔ 1 < skill_count)
    ∧ (centre = true ↔ Z.odd skill_count = true).
Proof.
  intros H Hbr. unfold SkillPool.randomize_branch_tier in H.
  apply bind_ok in H as ([s1 l1] & Hcheats & H).
  apply cheats_steady in Hcheats as (Hst1 & Hrng1 & _).
  apply bind_ok in H as (s2 & H & [= <- <-]).
  unfold SkillPool.place_skills in H.
  apply bind_ok in H as (br1 & Hbr1%getitem_ok & H).
  destruct (steady_lookup _ _ _ _ Hst1 Hbr) as (br1' & Hbr1' & (Hfr1 & _)).
  assert (br1' = br1) as -> by congruence.
  apply frame_fields in Hfr1 as (_ & _ & _ & _ & Hsl & Hex & Hsc & _).
  apply bind_ok in H as (density & Hd & H).
  apply bind_ok in H as ([n rng1] & Hn & H).
  apply bind_ok in H as (d & Hdraw%draw_skills_steady & H).
  cbn [SkillPool.pool] in Hdraw.
  apply bind_ok in H as (br2 & Hbr2%getitem_ok & H).
  apply bind_ok in H as (layout' & (Hlt & ->)%setitem_ok & H).
  apply bind_ok in H as (skills' & (Hlts & ->)%setitem_ok & H).
  apply bind_ok in H as ([points rng2] & _ & H).
  apply bind_ok in H as (points' & _ & H).
  assert (Hb2 : (b < length (SkillPool.new_branches (SkillPool.pool d)))%nat)
    by (by eapply lookup_lt_Some).
  destruct (steady_lookup _ _ _ _ Hdraw Hbr1) as (br2' & Hbr2' & (Hfr2 & _)).
  cbn [SkillPool.new_branches SkillPool.with_rng] in Hbr2'.
  assert (br2' = br2) as -> by congruence.
  apply frame_fields in Hfr2 as (_ & _ & _ & _ & _ & _ & Hsc2 & _).
  unfold SkillPool.div in Hd. destruct (Qeq_bool _ _); [done|]. injection Hd as <-.
  rewrite Hsl, Hex, Hsc, Hrng1 in Hn.
  pose proof (choose_skill_count_range _ _ _ _ Hn) as Hrange.
  apply choose_skill_count_spec in Hn.
  assert (Hodd : Z.land n 1 > 0 ↔ Z.odd n = true).
  { assert (n = 0 ∨ n = 1 ∨ n = 2 ∨ n = 3) as Hn4 by lia.
    destruct Hn4 as [Hn4|[Hn4|[Hn4|Hn4]]]; subst n; by compute. }
  case_decide.
  - destruct (SkillPool.get_extra_skills _) as [extra s3] eqn:Hextra.
    apply bind_ok in H as (tier5 & _ & [= <-]).
    eexists _, n, _, _. split_and!.
    + cbn [SkillPool.new_branches SkillPool.with_new_branches].
      apply list_lookup_insert_eq.
      injection Hextra as _ <-. done.
    + done.
    + cbn. congruence.
    + cbn. unfold SkillPool.tier_layout. by apply list_lookup_insert_eq.
    + rewrite bool_decide_eq_true. lia.
    + rewrite bool_decide_eq_true. done.
  - injection H as <-.
    eexists _, n, _, _. split_and!.
    + cbn [SkillPool.new_branches SkillPool.with_new_branches].
      by apply list_lookup_insert_eq.
    + done.
    + cbn. congruence.
    + cbn. unfold SkillPool.tier_layout. by apply list_lookup_insert_eq.
    + rewrite bool_decide_eq_true. lia.
    + rewrite bool_decide_eq_true. done.
Qed.

Lemma randomize_branch_tier_density_witness :
  ∃ br' skill_count outer centre,
    SkillPool.new_branches (Example.after_tier).1 !! 0%nat = Some br'
    ∧ count_for (inject_Z (4 - 0) / inject_Z 18)%Q Example.tape skill_count
    ∧ Branch.skill_count br' = 0 + skill_count
    ∧ Branch.layout br' !! 0%nat = Some [outer; centre; outer]
    ∧ (outer = true ↔ 1 < skill_count)
    ∧ (centre = true ↔ Z.odd skill_count = true).
Proof.
  apply (randomize_branch_tier_density Example.pool [] 0 0 false "None" []
           (Example.after_tier).1 (Example.after_tier).2 (Example.branch 0 4)).
  - vm_compute. reflexivity.
  - reflexivity.
Defined.

(** ** Claims about [randomize_tree] *)

Lemma skills_add_dependencies deps : ∀ self,
  SkillPool.skills (foldl SkillPool.add_dependency self deps) = SkillPool.skills self.
Proof.
  induction deps as [|d deps IH]; intros self; [done|].
  cbn [foldl]. by rewrite IH.
Qed.

(** For each of the three values the option offers, [gather] adds the
    passive and the misdocumented skills and never the suppressed ones:
    the comparisons are against "none" and "all", in lower case. *)
Lemma gather_offered_policies catalog hidden_skills self log current char
    source_char :
  hidden_skills ∈ ["None"; "Misdocumented"; "All"] →
  catalog !! char = Some source_char →
  SkillPool.skills (SkillPool.gather catalog hidden_skills (self, log, current) char).1.1
  = SkillPool.skills
      (SkillPool.add_skills
         (SkillPool.add_skills self (Character.pure_skills source_char))
         (Character.misdocumented_skills source_char)).
Proof.
  intros Hhs Hchar. unfold SkillPool.gather. rewrite Hchar.
  assert (hidden_skills ≠ "none" ∧ hidden_skills ≠ "all") as [Hn Ha].
  { set_solver. }
  rewrite decide_True by done. rewrite decide_False by done.
  cbn [fst]. apply skills_add_dependencies.
Qed.

(** C3 (the code departs from the claim): with the policy "None" the
    misdocumented skill M of the example character is in the active skill
    set, and with the policy "All" its suppressed skill S is not. *)
Theorem hidden_skills_case_mismatch :
  (∃ self log tree,
     SkillPool.randomize_tree (SkillPool.init Example.tape) [] Example.skill_tree
       Example.catalog ["Xavier"] "None" "Default" 30 false []
     = Ok (self, log, tree)
     ∧ "M" ∈ SkillPool.skill_order self
     ∧ is_Some (SkillPool.skills self !! "M"))
  ∧ (∃ self log tree,
       SkillPool.randomize_tree (SkillPool.init Example.tape) [] Example.skill_tree
         Example.catalog ["Xavier"] "All" "Default" 30 false []
       = Ok (self, log, tree)
       ∧ "S" ∉ SkillPool.skill_order self
       ∧ SkillPool.skills self !! "S" = None).
Proof.
  split.
  - eexists _, _, _. split; [vm_compute; reflexivity|]. split.
    + cbn [SkillPool.skill_order]. set_solver.
    + vm_compute. eauto.
  - eexists _, _, _. split; [vm_compute; reflexivity|]. split.
    + cbn [SkillPool.skill_order]. set_solver.
    + vm_compute. reflexivity.
Qed.

(** C5, as the claim states it, fails: the cheat Q is in no pool, yet the
    attempt returns, with an error in the log, and the skill tree has
    been written. *)
Lemma absent_cheat_is_not_fatal :
  ∃ self log tree,
    SkillPool.randomize_tree (SkillPool.init Example.tape) [] Example.skill_tree
      Example.catalog ["Xavier"] "None" "Default" 30 false [("Q", 2)]
    = Ok (self, log, tree)
    ∧ Py.index "Q" (SkillPool.skill_order self) = None
    ∧ Error (SkillPool.unlisted_message "Q") ∈ log
    ∧ tree ≠ Example.skill_tree.
Proof.
  eexists _, _, _. split; [vm_compute; reflexivity|]. split_and!.
  - reflexivity.
  - left.
  - discriminate.
Qed.

Section cheat_log.

Import SkillPool.

Lemma foldM_app {A B} (f : A → B → result A) xs ys : ∀ a,
  Py.foldM f a (xs ++ ys) = (a' ← Py.foldM f a xs; Py.foldM f a' ys).
Proof.
  induction xs as [|x xs IH]; intros a; cbn [Py.foldM app]; [done|].
  destruct (f a x); cbn [mbind result_bind]; [apply IH | done | done].
Qed.

(** The log is only written: a cheat entry does to the pool what it does
    with an empty log, and appends its entries to the log it is given. *)
Lemma cheat_step_log b tier self log cheat :
  cheat_step b tier (self, log) cheat
  = ('(self', entries) ← cheat_step b tier (self, []) cheat;
     Ok (self', log ++ entries)).
Proof.
  destruct cheat as [cheat_name cheat_tier]. cbn [cheat_step].
  destruct (Py.index cheat_name (skill_order self)); [|done].
  destruct (Py.getitem (new_branches self) b); cbn [mbind result_bind]; [|done..].
  destruct (Py.getitem _ _); cbn [mbind result_bind]; [|done..].
  destruct (Qeq_bool _ _); [cbn; by rewrite app_nil_r|].
  case_decide.
  { destruct (set_weight _ _ _ _); cbn; [by rewrite app_nil_r | done..]. }
  destruct (Py.foldM _ _ _); cbn [mbind result_bind]; [|done..].
  destruct (Py.getitem _ _); cbn [mbind result_bind]; [|done..].
  case_decide.
  { destruct (set_weight _ _ _ _); cbn; [by rewrite app_nil_r | done..]. }
  destruct (div _ _); cbn [mbind result_bind]; [|done..].
  destruct (set_weight _ _ _ _); cbn; [by rewrite app_nil_r | done..].
Qed.

Lemma cheats_log b tier cheats : ∀ self log,
  Py.foldM (cheat_step b tier) (self, log) cheats
  = ('(self', entries) ← Py.foldM (cheat_step b tier) (self, []) cheats;
     Ok (self', log ++ entries)).
Proof.
  induction cheats as [|cheat cheats IH]; intros self log; cbn [Py.foldM].
  - cbn. by rewrite app_nil_r.
  - rewrite (cheat_step_log _ _ _ log).
    destruct (cheat_step b tier (self, []) cheat) as [[s1 es1]| |];
      cbn [mbind result_bind]; [|done..].
    rewrite (IH s1 (log ++ es1)), (IH s1 es1).
    destruct (Py.foldM _ (s1, []) cheats) as [[s2 es2]| |];
      cbn [mbind result_bind]; [|done..].
    by rewrite app_assoc.
Qed.

Lemma cheats_skill_order b tier cheats self log self' log' :
  Py.foldM (cheat_step b tier) (self, log) cheats = Ok (self', log') →
  skill_order self' = skill_order self.
Proof. intros H. by apply cheats_steady in H as ((_ & ? & _) & _). Qed.

End cheat_log.

(** C5, amended: a forced skill that is not in the pool is reported and
    otherwise ignored.  Whatever the other cheats are, and whether the
    call returns or raises, [randomize_branch_tier] does to the pool what
    it does without that cheat; when it returns, the error "Desired skill
    ... is not in the pool." is in the log. *)
Theorem absent_cheat_is_logged (self : SkillPool.t) (log : list log_entry)
    (b tier : nat) (randomize_tiers : bool) (hidden_skills : string)
    (cheats1 cheats2 : list (string * Z)) (cheat_name : string) (cheat_tier : Z) :
  Py.index cheat_name (SkillPool.skill_order self) = None →
  fst <$> SkillPool.randomize_branch_tier self log b tier randomize_tiers
            hidden_skills (cheats1 ++ (cheat_name, cheat_tier) :: cheats2)
  = fst <$> SkillPool.randomize_branch_tier self log b tier randomize_tiers
              hidden_skills (cheats1 ++ cheats2)
  ∧ ∀ self' log',
      SkillPool.randomize_branch_tier self log b tier randomize_tiers
        hidden_skills (cheats1 ++ (cheat_name, cheat_tier) :: cheats2)
      = Ok (self', log') →
      Error (SkillPool.unlisted_message cheat_name) ∈ log'.
Proof.
  intros Hidx. unfold SkillPool.randomize_branch_tier. rewrite !foldM_app.
  destruct (Py.foldM _ (self, log) cheats1) as [[s1 l1]| |] eqn:H1;
    cbn [mbind result_bind]; [|done..].
  apply cheats_skill_order in H1. cbn [Py.foldM SkillPool.cheat_step].
  rewrite H1, Hidx. cbn [mbind result_bind].
  rewrite (cheats_log _ _ _ s1 (l1 ++ _)), (cheats_log _ _ _ s1 l1).
  destruct (Py.foldM _ (s1, []) cheats2) as [[s2 es]| |];
    cbn [mbind result_bind]; [|done..].
  destruct (SkillPool.place_skills s2 b tier randomize_tiers hidden_skills);
    cbn [mbind result_bind]; [|done..].
  split; [done|]. intros self' log' [= <- <-].
  rewrite !elem_of_app. left. right. left.
Qed.

Lemma absent_cheat_is_logged_witness :
  Py.index "Q" (SkillPool.skill_order Example.pool) = None
  ∧ fst <$> SkillPool.randomize_branch_tier Example.pool [] 0 0 false "None"
              ([("Z", 3)] ++ ("Q", 2) :: [])
    = fst <$> SkillPool.randomize_branch_tier Example.pool [] 0 0 false "None"
                ([("Z", 3)] ++ []).
Proof.
  split; [reflexivity|].
  apply (absent_cheat_is_logged Example.pool [] 0 0 false "None"
           [("Z", 3)] [] "Q" 2). reflexivity.
Defined.

(** ** The generator is one stream *)

Section stream_facts.

Import SkillPool.

Lemma random_suffix rng r rng' :
  Random.random rng = Ok (r, rng') → rng' `suffix_of` rng.
Proof. destruct rng; [done|]. intros [= <- <-]. by apply suffix_cons_r. Qed.

Lemma choice_suffix {A} rng (seq : list A) x rng' :
  Random.choice rng seq = Ok (x, rng') → rng' `suffix_of` rng.
Proof.
  unfold Random.choice. destruct seq; [done|]. intros Hrun.
  apply bind_ok in Hrun as ([r rng1] & Hr%random_suffix & Hrun).
  apply bind_ok in Hrun as (y & _ & [= <- <-]). done.
Qed.

Lemma choices_suffix {A} rng (pop : list A) ws x rng' :
  Random.choices rng pop ws = Ok (x, rng') → rng' `suffix_of` rng.
Proof.
  unfold Random.choices. case_decide; [done|]. destruct (last _); [|done].
  destruct (Qle_bool _ _); [done|]. intros Hrun.
  apply bind_ok in Hrun as ([r rng1] & Hr%random_suffix & Hrun).
  apply bind_ok in Hrun as (y & _ & [= <- <-]). done.
Qed.

Lemma randint_suffix rng a b n rng' :
  Random.randint rng a b = Ok (n, rng') → rng' `suffix_of` rng.
Proof.
  unfold Random.randint. case_decide; [done|]. intros Hrun.
  apply bind_ok in Hrun as ([r rng1] & Hr%random_suffix & [= <- <-]). done.
Qed.

Lemma get_next_skill_loop_suffix hs bi : ∀ fuel self skill self',
  get_next_skill_loop fuel self hs bi = Ok (skill, self') →
  rng self' `suffix_of` rng self.
Proof.
  induction fuel as [|fuel IH]; intros self skill self'; cbn [get_next_skill_loop]; [done|].
  intros Hrun. apply bind_ok in Hrun as (br & _ & Hrun).
  apply bind_ok in Hrun as ([name rng1] & H1%choices_suffix & Hrun).
  case_decide.
  { apply bind_ok in Hrun as (sk & _ & Hrun). apply mark_used_steady in Hrun as (_ & _ & ->). done. }
  destruct (List.find _ _) as [dep|].
  - apply bind_ok in Hrun as ([name2 rng2] & H2%choice_suffix & Hrun).
    cbn [skills with_rng rng] in Hrun, H2.
    destruct (skills self !! name2) as [sk|].
    + apply mark_used_steady in Hrun as (_ & _ & ->). cbn. by etrans.
    + apply IH in Hrun. cbn in Hrun. etrans; [exact Hrun|]. by etrans.
  - apply bind_ok in Hrun as (sk & _ & Hrun). apply mark_used_steady in Hrun as (_ & _ & ->). done.
Qed.

Lemma draw_skills_suffix hs bi : ∀ n d d',
  draw_skills n hs bi d = Ok d' → rng (pool d') `suffix_of` rng (pool d).
Proof.
  induction n as [|n IH]; intros d d'; cbn [draw_skills].
  - by intros [= <-].
  - intros Hrun. apply bind_ok in Hrun as ([sk s1] & H1%get_next_skill_loop_suffix & Hrun).
    apply IH in Hrun. cbn in Hrun. by etrans.
Qed.

Lemma choose_skill_count_suffix d rng n rng' :
  choose_skill_count d rng = Ok (n, rng') → rng' `suffix_of` rng.
Proof.
  unfold choose_skill_count. repeat case_match; intros Hrun;
    try (apply bind_ok in Hrun as ([r rng1] & Hr%random_suffix & Hrun));
    by injection Hrun as _ <-.
Qed.

Lemma place_skills_suffix self b tier rt hs self' :
  place_skills self b tier rt hs = Ok self' → rng self' `suffix_of` rng self.
Proof.
  unfold place_skills. intros Hrun.
  apply bind_ok in Hrun as (br1 & _ & Hrun). apply bind_ok in Hrun as (density & _ & Hrun).
  apply bind_ok in Hrun as ([n rng1] & Hn%choose_skill_count_suffix & Hrun).
  apply bind_ok in Hrun as (d & Hd%draw_skills_suffix & Hrun). cbn in Hd.
  apply bind_ok in Hrun as (br2 & _ & Hrun). apply bind_ok in Hrun as (layout' & _ & Hrun).
  apply bind_ok in Hrun as (skills' & _ & Hrun).
  apply bind_ok in Hrun as ([points rng2] & Hp & Hrun).
  assert (rng2 `suffix_of` rng (pool d)).
  { destruct rt; [by eapply randint_suffix | by injection Hp as _ <-]. }
  apply bind_ok in Hrun as (points' & _ & Hrun).
  assert (rng self' = rng2) as ->.
  { case_decide.
    - destruct (get_extra_skills _) as [extra s3] eqn:He. injection He as _ <-.
      apply bind_ok in Hrun as (t5 & _ & [= <-]). done.
    - by injection Hrun as <-. }
  etrans; [done|]. by etrans.
Qed.

Lemma randomize_branch_tier_suffix self log b tier rt hs cheats self' log' :
  randomize_branch_tier self log b tier rt hs cheats = Ok (self', log') →
  rng self' `suffix_of` rng self.
Proof.
  unfold randomize_branch_tier. intros Hrun.
  apply bind_ok in Hrun as ([s1 l1] & (_ & Hr & _)%cheats_steady & Hrun).
  apply bind_ok in Hrun as (s2 & H2%place_skills_suffix & [= <- <-]). by rewrite <-Hr.
Qed.

Lemma randomize_tier_suffix rt hs cheats tier : ∀ bs self log self' log',
  Py.foldM
    (λ '(self, log) b, randomize_branch_tier self log b tier rt hs cheats)
    (self, log) bs = Ok (self', log') →
  rng self' `suffix_of` rng self.
Proof.
  induction bs as [|b bs IH]; intros self log self' log'; cbn [Py.foldM].
  - by intros [= <- <-].
  - intros Hrun. apply bind_ok in Hrun as ([s1 l1] & H1 & Hrun).
    apply randomize_branch_tier_suffix in H1.
    apply IH in Hrun. exact (transitivity Hrun H1).
Qed.

Lemma randomize_tiers_suffix rt hs cheats : ∀ tiers self log self' log',
  Py.foldM (randomize_tier rt hs cheats) (self, log) tiers = Ok (self', log') →
  rng self' `suffix_of` rng self.
Proof.
  induction tiers as [|tier tiers IH]; intros self log self' log'; cbn [Py.foldM].
  - by intros [= <- <-].
  - intros Hrun. apply bind_ok in Hrun as ([s1 l1] & H1 & Hrun).
    unfold randomize_tier in H1. apply randomize_tier_suffix in H1.
    apply IH in Hrun. exact (transitivity Hrun H1).
Qed.

Lemma rng_add_dependencies deps : ∀ self,
  rng (foldl add_dependency self deps) = rng self.
Proof.
  induction deps as [|d deps IH]; intros self; [done|].
  cbn [foldl]. by rewrite IH.
Qed.

Lemma gather_step_rng catalog hs self log cur c :
  rng (gather catalog hs (self, log, cur) c).1.1 = rng self.
Proof.
  unfold gather. destruct (catalog !! c) as [sc|]; [|done].
  cbn [fst]. rewrite rng_add_dependencies. by repeat case_decide.
Qed.

Lemma gather_rng catalog hs : ∀ chars self log cur,
  rng (foldl (gather catalog hs) (self, log, cur) chars).1.1 = rng self.
Proof.
  induction chars as [|c chars IH]; intros self log cur; [done|].
  cbn [foldl].
  destruct (gather catalog hs (self, log, cur) c) as [[s1 l1] c1] eqn:Hg.
  rewrite IH. by rewrite <-(gather_step_rng catalog hs self log cur c), Hg.
Qed.

End stream_facts.

Section stream_facts2.

Lemma random_char_suffix catalog enabled self c self' :
  SkillPool.random_char catalog enabled self = Ok (c, self') →
  SkillPool.rng self' `suffix_of` SkillPool.rng self.
Proof.
  unfold SkillPool.random_char. intros Hrun.
  by apply bind_ok in Hrun as ([ch rng1] & H1%choice_suffix & [= <- <-]).
Qed.

Lemma desired_character_suffix catalog enabled action cur self log c self' log' :
  SkillPool.desired_character catalog enabled action cur self log
  = Ok (c, self', log') →
  SkillPool.rng self' `suffix_of` SkillPool.rng self.
Proof.
  unfold SkillPool.desired_character. intros Hrun.
  repeat case_match; simplify_eq; try done;
    by apply bind_ok in Hrun as ([c1 s1] & Hch%random_char_suffix & [= <- <- <-]).
Qed.

Lemma randomize_tree_suffix self log tree catalog enabled hs action density rt
    cheats self' log' tree' :
  SkillPool.randomize_tree self log tree catalog enabled hs action density rt cheats
  = Ok (self', log', tree') →
  SkillPool.rng self' `suffix_of` SkillPool.rng self.
Proof.
  unfold SkillPool.randomize_tree. intros Hrun.
  destruct (foldl _ _ enabled) as [[s1 l1] cur] eqn:Hg.
  assert (Hr1 : SkillPool.rng s1 = SkillPool.rng self).
  { pose proof (gather_rng catalog hs enabled
      (SkillPool.with_current_char_class self
         (class_from_obj_name (Engine.root_path_name tree))) log None) as Hr.
    by rewrite Hg in Hr. }
  apply bind_ok in Hrun as ([[c s2] l2] & H2%desired_character_suffix & Hrun).
  unfold SkillPool.with_skill_order in H2. cbn [SkillPool.rng] in H2.
  rewrite Hr1 in H2.
  apply bind_ok in Hrun as (st & _ & Hrun).
  apply bind_ok in Hrun as (dc & _ & Hrun).
  apply bind_ok in Hrun as (action' & _ & Hrun).
  apply bind_ok in Hrun as ([a s3] & (_ & _ & H3)%mark_used_steady & Hrun).
  unfold SkillPool.with_new_branches, SkillPool.with_original_branches in H3.
  cbn [SkillPool.rng] in H3.
  apply bind_ok in Hrun as ([s4 l4] & H4%randomize_tiers_suffix & [= <- <- <-]).
  rewrite H3 in H4. exact (transitivity H4 H2).
Qed.

Lemma special_com_suffix coms n : ∀ fuel rng name rng',
  ClassModPatcher.special_com fuel coms n rng = Ok (name, rng') →
  rng' `suffix_of` rng.
Proof.
  induction fuel as [|fuel IH]; intros rng name rng'; cbn [ClassModPatcher.special_com];
    [done|].
  intros Hrun. apply bind_ok in Hrun as ([nm rng1] & H1%choice_suffix & Hrun).
  destruct (String.prefix _ _).
  { apply IH in Hrun. exact (transitivity Hrun H1). }
  apply bind_ok in Hrun as (slots & _ & Hrun).
  repeat case_decide; try (apply IH in Hrun; exact (transitivity Hrun H1));
    by injection Hrun as _ <-.
Qed.

Lemma unused_skill_suffix skills used : ∀ fuel rng skill rng',
  ClassModPatcher.unused_skill fuel skills used rng = Ok (skill, rng') →
  rng' `suffix_of` rng.
Proof.
  induction fuel as [|fuel IH]; intros rng skill rng'; cbn [ClassModPatcher.unused_skill];
    [done|].
  intros Hrun. apply bind_ok in Hrun as ([sk rng1] & H1%choice_suffix & Hrun).
  case_decide; [apply IH in Hrun; exact (transitivity Hrun H1) | by injection Hrun as _ <-].
Qed.

Lemma fill_slot_suffix skills special i r used k r' used' :
  ClassModPatcher.fill_slot skills special i (r, used) k = Ok (r', used') →
  ClassModPatcher.rng r' `suffix_of` ClassModPatcher.rng r.
Proof.
  unfold ClassModPatcher.fill_slot. intros Hrun.
  apply bind_ok in Hrun as ([sk r1] & H1 & Hrun).
  apply bind_ok in Hrun as (e & _ & [= <- <-]). cbn.
  destruct special, (ClassModPatcher.cheat_skills r); try (by injection H1 as _ <-);
    by apply bind_ok in H1 as ([sk1 rng1] & H1%unused_skill_suffix & [= _ <-]).
Qed.

Lemma fill_slots_suffix skills special i : ∀ ks r used r' used',
  Py.foldM (ClassModPatcher.fill_slot skills special i) (r, used) ks = Ok (r', used') →
  ClassModPatcher.rng r' `suffix_of` ClassModPatcher.rng r.
Proof.
  induction ks as [|k ks IH]; intros r used r' used'; cbn [Py.foldM].
  - by intros [= <- <-].
  - intros Hrun. apply bind_ok in Hrun as ([r1 u1] & H1%fill_slot_suffix & Hrun).
    apply IH in Hrun. exact (transitivity Hrun H1).
Qed.

Lemma fill_coms_suffix skills special : ∀ coms r r',
  Py.foldM (ClassModPatcher.fill_com skills special) r coms = Ok r' →
  ClassModPatcher.rng r' `suffix_of` ClassModPatcher.rng r.
Proof.
  induction coms as [|[name slots] coms IH]; intros r r'; cbn [Py.foldM].
  - by intros [= <-].
  - intros Hrun. apply bind_ok in Hrun as (r1 & H1 & Hrun).
    apply IH in Hrun. etrans; [exact Hrun|].
    unfold ClassModPatcher.fill_com in H1.
    apply bind_ok in H1 as (i & _ & H1).
    apply bind_ok in H1 as ([r2 u2] & H2%fill_slots_suffix & [= <-]). done.
Qed.

Lemma randomize_coms_suffix self skills r cc r' :
  ClassModPatcher.randomize_coms self skills r cc = Ok r' →
  ClassModPatcher.rng r' `suffix_of` ClassModPatcher.rng r.
Proof.
  unfold ClassModPatcher.randomize_coms. case_decide; [by intros [= <-]|].
  intros Hrun. apply bind_ok in Hrun as (coms & _ & Hrun).
  apply bind_ok in Hrun as ([name rng1] & H1%special_com_suffix & Hrun).
  apply fill_coms_suffix in Hrun. cbn in Hrun. exact (transitivity Hrun H1).
Qed.

End stream_facts2.

(** ** Writing branches to the engine *)

Section patch_facts.

Lemma patch_children br e :
  Branch.patch br e = Engine.with_children e (map (patch_child br) (Engine.children e)).
Proof.
  unfold Branch.patch, Engine.set_layout_tiers, Engine.set_branch_tiers,
    Engine.with_children. cbn. f_equal. rewrite map_map.
  apply map_ext. intros c. unfold patch_child. cbn.
  destruct c as [n ts ln ls]; cbn. by repeat case_decide.
Qed.

Lemma patches_children brs : ∀ e,
  foldl (λ e br, Branch.patch br e) e brs
  = Engine.with_children e
      (map (λ c, foldl (λ c br, patch_child br c) c brs) (Engine.children e)).
Proof.
  induction brs as [|br brs IH]; intros e; cbn [foldl].
  - destruct e; cbn. by rewrite map_id.
  - rewrite IH, patch_children. unfold Engine.with_children; cbn.
    by rewrite map_map.
Qed.

Lemma patch_child_names br c :
  Engine.path_name (patch_child br c) = Engine.path_name c
  ∧ Engine.layout_path_name (patch_child br c) = Engine.layout_path_name c.
Proof. done. Qed.

Lemma patches_child_names brs : ∀ c,
  Engine.path_name (foldl (λ c br, patch_child br c) c brs) = Engine.path_name c
  ∧ Engine.layout_path_name (foldl (λ c br, patch_child br c) c brs)
    = Engine.layout_path_name c.
Proof.
  induction brs as [|br brs IH]; intros c; [done|]. cbn [foldl].
  destruct (IH (patch_child br c)) as [-> ->]. done.
Qed.

(** Snapshots of other children leave a child alone. *)
Lemma patches_other cs : ∀ c,
  Forall (λ c1, Engine.path_name c1 ≠ Engine.path_name c
                ∧ Engine.layout_path_name c1 ≠ Engine.layout_path_name c) cs →
  foldl (λ c br, patch_child br c) c (map Branch.from_branch cs) = c.
Proof.
  induction cs as [|c1 cs IH]; intros c Hall; [done|].
  apply Forall_cons in Hall as [[Hn Hl] Hall]. cbn [map foldl].
  assert (patch_child (Branch.from_branch c1) c = c) as ->.
  { unfold patch_child. cbn. rewrite !decide_False by done. by destruct c. }
  by apply IH.
Qed.

(** The snapshots of all children, written in order, give every child
    its own snapshot, whatever was written before. *)
Lemma patches_snapshot cs c0 c :
  NoDup (map Engine.path_name cs) → NoDup (map Engine.layout_path_name cs) →
  c0 ∈ cs →
  Engine.path_name c = Engine.path_name c0 →
  Engine.layout_path_name c = Engine.layout_path_name c0 →
  foldl (λ c br, patch_child br c) c (map Branch.from_branch cs) = snapshot c0.
Proof.
  intros Hn Hl Hin Hcn Hcl.
  apply list_elem_of_split in Hin as (cs1 & cs2 & ->).
  rewrite map_app, foldl_app. cbn [map foldl].
  rewrite !map_app in Hn, Hl. cbn [map] in Hn, Hl.
  apply NoDup_app in Hn as (_ & Hn1 & Hn2). apply NoDup_cons in Hn2 as [Hn2 _].
  apply NoDup_app in Hl as (_ & Hl1 & Hl2). apply NoDup_cons in Hl2 as [Hl2 _].
  assert (foldl (λ c br, patch_child br c) c (map Branch.from_branch cs1) = c) as ->.
  { apply patches_other. apply Forall_forall. intros c1 Hc1. cbn beta.
    rewrite Hcn, Hcl. split.
    - intros Heq. apply (Hn1 (Engine.path_name c1)).
      + apply list_elem_of_fmap. eauto.
      + rewrite Heq. left.
    - intros Heq. apply (Hl1 (Engine.layout_path_name c1)).
      + apply list_elem_of_fmap. eauto.
      + rewrite Heq. left. }
  assert (patch_child (Branch.from_branch c0) c = snapshot c0) as ->.
  { unfold patch_child, snapshot. cbn. rewrite !decide_True by done.
    by rewrite Hcn, Hcl. }
  apply patches_other. apply Forall_forall. intros c1 Hc1. cbn beta.
  unfold snapshot. cbn [Engine.path_name Engine.layout_path_name]. split.
  - intros Heq. apply Hn2. rewrite <-Heq. apply list_elem_of_fmap. eauto.
  - intros Heq. apply Hl2. rewrite <-Heq. apply list_elem_of_fmap. eauto.
Qed.

(** A child without empty skill entries is its own snapshot. *)
Lemma snapshot_id c :
  Forall (λ tier, Forall is_Some (Engine.Skills tier)) (Engine.Tiers c) →
  snapshot c = c.
Proof.
  intros Hall. unfold snapshot, Branch.patched_tiers, Branch.from_branch. cbn.
  destruct c as [n ts ln ls]; cbn in *. f_equal.
  induction ts as [|t ts IH]; [done|].
  apply Forall_cons in Hall as [Ht Hall]. cbn. rewrite IH by done. f_equal.
  destruct t as [sk pts]; cbn in *. f_equal.
  clear -Ht. induction sk as [|[s|] sk IH]; [done| |].
  - apply Forall_cons in Ht as [_ Ht]. cbn. by rewrite IH.
  - apply Forall_cons in Ht as [[? ?] _]. done.
Qed.

End patch_facts.

(** ** What a run never changes *)

Section static_facts.

Import SkillPool.

(** [static self self']: the skill set, the snapshot and the number of
    branches are the same. *)
Lemma steady_static self self' :
  steady self self' →
  skill_order self' = skill_order self ∧ skills self' = skills self
  ∧ original_branches self' = original_branches self
  ∧ current_char_class self' = current_char_class self
  ∧ length (new_branches self') = length (new_branches self).
Proof.
  intros (Hbrs & ? & ? & ? & ?). split_and!; try done.
  symmetry. by eapply Forall2_length.
Qed.

Lemma place_skills_static self b tier rt hs self' :
  place_skills self b tier rt hs = Ok self' →
  skill_order self' = skill_order self ∧ skills self' = skills self
  ∧ original_branches self' = original_branches self
  ∧ current_char_class self' = current_char_class self
  ∧ length (new_branches self') = length (new_branches self).
Proof.
  unfold place_skills. intros Hrun.
  apply bind_ok in Hrun as (br1 & _ & Hrun). apply bind_ok in Hrun as (density & _ & Hrun).
  apply bind_ok in Hrun as ([n rng1] & _ & Hrun).
  apply bind_ok in Hrun as (d & Hd%draw_skills_steady%steady_static & Hrun).
  unfold with_rng in Hd. cbn [pool skill_order skills original_branches
    current_char_class new_branches] in Hd.
  destruct Hd as (Ho & Hs & Hob & Hc & Hl).
  apply bind_ok in Hrun as (br2 & _ & Hrun). apply bind_ok in Hrun as (layout' & _ & Hrun).
  apply bind_ok in Hrun as (skills' & _ & Hrun).
  apply bind_ok in Hrun as ([points rng2] & _ & Hrun).
  apply bind_ok in Hrun as (points' & _ & Hrun).
  case_decide.
  - destruct (get_extra_skills _) as [extra s3] eqn:He. injection He as _ <-.
    apply bind_ok in Hrun as (t5 & _ & [= <-]).
    unfold with_new_branches, with_extra_skills, with_rng.
    cbn [skill_order skills original_branches current_char_class new_branches].
    rewrite length_insert. done.
  - injection Hrun as <-.
    unfold with_new_branches, with_rng.
    cbn [skill_order skills original_branches current_char_class new_branches].
    rewrite length_insert. done.
Qed.

Lemma randomize_branch_tier_static self log b tier rt hs cheats self' log' :
  randomize_branch_tier self log b tier rt hs cheats = Ok (self', log') →
  skill_order self' = skill_order self ∧ skills self' = skills self
  ∧ original_branches self' = original_branches self
  ∧ current_char_class self' = current_char_class self
  ∧ length (new_branches self') = length (new_branches self).
Proof.
  unfold randomize_branch_tier. intros Hrun.
  apply bind_ok in Hrun as ([s1 l1] & (H1%steady_static & _)%cheats_steady & Hrun).
  apply bind_ok in Hrun as (s2 & H2%place_skills_static & [= <- <-]).
  destruct H1 as (? & ? & ? & ? & ?), H2 as (? & ? & ? & ? & ?).
  split_and!; congruence.
Qed.

Lemma randomize_tier_static rt hs cheats tier : ∀ bs self log self' log',
  Py.foldM
    (λ '(self, log) b, randomize_branch_tier self log b tier rt hs cheats)
    (self, log) bs = Ok (self', log') →
  skill_order self' = skill_order self ∧ skills self' = skills self
  ∧ original_branches self' = original_branches self
  ∧ current_char_class self' = current_char_class self
  ∧ length (new_branches self') = length (new_branches self).
Proof.
  induction bs as [|b bs IH]; intros self log self' log'; cbn [Py.foldM].
  - by intros [= <- <-].
  - intros Hrun. apply bind_ok in Hrun as ([s1 l1] & H1 & Hrun).
    apply randomize_branch_tier_static in H1 as (? & ? & ? & ? & ?).
    apply IH in Hrun as (? & ? & ? & ? & ?). split_and!; congruence.
Qed.

Lemma randomize_tiers_static rt hs cheats : ∀ tiers self log self' log',
  Py.foldM (randomize_tier rt hs cheats) (self, log) tiers = Ok (self', log') →
  skill_order self' = skill_order self ∧ skills self' = skills self
  ∧ original_branches self' = original_branches self
  ∧ current_char_class self' = current_char_class self
  ∧ length (new_branches self') = length (new_branches self).
Proof.
  induction tiers as [|tier tiers IH]; intros self log self' log'; cbn [Py.foldM].
  - by intros [= <- <-].
  - intros Hrun. apply bind_ok in Hrun as ([s1 l1] & H1 & Hrun).
    unfold randomize_tier in H1.
    apply randomize_tier_static in H1 as (? & ? & ? & ? & ?).
    apply IH in Hrun as (? & ? & ? & ? & ?). split_and!; congruence.
Qed.

Lemma prepare_branches_originals n : ∀ cs st st',
  Py.foldM (prepare_branch n) st cs = Ok st' →
  originals st' = originals st ++ map Branch.from_branch cs
  ∧ length (news st') = (length (news st) + length cs)%nat.
Proof.
  induction cs as [|c cs IH]; intros st st'; cbn [Py.foldM].
  - intros [= <-]. rewrite app_nil_r. cbn. split; [done | lia].
  - intros Hrun. apply bind_ok in Hrun as (st1 & H1 & Hrun).
    apply IH in Hrun as [-> ->]. unfold prepare_branch in H1.
    apply bind_ok in H1 as (share & _ & [= <-]). cbn.
    rewrite <-app_assoc, length_app. cbn. split; [done | lia].
Qed.

(** The shape of a finished synthesis: the snapshot holds the children
    as they were read, and the engine is the given one with the action
    skill slot overwritten and the new branches written. *)
Lemma randomize_tree_result self log tree catalog enabled hs action density rt
    cheats self' log' tree' :
  randomize_tree self log tree catalog enabled hs action density rt cheats
  = Ok (self', log', tree') →
  original_branches self' = Some (map Branch.from_branch (Engine.children tree))
  ∧ ∃ action_skill,
      tree' = foldl (λ e branch, Branch.patch branch e)
                (Engine.with_root_tier0_skills tree [action_skill])
                (new_branches self').
Proof.
  unfold randomize_tree. intros Hrun.
  destruct (foldl _ _ enabled) as [[s1 l1] cur].
  apply bind_ok in Hrun as ([[c s2] l2] & _ & Hrun).
  apply bind_ok in Hrun as (st & [Hst _]%prepare_branches_originals & Hrun).
  cbn [originals app] in Hst.
  apply bind_ok in Hrun as (dc & _ & Hrun).
  apply bind_ok in Hrun as (action' & _ & Hrun).
  apply bind_ok in Hrun as ([a s3] & (_ & H3%steady_static & _)%mark_used_steady & Hrun).
  unfold with_new_branches, with_original_branches in H3.
  cbn [original_branches] in H3. destruct H3 as (_ & _ & H3 & _).
  apply bind_ok in Hrun as ([s4 l4] & H4%randomize_tiers_static & [= <- <- <-]).
  destruct H4 as (_ & _ & H4 & _). split; [congruence | eauto].
Qed.

End static_facts.

(** ** Class-mod slots *)

Section class_mod_facts.

Import ClassModPatcher.

Lemma set_attribute_spec e i k a e' :
  set_attribute e i k a = Ok e' →
  Engine.children e' = Engine.children e
  ∧ Engine.root_tier0_skills e' = Engine.root_tier0_skills e
  ∧ Engine.root_path_name e' = Engine.root_path_name e
  ∧ com_names e' = com_names e
  ∧ slot_is e' i k a
  ∧ ∀ i' k' a', (i', k') ≠ (i, k) → slot_is e i' k' a' → slot_is e' i' k' a'.
Proof.
  unfold set_attribute. intros Hrun.
  apply bind_ok in Hrun as (com & Hcom%getitem_ok & Hrun).
  apply bind_ok in Hrun as (slot & Hslot%getitem_ok & [= <-]).
  assert (Hi : (i < length (Engine.class_mods e))%nat) by (by eapply lookup_lt_Some).
  assert (Hk : (k < length (Engine.AttributeSlotEffects com))%nat)
    by (by eapply lookup_lt_Some).
  split_and!; try done.
  - unfold com_names, Engine.with_class_mods. cbn [Engine.class_mods].
    apply list_eq. intros j. rewrite !list_lookup_fmap.
    destruct (decide (i = j)) as [->|Hne].
    + rewrite list_lookup_insert_eq by done. by rewrite Hcom.
    + by rewrite list_lookup_insert_ne.
  - eexists _, _. unfold Engine.with_class_mods. cbn [Engine.class_mods].
    rewrite list_lookup_insert_eq by done. split; [done|].
    cbn. rewrite list_lookup_insert_eq by done. done.
  - intros i' k' a' Hne (com' & slot' & Hcom' & Hslot' & Ha').
    unfold slot_is, Engine.with_class_mods. cbn [Engine.class_mods].
    destruct (decide (i = i')) as [->|Hi'].
    + rewrite list_lookup_insert_eq by done. simplify_eq.
      eexists _, slot'. split; [done|]. cbn.
      rewrite list_lookup_insert_ne by congruence. done.
    + rewrite list_lookup_insert_ne by done. eauto.
Qed.

Lemma NoDup_fst_functional {A B} (l : list (A * B)) k v v' :
  NoDup l.*1 → (k, v) ∈ l → (k, v') ∈ l → v = v'.
Proof.
  induction l as [|[k0 v0] l IH]; cbn; intros Hnd H1 H2; [by apply elem_of_nil in H1|].
  apply NoDup_cons in Hnd as [Hk Hnd].
  apply elem_of_cons in H1 as [[= -> ->]|H1], H2 as [[= ->]|H2]; try done.
  - exfalso. apply Hk. apply list_elem_of_fmap. by exists (k0, v').
  - exfalso. apply Hk. apply list_elem_of_fmap. by exists (k0, v).
  - by apply IH.
Qed.

Lemma recorded_functional coms e i k a a' :
  keys_ok coms → recorded coms e i k a → recorded coms e i k a' → a = a'.
Proof.
  intros Hok (com & slots & Hcom & Hget & Hin) (com' & slots' & Hcom' & Hget' & Hin').
  simplify_eq. eapply NoDup_fst_functional; [by eapply Hok | done..].
Qed.

Lemma recorded_names coms e e' i k a :
  com_names e' = com_names e → recorded coms e i k a → recorded coms e' i k a.
Proof.
  intros Hn (com & slots & Hcom & Hget & Hin). unfold com_names in Hn.
  assert (Hl : Engine.com_path_name <$> Engine.class_mods e' !! i
               = Engine.com_path_name <$> Engine.class_mods e !! i).
  { rewrite <-!list_lookup_fmap. by rewrite Hn. }
  rewrite Hcom in Hl. cbn in Hl.
  destruct (Engine.class_mods e' !! i) as [com'|] eqn:Hcom'; [|done].
  injection Hl as Hl. exists com', slots. by rewrite Hl.
Qed.

Lemma restore_slots_spec coms e0 i : keys_ok coms → ∀ entries e e',
  Py.foldM (restore_slot i) e entries = Ok e' →
  com_names e = com_names e0 →
  (∀ k a, (k, a) ∈ entries → recorded coms e0 i k a) →
  Engine.children e' = Engine.children e
  ∧ Engine.root_tier0_skills e' = Engine.root_tier0_skills e
  ∧ com_names e' = com_names e0
  ∧ (∀ i' k' a', recorded coms e0 i' k' a' → slot_is e i' k' a' → slot_is e' i' k' a')
  ∧ (∀ k a, (k, a) ∈ entries → slot_is e' i k a).
Proof.
  intros Hok. induction entries as [|[k a] entries IH]; intros e e'; cbn [Py.foldM].
  - intros [= <-] Hn _. split_and!; try done. intros k a Hin. by apply elem_of_nil in Hin.
  - intros Hrun Hn Hrec. apply bind_ok in Hrun as (e1 & H1 & Hrun).
    unfold restore_slot in H1. cbn [fst snd] in H1.
    apply set_attribute_spec in H1 as (Hc1 & Hr1 & _ & Hn1 & Hs1 & Hk1).
    destruct (IH e1 e' Hrun) as (Hc & Hr & Hn' & Hkeep & Hnew).
    { congruence. } { intros k' a' Hin. apply Hrec. by right. }
    assert (Hkeep1 : ∀ i' k' a', recorded coms e0 i' k' a' →
                       slot_is e i' k' a' → slot_is e1 i' k' a').
    { intros i' k' a' Hrec' Hs. destruct (decide ((i', k') = (i, k))) as [[= -> ->]|Hne].
      - assert (a' = a) as ->; [|done].
        eapply recorded_functional; [done | done | apply Hrec; left].
      - by apply Hk1. }
    split_and!; try congruence.
    + intros i' k' a' Hrec' Hs. apply Hkeep; [done|]. by apply Hkeep1.
    + intros k' a' Hin. apply elem_of_cons in Hin as [[= -> ->]|Hin]; [|by apply Hnew].
      apply Hkeep; [apply Hrec; left | done].
Qed.

Lemma restore_coms_spec coms e0 : keys_ok coms → ∀ positions e e',
  Py.foldM (restore_com coms) e positions = Ok e' →
  com_names e = com_names e0 →
  Engine.children e' = Engine.children e
  ∧ Engine.root_tier0_skills e' = Engine.root_tier0_skills e
  ∧ com_names e' = com_names e0
  ∧ (∀ i' k' a', recorded coms e0 i' k' a' → slot_is e i' k' a' → slot_is e' i' k' a')
  ∧ (∀ i k a, i ∈ positions → recorded coms e0 i k a → slot_is e' i k a).
Proof.
  intros Hok. induction positions as [|i positions IH]; intros e e'; cbn [Py.foldM].
  - intros [= <-] Hn. split_and!; try done. intros i k a Hin. by apply elem_of_nil in Hin.
  - intros Hrun Hn. apply bind_ok in Hrun as (e1 & H1 & Hrun).
    unfold restore_com in H1.
    apply bind_ok in H1 as (com & Hcom%getitem_ok & H1).
    apply bind_ok in H1 as (slots & Hslots & H1).
    destruct (Py.dict_get coms (Engine.com_path_name com)) as [slots'|] eqn:Hget;
      [|done]. injection Hslots as ->.
    assert (Hrec0 : ∀ k a, recorded coms e0 i k a ↔ (k, a) ∈ slots).
    { intros k a. split.
      - intros Hr. apply (recorded_names coms e0 e) in Hr; [|done].
        destruct Hr as (com' & slots' & Hcom' & Hget' & Hin). by simplify_eq.
      - intros Hin. apply (recorded_names coms e e0); [done|]. by exists com, slots. }
    apply (restore_slots_spec coms e0 i Hok) in H1
      as (Hc1 & Hr1 & Hn1 & Hkeep1 & Hnew1); [|done|by intros k a ?%Hrec0].
    destruct (IH e1 e' Hrun Hn1) as (Hc & Hr & Hn' & Hkeep & Hnew).
    split_and!; try congruence.
    + intros i' k' a' Hrec' Hs. apply Hkeep; [done|]. by apply Hkeep1.
    + intros i' k a Hin Hrec. apply elem_of_cons in Hin as [->|Hin]; [|by apply Hnew].
      apply Hkeep; [done|]. apply Hnew1. by apply Hrec0.
Qed.

(** [unrandomize_coms] keeps the records, leaves the skill tree alone and
    writes every recorded attribute back into its slot. *)
Lemma unrandomize_coms_restores self e cc coms self' e' :
  coms = coms → ClassModPatcher.coms self = Some coms → keys_ok coms →
  unrandomize_coms self e cc = Ok (self', e') →
  self' = self
  ∧ Engine.children e' = Engine.children e
  ∧ Engine.root_tier0_skills e' = Engine.root_tier0_skills e
  ∧ ∀ i k a, i ∈ iterate_coms e cc → recorded coms e i k a → slot_is e' i k a.
Proof.
  intros _ Hcoms Hok. unfold unrandomize_coms. rewrite Hcoms. intros Hrun.
  apply bind_ok in Hrun as (e1 & H1 & [= <- <-]).
  apply (restore_coms_spec coms e Hok) in H1 as (? & ? & _ & _ & ?); done.
Qed.

End class_mod_facts.

Section record_facts.

Import ClassModPatcher.

Lemma slot_set_keys m k v : NoDup m.*1 → NoDup (slot_set m k v).*1.
Proof.
  induction m as [|[k0 v0] m IH]; cbn; intros Hnd.
  - apply NoDup_singleton.
  - apply NoDup_cons in Hnd as [Hk Hnd]. case_decide as Hd; cbn.
    + subst. by apply NoDup_cons.
    + apply NoDup_cons. split; [|by apply IH].
      intros Hin. apply Hk. clear -Hin Hd.
      induction m as [|[k1 v1] m IH]; cbn in *.
      * apply list_elem_of_singleton in Hin. done.
      * case_decide; cbn in *; [subst|].
        -- apply elem_of_cons in Hin as [->|Hin]; [left | by right].
        -- apply elem_of_cons in Hin as [->|Hin]; [left | right; by apply IH].
Qed.

Lemma record_slots_keys name : ∀ slots m n log,
  NoDup m.*1 → NoDup (foldl (record_slot name) (m, n, log) slots).1.1.*1.
Proof.
  induction slots as [|slot slots IH]; intros m n log Hnd; [done|].
  cbn [foldl]. unfold record_slot at 2.
  destruct (String.prefix _ _); [|by apply IH].
  destruct (Engine.AttributeToModify slot); apply IH; [by apply slot_set_keys | done].
Qed.

Lemma dict_get_set {V} (d : list (string * V)) k v k' :
  Py.dict_get (Py.dict_set d k v) k'
  = if decide (k = k') then Some v else Py.dict_get d k'.
Proof.
  induction d as [|[k0 v0] d IH]; cbn.
  - by repeat case_decide.
  - destruct (decide (k0 = k)) as [->|Hne]; cbn.
    + by repeat case_decide.
    + rewrite IH. repeat case_decide; congruence.
Qed.

Lemma record_coms_keys self e log cc self' log' :
  record_coms self e log cc = Ok (self', log') →
  ∃ cs, ClassModPatcher.coms self' = Some cs ∧ keys_ok cs.
Proof.
  unfold record_coms. intros Hrun.
  apply bind_ok in Hrun as ([cs log1] & H1 & [= <- <-]).
  exists cs. split; [done|].
  assert (Hgen : ∀ positions coms0 log0 coms1 log1,
            keys_ok coms0 →
            Py.foldM (record_com e) (coms0, log0) positions = Ok (coms1, log1) →
            keys_ok coms1).
  { clear. induction positions as [|i positions IH]; intros coms0 log0 coms1 log1 Hok;
      cbn [Py.foldM].
    - by intros [= <- <-].
    - intros Hrun. apply bind_ok in Hrun as ([c1 l1] & H1 & Hrun).
      eapply IH; [|exact Hrun]. unfold record_com in H1.
      apply bind_ok in H1 as (com & _ & H1).
      pose proof (record_slots_keys (Engine.com_path_name com)
                    (Engine.AttributeSlotEffects com) [] 0%nat log0 (NoDup_nil_2))
        as Hnd.
      destruct (foldl _ _ _) as [[m n] l]. injection H1 as <- <-.
      intros name slots. rewrite dict_get_set. case_decide; [|by apply Hok].
      by intros [= <-]. }
  eapply Hgen; [|exact H1]. intros name slots. done.
Qed.

Lemma fill_slots_tree skills special i : ∀ ks r used r' used',
  Py.foldM (fill_slot skills special i) (r, used) ks = Ok (r', used') →
  Engine.children (engine r') = Engine.children (engine r)
  ∧ Engine.root_tier0_skills (engine r') = Engine.root_tier0_skills (engine r).
Proof.
  induction ks as [|k ks IH]; intros r used r' used'; cbn [Py.foldM].
  - by intros [= <- <-].
  - intros Hrun. apply bind_ok in Hrun as ([r1 u1] & H1 & Hrun).
    apply IH in Hrun as [-> ->]. unfold fill_slot in H1.
    apply bind_ok in H1 as ([sk r2] & H2 & H1).
    apply bind_ok in H1 as (e & (Hc & Hr & _)%set_attribute_spec & [= <- <-]).
    cbn [engine]. rewrite Hc, Hr.
    destruct special, (cheat_skills r); try (by injection H2 as _ <-);
      by apply bind_ok in H2 as ([sk1 rng1] & _ & [= _ <-]).
Qed.

Lemma fill_coms_tree skills special : ∀ cs r r',
  Py.foldM (fill_com skills special) r cs = Ok r' →
  Engine.children (engine r') = Engine.children (engine r)
  ∧ Engine.root_tier0_skills (engine r') = Engine.root_tier0_skills (engine r).
Proof.
  induction cs as [|[name slots] cs IH]; intros r r'; cbn [Py.foldM].
  - by intros [= <-].
  - intros Hrun. apply bind_ok in Hrun as (r1 & H1 & Hrun).
    apply IH in Hrun as [-> ->]. unfold fill_com in H1.
    apply bind_ok in H1 as (i & _ & H1).
    by apply bind_ok in H1 as ([r2 u2] & H2%fill_slots_tree & [= <-]).
Qed.

Lemma randomize_coms_tree self skills r cc r' :
  randomize_coms self skills r cc = Ok r' →
  Engine.children (engine r') = Engine.children (engine r)
  ∧ Engine.root_tier0_skills (engine r') = Engine.root_tier0_skills (engine r).
Proof.
  unfold randomize_coms. case_decide; [by intros [= <-]|].
  intros Hrun. apply bind_ok in Hrun as (cs & _ & Hrun).
  apply bind_ok in Hrun as ([name rng1] & _ & Hrun).
  by apply fill_coms_tree in Hrun.
Qed.

End record_facts.

(** [inject_skills] with class mods to patch, step by step. *)
Lemma inject_skills_steps (generator : Z → list Q) (self : Mod.t)
    (opts : Mod.options) (catalog : gmap string Character.t)
    (all_skills : list (string * Skill.t)) (skill_tree : Engine.t)
    (log : list log_entry) (m : Mod.t) (tree' : Engine.t) (log' : list log_entry) :
  Mod.randomize_coms opts = true → Mod.com_patched self = false →
  Mod.inject_skills generator self opts catalog all_skills skill_tree log
  = Ok (m, tree', log') →
  ∃ pool log1 tree1 patcher log2 r,
    SkillPool.randomize_tree (SkillPool.init (generator (Mod.seed_option opts)))
      log skill_tree catalog
      (filter (λ child, child.2 = true) (Mod.skill_sources opts)).*1
      (Mod.hidden_skills opts) (Mod.action_skill opts) (Mod.skill_density opts)
      (Mod.randomize_tiers opts)
      (foldl (Mod.add_cheat all_skills) ([], []) (Mod.cheat_entries opts)).1
    = Ok (pool, log1, tree1)
    ∧ ClassModPatcher.record_coms (Mod.com_patcher self) tree1 log1
        (SkillPool.get_current_char pool) = Ok (patcher, log2)
    ∧ ClassModPatcher.randomize_coms patcher (SkillPool.get_class_mod_skills pool)
        (ClassModPatcher.mk_run (SkillPool.rng pool)
           (foldl (Mod.add_cheat all_skills) ([], []) (Mod.cheat_entries opts)).2
           tree1 log2)
        (SkillPool.get_current_char pool) = Ok r
    ∧ m = Mod.mk (Some (SkillPool.with_rng pool (ClassModPatcher.rng r)))
            (Some (filter (λ child, child.2 = true) (Mod.skill_sources opts)).*1)
            patcher true
    ∧ tree' = ClassModPatcher.engine r ∧ log' = ClassModPatcher.log r.
Proof.
  intros Hcoms Hpatched. unfold Mod.inject_skills.
  destruct (foldl _ _ (Mod.cheat_entries opts)) as [cheats com_skills].
  intros Hrun. apply bind_ok in Hrun as ([[pool log1] tree1] & Htree & Hrun).
  cbn [Mod.com_patched Mod.com_patcher] in Hrun.
  rewrite Hcoms, Hpatched in Hrun. cbn [andb negb] in Hrun.
  apply bind_ok in Hrun as ([patcher log2] & Hrec & Hrun).
  apply bind_ok in Hrun as (r & Hr & [= <- <- <-]).
  by exists pool, log1, tree1, patcher, log2, r.
Qed.

(** ** Claims about [inject_skills] *)

(** C8, as the claim states it, fails: with one seed, the same class mods
    and no cheat, a skill density of 30 makes ComB the special class mod
    and a density of 10 makes it ComA, and the class mods end up
    different. *)
Lemma class_mod_draws_follow_tree_draws :
  ∃ m1 tree1 log1 m2 tree2 log2,
    Mod.inject_skills Example.generator Mod.init (Example.options "None" 30 [])
      Example.catalog Example.all_skills Example.skill_tree []
    = Ok (m1, tree1, log1)
    ∧ Mod.inject_skills Example.generator Mod.init (Example.options "None" 10 [])
        Example.catalog Example.all_skills Example.skill_tree []
      = Ok (m2, tree2, log2)
    ∧ log1 = [Warning "Special COM is ComB"]
    ∧ log2 = [Warning "Special COM is ComA"]
    ∧ Engine.class_mods tree1 ≠ Engine.class_mods tree2.
Proof.
  eexists _, _, _, _, _, _.
  split; [vm_compute; reflexivity|]. split; [vm_compute; reflexivity|].
  split_and!; [reflexivity | reflexivity | discriminate].
Qed.

(** C8, amended: tree synthesis and class-mod assignment draw from one
    generator, seeded with the master seed.  Tree synthesis starts at the
    head of the seed's stream; class-mod assignment is handed the
    generator in the state tree synthesis left it in, a suffix of that
    stream, and draws on from there. *)
Theorem inject_skills_single_stream (generator : Z → list Q) (self : Mod.t)
    (opts : Mod.options) (catalog : gmap string Character.t)
    (all_skills : list (string * Skill.t)) (skill_tree : Engine.t)
    (log : list log_entry) (m : Mod.t) (tree' : Engine.t) (log' : list log_entry) :
  Mod.randomize_coms opts = true → Mod.com_patched self = false →
  Mod.inject_skills generator self opts catalog all_skills skill_tree log
  = Ok (m, tree', log') →
  ∃ pool log1 tree1 patcher log2 r,
    SkillPool.randomize_tree (SkillPool.init (generator (Mod.seed_option opts)))
      log skill_tree catalog
      (filter (λ child, child.2 = true) (Mod.skill_sources opts)).*1
      (Mod.hidden_skills opts) (Mod.action_skill opts) (Mod.skill_density opts)
      (Mod.randomize_tiers opts)
      (foldl (Mod.add_cheat all_skills) ([], []) (Mod.cheat_entries opts)).1
    = Ok (pool, log1, tree1)
    ∧ SkillPool.rng pool `suffix_of` generator (Mod.seed_option opts)
    ∧ ClassModPatcher.record_coms (Mod.com_patcher self) tree1 log1
        (SkillPool.get_current_char pool) = Ok (patcher, log2)
    ∧ ClassModPatcher.randomize_coms patcher (SkillPool.get_class_mod_skills pool)
        (ClassModPatcher.mk_run (SkillPool.rng pool)
           (foldl (Mod.add_cheat all_skills) ([], []) (Mod.cheat_entries opts)).2
           tree1 log2)
        (SkillPool.get_current_char pool) = Ok r
    ∧ ClassModPatcher.rng r `suffix_of` SkillPool.rng pool
    ∧ tree' = ClassModPatcher.engine r ∧ log' = ClassModPatcher.log r.
Proof.
  intros Hcoms Hpatched. unfold Mod.inject_skills.
  destruct (foldl _ _ (Mod.cheat_entries opts)) as [cheats com_skills].
  intros Hrun. apply bind_ok in Hrun as ([[pool log1] tree1] & Htree & Hrun).
  cbn [Mod.com_patched Mod.com_patcher] in Hrun.
  rewrite Hcoms, Hpatched in Hrun. cbn [andb negb] in Hrun.
  apply bind_ok in Hrun as ([patcher log2] & Hrec & Hrun).
  apply bind_ok in Hrun as (r & Hr & [= <- <- <-]).
  exists pool, log1, tree1, patcher, log2, r. split_and!; try done.
  - by apply randomize_tree_suffix in Htree.
  - by apply randomize_coms_suffix in Hr.
Qed.

Lemma inject_skills_single_stream_witness :
  ∃ pool r,
    SkillPool.rng pool `suffix_of` Example.generator 7
    ∧ ClassModPatcher.rng r `suffix_of` SkillPool.rng pool
    ∧ (Example.injected).1.2 = ClassModPatcher.engine r.
Proof.
  destruct (inject_skills_single_stream Example.generator Mod.init
              (Example.options "None" 30 []) Example.catalog Example.all_skills
              Example.skill_tree [] (Example.injected).1.1 (Example.injected).1.2
              (Example.injected).2)
    as (pool & log1 & tree1 & patcher & log2 & r & _ & H1 & _ & _ & H2 & H3 & _).
  - reflexivity.
  - reflexivity.
  - vm_compute. reflexivity.
  - exists pool, r. exact (conj H1 (conj H2 H3)).
Defined.

(** ** Claims about the revert *)

(** C7, as the claim states it, fails: after the example run,
    [reset_game] and [unrandomize_tree] leave the action skill A of the
    synthesis in the root's tier 0, where OldAction was, and the patcher
    still holds its records. *)
Lemma revert_keeps_action_skill_and_records :
  Engine.root_tier0_skills Example.skill_tree = ["OldAction"]
  ∧ Engine.root_tier0_skills (Example.reverted).2 = ["A"]
  ∧ ClassModPatcher.coms (Mod.com_patcher (Example.reset).1)
    = Some [("ComA", [(1%nat, "a1"); (2%nat, "a2"); (3%nat, "a3")]);
            ("ComB", [(0%nat, "b1"); (1%nat, "b2")])].
Proof. split_and!; vm_compute; reflexivity. Qed.

(** C7, amended: after a synthesis that patched the class mods,
    [reset_game] followed by [unrandomize_tree] gives every branch of the
    tree the tiers and the layout of its snapshot (its skills without the
    empty entries, its unlock thresholds, its layout) and drops the
    snapshot; every recorded class-mod slot holds its recorded attribute
    again while the records are kept; the action skill slot keeps the
    single skill the synthesis wrote. *)
Theorem revert_restores_snapshots (generator : Z → list Q) (self : Mod.t)
    (opts : Mod.options) (catalog : gmap string Character.t)
    (all_skills : list (string * Skill.t)) (skill_tree : Engine.t)
    (log : list log_entry) (m : Mod.t) (tree1 : Engine.t) (log1 : list log_entry)
    (m' : Mod.t) (tree2 : Engine.t) (pool pool' : SkillPool.t) (tree3 : Engine.t) :
  Mod.randomize_coms opts = true → Mod.com_patched self = false →
  NoDup (map Engine.path_name (Engine.children skill_tree)) →
  NoDup (map Engine.layout_path_name (Engine.children skill_tree)) →
  Mod.inject_skills generator self opts catalog all_skills skill_tree log
  = Ok (m, tree1, log1) →
  Mod.reset_game m tree1 = Ok (m', tree2) →
  Mod.pool m' = Some pool →
  SkillPool.unrandomize_tree pool tree2 = (pool', tree3) →
  Engine.children tree3 = map snapshot (Engine.children skill_tree)
  ∧ SkillPool.original_branches pool' = None
  ∧ (∃ coms, ClassModPatcher.coms (Mod.com_patcher m') = Some coms
       ∧ Mod.com_patcher m' = Mod.com_patcher m
       ∧ ∀ i k attr,
           i ∈ ClassModPatcher.iterate_coms tree1 (SkillPool.get_current_char pool) →
           recorded coms tree1 i k attr → slot_is tree3 i k attr)
  ∧ (∃ action_skill, Engine.root_tier0_skills tree1 = [action_skill]
       ∧ Engine.root_tier0_skills tree3 = [action_skill]).
Proof.
  intros Hcoms Hpatched Hn Hl Hinject Hreset Hpool Hrevert.
  apply inject_skills_steps in Hinject
    as (pool0 & l1 & t1 & patcher & l2 & r & Htree & Hrec & Hr & -> & -> & ->);
    [|done..].
  apply randomize_tree_result in Htree as (Horig & action & ->).
  apply record_coms_keys in Hrec as (coms & Hcs & Hok).
  apply randomize_coms_tree in Hr as [Hc1 Hr1]. cbn [ClassModPatcher.engine] in Hc1, Hr1.
  unfold Mod.reset_game in Hreset. cbn [Mod.com_patched Mod.pool] in Hreset.
  cbn [from_option mbind result_bind Mod.com_patcher] in Hreset.
  apply bind_ok in Hreset as ([patcher' t2] & Hun & [= <- <-]).
  cbn [Mod.pool] in Hpool. injection Hpool as <-.
  apply (unrandomize_coms_restores _ _ _ coms) in Hun as (-> & Hc2 & Hr2 & Hslots);
    [|done..].
  unfold SkillPool.unrandomize_tree in Hrevert.
  unfold SkillPool.with_rng in Hrevert. cbn [SkillPool.original_branches] in Hrevert.
  rewrite Horig in Hrevert. injection Hrevert as <- <-.
  rewrite patches_children in Hc1, Hr1. rewrite patches_children.
  unfold Engine.with_children, Engine.with_root_tier0_skills in *.
  cbn [Engine.children Engine.root_tier0_skills Engine.class_mods] in *.
  split_and!.
  - rewrite Hc2, Hc1, map_map. apply map_ext_in. intros c Hc.
    apply list_elem_of_In in Hc.
    destruct (patches_child_names (SkillPool.new_branches pool0) c) as [Hcn Hcl].
    by apply patches_snapshot.
  - done.
  - exists coms. split_and!; [done..|].
    intros i k attr Hi Hrecorded. cbn [SkillPool.get_current_char SkillPool.current_char_class] in Hi.
    destruct (Hslots i k attr Hi Hrecorded) as (com & slot & ? & ? & ?).
    by exists com, slot.
  - exists action. split; [done | congruence].
Qed.

Lemma revert_restores_snapshots_witness :
  Engine.children (Example.reverted).2
  = map snapshot (Engine.children Example.skill_tree)
  ∧ SkillPool.original_branches (Example.reverted).1 = None.
Proof.
  destruct (revert_restores_snapshots Example.generator Mod.init
              (Example.options "None" 30 []) Example.catalog Example.all_skills
              Example.skill_tree [] (Example.injected).1.1 (Example.injected).1.2
              (Example.injected).2 (Example.reset).1 (Example.reset).2
              Example.reset_pool (Example.reverted).1 (Example.reverted).2)
    as (H1 & H2 & _).
  - reflexivity.
  - reflexivity.
  - apply (bool_decide_unpack _). vm_compute. exact I.
  - apply (bool_decide_unpack _). vm_compute. exact I.
  - vm_compute. reflexivity.
  - vm_compute. reflexivity.
  - vm_compute. reflexivity.
  - vm_compute. reflexivity.
  - exact (conj H1 H2).
Defined.

(** ** Weighted choice never returns an element of weight zero *)

Section choices_facts.

Lemma accumulate_length ws : ∀ acc, length (Random.accumulate acc ws) = length ws.
Proof. induction ws as [|w ws IH]; intros acc; cbn; [done | by rewrite IH]. Qed.

Lemma accumulate_lookup_0 ws acc w :
  ws !! 0%nat = Some w → Random.accumulate acc ws !! 0%nat = Some (acc + w)%Q.
Proof. destruct ws; [done|]. by intros [= ->]. Qed.

(** Consecutive cumulative weights differ by the weight between them. *)
Lemma accumulate_lookup_S ws : ∀ acc i w,
  ws !! S i = Some w →
  ∃ c, Random.accumulate acc ws !! i = Some c
       ∧ Random.accumulate acc ws !! S i = Some (c + w)%Q.
Proof.
  induction ws as [|w0 ws IH]; intros acc i w; [done|]. cbn [Random.accumulate].
  destruct i as [|i]; cbn.
  - intros Hw. exists (acc + w0)%Q. split; [done|]. by apply accumulate_lookup_0.
  - intros Hw. by apply IH.
Qed.

Lemma bisect_spec a x : ∀ fuel lo hi,
  (lo ≤ hi)%nat → (hi - lo ≤ fuel)%nat →
  let k := Random.bisect fuel a x lo hi in
  (lo ≤ k ≤ hi)%nat
  ∧ (k = lo ∨ (0 < k)%nat ∧ (default 0 (a !! (k - 1)%nat) <= x)%Q)
  ∧ (k = hi ∨ (x < default 0 (a !! k))%Q).
Proof.
  induction fuel as [|fuel IH]; intros lo hi Hle Hfuel; cbn -[Nat.div].
  - assert (hi = lo) as -> by lia. split; [lia|]. split; by left.
  - case_decide as Hlt; [|assert (hi = lo) as -> by lia; split; [lia|]; split; by left].
    assert (Hmid : (lo ≤ (lo + hi) / 2 < hi)%nat).
    { split.
      - apply Nat.div_le_lower_bound; lia.
      - apply Nat.Div0.div_lt_upper_bound; lia. }
    set (mid := ((lo + hi) / 2)%nat) in *.
    destruct (Qle_bool (default 0%Q (a !! mid)) x) eqn:Hcmp.
    + apply Qle_bool_iff in Hcmp.
      destruct (IH (S mid) hi) as (Hr & Hlo & Hhi); [lia | lia |].
      split; [lia|]. split; [|done].
      right. destruct Hlo as [->|[? ?]]; [|done].
      split; [lia|]. replace (S mid - 1)%nat with mid by lia. done.
    + assert (x < default 0 (a !! mid))%Q.
      { apply Qnot_le_lt. intros Hc%Qle_bool_iff. congruence. }
      destruct (IH lo mid) as (Hr & Hlo & Hhi); [lia | lia |].
      split; [lia|]. split; [done|].
      right. destruct Hhi as [->|?]; done.
Qed.

Lemma last_lookup_length {A} (l : list A) x :
  last l = Some x → l !! (length l - 1)%nat = Some x.
Proof. rewrite last_lookup. by replace (pred (length l)) with (length l - 1)%nat by lia. Qed.

Lemma choices_nonzero {A} rng (population : list A) weights x rng' :
  Random.choices rng population weights = Ok (x, rng') →
  ∃ i w, population !! i = Some x ∧ weights !! i = Some w ∧ ¬ (w == 0)%Q.
Proof.
  unfold Random.choices. case_decide as Hlen; [done|].
  rewrite accumulate_length in Hlen.
  destruct (last _) as [total|] eqn:Hlast; [|done].
  destruct (Qle_bool total 0) eqn:Htot; [done|].
  assert (0 < total)%Q as Hpos.
  { apply Qnot_le_lt. intros Hc%Qle_bool_iff. congruence. }
  intros Hrun. apply bind_ok in Hrun as ([r rng1] & [Hr _]%random_range & Hrun).
  apply bind_ok in Hrun as (y & Hy%getitem_ok & [= <- <-]).
  set (a := Random.accumulate 0 weights) in *.
  set (n := length population) in *.
  apply last_lookup_length in Hlast. unfold a in Hlast at 1.
  rewrite accumulate_length, Hlen in Hlast. fold n in Hlast.
  assert (Hx : (0 <= r * total < total)%Q).
  { split; [apply Qmult_le_0_compat; lra|].
    assert (r * total < 1 * total)%Q by (apply Qmult_lt_compat_r; lra). lra. }
  destruct (bisect_spec a (r * total) (n - 1) 0 (n - 1)) as (Hk & Hlo & Hhi);
    [lia | lia |].
  set (k := Random.bisect (n - 1) a (r * total) 0 (n - 1)) in *.
  assert (Hkn : (k < n)%nat) by (by eapply lookup_lt_Some).
  destruct (lookup_lt_is_Some_2 weights k) as [w Hw]; [lia|].
  exists k, w. split_and!; [done..|]. intros Hw0.
  destruct k as [|k'] eqn:Hkeq.
  - pose proof (accumulate_lookup_0 weights 0 w Hw) as Ha0. fold a in Ha0.
    destruct Hhi as [Hhi|Hhi].
    + rewrite <-Hhi, Ha0 in Hlast. injection Hlast as <-. lra.
    + rewrite Ha0 in Hhi. cbn in Hhi. lra.
  - destruct (accumulate_lookup_S weights 0 k' w Hw) as (c & Hc & Hc'). fold a in Hc, Hc'.
    destruct Hlo as [?|[_ Hlo]]; [lia|].
    replace (S k' - 1)%nat with k' in Hlo by lia. rewrite Hc in Hlo. cbn in Hlo.
    destruct Hhi as [Hhi|Hhi].
    + rewrite <-Hhi, Hc' in Hlast. injection Hlast as <-. lra.
    + rewrite Hc' in Hhi. cbn in Hhi. lra.
Qed.

End choices_facts.

(** ** No skill is drawn twice *)

Section registry_facts.

Import SkillPool.

Lemma dict_del_fold {V} (ks : list string) : ∀ (d d' : Py.dict V),
  Py.foldM Py.dict_del d ks = Ok d' →
  (∀ kv, kv ∈ d' ↔ kv ∈ d ∧ kv.1 ∉ ks)
  ∧ (∀ k, Py.dict_get d' k = if decide (k ∈ ks) then None else Py.dict_get d k).
Proof.
  induction ks as [|k ks IH]; intros d d'; cbn [Py.foldM].
  - intros [= <-]. split.
    + intros kv. rewrite elem_of_nil. naive_solver.
    + intros k. by rewrite decide_False by apply not_elem_of_nil.
  - intros Hrun. apply bind_ok in Hrun as (d1 & Hd1 & Hrun).
    unfold Py.dict_del in Hd1. destruct (Py.dict_get d k) eqn:Hk; [|done].
    injection Hd1 as <-. apply IH in Hrun as [Hin Hget]. split.
    + intros kv. rewrite Hin, dict_remove_elem, elem_of_cons. naive_solver.
    + intros k'. rewrite Hget, dict_get_remove.
      destruct (decide (k' ∈ ks)) as [Hks|Hks].
      * rewrite decide_True; [done | by right].
      * destruct (decide (k = k')) as [->|Hne].
        -- rewrite decide_True; [done | by left].
        -- rewrite decide_False; [done|]. rewrite elem_of_cons. naive_solver.
Qed.

Lemma consume_dependency_inv self skill hs bi self' :
  consume_dependency self skill hs bi = Ok self' →
  match Py.dict_get (dependencies self) (Skill.full_name skill) with
  | None => self' = self
  | Some dep =>
      extra_skills self' = extra_skills self ++ Dependency.extra_skills dep
      ∧ Py.foldM Py.dict_del (dependencies self) (Dependency.providers dep)
        = Ok (dependencies self')
  end.
Proof.
  unfold consume_dependency. destruct (Py.dict_get _ _) as [dep|]; [|by intros [= <-]].
  intros Hrun. apply bind_ok in Hrun as (brs & _ & Hrun).
  apply bind_ok in Hrun as (deps & Hdeps & [= <-]). done.
Qed.

(** Once a dependency is consumed, the registry is closed again and none
    of the dependencies left shares a provider with the consumed one. *)
Lemma registry_ok_del deps k0 dep deps' :
  registry_ok deps → Py.dict_get deps k0 = Some dep →
  Py.foldM Py.dict_del deps (Dependency.providers dep) = Ok deps' →
  registry_ok deps'
  ∧ (∀ kv, kv ∈ deps' → kv ∈ deps)
  ∧ (∀ k D, (k, D) ∈ deps' → D ≠ dep)
  ∧ (∀ k D p, (k, D) ∈ deps' → p ∈ Dependency.providers dep →
       p ∉ Dependency.providers D).
Proof.
  intros Hreg Hk0%dict_get_Some_elem [Hin Hget]%dict_del_fold.
  destruct (Hreg _ _ Hk0) as [_ Hdep].
  assert (Hne : ∀ k D, (k, D) ∈ deps' → D ≠ dep).
  { intros k D [HkD Hk]%Hin ->. by destruct (Hreg _ _ HkD) as [? _]. }
  assert (Hdisj : ∀ k D p, (k, D) ∈ deps' → p ∈ Dependency.providers dep →
            p ∉ Dependency.providers D).
  { intros k D p HkD Hp HpD. apply (Hne _ _ HkD).
    apply Hin in HkD as [HkD _]. destruct (Hreg _ _ HkD) as [_ HD].
    specialize (HD _ HpD). specialize (Hdep _ Hp). congruence. }
  split_and!; [|by intros kv [? _]%Hin|done|done].
  intros k D HkD. pose proof HkD as [HkD' Hk]%Hin.
  destruct (Hreg _ _ HkD') as [? HD]. split; [done|].
  intros p Hp. rewrite Hget, decide_False; [by apply HD|].
  intros Hp'. by eapply Hdisj.
Qed.

Lemma grants_ok_del deps deps' k0 dep granted order :
  grants_ok deps granted order → (k0, dep) ∈ deps →
  (∀ kv, kv ∈ deps' → kv ∈ deps) →
  (∀ k D, (k, D) ∈ deps' → D ≠ dep) →
  grants_ok deps' (granted ++ Dependency.extra_skills dep) order.
Proof.
  intros (Hnd & Hord & Hlive & Hone) Hdep Hsub Hne.
  destruct (Hlive _ _ Hdep) as [Hnd' Hnew]. split_and!.
  - apply NoDup_app. split_and!; [done | | done].
    intros g Hg Hg'. by destruct (Hnew _ Hg').
  - intros g [Hg|Hg]%elem_of_app; [by apply Hord | by destruct (Hnew _ Hg)].
  - intros k D HkD. destruct (Hlive _ _ (Hsub _ HkD)) as [? HD]. split; [done|].
    intros g Hg. destruct (HD _ Hg) as [? ?]. split; [|done].
    intros [?|Hg']%elem_of_app; [done|].
    apply (Hne _ _ HkD). eapply Hone; [by apply Hsub | done | done | done].
  - intros k1 D1 k2 D2 g H1 H2. eapply Hone; by apply Hsub.
Qed.

Lemma retired_steady self self' name :
  retired self name → steady self self' →
  (∀ kv, kv ∈ dependencies self' → kv ∈ dependencies self) →
  retired self' name.
Proof.
  intros (Hin & Hzero & Hprov) (Hbrs & Ho & _) Hsub. split_and!.
  - by rewrite Ho.
  - intros br' i [b Hb]%list_elem_of_lookup Hi. rewrite Ho in Hi.
    destruct (Forall2_lookup_r _ _ _ _ _ Hbrs Hb) as (br & Hbr & (_ & _ & Hev)).
    destruct (Hzero br i) as (w & Hw & Hw0); [by eapply list_elem_of_lookup_2 | done |].
    by apply (Hev _ _ Hw).
  - intros k D HkD. by eapply Hprov, Hsub.
Qed.

Lemma pool_ok_steady self self' :
  pool_ok self → steady self self' → registry_ok (dependencies self') →
  pool_ok self'.
Proof.
  intros (Hnd & Hsk & _) (_ & Ho & Hs & _) Hreg. split_and!; [| |done].
  - by rewrite Ho.
  - rewrite Ho, Hs. done.
Qed.

Lemma draw_inv_steady self self' drawn appended :
  draw_inv self drawn appended → steady self self' →
  dependencies self' = dependencies self →
  extra_skills self' = extra_skills self →
  draw_inv self' drawn appended.
Proof.
  intros (Hpool & Hnd & Hret & Hgr) Hst Hd He.
  pose proof Hst as (_ & Ho & _). split_and!; [| done | |].
  - eapply pool_ok_steady; [done..|]. rewrite Hd. by destruct Hpool as (_ & _ & ?).
  - intros name Hname. eapply retired_steady; [by apply Hret | done |].
    by rewrite Hd.
  - by rewrite Hd, He, Ho.
Qed.

Lemma draw_inv_with_rng self r drawn appended :
  draw_inv self drawn appended → draw_inv (with_rng self r) drawn appended.
Proof.
  intros H. eapply draw_inv_steady; [done | apply steady_with_rng | done..].
Qed.

(** [mark_used] keeps the invariant, and retires the skill it is given
    when that skill is in the pool. *)
Lemma mark_used_draw_inv self skill hs bi skill' self' drawn appended :
  draw_inv self drawn appended →
  mark_used self skill hs bi = Ok (skill', self') →
  draw_inv self' drawn appended
  ∧ (Skill.full_name skill ∈ skill_order self → retired self' (Skill.full_name skill)).
Proof.
  intros Hinv Hrun. unfold mark_used in Hrun.
  apply bind_ok in Hrun as (s1 & H1 & Hrun).
  apply bind_ok in Hrun as (s2 & H2 & [= <- <-]).
  pose proof (consume_dependency_steady _ _ _ _ _ H1) as (Hst1 & _).
  pose proof (retire_steady _ _ _ H2) as (Hst2 & _ & Hd2 & He2).
  pose proof (consume_dependency_inv _ _ _ _ _ H1) as Hc.
  destruct Hinv as (Hpool & Hnd & Hret & Hgr).
  pose proof Hpool as (Hndo & Hsk & Hreg).
  pose proof Hst1 as (_ & Ho1 & _). pose proof Hst2 as (_ & Ho2 & _).
  assert (Hdeps : registry_ok (dependencies s1)
            ∧ (∀ kv, kv ∈ dependencies s1 → kv ∈ dependencies self)
            ∧ (∀ k D, (k, D) ∈ dependencies s1 →
                 Skill.full_name skill ∉ Dependency.providers D)
            ∧ grants_ok (dependencies s1) (appended ++ extra_skills s1)
                (skill_order self)).
  { destruct (Py.dict_get (dependencies self) (Skill.full_name skill)) as [dep|] eqn:Hk.
    - destruct Hc as [He Hdel].
      destruct (registry_ok_del _ _ _ _ Hreg Hk Hdel) as (Hreg1 & Hsub & Hne & Hdisj).
      pose proof (dict_get_Some_elem _ _ _ Hk) as Hk'.
      split_and!; [done | done | |].
      + intros k D HkD. eapply Hdisj; [done|]. by destruct (Hreg _ _ Hk').
      + rewrite He, app_assoc. by eapply grants_ok_del.
    - subst s1. split_and!; [done | done | | done].
      intros k D HkD Hp. destruct (Hreg _ _ HkD) as [_ HD].
      specialize (HD _ Hp). congruence. }
  destruct Hdeps as (Hreg1 & Hsub & Hprov & Hgr1).
  assert (Hst : steady self s2) by (by eapply steady_trans).
  split.
  - split_and!; [| done | |].
    + eapply pool_ok_steady; [done..|]. by rewrite Hd2.
    + intros name Hname. eapply retired_steady; [by apply Hret | done |].
      rewrite Hd2. done.
    + rewrite Hd2, He2, Ho2, Ho1. done.
  - intros Hin. split_and!.
    + by rewrite Ho2, Ho1.
    + intros br i Hbr Hi. rewrite Ho2 in Hi.
      unfold retire in H2. rewrite Hi in H2.
      apply bind_ok in H2 as (brs & [_ Hz]%zero_weights_evolves & [= <-]).
      rewrite Forall_forall in Hz. apply Hz.
      by destruct (Skill.is_upgradable skill).
    + rewrite Hd2. done.
Qed.

End registry_facts.

Section draw_facts.

Import SkillPool.

Lemma choice_elem {A} rng (seq : list A) x rng' :
  Random.choice rng seq = Ok (x, rng') → x ∈ seq.
Proof.
  unfold Random.choice. destruct seq as [|a seq]; [done|].
  intros Hrun. apply bind_ok in Hrun as ([r rng1] & _ & Hrun).
  apply bind_ok in Hrun as (y & Hy%getitem_ok & [= <- _]).
  by eapply list_elem_of_lookup_2.
Qed.

Lemma getitem_z_elem {A} (l : list A) i x : Py.getitem_z l i = Ok x → x ∈ l.
Proof.
  unfold Py.getitem_z. repeat case_decide; [| |done];
    intros Hx%getitem_ok; by eapply list_elem_of_lookup_2.
Qed.

Lemma draw_inv_snoc self drawn appended name :
  draw_inv self drawn appended → name ∉ drawn → retired self name →
  draw_inv self (drawn ++ [name]) appended.
Proof.
  intros (Hpool & Hnd & Hret & Hgr) Hnew Hname. split_and!; [done | | | done].
  - apply NoDup_app. split_and!; [done | | apply NoDup_singleton].
    intros x Hx ->%list_elem_of_singleton. done.
  - intros x [Hx| ->%list_elem_of_singleton]%elem_of_app; [by apply Hret | done].
Qed.

(** A skill that [choices] returns has not been drawn before. *)
Lemma choices_fresh self drawn appended branch name rng' :
  draw_inv self drawn appended → branch ∈ new_branches self →
  Random.choices (rng self) (skill_order self) (Branch.skill_weights branch)
  = Ok (name, rng') →
  name ∈ skill_order self ∧ name ∉ drawn.
Proof.
  intros (Hpool & _ & Hret & _) Hbr (i & w & Hi & Hw & Hw0)%choices_nonzero.
  split; [by eapply list_elem_of_lookup_2|].
  intros (Hin & Hzero & _)%Hret.
  destruct (index_is_Some _ _ Hin) as [j Hj].
  destruct (Hzero _ _ Hbr Hj) as (w' & Hw' & Hw'0).
  destruct Hpool as (Hnd & _).
  assert (j = i) as -> by (eapply NoDup_lookup; [done | by apply index_Some | done]).
  congruence.
Qed.

(** A provider of a registered dependency has not been drawn before. *)
Lemma provider_fresh self drawn appended dep name :
  draw_inv self drawn appended → dep ∈ Py.dict_values (dependencies self) →
  name ∈ Dependency.providers dep → name ∉ drawn.
Proof.
  intros (_ & _ & Hret & _) Hdep Hname (_ & _ & Hprov)%Hret.
  unfold Py.dict_values in Hdep. apply list_elem_of_fmap in Hdep as ([k D] & -> & HkD).
  by eapply Hprov.
Qed.

Lemma mark_used_fresh self skill hs bi skill' self' drawn appended :
  draw_inv self drawn appended →
  skills self !! Skill.full_name skill = Some skill →
  Skill.full_name skill ∉ drawn →
  mark_used self skill hs bi = Ok (skill', self') →
  skill' = skill ∧ draw_inv self' (drawn ++ [Skill.full_name skill]) appended.
Proof.
  intros Hinv Hsk Hnew Hrun.
  pose proof (mark_used_steady _ _ _ _ _ _ Hrun) as (-> & _).
  split; [done|].
  destruct (mark_used_draw_inv _ _ _ _ _ _ _ _ Hinv Hrun) as [Hinv' Hret].
  apply draw_inv_snoc; [done | done |]. apply Hret.
  destruct Hinv as ((_ & Hpool & _) & _). by destruct (Hpool _ _ Hsk).
Qed.

Lemma skill_named_ok self drawn appended name skill :
  draw_inv self drawn appended → skills self !! name = Some skill →
  Skill.full_name skill = name.
Proof. intros ((_ & Hsk & _) & _) H. by destruct (Hsk _ _ H). Qed.

Lemma get_next_skill_loop_fresh hs bi drawn appended : ∀ fuel self skill self',
  draw_inv self drawn appended →
  get_next_skill_loop fuel self hs bi = Ok (skill, self') →
  draw_inv self' (drawn ++ [Skill.full_name skill]) appended.
Proof.
  induction fuel as [|fuel IH]; intros self skill self' Hinv; [done|].
  cbn [get_next_skill_loop]. intros Hrun.
  apply bind_ok in Hrun as (branch & Hbr%getitem_z_elem & Hrun).
  apply bind_ok in Hrun as ([name rng1] & Hch & Hrun).
  destruct (choices_fresh _ _ _ _ _ _ Hinv Hbr Hch) as [Hin Hnew].
  pose proof (draw_inv_with_rng _ rng1 _ _ Hinv) as Hinv1.
  assert (Hdirect : ∀ skill0 : Skill.t,
    skill_named (with_rng self rng1) name = Ok skill0 →
    mark_used (with_rng self rng1) skill0 hs bi = Ok (skill, self') →
    draw_inv self' (drawn ++ [Skill.full_name skill]) appended).
  { intros skill0 Hnamed Hmark. unfold skill_named in Hnamed.
    destruct (skills (with_rng self rng1) !! name) as [sk|] eqn:Hsk; [|done].
    injection Hnamed as ->.
    pose proof (skill_named_ok _ _ _ _ _ Hinv1 Hsk) as Hfn.
    rewrite <-Hfn in Hsk, Hnew.
    by destruct (mark_used_fresh _ _ _ _ _ _ _ _ Hinv1 Hsk Hnew Hmark) as [-> ?]. }
  case_decide.
  - apply bind_ok in Hrun as (skill0 & Hnamed & Hmark). by eapply Hdirect.
  - destruct (find _ _) as [dep|] eqn:Hfind.
    + apply find_some in Hfind as [Hdep%list_elem_of_In _].
      apply bind_ok in Hrun as ([prov rng2] & Hprov%choice_elem & Hrun).
      pose proof (draw_inv_with_rng _ rng2 _ _ Hinv1) as Hinv2.
      destruct (skills _ !! prov) as [sk|] eqn:Hsk.
      * pose proof (skill_named_ok _ _ _ _ _ Hinv2 Hsk) as Hfn.
        pose proof (provider_fresh _ _ _ _ _ Hinv1 Hdep Hprov) as Hnew'.
        rewrite <-Hfn in Hsk, Hnew'.
        by destruct (mark_used_fresh _ _ _ _ _ _ _ _ Hinv2 Hsk Hnew' Hrun) as [-> ?].
      * by eapply IH.
    + apply bind_ok in Hrun as (skill0 & Hnamed & Hmark). by eapply Hdirect.
Qed.

Lemma draw_skills_fresh hs bi appended : ∀ n d d' drawn,
  draw_inv (pool d) drawn appended →
  draw_skills n hs bi d = Ok d' →
  ∃ new, tier_skills d' = tier_skills d ++ new
    ∧ draw_inv (pool d') (drawn ++ new) appended.
Proof.
  induction n as [|n IH]; intros d d' drawn Hinv; cbn [draw_skills].
  - intros [= <-]. exists []. by rewrite !app_nil_r.
  - intros Hrun. apply bind_ok in Hrun as ([skill self] & Hnext & Hrun).
    apply get_next_skill_loop_fresh with (drawn := drawn) (appended := appended)
      in Hnext; [|done].
    eapply IH in Hrun as (new & Hts & Hinv'); [|by apply Hnext].
    cbn [tier_skills] in Hts. exists (Skill.full_name skill :: new).
    rewrite <-app_assoc in Hts, Hinv'. done.
Qed.

End draw_facts.

Section placed_facts.

Import SkillPool.

Lemma placed_frame filled : ∀ brs brs',
  Forall2 (λ br br', Branch.skills br' = Branch.skills br) brs brs' →
  placed brs' filled = placed brs filled.
Proof.
  unfold placed. induction filled as [|n filled IH]; intros brs brs' Hbrs.
  - by destruct Hbrs.
  - destruct Hbrs as [|br br' brs brs' Hbr Hbrs]; [done|].
    cbn. rewrite Hbr. f_equal. by apply IH.
Qed.

Lemma placed_grow extra br' n' : ∀ brs filled b br n,
  brs !! b = Some br → filled !! b = Some n →
  concat (take n' (Branch.skills br')) = concat (take n (Branch.skills br)) ++ extra →
  placed (<[b:=br']> brs) (<[b:=n']> filled) ≡ₚ placed brs filled ++ extra.
Proof.
  unfold placed.
  induction brs as [|br0 brs IH]; intros filled b br n Hb Hn Hgrow; [done|].
  destruct filled as [|n0 filled]; [done|]. destruct b as [|b].
  - cbn in Hb, Hn. simplify_eq. cbn. rewrite Hgrow.
    rewrite <-!app_assoc. f_equiv. apply Permutation_app_comm.
  - cbn in Hb, Hn. cbn. rewrite <-app_assoc. f_equiv. by eapply IH.
Qed.

Lemma placed_nil brs : placed brs (replicate (length brs) 0%nat) = [].
Proof. unfold placed. induction brs as [|br brs IH]; [done|]. cbn. done. Qed.

Lemma placed_all : ∀ brs,
  Forall (λ br, (length (Branch.skills br) ≤ 6)%nat) brs →
  placed brs (replicate (length brs) 6%nat) = tree_names brs.
Proof.
  unfold placed, tree_names. induction 1 as [|br brs Hbr _ IH]; [done|].
  cbn [length replicate zip_with concat fmap list_fmap].
  rewrite take_ge by done. rewrite concat_app. f_equal. done.
Qed.

Lemma steady_skills self self' :
  steady self self' →
  Forall2 (λ br br', Branch.skills br' = Branch.skills br)
    (new_branches self) (new_branches self').
Proof.
  intros (Hbrs & _). eapply Forall2_impl; [done|].
  intros br br' (Hfr%frame_fields & _). by destruct Hfr.
Qed.

Lemma tiers_bound_frame brs brs' :
  Forall2 (λ br br', Branch.skills br' = Branch.skills br) brs brs' →
  Forall (λ br, (length (Branch.skills br) ≤ 6)%nat) brs →
  Forall (λ br, (length (Branch.skills br) ≤ 6)%nat) brs'.
Proof.
  induction 1 as [|br br' brs brs' Hbr _ IH]; [done|].
  intros [? ?]%Forall_cons. constructor; [by rewrite Hbr | by apply IH].
Qed.

Lemma tree_inv_steady self self' filled drawn appended :
  tree_inv self filled drawn appended → steady self self' →
  dependencies self' = dependencies self →
  extra_skills self' = extra_skills self →
  tree_inv self' filled drawn appended.
Proof.
  intros (Hinv & Hlen & Hbound & Hplaced) Hst Hd He.
  pose proof (steady_skills _ _ Hst) as Hsk. split_and!.
  - by eapply draw_inv_steady.
  - rewrite Hlen. by eapply Forall2_length.
  - by eapply tiers_bound_frame.
  - by rewrite (placed_frame _ _ _ Hsk).
Qed.

(** The invariant reads the branches through their weights only. *)
Lemma draw_inv_rebranch self self' drawn appended appended' :
  draw_inv self drawn appended →
  skill_order self' = skill_order self → skills self' = skills self →
  dependencies self' = dependencies self →
  appended' ++ extra_skills self' = appended ++ extra_skills self →
  Forall2 (λ br br', Branch.skill_weights br' = Branch.skill_weights br)
    (new_branches self) (new_branches self') →
  draw_inv self' drawn appended'.
Proof.
  intros ((Hnd & Hsk & Hreg) & Hndd & Hret & Hgr) Ho Hs Hd He Hbrs. split_and!.
  - split_and!; [by rewrite Ho | by rewrite Ho, Hs | by rewrite Hd].
  - done.
  - intros name (Hin & Hzero & Hprov)%Hret. split_and!.
    + by rewrite Ho.
    + intros br' i [b Hb]%list_elem_of_lookup Hi. rewrite Ho in Hi.
      destruct (Forall2_lookup_r _ _ _ _ _ Hbrs Hb) as (br & Hbr & ->).
      apply Hzero; [by eapply list_elem_of_lookup_2 | done].
    + by rewrite Hd.
  - by rewrite Hd, He, Ho.
Qed.

Lemma Forall2_insert_r {A} (P : A → A → Prop) (l : list A) b x y :
  (∀ z, P z z) → l !! b = Some x → P x y → Forall2 P l (<[b:=y]> l).
Proof.
  intros Hrefl Hb Hxy. apply Forall2_same_length_lookup_2; [by rewrite length_insert|].
  intros i z z' Hz Hz'. destruct (decide (b = i)) as [->|Hne].
  - rewrite list_lookup_insert_eq in Hz' by (by eapply lookup_lt_Some).
    by simplify_eq.
  - rewrite list_lookup_insert_ne in Hz' by done. by simplify_eq.
Qed.

Lemma place_skills_inv self b tier rt hs self' filled drawn appended :
  tree_inv self filled drawn appended → filled !! b = Some tier →
  place_skills self b tier rt hs = Ok self' →
  ∃ drawn' appended', tree_inv self' (<[b := S tier]> filled) drawn' appended'.
Proof.
  intros (Hinv & Hlen & Hbound & Hplaced) Hdone. unfold place_skills. intros Hrun.
  apply bind_ok in Hrun as (br1 & _ & Hrun). apply bind_ok in Hrun as (density & _ & Hrun).
  apply bind_ok in Hrun as ([n rng1] & _ & Hrun).
  apply bind_ok in Hrun as (d & Hd & Hrun).
  pose proof (draw_skills_steady _ _ _ _ _ Hd) as Hst.
  eapply draw_skills_fresh in Hd as (new & Hnew & Hinvd);
    [|cbn [pool]; by apply draw_inv_with_rng].
  cbn [pool tier_skills app] in Hst, Hnew.
  assert (Hst0 : steady self (pool d))
    by (eapply steady_trans; [apply (steady_with_rng _ rng1) | done]).
  pose proof (steady_skills _ _ Hst0) as Hsk.
  pose proof (tiers_bound_frame _ _ Hsk Hbound) as Hboundd.
  rewrite <-(placed_frame _ _ _ Hsk) in Hplaced.
  assert (Hlend : length filled = length (new_branches (pool d)))
    by (rewrite Hlen; by eapply Forall2_length).
  clear Hst Hst0 Hsk Hbound Hlen Hinv. revert Hrun Hinvd Hboundd Hplaced Hlend.
  generalize (pool d). clear self. intros self Hrun Hinv Hbound Hplaced Hlen.
  apply bind_ok in Hrun as (br2 & Hbr2%getitem_ok & Hrun).
  apply bind_ok in Hrun as (layout' & _ & Hrun).
  apply bind_ok in Hrun as (skills' & [Htier ->]%setitem_ok & Hrun).
  apply bind_ok in Hrun as ([points rng2] & _ & Hrun).
  apply bind_ok in Hrun as (points' & _ & Hrun).
  assert (Hbr2len : (length (Branch.skills br2) ≤ 6)%nat).
  { rewrite Forall_forall in Hbound. apply Hbound. by eapply list_elem_of_lookup_2. }
  assert (Hweights : ∀ br', Branch.skill_weights br' = Branch.skill_weights br2 →
    Forall2 (λ br br', Branch.skill_weights br' = Branch.skill_weights br)
      (new_branches self) (<[b:=br']> (new_branches self))).
  { intros br' Hw. by eapply Forall2_insert_r. }
  case_decide as Ht.
  - subst tier. destruct (get_extra_skills _) as [extra s3] eqn:He.
    injection He as <- <-.
    apply bind_ok in Hrun as (t5 & Ht5%getitem_ok & [= <-]).
    cbn [Branch.with_tiers Branch.skills] in Ht5.
    rewrite list_lookup_insert_eq in Ht5 by done. injection Ht5 as <-.
    exists (drawn ++ new), (appended ++ extra_skills (with_rng self rng2)).
    unfold with_new_branches, with_extra_skills, with_rng.
    cbn [new_branches extra_skills Branch.with_tiers Branch.skills
         Branch.points_to_unlock Branch.layout Branch.skill_count Branch.slots_left].
    split_and!; cbn [new_branches].
    + eapply draw_inv_rebranch; [exact Hinv | done | done | done | | ].
      * cbn [extra_skills]. by rewrite app_nil_r.
      * cbn [new_branches]. apply Hweights. reflexivity.
    + rewrite !length_insert. exact Hlen.
    + apply Forall_insert; [done|]. cbn [Branch.skills Branch.with_tiers]. by rewrite !length_insert.
    + rewrite placed_grow with (br := br2) (n := 5%nat) (extra := new ++ extra_skills self);
        [|done|done|].
      * rewrite Hplaced. rewrite <-!app_assoc. f_equiv. rewrite !app_assoc. f_equiv.
        apply Permutation_app_comm.
      * cbn [Branch.skills Branch.with_tiers]. rewrite list_insert_insert_eq.
        rewrite (take_S_r _ _ (tier_skills d ++ extra_skills self))
          by (by apply list_lookup_insert_eq).
        rewrite take_insert_ge by done. rewrite concat_app. cbn.
        by rewrite app_nil_r, Hnew.
  - injection Hrun as <-. exists (drawn ++ new), appended.
    unfold with_new_branches, with_rng.
    cbn [new_branches Branch.with_tiers]. split_and!; cbn [new_branches].
    + eapply draw_inv_rebranch; [exact Hinv | done | done | done | done | ].
      cbn [new_branches]. apply Hweights. reflexivity.
    + rewrite !length_insert. exact Hlen.
    + apply Forall_insert; [done|]. cbn [Branch.skills Branch.with_tiers]. by rewrite !length_insert.
    + rewrite placed_grow with (br := br2) (n := tier) (extra := new); [|done|done|].
      * rewrite Hplaced. rewrite <-!app_assoc. f_equiv. apply Permutation_app_comm.
      * cbn [Branch.skills Branch.with_tiers].
        rewrite (take_S_r _ _ (tier_skills d)) by (by apply list_lookup_insert_eq).
        rewrite take_insert_ge by done. rewrite concat_app. cbn.
        by rewrite app_nil_r, Hnew.
Qed.

Lemma randomize_branch_tier_inv self log b tier rt hs cheats self' log' filled drawn
    appended :
  tree_inv self filled drawn appended → filled !! b = Some tier →
  randomize_branch_tier self log b tier rt hs cheats = Ok (self', log') →
  ∃ drawn' appended', tree_inv self' (<[b := S tier]> filled) drawn' appended'.
Proof.
  intros Hinv Hdone. unfold randomize_branch_tier. intros Hrun.
  apply bind_ok in Hrun as ([s1 l1] & (Hst & _ & Hd & He & _)%cheats_steady & Hrun).
  apply bind_ok in Hrun as (s2 & H2 & [= <- <-]).
  eapply place_skills_inv; [|done|done]. by eapply tree_inv_steady.
Qed.

Lemma progress_lookup n tier b : (b < n)%nat → progress n tier b !! b = Some tier.
Proof.
  intros Hb. unfold progress.
  rewrite lookup_app_r by (by rewrite length_replicate).
  rewrite length_replicate, Nat.sub_diag. apply lookup_replicate_2. lia.
Qed.

Lemma progress_insert n tier b :
  (b < n)%nat → <[b := S tier]> (progress n tier b) = progress n tier (S b).
Proof.
  intros Hb. unfold progress. rewrite replicate_S_end, <-app_assoc.
  rewrite insert_app_r_alt by (by rewrite length_replicate).
  rewrite length_replicate, Nat.sub_diag.
  replace (n - b)%nat with (S (n - S b)) by lia. done.
Qed.

Lemma randomize_tier_inv rt hs cheats tier n : ∀ k b self log self' log' drawn
    appended,
  (b + k = n)%nat →
  tree_inv self (progress n tier b) drawn appended →
  Py.foldM
    (λ '(self, log) b, randomize_branch_tier self log b tier rt hs cheats)
    (self, log) (seq b k) = Ok (self', log') →
  ∃ drawn' appended', tree_inv self' (progress n tier n) drawn' appended'.
Proof.
  induction k as [|k IH]; intros b self log self' log' drawn appended Hn Hinv;
    cbn [seq Py.foldM].
  - intros [= <- <-]. assert (n = b) as -> by lia. eauto.
  - intros Hrun. apply bind_ok in Hrun as ([s1 l1] & H1 & Hrun).
    eapply randomize_branch_tier_inv in H1 as (drawn1 & appended1 & Hinv1);
      [|done|apply progress_lookup; lia].
    rewrite progress_insert in Hinv1 by lia.
    eapply IH in Hrun; [done | lia | done].
Qed.

Lemma randomize_tiers_inv rt hs cheats n : ∀ k tier self log self' log' drawn
    appended,
  tree_inv self (replicate n tier) drawn appended →
  Py.foldM (randomize_tier rt hs cheats) (self, log) (seq tier k) = Ok (self', log') →
  ∃ drawn' appended', tree_inv self' (replicate n (tier + k)%nat) drawn' appended'.
Proof.
  induction k as [|k IH]; intros tier self log self' log' drawn appended Hinv;
    cbn [seq Py.foldM].
  - intros [= <- <-]. rewrite Nat.add_0_r. eauto.
  - intros Hrun. apply bind_ok in Hrun as ([s1 l1] & H1 & Hrun).
    unfold randomize_tier in H1. cbn [fst] in H1.
    assert (Hlen : length (new_branches self) = n).
    { destruct Hinv as (_ & Hlen & _). by rewrite length_replicate in Hlen. }
    rewrite Hlen in H1.
    eapply randomize_tier_inv with (n := n) in H1 as (drawn1 & appended1 & Hinv1);
      [| lia |].
    + unfold progress in Hinv1. rewrite Nat.sub_diag, app_nil_r in Hinv1.
      eapply IH in Hrun as (drawn2 & appended2 & Hinv2); [|done].
      replace (tier + S k)%nat with (S tier + k)%nat by lia. eauto.
    + unfold progress. cbn. rewrite Nat.sub_0_r. done.
Qed.

Lemma tree_inv_NoDup self drawn appended :
  tree_inv self (replicate (length (new_branches self)) 6%nat) drawn appended →
  NoDup (tree_names (new_branches self)).
Proof.
  intros ((_ & Hnd & Hret & (Hgr & Hord & _)) & _ & Hbound & Hplaced).
  rewrite <-placed_all by done. rewrite Hplaced.
  apply NoDup_app. split_and!; [done | | by apply NoDup_app in Hgr as (? & _)].
  intros x (Hin & _)%Hret Hx. eapply Hord; [|done]. apply elem_of_app. by left.
Qed.

End placed_facts.

Section gather_facts.

Import SkillPool.

Context (catalog : gmap string Character.t).
Hypothesis Hcatalog : catalog_ok catalog.

Lemma catalog_ok_deps D1 D2 :
  D1 ∈ catalog_dependencies catalog → D2 ∈ catalog_dependencies catalog →
  D1 = D2
  ∨ ((∀ p, p ∈ Dependency.providers D1 → p ∉ Dependency.providers D2)
     ∧ (∀ g, g ∈ Dependency.extra_skills D1 → g ∉ Dependency.extra_skills D2)).
Proof.
  intros H1 H2. unfold catalog_ok in Hcatalog. rewrite Forall_forall in Hcatalog.
  destruct (Hcatalog _ H1) as (_ & _ & Hall). rewrite Forall_forall in Hall.
  destruct (Hall _ H2) as [->|[Hp Hg]]; [by left | right].
  rewrite Forall_forall in Hp, Hg. done.
Qed.

Lemma catalog_ok_grants D :
  D ∈ catalog_dependencies catalog →
  NoDup (Dependency.extra_skills D)
  ∧ ∀ g, g ∈ Dependency.extra_skills D → g ∉ catalog_skill_names catalog.
Proof.
  intros H1. unfold catalog_ok in Hcatalog. rewrite Forall_forall in Hcatalog.
  destruct (Hcatalog _ H1) as (? & Hg & _). rewrite Forall_forall in Hg. done.
Qed.

Lemma dict_set_elem {V} (d : Py.dict V) k v kv :
  kv ∈ Py.dict_set d k v → kv = (k, v) ∨ kv ∈ d.
Proof.
  induction d as [|[k0 v0] d IH]; cbn.
  - intros ->%list_elem_of_singleton. by left.
  - case_decide.
    + intros [->|?]%elem_of_cons; [by left | right; by right].
    + intros [->|[->|?]%IH]%elem_of_cons; [right; by left | by left | right; by right].
Qed.

Lemma dict_set_all {V} (v : V) (ks : list string) : ∀ d : Py.dict V,
  (∀ k, Py.dict_get (foldl (λ d p, Py.dict_set d p v) d ks) k
        = if decide (k ∈ ks) then Some v else Py.dict_get d k)
  ∧ (∀ kv, kv ∈ foldl (λ d p, Py.dict_set d p v) d ks →
       (kv.2 = v ∧ kv.1 ∈ ks) ∨ kv ∈ d).
Proof.
  induction ks as [|k0 ks IH]; intros d; cbn [foldl].
  - split; [|by right]. intros k. by rewrite decide_False by apply not_elem_of_nil.
  - destruct (IH (Py.dict_set d k0 v)) as [Hget Hin]. split.
    + intros k. rewrite Hget, dict_get_set.
      destruct (decide (k ∈ ks)) as [Hk|Hk].
      * rewrite decide_True; [done | by right].
      * destruct (decide (k0 = k)) as [->|Hne].
        -- rewrite decide_True; [done | by left].
        -- rewrite decide_False; [done|]. rewrite elem_of_cons. naive_solver.
    + intros kv [[? ?]|[->|?]%dict_set_elem]%Hin.
      * left. split; [done | by right].
      * left. split; [done | by left].
      * by right.
Qed.

Lemma registry_add reg D :
  D ∈ catalog_dependencies catalog → registry_ok reg →
  (∀ k D', (k, D') ∈ reg → D' ∈ catalog_dependencies catalog) →
  registry_ok (foldl (λ d p, Py.dict_set d p D) reg (Dependency.providers D))
  ∧ (∀ k D', (k, D') ∈ foldl (λ d p, Py.dict_set d p D) reg (Dependency.providers D) →
       D' ∈ catalog_dependencies catalog).
Proof.
  intros HD Hreg Hfrom.
  destruct (dict_set_all D (Dependency.providers D) reg) as [Hget Hin]. split.
  - intros k D' [[Heq Hk]|HkD]%Hin; cbn in *.
    + subst D'. split; [done|]. intros p Hp. rewrite Hget. by rewrite decide_True.
    + destruct (Hreg _ _ HkD) as [Hk Hall]. split; [done|].
      intros p Hp. rewrite Hget. case_decide as Hp'; [|by apply Hall].
      destruct (catalog_ok_deps D' D) as [->|[Hdisj _]]; [by eapply Hfrom | done | done |].
      by destruct (Hdisj _ Hp).
  - intros k D' [[Heq Hk]|HkD]%Hin; cbn in *; [by subst | by eapply Hfrom].
Qed.

Lemma gathered_add_dependency self D :
  D ∈ catalog_dependencies catalog → gathered catalog self →
  gathered catalog (add_dependency self D).
Proof.
  intros HD (Hsk & Hreg & Hfrom & He).
  destruct (registry_add _ _ HD Hreg Hfrom) as [Hreg' Hfrom'].
  unfold add_dependency, with_dependencies. split_and!; done.
Qed.

Lemma gathered_add_dependencies deps : ∀ self,
  (∀ D, D ∈ deps → D ∈ catalog_dependencies catalog) → gathered catalog self →
  gathered catalog (foldl add_dependency self deps).
Proof.
  induction deps as [|D deps IH]; intros self Hdeps Hself; [done|].
  cbn [foldl]. apply IH.
  - intros D' HD'. apply Hdeps. by right.
  - apply gathered_add_dependency; [|done]. apply Hdeps. by left.
Qed.

Lemma add_skills_lookup l : ∀ (m : gmap string Skill.t) name skill,
  foldl (λ m skill, <[Skill.full_name skill := skill]> m) m l !! name = Some skill →
  m !! name = Some skill ∨ (skill ∈ l ∧ Skill.full_name skill = name).
Proof.
  induction l as [|sk l IH]; intros m name skill; cbn [foldl]; [by left|].
  intros [Hm|[? ?]]%IH.
  - destruct (decide (Skill.full_name sk = name)) as [Heq|Hne].
    + rewrite <-Heq, lookup_insert_eq in Hm. injection Hm as <-.
      right. split; [by left | done].
    + rewrite lookup_insert_ne in Hm by done. by left.
  - right. split; [by right | done].
Qed.

Lemma gathered_add_skills self l :
  (∀ skill, skill ∈ l → Skill.full_name skill ∈ catalog_skill_names catalog) →
  gathered catalog self → gathered catalog (add_skills self l).
Proof.
  intros Hl (Hsk & Hreg & Hfrom & He).
  unfold add_skills, with_skills. split_and!; try done.
  cbn [skills]. intros name skill [?|[Hin <-]]%add_skills_lookup; [by apply Hsk|].
  split; [done | by apply Hl].
Qed.

Lemma catalog_skill_name char source_char skill :
  catalog !! char = Some source_char →
  skill ∈ Character.pure_skills source_char
          ++ Character.misdocumented_skills source_char
          ++ Character.suppressed_skills source_char →
  Skill.full_name skill ∈ catalog_skill_names catalog.
Proof.
  intros Hchar Hskill. unfold catalog_skill_names.
  apply list_elem_of_fmap_2, list_elem_of_bind. exists source_char. split; [done|].
  apply list_elem_of_fmap. exists (char, source_char). split; [done|].
  by apply elem_of_map_to_list.
Qed.

Lemma catalog_dependency char source_char D :
  catalog !! char = Some source_char → D ∈ Character.dependencies source_char →
  D ∈ catalog_dependencies catalog.
Proof.
  intros Hchar HD. unfold catalog_dependencies.
  apply list_elem_of_bind. exists source_char. split; [done|].
  apply list_elem_of_fmap. exists (char, source_char). split; [done|].
  by apply elem_of_map_to_list.
Qed.

Lemma gather_gathered hs self log cur char :
  gathered catalog self →
  gathered catalog (gather catalog hs (self, log, cur) char).1.1.
Proof.
  intros Hself. unfold gather. destruct (catalog !! char) as [c|] eqn:Hchar; [|done].
  cbn [fst]. apply gathered_add_dependencies.
  { intros D HD. by eapply catalog_dependency. }
  assert (Hpure : gathered catalog (add_skills self (Character.pure_skills c))).
  { apply gathered_add_skills; [|done]. intros sk Hsk.
    eapply catalog_skill_name; [done|]. apply elem_of_app. by left. }
  case_decide; [|done].
  assert (Hmis : gathered catalog
            (add_skills (add_skills self (Character.pure_skills c))
               (Character.misdocumented_skills c))).
  { apply gathered_add_skills; [|done]. intros sk Hsk.
    eapply catalog_skill_name; [done|]. rewrite !elem_of_app. by right; left. }
  case_decide; [|done].
  apply gathered_add_skills; [|done]. intros sk Hsk.
  eapply catalog_skill_name; [done|]. rewrite !elem_of_app. by right; right.
Qed.

Lemma gather_all hs enabled : ∀ st,
  gathered catalog st.1.1 →
  gathered catalog (foldl (gather catalog hs) st enabled).1.1.
Proof.
  induction enabled as [|char enabled IH]; intros [[self log] cur] Hst; [done|].
  cbn [foldl]. apply IH.
  destruct (gather catalog hs (self, log, cur) char) as [[s1 l1] c1] eqn:Hg.
  pose proof (gather_gathered hs self log cur char Hst) as H1.
  by rewrite Hg in H1.
Qed.

(** The pool that the draws start from satisfies the invariant. *)
Lemma gathered_draw_inv self brs originals r :
  gathered catalog self →
  draw_inv
    (with_new_branches
       (with_original_branches
          (with_rng (with_skill_order self (sorted_names (skills self))) r)
          originals) brs) [] [].
Proof.
  intros (Hsk & Hreg & Hfrom & He).
  unfold with_new_branches, with_original_branches, with_rng, with_skill_order.
  assert (Hperm : sorted_names (skills self) ≡ₚ (map_to_list (skills self)).*1)
    by apply merge_sort_Permutation.
  assert (Hin : ∀ name, name ∈ sorted_names (skills self) →
            name ∈ catalog_skill_names catalog).
  { intros name. rewrite Hperm. intros ([k sk] & -> & Hk%elem_of_map_to_list)%list_elem_of_fmap.
    by destruct (Hsk _ _ Hk). }
  split_and!; cbn [skill_order skills dependencies extra_skills new_branches].
  - split_and!; cbn [skill_order skills dependencies].
    + rewrite Hperm. apply NoDup_fst_map_to_list.
    + intros name sk Hname. destruct (Hsk _ _ Hname) as [? _]. split; [done|].
      rewrite Hperm. apply list_elem_of_fmap. exists (name, sk). split; [done|].
      by apply elem_of_map_to_list.
    + done.
  - apply NoDup_nil_2.
  - intros name []%elem_of_nil.
  - rewrite He. cbn [app]. split_and!.
    + apply NoDup_nil_2.
    + intros g []%elem_of_nil.
    + intros k D HkD. destruct (catalog_ok_grants D) as [? Hg]; [by eapply Hfrom|].
      split; [done|]. intros g Hg'. split; [apply not_elem_of_nil|].
      intros Hgo%Hin. by eapply Hg.
    + intros k1 D1 k2 D2 g H1 H2 Hg1 Hg2.
      destruct (catalog_ok_deps D1 D2) as [->|[_ Hdisj]];
        [by eapply Hfrom | by eapply Hfrom | done |].
      by destruct (Hdisj _ Hg1).
Qed.

End gather_facts.

Section tree_facts.

Import SkillPool.

Lemma random_char_frame catalog enabled self c self' :
  random_char catalog enabled self = Ok (c, self') →
  self' = with_rng self (rng self').
Proof.
  unfold random_char. intros Hrun.
  by apply bind_ok in Hrun as ([ch r] & _ & [= <- <-]).
Qed.

Lemma desired_character_frame catalog enabled action cur self log c self' log' :
  desired_character catalog enabled action cur self log = Ok (c, self', log') →
  self' = with_rng self (rng self').
Proof.
  unfold desired_character. intros Hrun.
  repeat case_match; simplify_eq;
    try (match goal with |- ?s = _ => by destruct s end);
    by apply bind_ok in Hrun as ([c1 s1] & Hch%random_char_frame & [= <- <- <-]).
Qed.

Lemma prepare_branches_bound n : ∀ cs st st',
  Py.foldM (prepare_branch n) st cs = Ok st' →
  Forall (λ c, (length (Engine.Tiers c) ≤ 6)%nat) cs →
  Forall (λ br, (length (Branch.skills br) ≤ 6)%nat) (news st) →
  Forall (λ br, (length (Branch.skills br) ≤ 6)%nat) (news st').
Proof.
  induction cs as [|c cs IH]; intros st st'; cbn [Py.foldM].
  - by intros [= <-].
  - intros Hrun [Hc Hcs]%Forall_cons Hst.
    apply bind_ok in Hrun as (st1 & H1 & Hrun).
    eapply IH; [done | done |]. unfold prepare_branch in H1.
    apply bind_ok in H1 as (share & _ & [= <-]). cbn [news].
    apply Forall_app. split; [done|]. constructor; [|done].
    cbn. by rewrite length_map.
Qed.

Lemma tree_inv_names self n drawn appended :
  tree_inv self (replicate n 6%nat) drawn appended →
  NoDup (tree_names (new_branches self)).
Proof.
  intros Hinv. apply (tree_inv_NoDup _ drawn appended).
  pose proof Hinv as (_ & Hlen & _). rewrite length_replicate in Hlen. by subst n.
Qed.

End tree_facts.

(** ** The shipped dependency table is well formed *)

Section hint_facts.

Lemma hint_dependencies_compatible :
  Forall (λ D1,
    NoDup (Dependency.extra_skills D1)
    ∧ NoDup (Dependency.providers D1)
    ∧ Forall (λ D2,
        D1 = D2
        ∨ (Forall (λ p, p ∉ Dependency.providers D2) (Dependency.providers D1)
           ∧ Forall (λ g, g ∉ Dependency.extra_skills D2)
               (Dependency.extra_skills D1)))
        hint_dependencies)
    hint_dependencies.
Proof. apply (bool_decide_unpack _). vm_compute. exact I. Qed.

Lemma hint_grants_eq :
  hint_grants
  = ["GD_Lilac_Skills_Bloodlust.Skills._Bloodlust";
     "GD_Lilac_Skills_Hellborn.Skills.FireStatusDetector";
     "GD_Lilac_Skills_Hellborn.Skills.AppliedStatusEffectListener"].
Proof. reflexivity. Qed.

Lemma hinted_dependency catalog D :
  hinted catalog → D ∈ catalog_dependencies catalog → D ∈ hint_dependencies.
Proof.
  intros Hhinted (c & HD & Hc)%list_elem_of_bind.
  rewrite (Hhinted _ Hc) in HD. unfold CharacterHint.dependencies in HD.
  destruct (Py.dict_get _ _) as [deps|] eqn:Hget; cbn in HD;
    [|by apply elem_of_nil in HD].
  apply dict_get_Some_elem in Hget. unfold hint_dependencies.
  apply list_elem_of_bind. by exists (Character.character_name c, deps).
Qed.

(** A catalog that takes its dependencies from [HINT_MAP] is well formed
    as soon as the three granted helper skills are not skills of a
    character. *)
Lemma hinted_catalog_ok catalog :
  hinted catalog →
  (∀ g, g ∈ hint_grants → g ∉ catalog_skill_names catalog) →
  catalog_ok catalog.
Proof.
  intros Hhinted Hgrants. unfold catalog_ok. apply Forall_forall.
  intros D1 H1%(hinted_dependency _ _ Hhinted).
  pose proof hint_dependencies_compatible as Hall. rewrite Forall_forall in Hall.
  destruct (Hall _ H1) as (Hnd & _ & Hcompat). rewrite Forall_forall in Hcompat.
  split_and!; [done | |].
  - apply Forall_forall. intros g Hg. apply Hgrants. unfold hint_grants.
    apply list_elem_of_bind. by exists D1.
  - apply Forall_forall. intros D2 H2%(hinted_dependency _ _ Hhinted).
    by apply Hcompat.
Qed.

End hint_facts.

(** C2: in a tree that [randomize_tree] generates from a well-formed
    catalog, for branches of at most six tiers, no skill name occurs
    twice: not within a tier, not across tiers, not across branches, and
    the granted skills appended to a tier 5 are counted in.  This holds
    for every tape of random draws and every choice of the options. *)
Theorem randomize_tree_no_duplicates (rng : list Q) (log : list log_entry)
    (skill_tree : Engine.t) (catalog : gmap string Character.t)
    (enabled_sources : list string) (hidden_skills action_skill : string)
    (skill_density : Z) (randomize_tiers : bool) (cheats : Py.dict Z)
    (self' : SkillPool.t) (log' : list log_entry) (skill_tree' : Engine.t) :
  catalog_ok catalog →
  Forall (λ c, (length (Engine.Tiers c) ≤ 6)%nat) (Engine.children skill_tree) →
  SkillPool.randomize_tree (SkillPool.init rng) log skill_tree catalog
    enabled_sources hidden_skills action_skill skill_density randomize_tiers cheats
  = Ok (self', log', skill_tree') →
  NoDup (tree_names (SkillPool.new_branches self')).
Proof.
  intros Hcatalog Htiers. unfold SkillPool.randomize_tree. intros Hrun.
  pose proof (gather_all catalog Hcatalog hidden_skills enabled_sources
    (SkillPool.with_current_char_class (SkillPool.init rng)
       (class_from_obj_name (Engine.root_path_name skill_tree)), log, None)) as Hg.
  destruct (foldl _ _ enabled_sources) as [[s1 l1] cur]. cbn [fst] in Hg.
  assert (Hs1 : gathered catalog s1).
  { apply Hg. split_and!; cbn.
    - intros name sk Hname. by rewrite lookup_empty in Hname.
    - intros k D []%elem_of_nil.
    - intros k D []%elem_of_nil.
    - done. }
  clear Hg.
  apply bind_ok in Hrun as ([[c s2] l2] & Hdes%desired_character_frame & Hrun).
  apply bind_ok in Hrun as (st & Hst & Hrun).
  pose proof (prepare_branches_originals _ _ _ _ Hst) as [_ Hlen].
  eapply prepare_branches_bound in Hst; [|done|by constructor].
  apply bind_ok in Hrun as (dc & _ & Hrun).
  apply bind_ok in Hrun as (action' & _ & Hrun).
  apply bind_ok in Hrun as ([a s3] & H3 & Hrun).
  apply bind_ok in Hrun as ([s4 l4] & H4 & [= <- _ _]).
  rewrite Hdes in H3.
  pose proof (gathered_draw_inv catalog Hcatalog s1 (SkillPool.news st)
    (Some (SkillPool.originals st)) (SkillPool.rng s2) Hs1) as Hinv.
  destruct (mark_used_draw_inv _ _ _ _ _ _ _ _ Hinv H3) as [Hinv3 _].
  pose proof (mark_used_steady _ _ _ _ _ _ H3) as (_ & Hst3 & _).
  pose proof (steady_skills _ _ Hst3) as Hsk3.
  assert (Htree : tree_inv s3 (replicate (length (SkillPool.new_branches s3)) 0%nat) [] []).
  { split_and!.
    - done.
    - by rewrite length_replicate.
    - eapply tiers_bound_frame; [done|]. done.
    - by rewrite placed_nil. }
  eapply randomize_tiers_inv in H4 as (drawn & appended & Hinv4); [|done].
  by eapply tree_inv_names.
Qed.

Lemma randomize_tree_no_duplicates_witness :
  catalog_ok Example.catalog
  ∧ NoDup (tree_names (SkillPool.new_branches (Example.generated).1.1))
  ∧ "G" ∈ tree_names (SkillPool.new_branches (Example.generated).1.1).
Proof.
  assert (Hcatalog : catalog_ok Example.catalog)
    by (apply (bool_decide_unpack _); vm_compute; exact I).
  split; [exact Hcatalog|]. split.
  - apply (randomize_tree_no_duplicates Example.tape [] Example.skill_tree
             Example.catalog ["Xavier"] "None" "Default" 30 false []
             (Example.generated).1.1 (Example.generated).1.2
             (Example.generated).2).
    + exact Hcatalog.
    + apply (bool_decide_unpack _). vm_compute. exact I.
    + vm_compute. reflexivity.
  - apply (bool_decide_unpack _). vm_compute. exact I.
Defined.

(** * Further properties of the code *)

(** ** Branches and the pool *)

Lemma omap_id_Some {A} (l : list A) : omap id (map Some l) = l.
Proof. induction l as [|x l IH]; [done|]. cbn. by rewrite IH. Qed.

Lemma read_patched_skills (ss : list (list string)) : ∀ us : list Z,
  map (λ tier, omap id (Engine.Skills tier))
    (zip_with (λ tier_skills unlock, Engine.mk_tier (map Some tier_skills) unlock) ss us)
  = take (length us) ss.
Proof.
  induction ss as [|s ss IH]; intros [|u us]; cbn; try done.
  by rewrite omap_id_Some, IH.
Qed.

Lemma read_patched_points (ss : list (list string)) : ∀ us : list Z,
  map Engine.PointsToUnlockNextTier
    (zip_with (λ tier_skills unlock, Engine.mk_tier (map Some tier_skills) unlock) ss us)
  = take (length ss) us.
Proof.
  induction ss as [|s ss IH]; intros [|u us]; cbn; try done. by rewrite IH.
Qed.

(** X1: what [Branch.patch] writes, [Branch.from_branch] reads back.  After
    [patch], the engine branch of the same path name and layout name reads
    as the branch's name, layout name and layout, and as its tiers and
    unlock costs cut to the shorter of the two lists, which is what the
    [zip] of [patch] keeps. *)
Theorem patch_then_from_branch (br : Branch.t) (e : Engine.t) (i : nat)
    (c : Engine.branch_def) :
  Engine.children e !! i = Some c →
  Engine.path_name c = Branch.full_name br →
  Engine.layout_path_name c = Branch.layout_name br →
  ∃ c', Engine.children (Branch.patch br e) !! i = Some c'
    ∧ Branch.full_name (Branch.from_branch c') = Branch.full_name br
    ∧ Branch.layout_name (Branch.from_branch c') = Branch.layout_name br
    ∧ Branch.skills (Branch.from_branch c')
      = take (length (Branch.points_to_unlock br)) (Branch.skills br)
    ∧ Branch.points_to_unlock (Branch.from_branch c')
      = take (length (Branch.skills br)) (Branch.points_to_unlock br)
    ∧ Branch.layout (Branch.from_branch c') = Branch.layout br.
Proof.
  intros Hc Hname Hlayout. exists (patch_child br c). split.
  - rewrite patch_children. unfold Engine.with_children. cbn [Engine.children].
    by rewrite list_lookup_fmap, Hc.
  - unfold patch_child, Branch.from_branch.
    cbn [Branch.full_name Branch.layout_name Branch.skills Branch.points_to_unlock
         Branch.layout Engine.path_name Engine.layout_path_name Engine.Tiers
         Engine.layout_Tiers].
    rewrite !decide_True by done. unfold Branch.patched_tiers.
    rewrite read_patched_skills, read_patched_points. done.
Qed.

Lemma patch_then_from_branch_witness :
  ∃ c', Engine.children (Branch.patch (Example.branch 0 4) Example.skill_tree) !! 0%nat
        = Some c'
    ∧ Branch.skills (Branch.from_branch c') = replicate 6 ["Old1"; "Old2"]
    ∧ Branch.layout (Branch.from_branch c') = Example.layouts.
Proof.
  destruct (patch_then_from_branch (Example.branch 0 4) Example.skill_tree 0
              (Engine.mk_branch_def "Left" Example.tiers "LeftLayout" Example.layouts))
    as (c' & Hc' & _ & _ & Hs & _ & Hl).
  - reflexivity.
  - reflexivity.
  - reflexivity.
  - exists c'. exact (conj Hc' (conj Hs Hl)).
Defined.

(** X2: [add_dependency] files the dependency under each of its providers:
    afterwards every provider resolves to it, also one that an earlier
    dependency had registered, and every other name resolves as before. *)
Theorem add_dependency_lookup (self : SkillPool.t) (dep : Dependency.t)
    (skill_name : string) :
  Py.dict_get (SkillPool.dependencies (SkillPool.add_dependency self dep)) skill_name
  = if decide (skill_name ∈ Dependency.providers dep) then Some dep
    else Py.dict_get (SkillPool.dependencies self) skill_name.
Proof.
  unfold SkillPool.add_dependency, SkillPool.with_dependencies.
  cbn [SkillPool.dependencies].
  by destruct (dict_set_all dep (Dependency.providers dep)
                 (SkillPool.dependencies self)) as [-> _].
Qed.

Lemma fold_insert_last (l : list Skill.t) : ∀ (m : gmap string Skill.t) name,
  foldl (λ m skill, <[Skill.full_name skill := skill]> m) m l !! name
  = match last (filter (λ s, Skill.full_name s = name) l) with
    | Some s => Some s
    | None => m !! name
    end.
Proof.
  induction l as [|s l IH] using rev_ind; intros m name; [done|].
  rewrite foldl_app, filter_app, last_app. cbn [foldl].
  rewrite filter_cons, filter_nil. case_decide as Hs.
  - cbn. by rewrite <-Hs, lookup_insert_eq.
  - cbn. rewrite lookup_insert_ne by done. apply IH.
Qed.

(** X3: [add_skills] files every skill under its full name, and of two
    skills with one full name the one added later is kept: a name resolves
    to the last skill of the list that bears it, and as before when the
    list has none. *)
Theorem add_skills_lookup_last (self : SkillPool.t) (skill_list : list Skill.t)
    (name : string) :
  SkillPool.skills (SkillPool.add_skills self skill_list) !! name
  = match last (filter (λ s, Skill.full_name s = name) skill_list) with
    | Some s => Some s
    | None => SkillPool.skills self !! name
    end.
Proof.
  unfold SkillPool.add_skills, SkillPool.with_skills. cbn [SkillPool.skills].
  apply fold_insert_last.
Qed.

Lemma zero_weights_exact i : ∀ brs brs',
  SkillPool.zero_weights i brs = Ok brs' →
  Forall (λ br, Branch.skill_weights br !! i = Some 0%Q) brs'.
Proof.
  induction brs as [|br brs IH]; intros brs'; cbn [SkillPool.zero_weights].
  - by intros [= <-].
  - intros Hrun. apply bind_ok in Hrun as (ws & [Hi ->]%setitem_ok & Hrun).
    apply bind_ok in Hrun as (rest & Hrest%IH & [= <-]).
    constructor; [|done]. cbn. by apply list_lookup_insert_eq.
Qed.

(** X4: a skill of the pool that [mark_used] is given can not be drawn
    again: afterwards its weight is 0 in every branch, and the skill has
    been appended to the class-mod candidates exactly when it is
    upgradable (a maximal grade above 1). *)
Theorem mark_used_retires (self : SkillPool.t) (skill : Skill.t)
    (hidden_skills : string) (branch_idx : Z) (skill' : Skill.t)
    (self' : SkillPool.t) (skill_idx : nat) :
  Py.index (Skill.full_name skill) (SkillPool.skill_order self) = Some skill_idx →
  SkillPool.mark_used self skill hidden_skills branch_idx = Ok (skill', self') →
  Forall (λ br, Branch.skill_weights br !! skill_idx = Some 0%Q)
    (SkillPool.new_branches self')
  ∧ SkillPool.class_mod_skills self'
    = SkillPool.class_mod_skills self
      ++ (if Skill.is_upgradable skill then [skill] else []).
Proof.
  intros Hidx Hrun. unfold SkillPool.mark_used in Hrun.
  apply bind_ok in Hrun as (s1 & H1 & Hrun).
  apply bind_ok in Hrun as (s2 & H2 & [= <- <-]).
  apply consume_dependency_frame in H1 as (_ & _ & Ho & Hc & _).
  unfold SkillPool.retire in H2. rewrite Ho, Hidx in H2.
  apply bind_ok in H2 as (brs & Hz%zero_weights_exact & [= <-]).
  destruct (Skill.is_upgradable skill); cbn; rewrite ?app_nil_r; by rewrite <-?Hc.
Qed.

Lemma mark_used_retires_witness :
  ∃ self',
    SkillPool.mark_used Example.pool (Example.skill "Z" 1) "None" 0
    = Ok (Example.skill "Z" 1, self')
    ∧ Forall (λ br, Branch.skill_weights br !! 3%nat = Some 0%Q)
        (SkillPool.new_branches self')
    ∧ SkillPool.class_mod_skills self' = [].
Proof.
  destruct (SkillPool.mark_used Example.pool (Example.skill "Z" 1) "None" 0)
    as [[sk self']| |] eqn:Hrun; [|vm_compute in Hrun; discriminate..].
  assert (sk = Example.skill "Z" 1) as ->
    by (vm_compute in Hrun; by injection Hrun as <- _).
  exists self'. split; [reflexivity|].
  apply (mark_used_retires Example.pool (Example.skill "Z" 1) "None" 0
           (Example.skill "Z" 1) self' 3); [reflexivity | exact Hrun].
Defined.

(** ** Drawing a skill *)

Section next_skill_facts.

Import SkillPool.

Lemma get_next_skill_loop_origin hs bi : ∀ fuel self skill self',
  get_next_skill_loop fuel self hs bi = Ok (skill, self') →
  ∃ name, skills self !! name = Some skill
    ∧ ((∃ br i w, Py.getitem_z (new_branches self) bi = Ok br
          ∧ skill_order self !! i = Some name
          ∧ Branch.skill_weights br !! i = Some w ∧ ¬ (w == 0)%Q)
       ∧ (hs ≠ "All" →
          ∀ dep, dep ∈ Py.dict_values (dependencies self) →
            blocked_by hs name dep = false)
       ∨ hs ≠ "All"
         ∧ ∃ dep, dep ∈ Py.dict_values (dependencies self)
             ∧ name ∈ Dependency.providers dep).
Proof.
  induction fuel as [|fuel IH]; intros self skill self'; [done|].
  cbn [get_next_skill_loop]. intros Hrun.
  apply bind_ok in Hrun as (branch & Hbr & Hrun).
  apply bind_ok in Hrun as ([name rng1] & Hch & Hrun).
  pose proof Hch as (i & w & Hi & Hw & Hw0)%choices_nonzero.
  assert (Hchosen : ∃ br i w, Py.getitem_z (new_branches self) bi = Ok br
            ∧ skill_order self !! i = Some name
            ∧ Branch.skill_weights br !! i = Some w ∧ ¬ (w == 0)%Q) by eauto 10.
  assert (Hdirect : ∀ skill0 : Skill.t,
    skill_named (with_rng self rng1) name = Ok skill0 →
    mark_used (with_rng self rng1) skill0 hs bi = Ok (skill, self') →
    skills self !! name = Some skill).
  { intros skill0 Hnamed (-> & _)%mark_used_steady. unfold skill_named in Hnamed.
    cbn [with_rng skills] in Hnamed. by destruct (skills self !! name); simplify_eq. }
  case_decide as Hall.
  - apply bind_ok in Hrun as (skill0 & Hnamed & Hmark). exists name.
    split; [by eapply Hdirect|]. left. by split.
  - destruct (find _ _) as [dep|] eqn:Hfind.
    + apply find_some in Hfind as [Hdep%list_elem_of_In _].
      apply bind_ok in Hrun as ([prov rng2] & Hprov%choice_elem & Hrun).
      cbn [with_rng skills dependencies] in Hrun, Hdep.
      destruct (skills self !! prov) as [sk|] eqn:Hsk.
      * apply mark_used_steady in Hrun as (-> & _). exists prov.
        split; [done|]. right. split; [done|]. by exists dep.
      * apply IH in Hrun. done.
    + apply bind_ok in Hrun as (skill0 & Hnamed & Hmark). exists name.
      split; [by eapply Hdirect|]. left. split; [done|]. intros _ dep Hdep.
      cbn [with_rng dependencies] in Hfind.
      pose proof (find_none _ _ Hfind dep) as Hnone. apply Hnone.
      by apply list_elem_of_In.
Qed.

End next_skill_facts.

(** X5: the skill that [get_next_skill] returns is the skill that the pool
    files under some name, and that name is of one of two kinds.  Either it
    is the name [choices] drew, whose weight in the drawing branch was not
    zero and, unless the policy is "All", which no registered dependency
    holds back (it is no depender, and no wanter under "None"); or, under a
    policy other than "All", it is a provider of a registered dependency,
    taken in place of a skill that was held back. *)
Theorem get_next_skill_origin (self : SkillPool.t) (hidden_skills : string)
    (branch_idx : Z) (skill : Skill.t) (self' : SkillPool.t) :
  SkillPool.get_next_skill self hidden_skills branch_idx = Ok (skill, self') →
  ∃ name, SkillPool.skills self !! name = Some skill
    ∧ ((∃ br i w, Py.getitem_z (SkillPool.new_branches self) branch_idx = Ok br
          ∧ SkillPool.skill_order self !! i = Some name
          ∧ Branch.skill_weights br !! i = Some w ∧ ¬ (w == 0)%Q)
       ∧ (hidden_skills ≠ "All" →
          ∀ dep, dep ∈ Py.dict_values (SkillPool.dependencies self) →
            SkillPool.blocked_by hidden_skills name dep = false)
       ∨ hidden_skills ≠ "All"
         ∧ ∃ dep, dep ∈ Py.dict_values (SkillPool.dependencies self)
             ∧ name ∈ Dependency.providers dep).
Proof. apply get_next_skill_loop_origin. Qed.

Lemma get_next_skill_origin_witness :
  ∃ skill self',
    SkillPool.get_next_skill Example.pool "None" 0 = Ok (skill, self')
    ∧ ∃ name, SkillPool.skills Example.pool !! name = Some skill.
Proof.
  destruct (SkillPool.get_next_skill Example.pool "None" 0)
    as [[skill self']| |] eqn:Hrun; [|vm_compute in Hrun; discriminate..].
  exists skill, self'. split; [reflexivity|].
  destruct (get_next_skill_origin Example.pool "None" 0 skill self' Hrun)
    as (name & Hname & _).
  exists name. exact Hname.
Defined.

(** ** One tier of one branch *)

Section place_facts.

Import SkillPool.

Lemma draw_skills_spec hs bi : ∀ n d d',
  draw_skills n hs bi d = Ok d' →
  ∃ drawn : list Skill.t,
    length drawn = n
    ∧ tier_skills d' = tier_skills d ++ (Skill.full_name <$> drawn)
    ∧ max_points d' = foldl Z.max (max_points d) (Skill.max_grade <$> drawn)
    ∧ total_points d' = foldl Z.add (total_points d) (Skill.max_grade <$> drawn).
Proof.
  induction n as [|n IH]; intros d d'; cbn [draw_skills].
  - intros [= <-]. exists []. by rewrite app_nil_r.
  - intros Hrun. apply bind_ok in Hrun as ([skill self] & _ & Hrun).
    apply IH in Hrun as (drawn & Hlen & Hts & Hmax & Htot).
    cbn [tier_skills max_points total_points] in Hts, Hmax, Htot.
    exists (skill :: drawn). cbn. rewrite <-app_assoc in Hts. split_and!; [lia|done..].
Qed.

(** What [place_skills] does, step by step. *)
Lemma place_skills_spec self b tier rt hs self' :
  place_skills self b tier rt hs = Ok self' →
  ∃ br density n rng1 d br2 points rng2 br',
    new_branches self !! b = Some br
    ∧ div (inject_Z (Branch.expected_skills br - Branch.skill_count br))
        (inject_Z (Branch.slots_left br)) = Ok density
    ∧ choose_skill_count density (rng self) = Ok (n, rng1)
    ∧ draw_skills (Z.to_nat n) hs (Branch.idx br)
        (mk_draws (with_rng self rng1) 0 0 []) = Ok d
    ∧ new_branches (pool d) !! b = Some br2
    ∧ (tier < length (Branch.skills br2))%nat
    ∧ (tier < length (Branch.layout br2))%nat
    ∧ (tier < length (Branch.points_to_unlock br2))%nat
    ∧ (if rt
       then Random.randint (rng (pool d)) 1
              (Z.max 1 (Py.int ((66 # 100) * inject_Z (total_points d))))
       else Ok (max_points d, rng (pool d))) = Ok (points, rng2)
    ∧ new_branches self' = <[b := br']> (new_branches (pool d))
    ∧ Branch.skill_weights br' = Branch.skill_weights br2
    ∧ Branch.total_weight br' = Branch.total_weight br2
    ∧ Branch.skills br'
      = <[tier := tier_skills d
                  ++ (if decide (tier = 5%nat) then extra_skills (pool d) else [])]>
          (Branch.skills br2)
    ∧ Branch.layout br' = <[tier := tier_layout n]> (Branch.layout br2)
    ∧ Branch.points_to_unlock br' = <[tier := points]> (Branch.points_to_unlock br2)
    ∧ Branch.skill_count br' = Branch.skill_count br2 + n
    ∧ Branch.slots_left br' = Branch.slots_left br2 - 3
    ∧ extra_skills self'
      = (if decide (tier = 5%nat) then [] else extra_skills (pool d))
    ∧ dependencies self' = dependencies (pool d)
    ∧ rng self' = rng2
    ∧ Branch.expected_skills br' = Branch.expected_skills br2
    ∧ Branch.idx br' = Branch.idx br2.
Proof.
  unfold place_skills. intros Hrun.
  apply bind_ok in Hrun as (br & Hbr%getitem_ok & Hrun).
  apply bind_ok in Hrun as (density & Hdens & Hrun).
  apply bind_ok in Hrun as ([n rng1] & Hn & Hrun).
  apply bind_ok in Hrun as (d & Hd & Hrun).
  apply bind_ok in Hrun as (br2 & Hbr2%getitem_ok & Hrun).
  apply bind_ok in Hrun as (layout' & [Hl ->]%setitem_ok & Hrun).
  apply bind_ok in Hrun as (skills' & [Hs ->]%setitem_ok & Hrun).
  apply bind_ok in Hrun as ([points rng2] & Hp & Hrun).
  apply bind_ok in Hrun as (points' & [Hpl ->]%setitem_ok & Hrun).
  case_decide as Ht.
  - subst tier. destruct (get_extra_skills _) as [extra s3] eqn:He.
    injection He as <- <-.
    apply bind_ok in Hrun as (t5 & Ht5%getitem_ok & [= <-]).
    cbn [Branch.with_tiers Branch.skills] in Ht5.
    rewrite list_lookup_insert_eq in Ht5 by done. injection Ht5 as <-.
    eexists br, density, n, rng1, d, br2, points, rng2, _.
    split_and!; [done..|reflexivity| | | | | | | | | | | |];
      cbn [Branch.with_tiers Branch.skills Branch.skill_weights Branch.total_weight
           Branch.layout Branch.points_to_unlock Branch.skill_count
           Branch.slots_left Branch.expected_skills Branch.idx
           with_new_branches with_extra_skills with_rng
           extra_skills dependencies rng]; try done.
    by rewrite list_insert_insert_eq.
  - injection Hrun as <-.
    eexists br, density, n, rng1, d, br2, points, rng2, _.
    split_and!; [done..|reflexivity| | | | | | | | | | | |];
      cbn [Branch.with_tiers Branch.skills Branch.skill_weights Branch.total_weight
           Branch.layout Branch.points_to_unlock Branch.skill_count
           Branch.slots_left Branch.expected_skills Branch.idx
           with_new_branches with_rng
           extra_skills dependencies rng]; rewrite ?decide_False by done;
      rewrite ?app_nil_r; done.
Qed.

Lemma evolves_fades br br' : evolves br br' → fades br br'.
Proof. by intros (_ & ? & ?). Qed.

Lemma fades_refl br : fades br br.
Proof. split; [done|]. eauto. Qed.

Lemma fades_trans br1 br2 br3 : fades br1 br2 → fades br2 br3 → fades br1 br3.
Proof.
  intros [Hl1 H1] [Hl2 H2]. split; [congruence|].
  intros i w Hw Hw0. destruct (H1 _ _ Hw Hw0) as (w1 & Hw1 & Hw10). eauto.
Qed.

Lemma Forall2_fades_trans brs1 : ∀ brs2 brs3,
  Forall2 fades brs1 brs2 → Forall2 fades brs2 brs3 → Forall2 fades brs1 brs3.
Proof.
  induction brs1 as [|br brs1 IH]; intros brs2 brs3 H12 H23.
  - apply Forall2_nil_inv_l in H12 as ->. by apply Forall2_nil_inv_l in H23 as ->.
  - apply Forall2_cons_inv_l in H12 as (br2 & brs2' & ? & ? & ->).
    apply Forall2_cons_inv_l in H23 as (br3 & brs3' & ? & ? & ->).
    constructor; [by eapply fades_trans | by eapply IH].
Qed.

Lemma steady_fades self self' :
  steady self self' → Forall2 fades (new_branches self) (new_branches self').
Proof.
  intros (Hbrs & _). eapply Forall2_impl; [done|]. apply evolves_fades.
Qed.

Lemma place_skills_fades self b tier rt hs self' :
  place_skills self b tier rt hs = Ok self' →
  Forall2 fades (new_branches self) (new_branches self').
Proof.
  intros (br & density & n & rng1 & d & br2 & points & rng2 & br' & Hbr & _ & _ & Hd
          & Hbr2 & _ & _ & _ & _ & -> & Hw & _)%place_skills_spec.
  apply draw_skills_steady in Hd. cbn [pool] in Hd.
  eapply Forall2_fades_trans.
  - apply steady_fades. eapply steady_trans; [apply (steady_with_rng _ rng1) | done].
  - eapply Forall2_insert_r; [apply fades_refl | done |].
    unfold fades. rewrite Hw. apply fades_refl.
Qed.

Lemma randomize_branch_tier_fades self log b tier rt hs cheats self' log' :
  randomize_branch_tier self log b tier rt hs cheats = Ok (self', log') →
  Forall2 fades (new_branches self) (new_branches self').
Proof.
  unfold randomize_branch_tier. intros Hrun.
  apply bind_ok in Hrun as ([s1 l1] & (Hst & _)%cheats_steady & Hrun).
  apply bind_ok in Hrun as (s2 & H2%place_skills_fades & [= <- <-]).
  eapply Forall2_fades_trans; [by apply steady_fades | done].
Qed.

Lemma Forall2_fades_refl brs : Forall2 fades brs brs.
Proof. induction brs; constructor; [apply fades_refl | done]. Qed.

Lemma randomize_tier_fades rt hs cheats tier : ∀ bs self log self' log',
  Py.foldM
    (λ '(self, log) b, randomize_branch_tier self log b tier rt hs cheats)
    (self, log) bs = Ok (self', log') →
  Forall2 fades (new_branches self) (new_branches self').
Proof.
  induction bs as [|b bs IH]; intros self log self' log'; cbn [Py.foldM].
  - intros [= <- <-]. apply Forall2_fades_refl.
  - intros Hrun. apply bind_ok in Hrun as ([s1 l1] & H1 & Hrun).
    apply randomize_branch_tier_fades in H1. apply IH in Hrun.
    by eapply Forall2_fades_trans.
Qed.

Lemma randomize_tiers_fades rt hs cheats : ∀ tiers self log self' log',
  Py.foldM (randomize_tier rt hs cheats) (self, log) tiers = Ok (self', log') →
  Forall2 fades (new_branches self) (new_branches self').
Proof.
  induction tiers as [|tier tiers IH]; intros self log self' log'; cbn [Py.foldM].
  - intros [= <- <-]. apply Forall2_fades_refl.
  - intros Hrun. apply bind_ok in Hrun as ([s1 l1] & H1 & Hrun).
    unfold randomize_tier in H1. apply randomize_tier_fades in H1.
    apply IH in Hrun. by eapply Forall2_fades_trans.
Qed.

Lemma tier_layout_count n :
  0 ≤ n ≤ 3 → length (filter (λ c, c = true) (tier_layout n)) = Z.to_nat n.
Proof.
  intros Hn. assert (n = 0 ∨ n = 1 ∨ n = 2 ∨ n = 3) as [->|[->|[->| ->]]] by lia;
    reflexivity.
Qed.

Lemma randint_range rng a b n rng' :
  Random.randint rng a b = Ok (n, rng') → a ≤ n ≤ b.
Proof.
  unfold Random.randint. case_decide as Hab; [done|]. intros Hrun.
  apply bind_ok in Hrun as ([r rng1] & [Hr _]%random_range & Heq).
  assert (Hn : a + Qfloor (r * inject_Z (b - a + 1)) = n) by congruence.
  clear Heq. subst n.
  assert (Hm : (0 < inject_Z (b - a + 1))%Q).
  { change 0%Q with (inject_Z 0). rewrite <-Zlt_Qlt. lia. }
  assert (H0 : 0 ≤ Qfloor (r * inject_Z (b - a + 1))).
  { change 0 with (Qfloor 0). apply Qfloor_resp_le.
    apply Qmult_le_0_compat; lra. }
  assert (H1 : Qfloor (r * inject_Z (b - a + 1)) < b - a + 1).
  { rewrite Zlt_Qlt. eapply Qle_lt_trans; [apply Qfloor_le|].
    assert (r * inject_Z (b - a + 1) < 1 * inject_Z (b - a + 1))%Q
      by (apply Qmult_lt_compat_r; lra).
    lra. }
  lia.
Qed.

End place_facts.

Section tier_pass_facts.

Import SkillPool.

Lemma steady_tier_at self self' b t :
  steady self self' →
  tier_at (new_branches self') b t = tier_at (new_branches self) b t.
Proof.
  intros (Hbrs & _). unfold tier_at.
  destruct (new_branches self !! b) as [br|] eqn:Hb.
  - destruct (Forall2_lookup_l _ _ _ _ _ Hbrs Hb) as (br' & -> & (Hfr%frame_fields & _)).
    destruct Hfr as (-> & -> & -> & _). done.
  - apply Forall2_length in Hbrs. apply lookup_ge_None in Hb.
    rewrite (proj2 (lookup_ge_None _ _)); [done | lia].
Qed.

Lemma max_fold (l : list Z) : ∀ a,
  a ≤ foldl Z.max a l
  ∧ (∀ x, x ∈ l → x ≤ foldl Z.max a l)
  ∧ (foldl Z.max a l = a ∨ foldl Z.max a l ∈ l).
Proof.
  induction l as [|y l IH]; intros a; cbn [foldl].
  - split_and!; [lia | by intros x ?%elem_of_nil | by left].
  - destruct (IH (Z.max a y)) as (H1 & H2 & H3). split_and!.
    + lia.
    + intros x [->|Hx]%elem_of_cons; [lia | by apply H2].
    + destruct H3 as [H3|H3]; [|right; by right].
      destruct (Z.max_spec a y) as [[_ Hm]|[_ Hm]].
      * right. rewrite H3, Hm. by left.
      * left. by rewrite H3, Hm.
Qed.

End tier_pass_facts.

(** X6: through the tier passes of [randomize_tree] a weight that is zero
    stays zero, in every branch: the cheat weights, the theme boosts and
    the draws never raise it, and no weight is added or removed.  A skill
    that has been drawn, or that a dependency has shut out of a branch,
    stays out of that branch for the rest of the run. *)
Theorem randomize_tiers_keep_zero (randomize_tiers : bool) (hidden_skills : string)
    (cheats : Py.dict Z) (tiers : list nat) (self : SkillPool.t)
    (log : list log_entry) (self' : SkillPool.t) (log' : list log_entry) :
  Py.foldM (SkillPool.randomize_tier randomize_tiers hidden_skills cheats)
    (self, log) tiers = Ok (self', log') →
  Forall2 fades (SkillPool.new_branches self) (SkillPool.new_branches self').
Proof. apply randomize_tiers_fades. Qed.

Lemma randomize_tiers_keep_zero_witness :
  ∃ self' log',
    Py.foldM (SkillPool.randomize_tier false "Misdocumented" [("Z", 3)])
      (Example.pool, []) [0%nat] = Ok (self', log')
    ∧ Forall2 fades (SkillPool.new_branches Example.pool)
        (SkillPool.new_branches self').
Proof.
  destruct (Py.foldM (SkillPool.randomize_tier false "Misdocumented" [("Z", 3)])
              (Example.pool, []) [0%nat]) as [[self' log']| |] eqn:Hrun;
    [|vm_compute in Hrun; discriminate..].
  exists self', log'. split; [reflexivity|].
  exact (randomize_tiers_keep_zero false "Misdocumented" [("Z", 3)] [0%nat] Example.pool []
           self' log' Hrun).
Defined.

(** X7: one call of [randomize_branch_tier] writes into the tier the names
    of the skills it drew, at most three, in the order of the draws, and
    after them, in tier 5 only, the granted skills that wait in the queue;
    the occupancy it writes has as many occupied cells as skills were
    drawn; [skill_count] grows by that number and [slots_left] drops
    by 3. *)
Theorem randomize_branch_tier_fills (self : SkillPool.t) (log : list log_entry)
    (b tier : nat) (randomize_tiers : bool) (hidden_skills : string)
    (cheats : Py.dict Z) (self' : SkillPool.t) (log' : list log_entry) :
  SkillPool.randomize_branch_tier self log b tier randomize_tiers hidden_skills
    cheats = Ok (self', log') →
  ∃ br br' (drawn : list Skill.t) extra cells,
    SkillPool.new_branches self !! b = Some br
    ∧ SkillPool.new_branches self' !! b = Some br'
    ∧ (length drawn ≤ 3)%nat
    ∧ Branch.skills br' !! tier = Some ((Skill.full_name <$> drawn) ++ extra)
    ∧ (tier ≠ 5%nat → extra = [])
    ∧ Branch.layout br' !! tier = Some cells
    ∧ length (filter (λ c, c = true) cells) = length drawn
    ∧ Branch.skill_count br' = Branch.skill_count br + Z.of_nat (length drawn)
    ∧ Branch.slots_left br' = Branch.slots_left br - 3.
Proof.
  unfold SkillPool.randomize_branch_tier. intros Hrun.
  apply bind_ok in Hrun as ([s1 l1] & (Hst & _)%cheats_steady & Hrun).
  apply bind_ok in Hrun as (s2 & H2 & [= <- <-]).
  apply place_skills_spec in H2
    as (br1 & density & n & rng1 & d & br2 & points & rng2 & br' & Hbr1 & _ & Hn & Hd
        & Hbr2 & Hts & Htl & _ & _ & Hnew & _ & _ & Hsk & Hlay & _ & Hcount & Hslots & _).
  pose proof (choose_skill_count_range _ _ _ _ Hn) as Hrange.
  pose proof (draw_skills_steady _ _ _ _ _ Hd) as Hstd.
  apply draw_skills_spec in Hd as (drawn & Hlen & Hnames & _).
  cbn [SkillPool.tier_skills SkillPool.pool app] in Hnames, Hstd.
  destruct Hst as (Hbrs & _).
  destruct (Forall2_lookup_r _ _ _ _ _ Hbrs Hbr1) as (br & Hbr & (Hf1%frame_fields & _)).
  assert (Hst12 : steady s1 (SkillPool.pool d))
    by (eapply steady_trans; [apply (steady_with_rng _ rng1) | done]).
  destruct Hst12 as (Hbrs2 & _).
  pose proof (Forall2_lookup_lr _ _ _ _ _ _ Hbrs2 Hbr1 Hbr2) as (Hf2%frame_fields & _).
  destruct Hf1 as (_ & _ & _ & _ & Hs1 & _ & Hc1 & _).
  destruct Hf2 as (_ & _ & _ & _ & Hs2 & _ & Hc2 & _).
  exists br, br', drawn,
    (if decide (tier = 5%nat) then SkillPool.extra_skills (SkillPool.pool d) else []),
    (SkillPool.tier_layout n).
  split_and!.
  - done.
  - rewrite Hnew. apply list_lookup_insert_eq. by eapply lookup_lt_Some.
  - lia.
  - rewrite Hsk, Hnames. by apply list_lookup_insert_eq.
  - intros Ht. by rewrite decide_False.
  - rewrite Hlay. by apply list_lookup_insert_eq.
  - rewrite tier_layout_count by done. lia.
  - rewrite Hcount, Hc2, Hc1. lia.
  - rewrite Hslots, Hs2, Hs1. done.
Qed.

Lemma randomize_branch_tier_fills_witness :
  ∃ br' names cells,
    SkillPool.new_branches (Example.after_tier).1 !! 0%nat = Some br'
    ∧ Branch.skills br' !! 0%nat = Some names
    ∧ Branch.layout br' !! 0%nat = Some cells
    ∧ (length names ≤ 3)%nat
    ∧ length (filter (λ c, c = true) cells) = length names.
Proof.
  destruct (randomize_branch_tier_fills Example.pool [] 0 0 false "None" []
              (Example.after_tier).1 (Example.after_tier).2)
    as (br & br' & drawn & extra & cells & _ & Hbr' & Hlen & Hnames & Hextra & Hcells
        & Hcount & _).
  - vm_compute. reflexivity.
  - exists br', (Skill.full_name <$> drawn), cells.
    rewrite (Hextra ltac:(discriminate)), app_nil_r in Hnames.
    rewrite length_fmap.
    exact (conj Hbr' (conj Hnames (conj Hcells (conj Hlen Hcount)))).
Defined.

(** X8: the unlock cost that [randomize_branch_tier] writes for the tier.
    With "Randomize Tier Points" off it is the largest [max_grade] among
    the skills drawn for the tier (0 for an empty tier); with it on it is
    a number from 1 to [max(1, int(0.66 * total))], where [total] is the
    sum of those grades. *)
Theorem randomize_branch_tier_unlock_cost (self : SkillPool.t)
    (log : list log_entry) (b tier : nat) (randomize_tiers : bool)
    (hidden_skills : string) (cheats : Py.dict Z) (self' : SkillPool.t)
    (log' : list log_entry) :
  SkillPool.randomize_branch_tier self log b tier randomize_tiers hidden_skills
    cheats = Ok (self', log') →
  ∃ br' (drawn : list Skill.t) extra points,
    SkillPool.new_branches self' !! b = Some br'
    ∧ Branch.skills br' !! tier = Some ((Skill.full_name <$> drawn) ++ extra)
    ∧ Branch.points_to_unlock br' !! tier = Some points
    ∧ (randomize_tiers = false →
       (∀ skill, skill ∈ drawn → Skill.max_grade skill ≤ points)
       ∧ (points = 0 ∨ ∃ skill, skill ∈ drawn ∧ Skill.max_grade skill = points))
    ∧ (randomize_tiers = true →
       1 ≤ points
       ≤ Z.max 1 (Py.int ((66 # 100)
                          * inject_Z (foldl Z.add 0 (Skill.max_grade <$> drawn))))).
Proof.
  unfold SkillPool.randomize_branch_tier. intros Hrun.
  apply bind_ok in Hrun as ([s1 l1] & _ & Hrun).
  apply bind_ok in Hrun as (s2 & H2 & [= <- <-]).
  apply place_skills_spec in H2
    as (br1 & density & n & rng1 & d & br2 & points & rng2 & br' & Hbr1 & _ & Hn & Hd
        & Hbr2 & Hts & _ & Htp & Hp & Hnew & _ & _ & Hsk & _ & Hpts & _).
  apply draw_skills_spec in Hd as (drawn & Hlen & Hnames & Hmax & Htot).
  cbn [SkillPool.tier_skills SkillPool.max_points SkillPool.total_points app]
    in Hnames, Hmax, Htot.
  exists br', drawn,
    (if decide (tier = 5%nat) then SkillPool.extra_skills (SkillPool.pool d) else []),
    points.
  split_and!.
  - rewrite Hnew. apply list_lookup_insert_eq. by eapply lookup_lt_Some.
  - rewrite Hsk, Hnames. by apply list_lookup_insert_eq.
  - rewrite Hpts. by apply list_lookup_insert_eq.
  - intros ->. injection Hp as <- _. rewrite Hmax.
    destruct (max_fold (Skill.max_grade <$> drawn) 0) as (_ & Hle & Hin). split.
    + intros skill Hskill. apply Hle. by apply list_elem_of_fmap_2.
    + destruct Hin as [?|(skill & Heq & ?)%list_elem_of_fmap]; [by left|].
      right. by exists skill.
  - intros ->. apply randint_range in Hp. by rewrite Htot in Hp.
Qed.

Lemma randomize_branch_tier_unlock_cost_witness :
  ∃ br' points,
    SkillPool.new_branches (Example.after_tier).1 !! 0%nat = Some br'
    ∧ Branch.points_to_unlock br' !! 0%nat = Some points
    ∧ (points = 0 ∨ ∃ skill, Skill.max_grade skill = points).
Proof.
  destruct (randomize_branch_tier_unlock_cost Example.pool [] 0 0 false "None" []
              (Example.after_tier).1 (Example.after_tier).2)
    as (br' & drawn & extra & points & Hbr' & _ & Hpoints & Hfixed & _).
  - vm_compute. reflexivity.
  - exists br', points. split; [exact Hbr'|]. split; [exact Hpoints|].
    destruct (Hfixed eq_refl) as [_ [H0|(skill & _ & Hs)]];
      [left; exact H0 | right; exists skill; exact Hs].
Defined.

(** X9: one call of [randomize_branch_tier] writes one tier of one branch:
    every other tier of that branch, and every tier of every other branch,
    holds the skills, the occupancy and the unlock cost it held before. *)
Theorem randomize_branch_tier_frame (self : SkillPool.t) (log : list log_entry)
    (b tier : nat) (randomize_tiers : bool) (hidden_skills : string)
    (cheats : Py.dict Z) (self' : SkillPool.t) (log' : list log_entry)
    (b' t : nat) :
  SkillPool.randomize_branch_tier self log b tier randomize_tiers hidden_skills
    cheats = Ok (self', log') →
  b' ≠ b ∨ t ≠ tier →
  tier_at (SkillPool.new_branches self') b' t
  = tier_at (SkillPool.new_branches self) b' t.
Proof.
  unfold SkillPool.randomize_branch_tier. intros Hrun Hother.
  apply bind_ok in Hrun as ([s1 l1] & (Hst & _)%cheats_steady & Hrun).
  apply bind_ok in Hrun as (s2 & H2 & [= <- <-]).
  apply place_skills_spec in H2
    as (br1 & density & n & rng1 & d & br2 & points & rng2 & br' & Hbr1 & _ & Hn & Hd
        & Hbr2 & _ & _ & _ & _ & Hnew & _ & _ & Hsk & Hlay & Hpts & _).
  apply draw_skills_steady in Hd. cbn [SkillPool.pool] in Hd.
  assert (Hst2 : steady self (SkillPool.pool d)).
  { eapply steady_trans; [done|].
    eapply steady_trans; [apply (steady_with_rng _ rng1) | done]. }
  rewrite <-(steady_tier_at _ _ b' t Hst2). unfold tier_at. rewrite Hnew.
  destruct (decide (b' = b)) as [->|Hb].
  - destruct Hother as [?|Ht]; [done|].
    rewrite list_lookup_insert_eq by (by eapply lookup_lt_Some).
    rewrite Hbr2, Hsk, Hlay, Hpts. by rewrite !list_lookup_insert_ne.
  - by rewrite list_lookup_insert_ne.
Qed.

Lemma randomize_branch_tier_frame_witness :
  tier_at (SkillPool.new_branches (Example.after_tier).1) 1 0
  = Some (["Old1"; "Old2"], [true; false; true], 5).
Proof.
  rewrite (randomize_branch_tier_frame Example.pool [] 0 0 false "None" []
             (Example.after_tier).1 (Example.after_tier).2 1 0).
  - reflexivity.
  - vm_compute. reflexivity.
  - left. discriminate.
Defined.

(** ** Edges of a draw and of a synthesis *)

Section edge_facts.

Import SkillPool.

Lemma accumulate_zero ws : ∀ acc,
  Forall (λ w, (w == 0)%Q) ws →
  Forall (λ c, (c == acc)%Q) (Random.accumulate acc ws).
Proof.
  induction ws as [|w ws IH]; intros acc; cbn [Random.accumulate]; [done|].
  intros [Hw Hws]%Forall_cons. constructor; [lra|].
  eapply Forall_impl; [by apply IH|]. cbn. intros c Hc. lra.
Qed.

Lemma choices_exhausted {A} rng (population : list A) weights :
  length weights = length population → population ≠ [] →
  Forall (λ w, (w == 0)%Q) weights →
  Random.choices rng population weights = Raise ValueError.
Proof.
  intros Hlen Hne Hzero. unfold Random.choices.
  rewrite decide_False by (rewrite accumulate_length; lia).
  destruct (last (Random.accumulate 0 weights)) as [total|] eqn:Hlast.
  - assert (Htotal : (total == 0)%Q).
    { pose proof (accumulate_zero weights 0 Hzero) as Hall.
      rewrite Forall_forall in Hall. apply Hall.
      apply last_lookup_length in Hlast. by eapply list_elem_of_lookup_2. }
    assert (Qle_bool total 0 = true) as -> by (apply Qle_bool_iff; lra). done.
  - apply last_None in Hlast.
    assert (length (Random.accumulate 0 weights) = 0%nat) as Hacc by (by rewrite Hlast).
    rewrite accumulate_length in Hacc. destruct population; [done | cbn in *; lia].
Qed.

Lemma gather_unknown catalog hs self log cur char :
  catalog !! char = None →
  gather catalog hs (self, log, cur) char
  = (self, log ++ [Warning ("Ignoring unknown skill source " +:+ char)], cur).
Proof. intros H. unfold gather. by rewrite H. Qed.

Lemma gather_log catalog hs self log log0 cur char :
  (gather catalog hs (self, log, cur) char).1.1
  = (gather catalog hs (self, log0, cur) char).1.1
  ∧ (gather catalog hs (self, log, cur) char).2
    = (gather catalog hs (self, log0, cur) char).2.
Proof. unfold gather. by destruct (catalog !! char). Qed.

Lemma gather_known catalog hs : ∀ enabled self log log0 cur,
  (foldl (gather catalog hs) (self, log, cur) enabled).1.1
  = (foldl (gather catalog hs) (self, log0, cur)
       (filter (λ char, is_Some (catalog !! char)) enabled)).1.1
  ∧ (foldl (gather catalog hs) (self, log, cur) enabled).2
    = (foldl (gather catalog hs) (self, log0, cur)
         (filter (λ char, is_Some (catalog !! char)) enabled)).2.
Proof.
  induction enabled as [|char enabled IH]; intros self log log0 cur; [done|].
  cbn [foldl]. rewrite filter_cons.
  destruct (catalog !! char) as [c|] eqn:Hchar.
  - rewrite decide_True by (by eexists). cbn [foldl].
    destruct (gather_log catalog hs self log log0 cur char) as [H1 H2].
    destruct (gather catalog hs (self, log, cur) char) as [[s1 l1] c1].
    destruct (gather catalog hs (self, log0, cur) char) as [[s2 l2] c2].
    cbn in H1, H2. subst. apply IH.
  - rewrite decide_False by (by intros [? ?]).
    rewrite gather_unknown by done. apply IH.
Qed.

End edge_facts.

(** X10: a branch whose weights are all zero has nothing left to draw:
    [get_next_skill] raises [ValueError] (the one of [random.choices] for
    a total of zero) under every policy, and does not loop. *)
Theorem get_next_skill_exhausted (self : SkillPool.t) (hidden_skills : string)
    (branch_idx : Z) (br : Branch.t) :
  Py.getitem_z (SkillPool.new_branches self) branch_idx = Ok br →
  length (Branch.skill_weights br) = length (SkillPool.skill_order self) →
  SkillPool.skill_order self ≠ [] →
  Forall (λ w, (w == 0)%Q) (Branch.skill_weights br) →
  SkillPool.get_next_skill self hidden_skills branch_idx = Raise ValueError.
Proof.
  intros Hbr Hlen Hne Hzero. unfold SkillPool.get_next_skill.
  cbn [SkillPool.get_next_skill_loop]. rewrite Hbr. cbn.
  by rewrite choices_exhausted.
Qed.

Lemma get_next_skill_exhausted_witness :
  SkillPool.get_next_skill
    (SkillPool.with_new_branches Example.pool
       [Branch.with_weights (Example.branch 0 4) [0; 0; 0; 0]%Q 0])
    "None" 0
  = Raise ValueError.
Proof.
  apply (get_next_skill_exhausted _ "None" 0
           (Branch.with_weights (Example.branch 0 4) [0; 0; 0; 0]%Q 0)).
  - reflexivity.
  - reflexivity.
  - discriminate.
  - repeat constructor.
Defined.

(** X11: with no enabled skill source there is no character to take the
    action skill from: whatever the other options, [randomize_tree] raises
    the [IndexError] of [rng.choice] on an empty list. *)
Theorem randomize_tree_no_sources (self : SkillPool.t) (log : list log_entry)
    (skill_tree : Engine.t) (catalog : gmap string Character.t)
    (hidden_skills action_skill : string) (skill_density : Z)
    (randomize_tiers : bool) (cheats : Py.dict Z) :
  SkillPool.randomize_tree self log skill_tree catalog [] hidden_skills
    action_skill skill_density randomize_tiers cheats
  = Raise IndexError.
Proof.
  unfold SkillPool.randomize_tree. cbn [foldl].
  unfold SkillPool.desired_character, SkillPool.random_char, Random.choice.
  repeat case_decide; try done.
  - destruct (catalog !! action_skill) as [c|]; [|done].
    rewrite decide_False; [done | apply not_elem_of_nil].
Qed.

(** X14: an enabled source that names no known character adds nothing but
    a warning: the pool and the current character after the pass over the
    enabled sources are those of a pass over the known ones alone. *)
Theorem gather_ignores_unknown (catalog : gmap string Character.t)
    (hidden_skills : string) (enabled_sources : list string)
    (self : SkillPool.t) (log : list log_entry) (current : option Character.t) :
  let known := filter (λ char, is_Some (catalog !! char)) enabled_sources in
  let all := foldl (SkillPool.gather catalog hidden_skills) (self, log, current)
               enabled_sources in
  let some := foldl (SkillPool.gather catalog hidden_skills) (self, log, current)
                known in
  all.1.1 = some.1.1 ∧ all.2 = some.2.
Proof. cbv zeta. apply gather_known. Qed.

(** ** The parts of a synthesis *)

Section anatomy_facts.

Import SkillPool.

(** A synthesis that returns, step by step. *)
Lemma randomize_tree_anatomy self log tree catalog enabled hs action density rt
    cheats self' log' tree' :
  randomize_tree self log tree catalog enabled hs action density rt cheats
  = Ok (self', log', tree') →
  ∃ s1 l1 cur c s2 l2 st a s3,
    foldl (gather catalog hs)
      (with_current_char_class self
         (class_from_obj_name (Engine.root_path_name tree)), log, None) enabled
    = (s1, l1, cur)
    ∧ desired_character catalog enabled action cur
        (with_skill_order s1 (sorted_names (skills s1))) l1 = Ok (Some c, s2, l2)
    ∧ skill_order s2 = sorted_names (skills s1)
    ∧ skills s2 = skills s1
    ∧ Py.foldM (prepare_branch (length (skill_order s2)))
        (mk_budget 0
           (54 * effective_density (length (skill_order s2)) (inject_Z density)
            / 100)%Q [] [])
        (Engine.children tree) = Ok st
    ∧ Character.action_skill c = Some a
    ∧ mark_used
        (with_new_branches (with_original_branches s2 (Some (originals st)))
           (news st)) a hs (-1) = Ok (a, s3)
    ∧ Py.foldM (randomize_tier rt hs cheats) (s3, l2) (seq 0 6) = Ok (self', log')
    ∧ tree' = foldl (λ e branch, Branch.patch branch e)
                (Engine.with_root_tier0_skills tree [Skill.full_name a])
                (new_branches self').
Proof.
  unfold randomize_tree. intros Hrun.
  destruct (foldl _ _ enabled) as [[s1 l1] cur] eqn:Hg.
  apply bind_ok in Hrun as ([[c s2] l2] & Hdes & Hrun).
  pose proof (desired_character_frame _ _ _ _ _ _ _ _ _ Hdes) as Hs2.
  apply bind_ok in Hrun as (st & Hst & Hrun).
  apply bind_ok in Hrun as (dc & Hdc & Hrun).
  destruct c as [c|]; [|done]. injection Hdc as <-.
  apply bind_ok in Hrun as (a & Ha & Hrun).
  destruct (Character.action_skill c) as [a0|] eqn:Hact; [|done]. injection Ha as ->.
  apply bind_ok in Hrun as ([a' s3] & H3 & Hrun).
  pose proof (mark_used_steady _ _ _ _ _ _ H3) as (-> & _).
  apply bind_ok in Hrun as ([s4 l4] & H4 & [= <- <- <-]).
  exists s1, l1, cur, c, s2, l2, st, a, s3.
  split_and!; try done; by rewrite Hs2.
Qed.

Lemma randomize_tree_names self log tree catalog enabled hs action density rt
    cheats self' log' tree' :
  randomize_tree self log tree catalog enabled hs action density rt cheats
  = Ok (self', log', tree') →
  skill_order self' = sorted_names (skills self').
Proof.
  intros (s1 & l1 & cur & c & s2 & l2 & st & a & s3 & _ & _ & Ho & Hs & _ & _ & H3 & H4
          & _)%randomize_tree_anatomy.
  apply mark_used_steady in H3 as (_ & (_ & Ho3 & Hs3 & _) & _).
  apply randomize_tiers_static in H4 as (Ho4 & Hs4 & _).
  unfold with_new_branches, with_original_branches in Ho3, Hs3.
  cbn [skill_order skills] in Ho3, Hs3. congruence.
Qed.

Lemma str_le_total : Total Py.str_le.
Proof. intros a b. apply String.leb_total. Qed.

Lemma int_floor x : (0 <= x)%Q → 0 ≤ Py.int x ∧ (inject_Z (Py.int x) <= x)%Q.
Proof.
  intros Hx. unfold Py.int.
  assert (Qle_bool 0 x = true) as -> by (by apply Qle_bool_iff).
  split; [|apply Qfloor_le]. change 0 with (Qfloor 0). by apply Qfloor_resp_le.
Qed.

Lemma div_ok a b q : div a b = Ok q → ¬ (b == 0)%Q ∧ q = (a / b)%Q.
Proof.
  unfold div. destruct (Qeq_bool b 0) eqn:Hb; [done|]. intros [= <-].
  split; [|done]. by apply Qeq_bool_neq.
Qed.

Lemma prepare_branch_ok n st c st' :
  prepare_branch n st c = Ok st' →
  ¬ (3 - inject_Z (branch_idx st) == 0)%Q
  ∧ branch_idx st' = branch_idx st + 1
  ∧ ∃ br, news st' = news st ++ [br]
      ∧ Branch.expected_skills br
        = Py.int (expected_skills st / (3 - inject_Z (branch_idx st)))
      ∧ expected_skills st'
        = (expected_skills st - inject_Z (Branch.expected_skills br))%Q.
Proof.
  unfold prepare_branch. intros Hrun.
  apply bind_ok in Hrun as (share & [Hne ->]%div_ok & [= <-]). cbn.
  split_and!; [done | done |]. eexists. split_and!; reflexivity.
Qed.

Lemma prepare_branches_count n : ∀ cs st st',
  0 ≤ branch_idx st ≤ 3 →
  Py.foldM (prepare_branch n) st cs = Ok st' →
  Z.of_nat (length cs) ≤ 3 - branch_idx st.
Proof.
  induction cs as [|c cs IH]; intros st st' Hidx; cbn [Py.foldM length]; [lia|].
  intros Hrun. apply bind_ok in Hrun as (st1 & (Hne & Hi & _)%prepare_branch_ok & Hrun).
  assert (branch_idx st ≠ 3).
  { intros Heq. apply Hne. rewrite Heq. reflexivity. }
  apply IH in Hrun; lia.
Qed.

Lemma steady_budget self self' :
  steady self self' →
  Branch.expected_skills <$> new_branches self
  = Branch.expected_skills <$> new_branches self'.
Proof.
  intros (Hbrs & _). induction Hbrs as [|br br' brs brs' (Hfr%frame_fields & _) _ IH];
    [done|].
  cbn. destruct Hfr as (_ & _ & _ & _ & _ & -> & _). by rewrite IH.
Qed.

Lemma expected_total_snoc brs br :
  expected_total (brs ++ [br]) = expected_total brs + Branch.expected_skills br.
Proof.
  unfold expected_total. induction brs as [|b brs IH]; cbn; [lia|].
  fold (Branch.expected_skills <$> brs ++ [br]). rewrite IH. lia.
Qed.

Lemma prepare_branches_budget n : ∀ cs st st',
  0 ≤ branch_idx st → Z.of_nat (length cs) ≤ 3 - branch_idx st →
  (0 <= expected_skills st)%Q → 0 ≤ expected_total (news st) →
  Py.foldM (prepare_branch n) st cs = Ok st' →
  (0 <= expected_skills st')%Q
  ∧ 0 ≤ expected_total (news st')
  ∧ (inject_Z (expected_total (news st')) + expected_skills st'
     == inject_Z (expected_total (news st)) + expected_skills st)%Q.
Proof.
  induction cs as [|c cs IH]; intros st st' Hidx Hlen HE Htot; cbn [Py.foldM length].
  - intros [= <-]. split_and!; [done | done | lra].
  - intros Hrun. cbn [length] in Hlen.
    apply bind_ok in Hrun
      as (st1 & (Hne & Hi & br & Hnews & Hbr & HE1)%prepare_branch_ok & Hrun).
    assert (Hd : (1 <= 3 - inject_Z (branch_idx st))%Q).
    { assert (inject_Z (branch_idx st) <= inject_Z 2)%Q by (rewrite <-Zle_Qle; lia).
      change (inject_Z 2) with 2%Q in *. lra. }
    assert (Hshare : (0 <= expected_skills st / (3 - inject_Z (branch_idx st))
                      <= expected_skills st)%Q).
    { split.
      - apply Qle_shift_div_l; lra.
      - apply Qle_shift_div_r; [lra|]. nra. }
    destruct (int_floor _ (proj1 Hshare)) as [Hb0 Hb1]. rewrite <-Hbr in Hb0, Hb1.
    apply IH in Hrun as (HE' & Htot' & Hsum);
      [| lia | lia | rewrite HE1; lra | rewrite Hnews, expected_total_snoc; lia].
    split_and!; [done | done |].
    rewrite Hsum, Hnews, expected_total_snoc, HE1, inject_Z_plus. lra.
Qed.

Lemma place_skills_budget self b tier rt hs self' :
  place_skills self b tier rt hs = Ok self' →
  Branch.expected_skills <$> new_branches self'
  = Branch.expected_skills <$> new_branches self.
Proof.
  intros (br & density & n & rng1 & d & br2 & points & rng2 & br' & Hbr & _ & _ & Hd
          & Hbr2 & _ & _ & _ & _ & Hnew & _ & _ & _ & _ & _ & _ & _ & _ & _ & _
          & Hexp & _)%place_skills_spec.
  apply draw_skills_steady in Hd. cbn [pool] in Hd.
  assert (Hst : steady self (pool d))
    by (eapply steady_trans; [apply (steady_with_rng _ rng1) | done]).
  rewrite Hnew, list_fmap_insert, Hexp.
  rewrite list_insert_id by (by rewrite list_lookup_fmap, Hbr2).
  symmetry. apply steady_budget. done.
Qed.

Lemma randomize_branch_tier_budget self log b tier rt hs cheats self' log' :
  randomize_branch_tier self log b tier rt hs cheats = Ok (self', log') →
  Branch.expected_skills <$> new_branches self'
  = Branch.expected_skills <$> new_branches self.
Proof.
  unfold randomize_branch_tier. intros Hrun.
  apply bind_ok in Hrun as ([s1 l1] & (Hst%steady_budget & _)%cheats_steady & Hrun).
  apply bind_ok in Hrun as (s2 & H2%place_skills_budget & [= <- <-]). congruence.
Qed.

Lemma randomize_tier_budget rt hs cheats tier : ∀ bs self log self' log',
  Py.foldM
    (λ '(self, log) b, randomize_branch_tier self log b tier rt hs cheats)
    (self, log) bs = Ok (self', log') →
  Branch.expected_skills <$> new_branches self'
  = Branch.expected_skills <$> new_branches self.
Proof.
  induction bs as [|b bs IH]; intros self log self' log'; cbn [Py.foldM].
  - by intros [= <- <-].
  - intros Hrun. apply bind_ok in Hrun as ([s1 l1] & H1 & Hrun).
    apply randomize_branch_tier_budget in H1. apply IH in Hrun. congruence.
Qed.

Lemma randomize_tiers_budget rt hs cheats : ∀ tiers self log self' log',
  Py.foldM (randomize_tier rt hs cheats) (self, log) tiers = Ok (self', log') →
  Branch.expected_skills <$> new_branches self'
  = Branch.expected_skills <$> new_branches self.
Proof.
  induction tiers as [|tier tiers IH]; intros self log self' log'; cbn [Py.foldM].
  - by intros [= <- <-].
  - intros Hrun. apply bind_ok in Hrun as ([s1 l1] & H1 & Hrun).
    unfold randomize_tier in H1. apply randomize_tier_budget in H1.
    apply IH in Hrun. congruence.
Qed.

Lemma effective_density_budget n d :
  (0 <= d)%Q →
  (0 <= 54 * effective_density n d / 100 <= inject_Z (Z.of_nat n))%Q.
Proof.
  intros Hd. unfold effective_density.
  assert (Hn : (0 <= inject_Z (Z.of_nat n))%Q)
    by (change 0%Q with (inject_Z 0); rewrite <-Zle_Qle; lia).
  destruct (gt _ _) eqn:Hgt.
  - apply gt_spec in Hgt. split.
    + apply Qle_shift_div_l; [lra|]. rewrite Qmult_0_l.
      apply Qmult_le_0_compat; [lra|]. apply Qle_shift_div_l; lra.
    + apply Qle_shift_div_r; [lra|].
      assert (54 * (100 * inject_Z (Z.of_nat n) / 54)
              == 100 * inject_Z (Z.of_nat n))%Q by field.
      lra.
  - apply gt_false in Hgt. split.
    + apply Qle_shift_div_l; lra.
    + apply Qle_shift_div_r; lra.
Qed.

Lemma cheat_step_frame b tier self log cheat self' log' :
  cheat_step b tier (self, log) cheat = Ok (self', log') →
  skill_order self' = skill_order self
  ∧ length (new_branches self') = length (new_branches self)
  ∧ (∀ b', b' ≠ b → new_branches self' !! b' = new_branches self !! b')
  ∧ ∀ br br', new_branches self !! b = Some br → new_branches self' !! b = Some br' →
      frame br br' ∧ Branch.total_weight br' = Branch.total_weight br
      ∧ ∀ i name, skill_order self !! i = Some name → name ≠ cheat.1 →
          Branch.skill_weights br' !! i = Branch.skill_weights br !! i.
Proof.
  destruct cheat as [cheat_name cheat_tier]. intros Hrun.
  destruct (cheat_step_spec _ _ _ _ _ _ _ _ Hrun)
    as [(_ & -> & _)|(i & Hi & _ & Hre & _)].
  { split_and!; try done. intros br br' Hbr Hbr'. simplify_eq.
    split_and!; [apply frame_refl | done | done]. }
  destruct Hre as [->|(br0 & w' & Hbr0 & Hlen & ->)].
  { split_and!; try done. intros br br' Hbr Hbr'. simplify_eq.
    split_and!; [apply frame_refl | done | done]. }
  unfold with_new_branches. cbn [skill_order new_branches]. split_and!.
  - done.
  - by rewrite length_insert.
  - intros b' Hb'. by rewrite list_lookup_insert_ne.
  - intros br br' Hbr Hbr'.
    rewrite list_lookup_insert_eq in Hbr' by (by eapply lookup_lt_Some).
    simplify_eq. split_and!; [apply frame_with_weights | done |].
    intros j name Hj Hname. cbn [Branch.with_weights Branch.skill_weights].
    apply list_lookup_insert_ne. intros <-.
    apply index_Some in Hi. cbn in Hname. congruence.
Qed.

Lemma cheats_frame b tier : ∀ cheats self log self' log',
  Py.foldM (cheat_step b tier) (self, log) cheats = Ok (self', log') →
  skill_order self' = skill_order self
  ∧ length (new_branches self') = length (new_branches self)
  ∧ (∀ b', b' ≠ b → new_branches self' !! b' = new_branches self !! b')
  ∧ ∀ br br', new_branches self !! b = Some br → new_branches self' !! b = Some br' →
      frame br br' ∧ Branch.total_weight br' = Branch.total_weight br
      ∧ ∀ i name, skill_order self !! i = Some name → name ∉ cheats.*1 →
          Branch.skill_weights br' !! i = Branch.skill_weights br !! i.
Proof.
  induction cheats as [|cheat cheats IH]; intros self log self' log'; cbn [Py.foldM].
  - intros [= <- <-]. split_and!; try done. intros br br' Hbr Hbr'. simplify_eq.
    split_and!; [apply frame_refl | done | done].
  - intros Hrun. apply bind_ok in Hrun as ([s1 l1] & H1 & Hrun).
    apply cheat_step_frame in H1 as (Ho1 & Hl1 & Hother1 & Hb1).
    apply IH in Hrun as (Ho2 & Hl2 & Hother2 & Hb2). split_and!.
    + congruence.
    + congruence.
    + intros b' Hb'. rewrite Hother2, Hother1; done.
    + intros br br' Hbr Hbr'.
      destruct (new_branches s1 !! b) as [br1|] eqn:Hbr1.
      2:{ apply lookup_ge_None in Hbr1. apply lookup_lt_Some in Hbr. lia. }
      destruct (Hb1 _ _ Hbr eq_refl) as (Hf1 & Ht1 & Hw1).
      destruct (Hb2 _ _ eq_refl Hbr') as (Hf2 & Ht2 & Hw2).
      split_and!; [by eapply frame_trans | congruence |].
      intros i name Hi Hname. cbn in Hname. rewrite not_elem_of_cons in Hname.
      destruct Hname as [? ?]. rewrite (Hw2 i name); [|by rewrite Ho1|done].
      by apply (Hw1 i name).
Qed.

End anatomy_facts.

(** X12: the skill order that a synthesis leaves is the sorted list of the
    names under which the pool files its skills: each name is at most the
    next in the order of strings, no name occurs twice, and a name is in
    the order exactly when the pool has a skill for it. *)
Theorem randomize_tree_skill_order (self : SkillPool.t) (log : list log_entry)
    (skill_tree : Engine.t) (catalog : gmap string Character.t)
    (enabled_sources : list string) (hidden_skills action_skill : string)
    (skill_density : Z) (randomize_tiers : bool) (cheats : Py.dict Z)
    (self' : SkillPool.t) (log' : list log_entry) (skill_tree' : Engine.t) :
  SkillPool.randomize_tree self log skill_tree catalog enabled_sources
    hidden_skills action_skill skill_density randomize_tiers cheats
  = Ok (self', log', skill_tree') →
  Sorted Py.str_le (SkillPool.skill_order self')
  ∧ NoDup (SkillPool.skill_order self')
  ∧ ∀ name, name ∈ SkillPool.skill_order self'
            ↔ is_Some (SkillPool.skills self' !! name).
Proof.
  intros ->%randomize_tree_names. unfold SkillPool.sorted_names.
  assert (Hperm : merge_sort Py.str_le (map_to_list (SkillPool.skills self')).*1
                  ≡ₚ (map_to_list (SkillPool.skills self')).*1)
    by apply merge_sort_Permutation.
  split_and!.
  - apply (@Sorted_merge_sort _ _ _ str_le_total).
  - rewrite Hperm. apply NoDup_fst_map_to_list.
  - intros name. rewrite Hperm, list_elem_of_fmap. split.
    + intros ([k sk] & -> & Hk%elem_of_map_to_list). by exists sk.
    + intros [sk Hsk]. exists (name, sk). split; [done|]. by apply elem_of_map_to_list.
Qed.

Lemma randomize_tree_skill_order_witness :
  Sorted Py.str_le (SkillPool.skill_order (Example.generated).1.1)
  ∧ "M" ∈ SkillPool.skill_order (Example.generated).1.1.
Proof.
  destruct (randomize_tree_skill_order (SkillPool.init Example.tape) []
              Example.skill_tree Example.catalog ["Xavier"] "None" "Default" 30
              false [] (Example.generated).1.1 (Example.generated).1.2
              (Example.generated).2) as (Hsorted & _ & Hin).
  - vm_compute. reflexivity.
  - split; [exact Hsorted|]. apply Hin. vm_compute. eexists. reflexivity.
Defined.

(** X13: when the "Action Skill" option names a character that is
    installed and among the enabled sources, the action-skill slot of the
    root ends up holding that character's action skill, and nothing else,
    whatever the branches receive. *)
Theorem randomize_tree_action_skill (self : SkillPool.t) (log : list log_entry)
    (skill_tree : Engine.t) (catalog : gmap string Character.t)
    (enabled_sources : list string) (hidden_skills action_skill : string)
    (skill_density : Z) (randomize_tiers : bool) (cheats : Py.dict Z)
    (self' : SkillPool.t) (log' : list log_entry) (skill_tree' : Engine.t)
    (desired_char : Character.t) :
  action_skill ≠ "Default" → action_skill ≠ "Random" →
  catalog !! action_skill = Some desired_char →
  Character.character_name desired_char ∈ enabled_sources →
  SkillPool.randomize_tree self log skill_tree catalog enabled_sources
    hidden_skills action_skill skill_density randomize_tiers cheats
  = Ok (self', log', skill_tree') →
  ∃ action, Character.action_skill desired_char = Some action
    ∧ Engine.root_tier0_skills skill_tree' = [Skill.full_name action].
Proof.
  intros Hd Hr Hchar Hen
    (s1 & l1 & cur & c & s2 & l2 & st & a & s3 & _ & Hdes & _ & _ & _ & Ha & _ & _
     & ->)%randomize_tree_anatomy.
  unfold SkillPool.desired_character in Hdes.
  rewrite !decide_False, Hchar, decide_True in Hdes by done.
  injection Hdes as <- _ _. exists a. split; [done|].
  by rewrite patches_children.
Qed.

Lemma randomize_tree_action_skill_witness :
  ∃ self' log' tree',
    SkillPool.randomize_tree (SkillPool.init Example.tape) [] Example.skill_tree
      Example.catalog ["Xavier"] "None" "Xavier" 30 false []
    = Ok (self', log', tree')
    ∧ Engine.root_tier0_skills tree' = ["A"].
Proof.
  destruct (SkillPool.randomize_tree (SkillPool.init Example.tape) []
              Example.skill_tree Example.catalog ["Xavier"] "None" "Xavier" 30
              false []) as [[[self' log'] tree']| |] eqn:Hrun;
    [|vm_compute in Hrun; discriminate..].
  exists self', log', tree'. split; [reflexivity|].
  destruct (randomize_tree_action_skill (SkillPool.init Example.tape) []
              Example.skill_tree Example.catalog ["Xavier"] "None" "Xavier" 30
              false [] self' log' tree' Example.Xavier)
    as (action & Haction & Hroot); [discriminate | discriminate | reflexivity | | exact Hrun |].
  - apply (bool_decide_unpack _). vm_compute. exact I.
  - injection Haction as <-. exact Hroot.
Defined.

(** X16: a synthesis shares the skills out over at most three branches:
    on a root with a fourth branch the division by [3.0 - branch_idx]
    raises [ZeroDivisionError], so a synthesis that returns had at most
    three, and it has generated one branch for each. *)
Theorem randomize_tree_three_branches (self : SkillPool.t) (log : list log_entry)
    (skill_tree : Engine.t) (catalog : gmap string Character.t)
    (enabled_sources : list string) (hidden_skills action_skill : string)
    (skill_density : Z) (randomize_tiers : bool) (cheats : Py.dict Z)
    (self' : SkillPool.t) (log' : list log_entry) (skill_tree' : Engine.t) :
  SkillPool.randomize_tree self log skill_tree catalog enabled_sources
    hidden_skills action_skill skill_density randomize_tiers cheats
  = Ok (self', log', skill_tree') →
  (length (Engine.children skill_tree) ≤ 3)%nat
  ∧ length (SkillPool.new_branches self') = length (Engine.children skill_tree).
Proof.
  intros Hrun. pose proof Hrun as
    (s1 & l1 & cur & c & s2 & l2 & st & a & s3 & _ & _ & _ & _ & Hst & _ & H3 & H4
     & _)%randomize_tree_anatomy.
  split.
  - apply prepare_branches_count in Hst; cbn [SkillPool.branch_idx] in *; lia.
  - apply prepare_branches_originals in Hst as [_ Hlen]. cbn in Hlen.
    apply mark_used_steady in H3 as (_ & (_ & _ & _ & _ & Hl3)%steady_static & _).
    apply randomize_tiers_static in H4 as (_ & _ & _ & _ & Hl4).
    unfold SkillPool.with_new_branches in Hl3. cbn [SkillPool.new_branches] in Hl3.
    lia.
Qed.

Lemma randomize_tree_three_branches_witness :
  (length (Engine.children Example.skill_tree) ≤ 3)%nat
  ∧ length (SkillPool.new_branches (Example.generated).1.1) = 3%nat.
Proof.
  apply (randomize_tree_three_branches (SkillPool.init Example.tape) []
           Example.skill_tree Example.catalog ["Xavier"] "None" "Default" 30
           false [] (Example.generated).1.1 (Example.generated).1.2
           (Example.generated).2).
  vm_compute. reflexivity.
Defined.

(** X15: the branches are never meant to receive more skills than the
    pool holds.  After a synthesis with a density that is not negative,
    the [expected_skills] of the generated branches add up to a number
    between 0 and the number of skills in the pool; this is what the clamp
    of the density to the size of the pool is for. *)
Theorem randomize_tree_budget (self : SkillPool.t) (log : list log_entry)
    (skill_tree : Engine.t) (catalog : gmap string Character.t)
    (enabled_sources : list string) (hidden_skills action_skill : string)
    (skill_density : Z) (randomize_tiers : bool) (cheats : Py.dict Z)
    (self' : SkillPool.t) (log' : list log_entry) (skill_tree' : Engine.t) :
  0 ≤ skill_density →
  SkillPool.randomize_tree self log skill_tree catalog enabled_sources
    hidden_skills action_skill skill_density randomize_tiers cheats
  = Ok (self', log', skill_tree') →
  0 ≤ expected_total (SkillPool.new_branches self')
    ≤ Z.of_nat (length (SkillPool.skill_order self')).
Proof.
  intros Hdens Hrun. pose proof Hrun as
    (s1 & l1 & cur & c & s2 & l2 & st & a & s3 & _ & _ & _ & _ & Hst & _ & H3 & H4
     & _)%randomize_tree_anatomy.
  pose proof Hst as Hcount.
  apply prepare_branches_count in Hcount; [|cbn [SkillPool.branch_idx]; lia].
  cbn [SkillPool.branch_idx] in Hcount.
  assert (HQ : (0 <= inject_Z skill_density)%Q)
    by (change 0%Q with (inject_Z 0); by rewrite <-Zle_Qle).
  pose proof (effective_density_budget (length (SkillPool.skill_order s2)) _ HQ)
    as [HE0 HE1].
  apply prepare_branches_budget in Hst as (HE' & Htot & Hsum);
    [| cbn [SkillPool.branch_idx]; lia | cbn [SkillPool.branch_idx]; lia | done | by cbn].
  cbn [SkillPool.news SkillPool.expected_skills] in Hsum.
  change (expected_total []) with 0 in Hsum. change (inject_Z 0) with 0%Q in Hsum.
  assert (Hle : (inject_Z (expected_total (SkillPool.news st))
                 <= inject_Z (Z.of_nat (length (SkillPool.skill_order s2))))%Q)
    by lra.
  rewrite <-Zle_Qle in Hle.
  pose proof (mark_used_steady _ _ _ _ _ _ H3) as (_ & Hst3 & _).
  pose proof (steady_budget _ _ Hst3) as Hb3.
  destruct Hst3 as (_ & Ho3 & _).
  pose proof (randomize_tiers_budget _ _ _ _ _ _ _ _ H4) as Hb4.
  apply randomize_tiers_static in H4 as (Ho4 & _).
  unfold SkillPool.with_new_branches, SkillPool.with_original_branches in Hb3, Ho3.
  cbn [SkillPool.new_branches SkillPool.skill_order] in Hb3, Ho3.
  unfold expected_total. rewrite Hb4, <-Hb3, Ho4, Ho3. done.
Qed.

Lemma randomize_tree_budget_witness :
  0 ≤ expected_total (SkillPool.new_branches (Example.generated).1.1) ≤ 11.
Proof.
  apply (randomize_tree_budget (SkillPool.init Example.tape) []
           Example.skill_tree Example.catalog ["Xavier"] "None" "Default" 30
           false [] (Example.generated).1.1 (Example.generated).1.2
           (Example.generated).2).
  - lia.
  - vm_compute. reflexivity.
Defined.

(** X17: the cheat loop of [randomize_branch_tier] touches nothing but
    the weights of the cheat skills in the branch that is being filled:
    every other branch is as it was, and in that branch the tiers, the
    counters and [total_weight] are as they were, and so is the weight of
    every skill that is not named in [cheats]. *)
Theorem cheat_pass_frame (b : nat) (tier : Z) (cheats : Py.dict Z)
    (self : SkillPool.t) (log : list log_entry) (self' : SkillPool.t)
    (log' : list log_entry) :
  Py.foldM (SkillPool.cheat_step b tier) (self, log) cheats = Ok (self', log') →
  (∀ b', b' ≠ b →
     SkillPool.new_branches self' !! b' = SkillPool.new_branches self !! b')
  ∧ ∀ br br', SkillPool.new_branches self !! b = Some br →
      SkillPool.new_branches self' !! b = Some br' →
      frame br br' ∧ Branch.total_weight br' = Branch.total_weight br
      ∧ ∀ i name, SkillPool.skill_order self !! i = Some name →
          name ∉ cheats.*1 →
          Branch.skill_weights br' !! i = Branch.skill_weights br !! i.
Proof. intros (_ & _ & H)%cheats_frame. exact H. Qed.

Lemma cheat_pass_frame_witness :
  ∃ self' log',
    Py.foldM (SkillPool.cheat_step 0 0) (Example.pool, []) [("Z", 3)]
    = Ok (self', log')
    ∧ SkillPool.new_branches self' !! 1%nat
      = SkillPool.new_branches Example.pool !! 1%nat.
Proof.
  destruct (Py.foldM (SkillPool.cheat_step 0 0) (Example.pool, []) [("Z", 3)])
    as [[self' log']| |] eqn:Hrun; [|vm_compute in Hrun; discriminate..].
  exists self', log'. split; [reflexivity|].
  destruct (cheat_pass_frame 0 0 [("Z", 3)] Example.pool [] self' log' Hrun)
    as [Hother _].
  apply Hother. discriminate.
Defined.

(** ** Class mods *)

Section fill_facts.

Import ClassModPatcher.

Lemma special_com_spec coms n : ∀ fuel rng name rng',
  special_com fuel coms n rng = Ok (name, rng') →
  String.prefix "GD_Aster" name = false
  ∧ ∃ slots, Py.dict_get coms name = Some slots
      ∧ ((3 < n)%nat → (4 ≤ length slots)%nat)
      ∧ ((n ≤ 3)%nat → (length slots ≤ 3)%nat).
Proof.
  induction fuel as [|fuel IH]; intros rng name rng'; [done|].
  cbn [special_com]. intros Hrun.
  apply bind_ok in Hrun as ([nm rng1] & _ & Hrun).
  destruct (String.prefix "GD_Aster" nm) eqn:Hpre; [by eapply IH|].
  apply bind_ok in Hrun as (slots & Hslots & Hrun).
  destruct (Py.dict_get coms nm) as [sl|] eqn:Hget; [|done]. injection Hslots as ->.
  repeat case_decide; try (by eapply IH); injection Hrun as <- <-;
    (split; [done|]); exists slots; (split; [done|]); split; intros; lia.
Qed.

Lemma unused_skill_fresh skills used : ∀ fuel rng skill rng',
  unused_skill fuel skills used rng = Ok (skill, rng') →
  skill ∈ skills ∧ Skill.full_name skill ∉ used.
Proof.
  induction fuel as [|fuel IH]; intros rng skill rng'; [done|].
  cbn [unused_skill]. intros Hrun.
  apply bind_ok in Hrun as ([sk rng1] & Hch & Hrun).
  case_decide; [by eapply IH|]. injection Hrun as <- <-.
  split; [by eapply choice_elem | done].
Qed.

(** One slot: the skill it is given, and where the skill comes from. *)
Lemma fill_slot_spec skills special i r used k r' used' :
  fill_slot skills special i (r, used) k = Ok (r', used') →
  ∃ skill,
    used' = used ++ [Skill.full_name skill]
    ∧ set_attribute (engine r) i k (Skill.attribute_def skill) = Ok (engine r')
    ∧ log r' = log r
    ∧ (special = true ∧ cheat_skills r = skill :: cheat_skills r'
       ∨ (special = false ∨ cheat_skills r = [])
         ∧ cheat_skills r' = cheat_skills r
         ∧ skill ∈ skills ∧ Skill.full_name skill ∉ used).
Proof.
  unfold fill_slot. intros Hrun.
  apply bind_ok in Hrun as ([skill r1] & Hpick & Hrun).
  apply bind_ok in Hrun as (e & He & [= <- <-]). exists skill. cbn [engine log cheat_skills].
  assert (Hrandom :
    (special = false ∨ cheat_skills r = []) →
    ('(skill, rng') ← unused_skill (S (length (rng r))) skills used (rng r);
     Ok (skill, mk_run rng' (cheat_skills r) (engine r) (log r))) = Ok (skill, r1) →
    engine r1 = engine r ∧ log r1 = log r ∧ cheat_skills r1 = cheat_skills r
    ∧ skill ∈ skills ∧ Skill.full_name skill ∉ used).
  { intros _ Hr. apply bind_ok in Hr as ([sk rng1] & [? ?]%unused_skill_fresh & [= <- <-]).
    done. }
  destruct special; [destruct (cheat_skills r) as [|c rest] eqn:Hcheats|].
  - destruct (Hrandom (or_intror eq_refl) Hpick) as (He1 & Hl1 & Hc1 & ? & ?).
    rewrite He1 in He. split_and!; [done | done | done |]. right.
    split_and!; try done. by right.
  - injection Hpick as <- <-. cbn [engine log cheat_skills] in *.
    split_and!; [done | done | done |]. left. done.
  - assert (Hpick' : ('(skill, rng') ← unused_skill (S (length (rng r))) skills used (rng r);
              Ok (skill, mk_run rng' (cheat_skills r) (engine r) (log r)))
             = Ok (skill, r1)) by (by destruct (cheat_skills r)).
    destruct (Hrandom (or_introl eq_refl) Hpick') as (He1 & Hl1 & Hc1 & ? & ?).
    rewrite He1 in He. split_and!; [done | done | done |]. right.
    split_and!; try done. by left.
Qed.

Lemma fill_slots_spec skills special i : ∀ ks r used r' used',
  Py.foldM (fill_slot skills special i) (r, used) ks = Ok (r', used') →
  NoDup ks →
  NoDup (used ++ (if special then Skill.full_name <$> cheat_skills r else [])) →
  ∃ picks : list Skill.t,
    used' = used ++ (Skill.full_name <$> picks)
    ∧ length picks = length ks
    ∧ Forall (λ skill, skill ∈ skills ∨ skill ∈ cheat_skills r) picks
    ∧ NoDup (used' ++ (if special then Skill.full_name <$> cheat_skills r' else []))
    ∧ log r' = log r
    ∧ com_names (engine r') = com_names (engine r)
    ∧ (∀ j k skill, ks !! j = Some k → picks !! j = Some skill →
         slot_is (engine r') i k (Skill.attribute_def skill))
    ∧ (∀ i' k' a, (i' ≠ i ∨ k' ∉ ks) → slot_is (engine r) i' k' a →
         slot_is (engine r') i' k' a).
Proof.
  induction ks as [|k ks IH]; intros r used r' used'; cbn [Py.foldM].
  - intros [= <- <-] _ Hnd. exists []. cbn. rewrite app_nil_r. split_and!; try done.
  - intros Hrun [Hk Hks]%NoDup_cons Hnd.
    apply bind_ok in Hrun as ([r1 u1] & H1 & Hrun).
    apply fill_slot_spec in H1 as (skill & -> & Hset & Hlog & Hfrom).
    apply set_attribute_spec in Hset as (_ & _ & _ & Hnames & Hslot & Hothers).
    assert (Hnd1 : NoDup ((used ++ [Skill.full_name skill])
              ++ (if special then Skill.full_name <$> cheat_skills r1 else []))).
    { destruct Hfrom as [[-> Hc]|(Hsp & Hc & _ & Hfresh)].
      - rewrite Hc in Hnd. rewrite <-app_assoc. exact Hnd.
      - rewrite Hc. destruct Hsp as [->|Hnil].
        + rewrite app_nil_r in *. apply NoDup_app. split_and!; [done | | apply NoDup_singleton].
          intros x Hx ->%list_elem_of_singleton. done.
        + rewrite Hnil in *.
          destruct special; cbn in Hnd |- *; rewrite ?app_nil_r in *;
            (apply NoDup_app; split_and!; [done | | apply NoDup_singleton]);
            intros x Hx ->%list_elem_of_singleton; done. }
    apply IH in Hrun
      as (picks & -> & Hlen & Hfromall & Hnd' & Hlog' & Hnames' & Hslots & Hkeep);
      [|done..].
    exists (skill :: picks). split_and!.
    + by rewrite <-app_assoc.
    + cbn. by rewrite Hlen.
    + constructor.
      * destruct Hfrom as [[_ ->]|(_ & _ & ? & _)]; [right; by left | by left].
      * eapply Forall_impl; [done|]. cbn. intros sk [?|Hsk]; [by left | right].
        destruct Hfrom as [[_ ->]|(_ & <- & _)]; [by right | done].
    + done.
    + congruence.
    + congruence.
    + intros [|j] k0 sk Hj Hp; cbn in Hj, Hp; simplify_eq.
      * apply Hkeep; [right; done | done].
      * by eapply Hslots.
    + intros i' k' a Hne Hs. apply Hkeep.
      * destruct Hne as [?|Hne]; [by left | right].
        intros ?. apply Hne. by right.
      * apply Hothers; [|done]. intros [= -> ->].
        destruct Hne as [?|Hne]; [done|]. apply Hne. by left.
Qed.

Lemma fill_slots_keep skills special i : ∀ ks r used r' used',
  Py.foldM (fill_slot skills special i) (r, used) ks = Ok (r', used') →
  log r' = log r
  ∧ com_names (engine r') = com_names (engine r)
  ∧ ∀ i' k' a, (i' ≠ i ∨ k' ∉ ks) → slot_is (engine r) i' k' a →
      slot_is (engine r') i' k' a.
Proof.
  induction ks as [|k ks IH]; intros r used r' used'; cbn [Py.foldM].
  - by intros [= <- <-].
  - intros Hrun. apply bind_ok in Hrun as ([r1 u1] & H1 & Hrun).
    apply fill_slot_spec in H1 as (skill & -> & Hset & Hlog & _).
    apply set_attribute_spec in Hset as (_ & _ & _ & Hnames & _ & Hothers).
    apply IH in Hrun as (Hlog' & Hnames' & Hkeep). split_and!; [congruence..|].
    intros i' k' a Hne Hs. apply Hkeep.
    + destruct Hne as [?|Hne]; [by left | right]. intros ?. apply Hne. by right.
    + apply Hothers; [|done]. intros [= -> ->].
      destruct Hne as [?|Hne]; [done|]. apply Hne. by left.
Qed.

Lemma find_com_ok e name i :
  find_com e name = Ok i → com_names e !! i = Some name.
Proof.
  unfold find_com. destruct (list_find _ _) as [[j com]|] eqn:Hfind; [|done].
  intros [= <-]. apply list_find_Some in Hfind as (Hj & Hname & _).
  unfold com_names. by rewrite list_lookup_fmap, Hj, <-Hname.
Qed.

Lemma fill_com_keep skills special r name slots r' :
  fill_com skills special r (name, slots) = Ok r' →
  log r' = log r
  ∧ com_names (engine r') = com_names (engine r)
  ∧ ∀ i k a, (com_names (engine r) !! i = Some name → k ∉ slots.*1) →
      slot_is (engine r) i k a → slot_is (engine r') i k a.
Proof.
  unfold fill_com. intros Hrun.
  apply bind_ok in Hrun as (i0 & Hi0%find_com_ok & Hrun).
  apply bind_ok in Hrun as ([r1 u1] & (Hlog & Hnames & Hkeep)%fill_slots_keep & [= <-]).
  split_and!; [done | done |]. intros i k a Hk Hs. apply Hkeep; [|done].
  destruct (decide (i = i0)) as [->|?]; [right; by apply Hk | by left].
Qed.

Lemma fill_coms_keep skills special : ∀ cs r r',
  Py.foldM (fill_com skills special) r cs = Ok r' →
  log r' = log r
  ∧ com_names (engine r') = com_names (engine r)
  ∧ ∀ i k a,
      (∀ name slots, com_names (engine r) !! i = Some name → (name, slots) ∈ cs →
         k ∉ slots.*1) →
      slot_is (engine r) i k a → slot_is (engine r') i k a.
Proof.
  induction cs as [|[name slots] cs IH]; intros r r'; cbn [Py.foldM].
  - by intros [= <-].
  - intros Hrun. apply bind_ok in Hrun as (r1 & (Hlog & Hnames & Hkeep)%fill_com_keep & Hrun).
    apply IH in Hrun as (Hlog' & Hnames' & Hkeep'). split_and!; [congruence..|].
    intros i k a Hk Hs. apply Hkeep'.
    + intros nm sl Hnm Hin. rewrite Hnames in Hnm. eapply Hk; [done | by right].
    + apply Hkeep; [|done]. intros Hnm. eapply Hk; [done | by left].
Qed.

End fill_facts.

(** X18: the special class mod that [randomize_coms] settles on is never
    one of the Tiny Tina mods (a path name that starts with "GD_Aster");
    it is a recorded mod, with at least four skill slots when more than
    three cheat skills are to be placed and with at most three otherwise;
    its name is the one warning that the call logs. *)
Theorem randomize_coms_special (self : ClassModPatcher.t) (skills : list Skill.t)
    (r : ClassModPatcher.run) (char_class : option string)
    (r' : ClassModPatcher.run) :
  (5 ≤ length skills)%nat →
  ClassModPatcher.randomize_coms self skills r char_class = Ok r' →
  ∃ coms special_com_name skill_slot_map,
    ClassModPatcher.coms self = Some coms
    ∧ ClassModPatcher.log r'
      = ClassModPatcher.log r ++ [Warning ("Special COM is " +:+ special_com_name)]
    ∧ String.prefix "GD_Aster" special_com_name = false
    ∧ Py.dict_get coms special_com_name = Some skill_slot_map
    ∧ ((3 < length (ClassModPatcher.cheat_skills r))%nat →
       (4 ≤ length skill_slot_map)%nat)
    ∧ ((length (ClassModPatcher.cheat_skills r) ≤ 3)%nat →
       (length skill_slot_map ≤ 3)%nat).
Proof.
  intros Hlen. unfold ClassModPatcher.randomize_coms.
  rewrite decide_False by lia. intros Hrun.
  apply bind_ok in Hrun as (coms & Hcoms & Hrun).
  destruct (ClassModPatcher.coms self) as [cs|]; [|done]. injection Hcoms as ->.
  apply bind_ok in Hrun
    as ([name rng1] & (Hpre & slots & Hget & H4 & H3)%special_com_spec & Hrun).
  apply fill_coms_keep in Hrun as (Hlog & _).
  exists coms, name, slots. split_and!; done.
Qed.

Lemma randomize_coms_special_witness :
  ∃ r' name,
    ClassModPatcher.randomize_coms Sample.patcher
      (Character.pure_skills Example.Xavier) Sample.run (Some "X") = Ok r'
    ∧ ClassModPatcher.log r' = [Warning ("Special COM is " +:+ name)]
    ∧ String.prefix "GD_Aster" name = false.
Proof.
  destruct (ClassModPatcher.randomize_coms Sample.patcher
              (Character.pure_skills Example.Xavier) Sample.run (Some "X"))
    as [r'| |] eqn:Hrun; [|vm_compute in Hrun; discriminate..].
  destruct (randomize_coms_special Sample.patcher
              (Character.pure_skills Example.Xavier) Sample.run (Some "X") r')
    as (coms & name & slots & _ & Hlog & Hpre & _).
  - vm_compute. lia.
  - exact Hrun.
  - exists r', name. split; [reflexivity|]. exact (conj Hlog Hpre).
Defined.

(** X19: within one class mod no skill is boosted twice.  The loop over
    the skill slots of a class mod gives the slots skills of pairwise
    different full names, one per slot, each a cheat skill or a skill of
    the list it draws from, and leaves each slot with the attribute of
    its skill; the cheat skills are assumed to bear different names, as
    the skills of one catalog do. *)
Theorem fill_com_distinct (skills : list Skill.t) (special_com_name : string)
    (r : ClassModPatcher.run) (com_name : string)
    (skill_slot_map : list (nat * string)) (r' : ClassModPatcher.run) :
  NoDup skill_slot_map.*1 →
  NoDup (Skill.full_name <$> ClassModPatcher.cheat_skills r) →
  ClassModPatcher.fill_com skills special_com_name r (com_name, skill_slot_map)
  = Ok r' →
  ∃ i (picks : list Skill.t),
    com_names (ClassModPatcher.engine r) !! i = Some com_name
    ∧ length picks = length skill_slot_map
    ∧ NoDup (Skill.full_name <$> picks)
    ∧ Forall (λ skill, skill ∈ skills ∨ skill ∈ ClassModPatcher.cheat_skills r) picks
    ∧ ∀ j slot_index skill,
        skill_slot_map.*1 !! j = Some slot_index → picks !! j = Some skill →
        slot_is (ClassModPatcher.engine r') i slot_index (Skill.attribute_def skill).
Proof.
  intros Hslots Hcheats. unfold ClassModPatcher.fill_com. intros Hrun.
  apply bind_ok in Hrun as (i & Hi%find_com_ok & Hrun).
  apply bind_ok in Hrun as ([r1 used] & Hfill & [= <-]).
  apply fill_slots_spec in Hfill
    as (picks & -> & Hlen & Hfrom & Hnd & _ & _ & Hset & _); [|done|].
  - exists i, picks. rewrite length_fmap in Hlen. split_and!; try done.
    cbn [app] in Hnd. by apply NoDup_app in Hnd as (? & _).
  - cbn [app]. by destruct (bool_decide _); [|apply NoDup_nil_2].
Qed.

Lemma fill_com_distinct_witness :
  ∃ r' picks,
    ClassModPatcher.fill_com (Character.pure_skills Example.Xavier) "ComB"
      Sample.run ("ComA", Sample.slots) = Ok r'
    ∧ length picks = 3%nat ∧ NoDup (Skill.full_name <$> picks).
Proof.
  destruct (ClassModPatcher.fill_com (Character.pure_skills Example.Xavier) "ComB"
              Sample.run ("ComA", Sample.slots))
    as [r'| |] eqn:Hrun; [|vm_compute in Hrun; discriminate..].
  destruct (fill_com_distinct (Character.pure_skills Example.Xavier) "ComB"
              Sample.run "ComA" Sample.slots r')
    as (i & picks & _ & Hlen & Hnd & _).
  - apply (bool_decide_unpack _). vm_compute. exact I.
  - apply NoDup_nil_2.
  - exact Hrun.
  - exists r', picks. split; [reflexivity|]. exact (conj Hlen Hnd).
Defined.

(** X20: [randomize_coms] writes into recorded skill slots only.  The
    class mods keep their path names and the skill tree is as it was, and
    a slot keeps its attribute unless the records list its index under
    the path name of its class mod; a class mod of another character is
    never touched. *)
Theorem randomize_coms_frame (self : ClassModPatcher.t) (skills : list Skill.t)
    (r : ClassModPatcher.run) (char_class : option string)
    (r' : ClassModPatcher.run) :
  ClassModPatcher.randomize_coms self skills r char_class = Ok r' →
  com_names (ClassModPatcher.engine r') = com_names (ClassModPatcher.engine r)
  ∧ Engine.children (ClassModPatcher.engine r')
    = Engine.children (ClassModPatcher.engine r)
  ∧ ∀ i k a,
      (∀ coms name slots, ClassModPatcher.coms self = Some coms →
         com_names (ClassModPatcher.engine r) !! i = Some name →
         (name, slots) ∈ coms → k ∉ slots.*1) →
      slot_is (ClassModPatcher.engine r) i k a →
      slot_is (ClassModPatcher.engine r') i k a.
Proof.
  intros Hrun. pose proof (randomize_coms_tree _ _ _ _ _ Hrun) as [Hch _].
  unfold ClassModPatcher.randomize_coms in Hrun. case_decide.
  { injection Hrun as <-. done. }
  apply bind_ok in Hrun as (coms & Hcoms & Hrun).
  destruct (ClassModPatcher.coms self) as [cs|]; [|done]. injection Hcoms as ->.
  apply bind_ok in Hrun as ([name rng1] & _ & Hrun).
  apply fill_coms_keep in Hrun as (_ & Hnames & Hkeep).
  cbn [ClassModPatcher.engine] in Hnames, Hkeep. split_and!; [done | done |].
  intros i k a Hk Hs. apply Hkeep; [|done]. intros nm sl Hnm Hin. by eapply Hk.
Qed.

Lemma randomize_coms_frame_witness :
  ∃ r',
    ClassModPatcher.randomize_coms Sample.patcher
      (Character.pure_skills Example.Xavier) Sample.run (Some "X") = Ok r'
    ∧ slot_is (ClassModPatcher.engine r') 0 2 "a2".
Proof.
  destruct (ClassModPatcher.randomize_coms Sample.patcher
              (Character.pure_skills Example.Xavier) Sample.run (Some "X"))
    as [r'| |] eqn:Hrun; [|vm_compute in Hrun; discriminate..].
  destruct (randomize_coms_frame Sample.patcher
              (Character.pure_skills Example.Xavier) Sample.run (Some "X") r' Hrun)
    as (_ & _ & Hkeep).
  exists r'. split; [reflexivity|]. apply Hkeep.
  - intros coms name slots Hcoms Hname Hin.
    injection Hcoms as <-. injection Hname as <-.
    apply elem_of_cons in Hin as [[= ->]|Hin];
      [apply (bool_decide_unpack _); vm_compute; exact I|].
    apply elem_of_cons in Hin as [[=]|Hin]. by apply elem_of_nil in Hin.
  - eexists _, _. split; [reflexivity|]. split; reflexivity.
Defined.

(** ** Recording the class mods *)

Section recording_facts.

Import ClassModPatcher.

Lemma slot_set_fresh (m : list (nat * string)) k v :
  (∀ a, (k, a) ∉ m) → slot_set m k v = m ++ [(k, v)].
Proof.
  induction m as [|[k0 v0] m IH]; intros Hfresh; [done|]. cbn.
  case_decide as Hk.
  - subst k0. destruct (Hfresh v0). by left.
  - rewrite IH; [done|]. intros a Ha. apply (Hfresh a). by right.
Qed.

Lemma record_slots_spec name : ∀ slots m n log m' n' log',
  (∀ slot, slot ∈ slots → String.prefix "Skill" (Engine.SlotName slot) = true →
     is_Some (Engine.AttributeToModify slot)) →
  (∀ k a, (k, a) ∈ m → (k < n)%nat) →
  foldl (record_slot name) (m, n, log) slots = (m', n', log') →
  log' = log
  ∧ ∀ k a, (k, a) ∈ m'
      ↔ (k, a) ∈ m
        ∨ ∃ slot, (n ≤ k)%nat ∧ slots !! (k - n)%nat = Some slot
            ∧ String.prefix "Skill" (Engine.SlotName slot) = true
            ∧ Engine.AttributeToModify slot = Some a.
Proof.
  induction slots as [|slot slots IH]; intros m n log m' n' log' Hnull Hkeys;
    cbn [foldl].
  - intros [= <- <- <-]. split; [done|]. intros k a. split; [by left|].
    by intros [?|(slot & _ & ? & _)].
  - intros Hrun.
    assert (Hstep : ∃ m1, record_slot name (m, n, log) slot = (m1, S n, log)
      ∧ (∀ k a, (k, a) ∈ m1
           ↔ (k, a) ∈ m
             ∨ k = n ∧ String.prefix "Skill" (Engine.SlotName slot) = true
               ∧ Engine.AttributeToModify slot = Some a)).
    { unfold record_slot.
      destruct (String.prefix "Skill" (Engine.SlotName slot)) eqn:Hpre.
      - destruct (Hnull slot) as [attr Hattr]; [by left | done |]. rewrite Hattr.
        eexists. split; [done|]. intros k a.
        rewrite slot_set_fresh by (intros a0 Ha0%Hkeys; lia).
        rewrite elem_of_app, list_elem_of_singleton. split.
        + intros [?|[= -> ->]]; [by left | right; done].
        + intros [?|(-> & _ & [= ->])]; [by left | by right].
      - eexists. split; [done|]. intros k a. split; [by left|].
        by intros [?|(_ & ? & _)]. }
    destruct Hstep as (m1 & Hstep & Hm1). rewrite Hstep in Hrun.
    apply IH in Hrun as [-> Hm'].
    + split; [done|]. intros k a. rewrite Hm', Hm1. split.
      * intros [[?|(-> & Hpre & Hattr)]|(sl & Hk & Hsl & Hpre & Hattr)].
        -- by left.
        -- right. exists slot. rewrite Nat.sub_diag. done.
        -- right. exists sl. split; [lia|].
           replace (k - n)%nat with (S (k - S n)) by lia. done.
      * intros [?|(sl & Hk & Hsl & Hpre & Hattr)]; [by left; left|].
        destruct (decide (k = n)) as [->|Hne].
        -- rewrite Nat.sub_diag in Hsl. injection Hsl as <-. left. right. done.
        -- right. exists sl. split; [lia|].
           replace (k - n)%nat with (S (k - S n)) in Hsl by lia. done.
    + intros sl Hsl. apply Hnull. by right.
    + intros k a [Hk%Hkeys|(-> & _)]%Hm1; lia.
Qed.

Lemma record_com_spec e cs log i cs' log' :
  no_null_slot e i →
  record_com e (cs, log) i = Ok (cs', log') →
  log' = log
  ∧ ∃ name m, com_names e !! i = Some name
      ∧ cs' = Py.dict_set cs name m
      ∧ ∀ k a, (k, a) ∈ m ↔ skill_slot e i k a.
Proof.
  intros Hnull. unfold record_com. intros Hrun.
  apply bind_ok in Hrun as (com & Hcom%getitem_ok & Hrun).
  destruct (foldl _ _ _) as [[m n] l] eqn:Hfold. injection Hrun as <- <-.
  apply record_slots_spec in Hfold as [-> Hm].
  - split; [done|]. exists (Engine.com_path_name com), m. split_and!.
    + unfold com_names. by rewrite list_lookup_fmap, Hcom.
    + done.
    + intros k a. rewrite Hm. unfold skill_slot. rewrite Hcom. split.
      * intros [[]%elem_of_nil|(slot & _ & Hslot & ? & ?)].
        rewrite Nat.sub_0_r in Hslot. eauto 10.
      * intros (com' & slot & [= <-] & ? & ? & ?). right. exists slot.
        rewrite Nat.sub_0_r. split; [lia | done].
  - intros slot Hslot. by eapply Hnull.
  - by intros k a []%elem_of_nil.
Qed.

Lemma record_coms_spec e : ∀ ps cs log cs' log',
  NoDup (com_names e) →
  (∀ i, i ∈ ps → no_null_slot e i) →
  Py.foldM (record_com e) (cs, log) ps = Ok (cs', log') →
  log' = log
  ∧ (∀ name, (∀ i, i ∈ ps → com_names e !! i ≠ Some name) →
       Py.dict_get cs' name = Py.dict_get cs name)
  ∧ ∀ i, i ∈ ps →
      ∃ name m, com_names e !! i = Some name ∧ Py.dict_get cs' name = Some m
        ∧ ∀ k a, (k, a) ∈ m ↔ skill_slot e i k a.
Proof.
  intros ps cs log cs' log' Hnd. revert cs log cs' log'.
  induction ps as [|p ps IH]; intros cs log cs' log' Hnull; cbn [Py.foldM].
  - intros [= <- <-]. split_and!; [done | done |]. by intros i ?%elem_of_nil.
  - intros Hrun. apply bind_ok in Hrun as ([c1 l1] & H1 & Hrun).
    apply record_com_spec in H1 as (-> & nm & m & Hnm & -> & Hm);
      [|apply Hnull; by left].
    apply IH in Hrun as (-> & Hother & Hrec); [|intros i Hi; apply Hnull; by right].
    split_and!; [done | |].
    + intros name Hname. rewrite Hother by (intros i Hi; apply Hname; by right).
      rewrite dict_get_set, decide_False; [done|]. intros <-.
      by apply (Hname p); [left|].
    + intros i [->|Hi]%elem_of_cons; [|by apply Hrec].
      destruct (decide (p ∈ ps)) as [Hp|Hp]; [by apply Hrec|].
      exists nm, m. split_and!; [done | | done].
      rewrite Hother, dict_get_set, decide_True; [done..|].
      intros j Hj Hjn. assert (j = p) as -> by (by eapply NoDup_lookup). done.
Qed.

End recording_facts.

(** X21: [record_coms] records the skill slots of the class mods of the
    character, and nothing else: when no skill slot of these class mods
    lacks its attribute, the call logs nothing, and for each of them the
    records hold an attribute under a slot index exactly when the slot of
    that index is a skill slot (a name that starts with "Skill") with that
    attribute.  The class mods are told apart by their path names. *)
Theorem record_coms_skill_slots (self : ClassModPatcher.t) (e : Engine.t)
    (log : list log_entry) (char_class : option string)
    (self' : ClassModPatcher.t) (log' : list log_entry) :
  NoDup (com_names e) →
  (∀ i, i ∈ ClassModPatcher.iterate_coms e char_class → no_null_slot e i) →
  ClassModPatcher.record_coms self e log char_class = Ok (self', log') →
  log' = log
  ∧ ∃ coms, ClassModPatcher.coms self' = Some coms
      ∧ ∀ i k attr, i ∈ ClassModPatcher.iterate_coms e char_class →
          (recorded coms e i k attr ↔ skill_slot e i k attr).
Proof.
  intros Hnd Hnull. unfold ClassModPatcher.record_coms. intros Hrun.
  apply bind_ok in Hrun as ([coms l1] & Hrec & [= <- <-]).
  apply record_coms_spec in Hrec as (-> & _ & Hrec); [|done..].
  split; [done|]. exists coms. split; [done|]. intros i k attr Hi.
  destruct (Hrec i Hi) as (name & m & Hname & Hget & Hm).
  rewrite <-Hm. unfold recorded. unfold com_names in Hname.
  rewrite list_lookup_fmap in Hname. split.
  - intros (com & slots & Hcom & Hslots & Hin). rewrite Hcom in Hname.
    injection Hname as <-. congruence.
  - intros Hin. destruct (Engine.class_mods e !! i) as [com|]; [|done].
    injection Hname as <-. eauto.
Qed.

Lemma record_coms_skill_slots_witness :
  ∃ self' coms,
    ClassModPatcher.record_coms ClassModPatcher.init Example.skill_tree []
      (Some "X") = Ok (self', [])
    ∧ ClassModPatcher.coms self' = Some coms
    ∧ recorded coms Example.skill_tree 0 2 "a2".
Proof.
  destruct (ClassModPatcher.record_coms ClassModPatcher.init Example.skill_tree []
              (Some "X")) as [[self' log']| |] eqn:Hrun;
    [|vm_compute in Hrun; discriminate..].
  destruct (record_coms_skill_slots ClassModPatcher.init Example.skill_tree []
              (Some "X") self' log') as (-> & coms & Hcoms & Hrec).
  - apply (bool_decide_unpack _). vm_compute. exact I.
  - intros i Hi com slot Hcom Hslot Hpre.
    assert (Hi' : i = 0%nat ∨ i = 1%nat).
    { revert Hi. vm_compute. intros Hi.
      repeat (apply elem_of_cons in Hi as [Hi|Hi]; [auto|]).
      by apply elem_of_nil in Hi. }
    destruct Hi' as [-> | ->]; injection Hcom as <-;
      repeat (apply elem_of_cons in Hslot as [->|Hslot];
        [first [by (vm_compute in Hpre; discriminate) | by eexists]|]);
      by apply elem_of_nil in Hslot.
  - exact Hrun.
  - exists self', coms. split; [reflexivity|]. split; [exact Hcoms|].
    apply Hrec.
    + apply (bool_decide_unpack _). vm_compute. exact I.
    + eexists _, _. split; [reflexivity|]. split; [reflexivity|]. split; reflexivity.
Defined.

Section menu_facts.
Import Menu.

Lemma first_cheats_snoc (l : list entry) (e : entry) : ∀ seen,
  first_cheats seen (l ++ [e])
  = first_cheats seen l
    ++ (if decide (skill e ∈ seen ∨ skill e ∈ skill <$> l) then [] else [e]).
Proof.
  induction l as [|a l IH]; intros seen; cbn.
  - destruct (decide (skill e ∈ seen)) as [Hin|Hin].
    + rewrite decide_True by (by left). done.
    + rewrite decide_False; [done|]. rewrite elem_of_nil. tauto.
  - destruct (decide (skill a ∈ seen)) as [Hin|Hin].
    + rewrite IH. f_equal. apply decide_ext. rewrite elem_of_cons.
      intuition congruence.
    + cbn. rewrite IH. do 2 f_equal. apply decide_ext.
      rewrite elem_of_cons, elem_of_app, list_elem_of_singleton. intuition congruence.
Qed.

Lemma first_cheats_elem (es : list entry) : ∀ seen s,
  s ∈ skill <$> first_cheats seen es ↔ s ∈ skill <$> es ∧ s ∉ seen.
Proof.
  induction es as [|e es IH]; intros seen s; cbn.
  - rewrite elem_of_nil. tauto.
  - destruct (decide (skill e ∈ seen)) as [Hin|Hin]; cbn.
    + rewrite IH, elem_of_cons. intuition congruence.
    + rewrite !elem_of_cons, IH, elem_of_app, list_elem_of_singleton.
      destruct (decide (s = skill e)) as [->|]; intuition congruence.
Qed.

Lemma first_cheats_NoDup (es : list entry) : ∀ seen,
  NoDup (skill <$> first_cheats seen es).
Proof.
  induction es as [|e es IH]; intros seen; cbn.
  - constructor.
  - destruct (decide (skill e ∈ seen)) as [Hin|Hin]; cbn; [apply IH|].
    constructor; [|apply IH].
    rewrite first_cheats_elem, elem_of_app, list_elem_of_singleton.
    intuition congruence.
Qed.

Lemma first_cheats_id (es : list entry) : ∀ seen,
  NoDup (skill <$> es) → (∀ s, s ∈ skill <$> es → s ∉ seen) →
  first_cheats seen es = es.
Proof.
  induction es as [|e es IH]; intros seen Hnd Hout; cbn; [done|].
  cbn in Hnd. apply NoDup_cons in Hnd as [Hne Hnd].
  destruct (decide (skill e ∈ seen)) as [Hin|Hin].
  - exfalso. apply (Hout (skill e)); [apply elem_of_cons; by left|done].
  - f_equal. apply IH; [done|].
    intros s Hs. rewrite elem_of_app, list_elem_of_singleton.
    intros [?| ->]; [|done]. apply (Hout s); [apply elem_of_cons; by right|done].
Qed.

Lemma first_cheats_length (es : list entry) : ∀ seen,
  (length (first_cheats seen es) ≤ length es)%nat.
Proof.
  induction es as [|e es IH]; intros seen; cbn; [done|].
  destruct (decide (skill e ∈ seen)); cbn;
    [specialize (IH seen)|specialize (IH (seen ++ [skill e]))]; lia.
Qed.

Lemma cheat_values_skill (l l' : list entry) :
  cheat_values <$> l = cheat_values <$> l' → skill <$> l = skill <$> l'.
Proof.
  intros H.
  assert (∀ k : list entry, skill <$> k = (λ v, v.1.1.2) <$> (cheat_values <$> k))
    as Hk by (intros k; rewrite <- list_fmap_compose; done).
  rewrite !Hk. by rewrite H.
Qed.

Lemma swept_start (es : list entry) : swept es 0 (mk_sweep es 0 ["None"]).
Proof.
  unfold swept; cbn. rewrite take_0. cbn. split_and!; try done.
  - apply Forall_Forall2_diag, Forall_forall. by intros.
  - intros s. rewrite list_elem_of_singleton, elem_of_nil. tauto.
Qed.

Lemma swept_step (es : list entry) (r : nat) (st : sweep) :
  (r < length es)%nat → swept es r st →
  ∃ st', cleanup_step st r = Ok st' ∧ swept es (S r) st'.
Proof.
  intros Hr (Hframe & Hw & Hseen & Hvals & Hrest & Hsame).
  destruct (lookup_lt_is_Some_2 es r Hr) as [e He].
  pose proof (first_cheats_length (take r es) ["None"]) as Hlen.
  rewrite length_take in Hlen.
  assert (write_idx st ≤ r)%nat as Hwr by lia.
  assert (entries st !! r = Some e) as Hread by (by rewrite Hrest).
  unfold cleanup_step.
  rewrite (proj2 (getitem_ok (entries st) r e) Hread). cbn.
  pose proof (take_S_r es r e He) as Htake.
  assert (length (entries st) = length es) as Hl
    by (by eapply Forall2_length).
  case_decide as Hin.
  - exists st. split; [done|].
    unfold swept. rewrite Htake, first_cheats_snoc.
    rewrite decide_True, app_nil_r; last first.
    { apply Hseen in Hin as [->|?];
        [left; by apply list_elem_of_singleton|by right]. }
    split_and!; try done.
    + intros s. rewrite Hseen, fmap_app, elem_of_app. cbn.
      rewrite list_elem_of_singleton. apply Hseen in Hin. intuition congruence.
    + intros ?. lia.
  - assert (∃ es', (if decide (write_idx st < r)%nat then
              target ← Py.getitem (entries st) (write_idx st);
              Py.setitem (entries st) (write_idx st) (copy_cheat target e)
            else Ok (entries st)) = Ok es'
            ∧ Forall2 same_place es' es
            ∧ cheat_values <$> take (S (write_idx st)) es'
              = cheat_values <$> (first_cheats ["None"] (take r es) ++ [e])
            ∧ (∀ j, (S (write_idx st) ≤ j)%nat → es' !! j = es !! j)
            ∧ (write_idx st = r → es' = es)) as (es' & -> & Hf' & Hv' & Hr' & Hs').
    { case_decide as Hlt.
      - destruct (lookup_lt_is_Some_2 (entries st) (write_idx st)) as [t Ht];
          [lia|].
        rewrite (proj2 (getitem_ok _ _ _) Ht). cbn. unfold Py.setitem.
        rewrite decide_True by lia.
        eexists. split; [done|]. split_and!.
        + destruct (Forall2_lookup_l _ _ _ _ _ Hframe Ht) as (t0 & Ht0 & Hp).
          rewrite <- (list_insert_id es (write_idx st) t0) by done.
          apply Forall2_insert; [done|]. apply Hp.
        + rewrite (take_S_r _ _ (copy_cheat t e)); last first.
          { apply list_lookup_insert_eq. lia. }
          rewrite take_insert_ge by lia. rewrite !fmap_app, Hvals. done.
        + intros j Hj. rewrite list_lookup_insert_ne by lia. apply Hrest. lia.
        + lia.
      - assert (write_idx st = r) as Hwr' by lia.
        eexists. split; [done|]. split_and!; try done.
        + rewrite Hwr', (take_S_r _ _ e) by done.
          rewrite !fmap_app. rewrite Hwr' in Hvals. by rewrite Hvals.
        + intros j Hj. apply Hrest. lia. }
    cbn. eexists. split; [done|].
    unfold swept. cbn.
    rewrite Htake, first_cheats_snoc, decide_False; last first.
    { intros [Hn|Hn]; apply Hin, Hseen;
        [left; by apply list_elem_of_singleton|by right]. }
    split_and!; try done.
    + rewrite length_app. cbn. lia.
    + intros s. rewrite elem_of_app, Hseen, fmap_app, elem_of_app. cbn.
      rewrite !list_elem_of_singleton. intuition congruence.
    + intros [= Hwr']. auto.
Qed.

Lemma swept_all (es : list entry) (n : nat) :
  (n ≤ length es)%nat →
  ∃ st, Py.foldM cleanup_step (mk_sweep es 0 ["None"]) (seq 0 n) = Ok st
        ∧ swept es n st.
Proof.
  induction n as [|n IH]; intros Hn.
  - eexists. split; [done|]. apply swept_start.
  - destruct IH as (st & Hrun & Hst); [lia|].
    destruct (swept_step es n st) as (st' & Hstep & Hst'); [lia|done|].
    exists st'. split; [|done].
    rewrite seq_S, foldM_app, Hrun. cbn. by rewrite Hstep.
Qed.

(** What [cleanup_cheats] returns, in terms of the entries it keeps. *)
Lemma cleanup_cheats_spec (m : t) :
  (active_cheat_idx m ≤ length (cheat_entries m))%nat →
  let kept := first_cheats ["None"] (active_entries m) in
  ∃ m', cleanup_cheats m = Ok m'
    ∧ active_cheat_idx m' = length kept
    ∧ cheat_values <$> active_entries m' = cheat_values <$> kept
    ∧ Forall2 (λ e e0, idx e = idx e0) (cheat_entries m') (cheat_entries m)
    ∧ (length kept = active_cheat_idx m → m' = m)
    ∧ ((length kept < active_cheat_idx m)%nat →
       (∃ e, cheat_entries m' !! length kept = Some e
          ∧ display_name e = "Add New Cheat"
          ∧ description e = "Force a skill to be granted."
          ∧ skill e = "None" ∧ tier e = 6 ∧ com e = false)
       ∧ (∀ j e, (length kept < j)%nat → cheat_entries m' !! j = Some e →
            is_hidden e = true)
       ∧ (∀ j, (active_cheat_idx m ≤ j)%nat →
            cheat_entries m' !! j = hide <$> cheat_entries m !! j)).
Proof.
  destruct m as [es n]. unfold active_entries. cbn. intros Hn.
  destruct (swept_all es n Hn) as (st & Hrun & Hframe & Hw & Hseen & Hvals & Hrest & Hsame).
  pose proof (first_cheats_length (take n es) ["None"]) as Hlen.
  rewrite length_take in Hlen.
  assert (length (entries st) = length es) as Hl by (by eapply Forall2_length).
  assert (Forall2 (λ e e0, idx e = idx e0) (entries st) es) as Hidx.
  { eapply Forall2_impl; [done|]. by intros ?? (? & _). }
  unfold cleanup_cheats. cbn. rewrite Hrun. cbn.
  case_decide as Hlt.
  - destruct (lookup_lt_is_Some_2 (entries st) (write_idx st)) as [t Ht]; [lia|].
    rewrite (proj2 (getitem_ok _ _ _) Ht). cbn. unfold Py.setitem.
    rewrite decide_True by lia. cbn.
    eexists. split; [done|]. cbn. split_and!; try done.
    + unfold hide_from. rewrite take_app_le by (rewrite length_take, length_insert; lia).
      rewrite take_take, Nat.min_l by lia.
      rewrite take_insert_ge by lia. done.
    + unfold hide_from.
      rewrite <- (take_drop (S (write_idx st)) es).
      apply Forall2_app.
      * apply Forall2_take.
        destruct (Forall2_lookup_l _ _ _ _ _ Hidx Ht) as (t0 & Ht0 & Hp).
        rewrite <- (list_insert_id es (write_idx st) t0) by done.
        by apply Forall2_insert.
      * apply Forall2_fmap_l, Forall2_drop.
        destruct (Forall2_lookup_l _ _ _ _ _ Hidx Ht) as (t0 & Ht0 & Hp).
        rewrite <- (list_insert_id es (write_idx st) t0) by done.
        by apply Forall2_insert.
    + lia.
    + intros _. rewrite <- Hw. split_and!.
      * exists (add_new t). split; [|done].
        unfold hide_from. rewrite lookup_app_l
          by (rewrite length_take, length_insert; lia).
        rewrite lookup_take_lt by lia. apply list_lookup_insert_eq. lia.
      * intros j e Hj. unfold hide_from.
        rewrite lookup_app_r by (rewrite length_take, length_insert; lia).
        rewrite length_take, length_insert, Nat.min_l by lia.
        rewrite list_lookup_fmap. intros He.
        apply fmap_Some in He as (e0 & _ & ->). done.
      * intros j Hj. unfold hide_from.
        rewrite lookup_app_r by (rewrite length_take, length_insert; lia).
        rewrite length_take, length_insert, Nat.min_l by lia.
        rewrite list_lookup_fmap, lookup_drop.
        replace (S (write_idx st) + (j - S (write_idx st)))%nat with j by lia.
        rewrite list_lookup_insert_ne by lia. rewrite Hrest by lia. done.
  - assert (write_idx st = n) as Hwn by lia.
    eexists. split; [done|]. cbn. split_and!; try done.
    + lia.
    + by rewrite <- Hwn at 1.
    + intros _. by rewrite (Hsame Hwn).
    + lia.
Qed.

End menu_facts.

Lemma fmap_eq_Forall2 {A B} (f : A → B) (l k : list A) :
  Forall2 (λ x y, f x = f y) l k → f <$> l = f <$> k.
Proof. induction 1; cbn; congruence. Qed.

Lemma menu_ok_idx (m m' : Menu.t) :
  menu_ok m →
  Menu.idx <$> Menu.cheat_entries m' = Menu.idx <$> Menu.cheat_entries m →
  (Menu.active_cheat_idx m' ≤ 10)%nat →
  menu_ok m'.
Proof.
  intros (Hlen & _ & Hidx) Heq Hact. split_and!; [|done|].
  - rewrite <- Hlen, <- (length_fmap Menu.idx), Heq. apply length_fmap.
  - intros j e He.
    assert ((Menu.idx <$> Menu.cheat_entries m) !! j = Some (Menu.idx e)) as H
      by (by rewrite <- Heq, list_lookup_fmap, He).
    rewrite list_lookup_fmap in H. apply fmap_Some in H as (e0 & He0 & ->).
    by apply Hidx.
Qed.

(** X22: [cleanup_cheats] succeeds on a menu whose index of the 'Add New'
    entry is within the entries, and compacts the entries in use: the new
    index is the number of entries whose skill is not "None" and not the
    skill of an earlier entry, and the entries before it show the names,
    skills, tiers and switches of exactly those entries, in their order.
    Every entry keeps its position number. *)
Theorem cleanup_cheats_compacts (m : Menu.t) :
  (Menu.active_cheat_idx m ≤ length (Menu.cheat_entries m))%nat →
  ∃ m', Menu.cleanup_cheats m = Ok m'
    ∧ Menu.active_cheat_idx m'
      = length (first_cheats ["None"] (active_entries m))
    ∧ cheat_values <$> active_entries m'
      = cheat_values <$> first_cheats ["None"] (active_entries m)
    ∧ Menu.idx <$> Menu.cheat_entries m' = Menu.idx <$> Menu.cheat_entries m.
Proof.
  intros Hn.
  destruct (cleanup_cheats_spec m Hn) as (m' & Hrun & Hact & Hvals & Hidx & _).
  exists m'. split_and!; try done. by apply fmap_eq_Forall2.
Qed.

Lemma cleanup_cheats_compacts_witness :
  (Menu.active_cheat_idx Sample.menu ≤ length (Menu.cheat_entries Sample.menu))%nat
  ∧ ∃ m', Menu.cleanup_cheats Sample.menu = Ok m'
    ∧ Menu.active_cheat_idx m'
      = length (first_cheats ["None"] (active_entries Sample.menu))
    ∧ cheat_values <$> active_entries m'
      = cheat_values <$> first_cheats ["None"] (active_entries Sample.menu)
    ∧ Menu.idx <$> Menu.cheat_entries m'
      = Menu.idx <$> Menu.cheat_entries Sample.menu.
Proof.
  split; [cbn; lia|].
  apply (cleanup_cheats_compacts Sample.menu). cbn; lia.
Defined.

(** X23: after [cleanup_cheats] the entries in use name pairwise different
    skills, none of them "None"; every skill other than "None" that an
    entry in use named before is still named by one, and no other skill
    is; the number of entries in use has not grown. *)
Theorem cleanup_cheats_distinct (m m' : Menu.t) :
  (Menu.active_cheat_idx m ≤ length (Menu.cheat_entries m))%nat →
  Menu.cleanup_cheats m = Ok m' →
  NoDup (Menu.skill <$> active_entries m')
  ∧ "None" ∉ Menu.skill <$> active_entries m'
  ∧ (∀ s, s ∈ Menu.skill <$> active_entries m'
        ↔ s ∈ Menu.skill <$> active_entries m ∧ s ≠ "None")
  ∧ (Menu.active_cheat_idx m' ≤ Menu.active_cheat_idx m)%nat.
Proof.
  intros Hn Hrun.
  destruct (cleanup_cheats_spec m Hn) as (m0 & Hrun0 & Hact & Hvals & _).
  rewrite Hrun in Hrun0. injection Hrun0 as <-.
  apply cheat_values_skill in Hvals. rewrite Hvals.
  assert (∀ s, s ∈ Menu.skill <$> first_cheats ["None"] (active_entries m)
            ↔ s ∈ Menu.skill <$> active_entries m ∧ s ≠ "None") as Hin.
  { intros s. rewrite first_cheats_elem, list_elem_of_singleton. done. }
  split_and!.
  - apply first_cheats_NoDup.
  - rewrite Hin. tauto.
  - done.
  - rewrite Hact.
    pose proof (first_cheats_length (active_entries m) ["None"]) as Hlen.
    unfold active_entries in Hlen at 2. rewrite length_take in Hlen. lia.
Qed.

Lemma cleanup_cheats_distinct_witness :
  ∃ m', Menu.cleanup_cheats Sample.menu = Ok m'
    ∧ NoDup (Menu.skill <$> active_entries m')
    ∧ "None" ∉ Menu.skill <$> active_entries m'
    ∧ (∀ s, s ∈ Menu.skill <$> active_entries m'
          ↔ s ∈ Menu.skill <$> active_entries Sample.menu ∧ s ≠ "None")
    ∧ (Menu.active_cheat_idx m' ≤ Menu.active_cheat_idx Sample.menu)%nat.
Proof.
  destruct (Menu.cleanup_cheats Sample.menu) as [m'| |] eqn:Hrun;
    [|vm_compute in Hrun; discriminate..].
  exists m'. split; [reflexivity|].
  apply (cleanup_cheats_distinct Sample.menu m'); [cbn; lia|exact Hrun].
Defined.

(** X24: a second [cleanup_cheats] changes nothing: on the menu that
    [cleanup_cheats] has produced it returns that menu. *)
Theorem cleanup_cheats_idempotent (m m' : Menu.t) :
  (Menu.active_cheat_idx m ≤ length (Menu.cheat_entries m))%nat →
  Menu.cleanup_cheats m = Ok m' →
  Menu.cleanup_cheats m' = Ok m'.
Proof.
  intros Hn Hrun.
  destruct (cleanup_cheats_spec m Hn) as (m0 & Hrun0 & Hact & Hvals & Hidx & _).
  rewrite Hrun in Hrun0. injection Hrun0 as <-.
  apply cheat_values_skill in Hvals.
  pose proof (first_cheats_length (active_entries m) ["None"]) as Hlen.
  unfold active_entries in Hlen at 2. rewrite length_take in Hlen.
  apply Forall2_length in Hidx.
  assert (Menu.active_cheat_idx m' ≤ length (Menu.cheat_entries m'))%nat
    as Hn' by lia.
  destruct (cleanup_cheats_spec m' Hn') as (m'' & Hrun' & _ & _ & _ & Hsame & _).
  rewrite Hrun'. f_equal. apply Hsame.
  rewrite first_cheats_id.
  - unfold active_entries. rewrite length_take. lia.
  - rewrite Hvals. apply first_cheats_NoDup.
  - intros s. rewrite Hvals, first_cheats_elem, list_elem_of_singleton. tauto.
Qed.

Lemma cleanup_cheats_idempotent_witness :
  ∃ m', Menu.cleanup_cheats Sample.menu = Ok m'
    ∧ Menu.cleanup_cheats m' = Ok m'.
Proof.
  destruct (Menu.cleanup_cheats Sample.menu) as [m'| |] eqn:Hrun;
    [|vm_compute in Hrun; discriminate..].
  exists m'. split; [reflexivity|].
  apply (cleanup_cheats_idempotent Sample.menu m'); [cbn; lia|exact Hrun].
Defined.

(** X25: when [cleanup_cheats] has removed an entry, the entry at the new
    index is the 'Add New' entry with the default values ("None", 6, off),
    every entry after it is hidden, and an entry at or after the old index
    is what it was, but hidden: the values of the entries that
    [cleanup_cheats] hides are not reset. *)
Theorem cleanup_cheats_add_new (m m' : Menu.t) :
  (Menu.active_cheat_idx m ≤ length (Menu.cheat_entries m))%nat →
  Menu.cleanup_cheats m = Ok m' →
  (Menu.active_cheat_idx m' < Menu.active_cheat_idx m)%nat →
  (∃ e, Menu.cheat_entries m' !! Menu.active_cheat_idx m' = Some e
     ∧ Menu.display_name e = "Add New Cheat"
     ∧ Menu.description e = "Force a skill to be granted."
     ∧ Menu.skill e = "None" ∧ Menu.tier e = 6 ∧ Menu.com e = false)
  ∧ (∀ j e, (Menu.active_cheat_idx m' < j)%nat →
       Menu.cheat_entries m' !! j = Some e → Menu.is_hidden e = true)
  ∧ (∀ j, (Menu.active_cheat_idx m ≤ j)%nat →
       Menu.cheat_entries m' !! j = Menu.hide <$> Menu.cheat_entries m !! j).
Proof.
  intros Hn Hrun Hlt.
  destruct (cleanup_cheats_spec m Hn)
    as (m0 & Hrun0 & Hact & _ & _ & _ & Hnew).
  rewrite Hrun in Hrun0. injection Hrun0 as <-.
  rewrite Hact in *. by apply Hnew.
Qed.

Lemma cleanup_cheats_add_new_witness :
  ∃ m', Menu.cleanup_cheats Sample.menu = Ok m'
  ∧ (∃ e, Menu.cheat_entries m' !! Menu.active_cheat_idx m' = Some e
     ∧ Menu.display_name e = "Add New Cheat"
     ∧ Menu.description e = "Force a skill to be granted."
     ∧ Menu.skill e = "None" ∧ Menu.tier e = 6 ∧ Menu.com e = false)
  ∧ (∀ j e, (Menu.active_cheat_idx m' < j)%nat →
       Menu.cheat_entries m' !! j = Some e → Menu.is_hidden e = true)
  ∧ (∀ j, (Menu.active_cheat_idx Sample.menu ≤ j)%nat →
       Menu.cheat_entries m' !! j
       = Menu.hide <$> Menu.cheat_entries Sample.menu !! j).
Proof.
  destruct (Menu.cleanup_cheats Sample.menu) as [m'| |] eqn:Hrun;
    [|vm_compute in Hrun; discriminate..].
  exists m'. split; [reflexivity|].
  apply (cleanup_cheats_add_new Sample.menu m'); [cbn; lia|exact Hrun|].
  vm_compute in Hrun. injection Hrun as <-. cbn. lia.
Defined.

Lemma fmap_insert_same {A B} (f : A → B) (l : list A) (i : nat) (x e : A) :
  l !! i = Some e → f x = f e → f <$> <[i:=x]> l = f <$> l.
Proof.
  intros He Hf. rewrite list_fmap_insert, Hf. apply list_insert_id.
  by rewrite list_lookup_fmap, He.
Qed.

(** X26: on a menu of ten entries that sit at the positions their [idx]
    names, with at most ten in use, [on_create_cheat] for the entry at a
    position below ten raises nothing and keeps the menu so.  The value
    "None" changes nothing.  Any other value renames the entry after it
    and, when the entry is the 'Add New' entry, takes it into use: the
    index grows by one and, if an entry is left at the new index, that one
    is shown as the 'Add New' entry.  No skill, tier or switch of any entry
    is changed. *)
Theorem on_create_cheat_keeps_menu (m : Menu.t) (parent : nat)
    (value : string) :
  menu_ok m → (parent < 10)%nat →
  ∃ m', Menu.on_create_cheat m parent value = Ok m'
    ∧ menu_ok m'
    ∧ Menu.active_cheat_idx m'
      = (if decide (value ≠ "None" ∧ Menu.active_cheat_idx m = parent)
         then S (Menu.active_cheat_idx m) else Menu.active_cheat_idx m)
    ∧ (λ e, (Menu.skill e, Menu.tier e, Menu.com e)) <$> Menu.cheat_entries m'
      = (λ e, (Menu.skill e, Menu.tier e, Menu.com e)) <$> Menu.cheat_entries m
    ∧ (value = "None" → m' = m)
    ∧ (value ≠ "None" →
       (∃ e, Menu.cheat_entries m' !! parent = Some e
          ∧ Menu.display_name e = value)
       ∧ (Menu.active_cheat_idx m = parent → (S parent < 10)%nat →
          ∃ e, Menu.cheat_entries m' !! S parent = Some e
            ∧ Menu.display_name e = "Add New Cheat"
            ∧ Menu.is_hidden e = false)).
Proof.
  intros Hok Hparent. pose proof Hok as (Hlen & Hact & Hidx).
  destruct m as [es n]. cbn in Hlen, Hact, Hidx.
  unfold Menu.on_create_cheat. cbn.
  destruct (decide (value = "None")) as [Hv|Hv].
  { eexists. split; [done|]. split_and!; try done.
    rewrite decide_False; [done|]. tauto. }
  destruct (lookup_lt_is_Some_2 es parent) as [p Hp]; [lia|].
  rewrite (proj2 (getitem_ok _ _ _) Hp). cbn.
  rewrite (Hidx _ _ Hp).
  destruct (decide (n = parent)) as [->|Hn].
  - rewrite (decide_True (P := _ ∧ _)) by done.
    destruct (decide (S parent < 10)%nat) as [Hs|Hs].
    + destruct (lookup_lt_is_Some_2 es (S parent)) as [e He]; [lia|].
      rewrite (proj2 (getitem_ok _ _ _) He). cbn. unfold Py.setitem.
      rewrite decide_True by lia. cbn.
      rewrite (proj2 (getitem_ok _ parent p))
        by (rewrite list_lookup_insert_ne by lia; done).
      cbn. rewrite decide_True by (rewrite length_insert; lia). cbn.
      eexists. split; [done|]. cbn.
      assert (<[S parent:=Menu.unhide_add_new e]> es !! parent = Some p) as Hp'
        by (rewrite list_lookup_insert_ne by lia; done).
      split_and!; try done.
      * apply (menu_ok_idx (Menu.mk es parent)); [done| |cbn; lia]. cbn.
        rewrite (fmap_insert_same _ _ _ _ p) by done.
        by rewrite (fmap_insert_same _ _ _ _ e).
      * rewrite (fmap_insert_same _ _ _ _ p) by done.
        by rewrite (fmap_insert_same _ _ _ _ e).
      * intros _. split.
        -- eexists. split; [apply list_lookup_insert_eq; rewrite length_insert; lia|done].
        -- intros _ _. eexists. split.
           ++ rewrite list_lookup_insert_ne by lia.
              apply list_lookup_insert_eq. lia.
           ++ done.
    + cbn. rewrite (proj2 (getitem_ok _ _ _) Hp). cbn. unfold Py.setitem.
      rewrite decide_True by lia. cbn.
      eexists. split; [done|]. cbn. split_and!; try done.
      * apply (menu_ok_idx (Menu.mk es parent)); [done| |cbn; lia]. cbn.
        by rewrite (fmap_insert_same _ _ _ _ p).
      * by rewrite (fmap_insert_same _ _ _ _ p).
      * intros _. split; [|lia].
        eexists. split; [apply list_lookup_insert_eq; lia|done].
  - rewrite (decide_False (P := _ ∧ _)) by tauto. cbn.
    rewrite (proj2 (getitem_ok _ _ _) Hp). cbn. unfold Py.setitem.
    rewrite decide_True by lia. cbn.
    eexists. split; [done|]. cbn. split_and!; try done.
    * apply (menu_ok_idx (Menu.mk es n)); [done| |cbn; lia]. cbn.
      by rewrite (fmap_insert_same _ _ _ _ p).
    * by rewrite (fmap_insert_same _ _ _ _ p).
    * intros _. split; [|done].
      eexists. split; [apply list_lookup_insert_eq; lia|done].
Qed.

Lemma on_create_cheat_keeps_menu_witness :
  ∃ m', Menu.on_create_cheat Sample.menu 4 "Fresh" = Ok m'
    ∧ menu_ok m'
    ∧ Menu.active_cheat_idx m'
      = (if decide ("Fresh" ≠ "None" ∧ Menu.active_cheat_idx Sample.menu = 4%nat)
         then S (Menu.active_cheat_idx Sample.menu)
         else Menu.active_cheat_idx Sample.menu)
    ∧ (λ e, (Menu.skill e, Menu.tier e, Menu.com e)) <$> Menu.cheat_entries m'
      = (λ e, (Menu.skill e, Menu.tier e, Menu.com e))
          <$> Menu.cheat_entries Sample.menu
    ∧ ("Fresh" = "None" → m' = Sample.menu)
    ∧ ("Fresh" ≠ "None" →
       (∃ e, Menu.cheat_entries m' !! 4%nat = Some e
          ∧ Menu.display_name e = "Fresh")
       ∧ (Menu.active_cheat_idx Sample.menu = 4%nat → (5 < 10)%nat →
          ∃ e, Menu.cheat_entries m' !! 5%nat = Some e
            ∧ Menu.display_name e = "Add New Cheat"
            ∧ Menu.is_hidden e = false)).
Proof.
  apply (on_create_cheat_keeps_menu Sample.menu 4 "Fresh"); [|lia].
  split_and!; [reflexivity|cbn; lia|].
  intros j e.
  do 10 (destruct j as [|j]; [by intros [= <-]|]). done.
Defined.

(** ** The hook [inject_skills] *)

Lemma find_first_named (all_skills : Py.dict Skill.t) (s name : string)
    (skill : Skill.t) :
  List.find (λ kv, bool_decide (Skill.skill_name kv.2 = s)) all_skills
  = Some (name, skill)
  ↔ first_named all_skills s name skill.
Proof.
  unfold first_named. induction all_skills as [|[k v] l IH]; cbn.
  - split; [done|]. by intros (i & H & _).
  - case_bool_decide as Hk; cbn in Hk.
    + split.
      * intros [= -> ->]. exists 0%nat. split_and!; [done..|]. intros; lia.
      * intros ([|i] & Hi & Hs & Hfirst); [by injection Hi as -> ->|].
        exfalso. apply (Hfirst 0%nat (k, v)); [lia|done|done].
    + rewrite IH. split.
      * intros (i & Hi & Hs & Hfirst). exists (S i). split_and!; [done..|].
        intros [|j] kv Hj Hkv; [by injection Hkv as <-|].
        apply (Hfirst j); [lia|done].
      * intros ([|i] & Hi & Hs & Hfirst).
        { injection Hi as -> ->. done. }
        exists i. split_and!; [done..|].
        intros j kv Hj Hkv. apply (Hfirst (S j)); [lia|done].
Qed.

Lemma add_cheats_spec (all_skills : Py.dict Skill.t)
    (entries : list Mod.cheat_entry) :
  let st := foldl (Mod.add_cheat all_skills) ([], []) entries in
  (∀ name tier, Py.dict_get st.1 name = Some tier →
     ∃ e skill, e ∈ entries
       ∧ first_named all_skills (Mod.cheat_skill e) name skill
       ∧ tier = Mod.maximum_tier e - 1)
  ∧ (∀ e name skill, e ∈ entries →
       first_named all_skills (Mod.cheat_skill e) name skill →
       is_Some (Py.dict_get st.1 name))
  ∧ (∀ skill, skill ∈ st.2 ↔
       ∃ e name, e ∈ entries ∧ Mod.include_in_com e = true
         ∧ first_named all_skills (Mod.cheat_skill e) name skill)
  ∧ NoDup st.2.
Proof.
  induction entries as [|e entries IH] using rev_ind; cbn.
  - split_and!.
    + done.
    + intros ??? H. by apply elem_of_nil in H.
    + intros skill. split; [by intros H%elem_of_nil|].
      intros (e & ? & H%elem_of_nil & _). done.
    + constructor.
  - rewrite foldl_snoc.
    destruct (foldl _ _ entries) as [cheats com_skills].
    cbn in IH. destruct IH as (Hsound & Hfull & Hcom & Hnd).
    unfold Mod.add_cheat.
    destruct (List.find _ all_skills) as [[name0 skill0]|] eqn:Hfind.
    + apply find_first_named in Hfind. cbn. split_and!.
      * intros name tier. rewrite dict_get_set.
        destruct (decide (name0 = name)) as [->|Hne].
        -- intros [= <-]. exists e, skill0.
           split_and!; [apply elem_of_app; right; by apply list_elem_of_singleton|done..].
        -- intros H. destruct (Hsound _ _ H) as (e' & s' & He' & Hrest).
           exists e', s'. split; [apply elem_of_app; by left|done].
      * intros e' name skill He' Hfirst. rewrite dict_get_set.
        destruct (decide (name0 = name)); [done|].
        apply elem_of_app in He' as [He'|He'].
        -- by apply (Hfull e' name skill).
        -- apply list_elem_of_singleton in He' as ->.
           apply find_first_named in Hfirst, Hfind. congruence.
      * intros skill.
        assert (skill ∈ (if Mod.include_in_com e
                         then if decide (skill0 ∈ com_skills) then com_skills
                              else com_skills ++ [skill0]
                         else com_skills)
                ↔ skill ∈ com_skills
                  ∨ (Mod.include_in_com e = true ∧ skill = skill0)) as ->.
        { destruct (Mod.include_in_com e).
          - destruct (decide (skill0 ∈ com_skills)).
            + split; [tauto|]. intros [?|[_ ->]]; done.
            + rewrite elem_of_app, list_elem_of_singleton. tauto.
          - split; [tauto|]. intros [?|[? _]]; done. }
        rewrite Hcom. split.
        -- intros [(e' & n' & He' & Hrest)|[Hinc ->]].
           ++ exists e', n'. split; [apply elem_of_app; by left|done].
           ++ exists e, name0.
              split_and!; [apply elem_of_app; right; by apply list_elem_of_singleton|done..].
        -- intros (e' & n' & He' & Hinc & Hfirst).
           apply elem_of_app in He' as [He'|He'].
           ++ left. by exists e', n'.
           ++ apply list_elem_of_singleton in He' as ->. right.
              apply find_first_named in Hfirst, Hfind. split; congruence.
      * destruct (Mod.include_in_com e); [|done].
        destruct (decide (skill0 ∈ com_skills)); [done|].
        apply NoDup_app. split_and!; [done| |apply NoDup_singleton].
        intros x Hx ->%list_elem_of_singleton. done.
    + cbn. split_and!.
      * intros name tier H. destruct (Hsound _ _ H) as (e' & s' & He' & Hrest).
        exists e', s'. split; [apply elem_of_app; by left|done].
      * intros e' name skill He' Hfirst.
        apply elem_of_app in He' as [He'|He'].
        -- by apply (Hfull e' name skill).
        -- apply list_elem_of_singleton in He' as ->.
           apply find_first_named in Hfirst. congruence.
      * intros skill. rewrite Hcom. split.
        -- intros (e' & n' & He' & Hrest).
           exists e', n'. split; [apply elem_of_app; by left|done].
        -- intros (e' & n' & He' & Hinc & Hfirst).
           apply elem_of_app in He' as [He'|He'].
           ++ by exists e', n'.
           ++ apply list_elem_of_singleton in He' as ->.
              apply find_first_named in Hfirst. congruence.
      * done.
Qed.

(** X27: the loop of [inject_skills] over the cheat entries in use forces
    exactly the skills that the entries name: a key of [cheats] is the full
    name of the first catalogued skill with the display name of some entry,
    and its value is that entry's maximum tier less one; every entry whose
    display name a catalogued skill has gets a key; [com_skills] holds,
    once each, the first catalogued skills named by the entries whose
    "Include in special COM" switch is on.  An entry that names no
    catalogued skill adds nothing. *)
Theorem inject_skills_cheats (all_skills : Py.dict Skill.t)
    (entries : list Mod.cheat_entry) (cheats : Py.dict Z)
    (com_skills : list Skill.t) :
  foldl (Mod.add_cheat all_skills) ([], []) entries = (cheats, com_skills) →
  (∀ name tier, Py.dict_get cheats name = Some tier →
     ∃ e skill, e ∈ entries
       ∧ first_named all_skills (Mod.cheat_skill e) name skill
       ∧ tier = Mod.maximum_tier e - 1)
  ∧ (∀ e name skill, e ∈ entries →
       first_named all_skills (Mod.cheat_skill e) name skill →
       is_Some (Py.dict_get cheats name))
  ∧ (∀ skill, skill ∈ com_skills ↔
       ∃ e name, e ∈ entries ∧ Mod.include_in_com e = true
         ∧ first_named all_skills (Mod.cheat_skill e) name skill)
  ∧ NoDup com_skills.
Proof.
  intros Hrun. pose proof (add_cheats_spec all_skills entries) as H.
  cbn in H. by rewrite Hrun in H.
Qed.

Lemma inject_skills_cheats_witness :
  ∃ cheats com_skills,
    foldl (Mod.add_cheat Example.all_skills) ([], [])
      [Mod.mk_cheat "Z" 3 true; Mod.mk_cheat "Nobody" 6 true;
       Mod.mk_cheat "C" 6 false]
    = (cheats, com_skills)
  ∧ (∀ name tier, Py.dict_get cheats name = Some tier →
     ∃ e skill,
       e ∈ [Mod.mk_cheat "Z" 3 true; Mod.mk_cheat "Nobody" 6 true;
            Mod.mk_cheat "C" 6 false]
       ∧ first_named Example.all_skills (Mod.cheat_skill e) name skill
       ∧ tier = Mod.maximum_tier e - 1)
  ∧ (∀ e name skill,
       e ∈ [Mod.mk_cheat "Z" 3 true; Mod.mk_cheat "Nobody" 6 true;
            Mod.mk_cheat "C" 6 false] →
       first_named Example.all_skills (Mod.cheat_skill e) name skill →
       is_Some (Py.dict_get cheats name))
  ∧ (∀ skill, skill ∈ com_skills ↔
       ∃ e name,
         e ∈ [Mod.mk_cheat "Z" 3 true; Mod.mk_cheat "Nobody" 6 true;
              Mod.mk_cheat "C" 6 false]
         ∧ Mod.include_in_com e = true
         ∧ first_named Example.all_skills (Mod.cheat_skill e) name skill)
  ∧ NoDup com_skills.
Proof.
  eexists _, _. split; [vm_compute; reflexivity|].
  apply (inject_skills_cheats Example.all_skills
           [Mod.mk_cheat "Z" 3 true; Mod.mk_cheat "Nobody" 6 true;
            Mod.mk_cheat "C" 6 false]).
  vm_compute. reflexivity.
Defined.

Lemma patches_class_mods (brs : list Branch.t) : ∀ e,
  Engine.class_mods (foldl (λ e branch, Branch.patch branch e) e brs)
  = Engine.class_mods e.
Proof. induction brs as [|br brs IH]; intros e; cbn; [done|]. by rewrite IH. Qed.

(** X28: when the option "Randomize COMs" is off, or the class mods have
    been randomized already, a successful [inject_skills] leaves every
    class mod of the game as it is, and neither the patcher's records nor
    the flag [com_patched] change; the mod holds the new pool. *)
Theorem inject_skills_keeps_class_mods (generator : Z → Random.tape)
    (self : Mod.t) (opts : Mod.options) (catalog : gmap string Character.t)
    (all_skills : Py.dict Skill.t) (skill_tree : Engine.t)
    (log : list log_entry) (m : Mod.t) (tree' : Engine.t)
    (log' : list log_entry) :
  Mod.randomize_coms opts = false ∨ Mod.com_patched self = true →
  Mod.inject_skills generator self opts catalog all_skills skill_tree log
  = Ok (m, tree', log') →
  Engine.class_mods tree' = Engine.class_mods skill_tree
  ∧ Mod.com_patcher m = Mod.com_patcher self
  ∧ Mod.com_patched m = Mod.com_patched self
  ∧ is_Some (Mod.pool m).
Proof.
  intros Hoff Hrun. unfold Mod.inject_skills in Hrun.
  destruct (foldl _ _ (Mod.cheat_entries opts)) as [cheats com_skills].
  apply bind_ok in Hrun as ([[pool l] t] & Htree & Hrun).
  apply randomize_tree_anatomy in Htree
    as (? & ? & ? & ? & ? & ? & ? & a & ? & _ & _ & _ & _ & _ & _ & _ & _ & ->).
  cbn [Mod.com_patched Mod.com_patcher] in Hrun.
  assert (Mod.randomize_coms opts && negb (Mod.com_patched self) = false) as Hc.
  { destruct Hoff as [-> | ->]; [done|]. apply andb_false_r. }
  rewrite Hc in Hrun. injection Hrun as <- <- <-.
  cbn. rewrite patches_class_mods. done.
Qed.

Lemma inject_skills_keeps_class_mods_witness :
  ∃ m tree' log',
    Mod.inject_skills Example.generator Example.injected.1.1
      (Example.options "None" 30 []) Example.catalog Example.all_skills
      Example.injected.1.2 [] = Ok (m, tree', log')
    ∧ Engine.class_mods tree' = Engine.class_mods Example.injected.1.2
    ∧ Mod.com_patcher m = Mod.com_patcher Example.injected.1.1
    ∧ Mod.com_patched m = Mod.com_patched Example.injected.1.1
    ∧ is_Some (Mod.pool m).
Proof.
  destruct (Mod.inject_skills Example.generator Example.injected.1.1
      (Example.options "None" 30 []) Example.catalog Example.all_skills
      Example.injected.1.2 []) as [[[m tree'] log']| |] eqn:Hrun;
    [|vm_compute in Hrun; discriminate..].
  exists m, tree', log'. split; [reflexivity|].
  apply (inject_skills_keeps_class_mods Example.generator Example.injected.1.1
           (Example.options "None" 30 []) Example.catalog Example.all_skills
           Example.injected.1.2 [] m tree' log'); [|exact Hrun].
  right. vm_compute. reflexivity.
Defined.

(** ** Object names *)

Lemma split_on_no_sep (sep : ascii) (a : string) :
  sep ∉ list_ascii_of_string a → split_on sep a = [a].
Proof.
  induction a as [|c a IH]; cbn; [done|].
  intros Hout. apply not_elem_of_cons in Hout as [Hc Hout].
  rewrite decide_False by done. by rewrite IH.
Qed.

Lemma split_on_app (sep : ascii) (a s : string) :
  sep ∉ list_ascii_of_string a →
  split_on sep (a +:+ String sep s) = a :: split_on sep s.
Proof.
  induction a as [|c a IH]; cbn.
  - intros _. change ("" +:+ String sep s) with (String sep s). cbn.
    by destruct (decide (sep = sep)).
  - intros Hout. apply not_elem_of_cons in Hout as [Hc Hout].
    change (String c a +:+ String sep s) with (String c (a +:+ String sep s)).
    cbn. rewrite decide_False by done. by rewrite IH.
Qed.

(** X29: [class_from_obj_name] reads the second of the elements that the
    underscores of a name separate, and nothing else: a name without an
    underscore has no class, and what follows a second underscore does not
    matter.  The class is that element, except that an element starting
    with "Lilac", "Tulip" or "Doppel" gives "Psycho", "Mechromancer" or
    "Doppelganger". *)
Theorem class_from_obj_name_second (a b rest : string) :
  "_"%char ∉ list_ascii_of_string a →
  "_"%char ∉ list_ascii_of_string b →
  class_from_obj_name a = None
  ∧ class_from_obj_name (a +:+ "_" +:+ b)
    = Some (if String.prefix "Lilac" b then "Psycho"
            else if String.prefix "Tulip" b then "Mechromancer"
            else if String.prefix "Doppel" b then "Doppelganger"
            else b)
  ∧ class_from_obj_name (a +:+ "_" +:+ b +:+ "_" +:+ rest)
    = class_from_obj_name (a +:+ "_" +:+ b).
Proof.
  intros Ha Hb. unfold class_from_obj_name.
  change ("_" +:+ b +:+ "_" +:+ rest) with (String "_" (b +:+ String "_" rest)).
  change ("_" +:+ b) with (String "_" b).
  rewrite (split_on_no_sep _ a Ha), !(split_on_app _ a _ Ha),
    (split_on_no_sep _ b Hb), (split_on_app _ b _ Hb).
  split_and!; [done| |done].
  by repeat case_match.
Qed.

Lemma class_from_obj_name_second_witness :
  class_from_obj_name "GD" = None
  ∧ class_from_obj_name ("GD" +:+ "_" +:+ "LilacPlayerClass")
    = Some (if String.prefix "Lilac" "LilacPlayerClass" then "Psycho"
            else if String.prefix "Tulip" "LilacPlayerClass" then "Mechromancer"
            else if String.prefix "Doppel" "LilacPlayerClass" then "Doppelganger"
            else "LilacPlayerClass")
  ∧ class_from_obj_name
      ("GD" +:+ "_" +:+ "LilacPlayerClass" +:+ "_" +:+ "Skills.Root")
    = class_from_obj_name ("GD" +:+ "_" +:+ "LilacPlayerClass").
Proof.
  apply (class_from_obj_name_second "GD" "LilacPlayerClass" "Skills.Root");
    apply (bool_decide_unpack _); vm_compute; exact I.
Defined.
